(** * Flow fields: the canvas variant (flow.js) and the WebGL variant

    A shallow embedding of the two flow-field simulations of the repository:
    the CPU/canvas animation of [flow.js] and the WebGL2 ping-pong simulation
    ([FlowFieldsGL] and its physics shader).

    Numbers.  JavaScript numbers and GLSL floats are read as real numbers:
    rounding, NaN and infinities are outside the model.  Integer-valued
    quantities that the code uses as indices or counters are [Z] or [nat].

    Randomness.  [Math.random()] is an oracle [nat -> R] read through a cursor,
    so that two runs can be given two different sequences of draws.  The
    shader's [random] is the hash the shader defines, a pure function. *)

From Stdlib Require Import Reals Lra Lia ZArith List Bool String Psatz.
Import ListNotations.
Local Open Scope R_scope.

(* ================================================================== *)
(** ** Numbers, vectors and the random oracle *)
(* ================================================================== *)

Module Num.

Definition ltb (x y : R) : bool := if Rlt_dec x y then true else false.
Definition leb (x y : R) : bool := if Rle_dec x y then true else false.
Definition eqb (x y : R) : bool := if Req_dec_T x y then true else false.

(** [Math.floor], [Math.ceil] and GLSL [floor], [fract]. *)
Definition floor (x : R) : R := IZR (Zfloor x).
Definition ceil (x : R) : R := IZR (Zceil x).
Definition fract (x : R) : R := x - floor x.

(** [Math.sign]. *)
Definition sign (x : R) : R :=
  if ltb 0 x then 1 else if ltb x 0 then -1 else 0.

(** [Math.atan2 (y, x)]. *)
Definition atan2 (y x : R) : R :=
  if ltb 0 x then atan (y / x)
  else if ltb x 0 then (if leb 0 y then atan (y / x) + PI else atan (y / x) - PI)
  else if ltb 0 y then PI / 2
  else if ltb y 0 then - (PI / 2)
  else 0.

(** GLSL [mix (a, b, t)]. *)
Definition mix (a b t : R) : R := a * (1 - t) + b * t.

(** The JavaScript remainder [a % m] on numbers: the quotient is truncated. *)
Definition trunc (x : R) : R := if leb 0 x then floor x else ceil x.
Definition rem (a m : R) : R := a - m * trunc (a / m).

(** Is the number an integer index below [n]? *)
Definition isIndex (j : R) (n : nat) : bool :=
  eqb j (floor j) && leb 0 j && ltb j (INR n).

End Num.

Declare Scope num_scope.
Delimit Scope num_scope with num.
Infix "<?" := Num.ltb (at level 70, no associativity) : num_scope.
Infix "<=?" := Num.leb (at level 70, no associativity) : num_scope.
Notation "x >? y" := (Num.ltb y x) (at level 70, no associativity) : num_scope.
Notation "x >=? y" := (Num.leb y x) (at level 70, no associativity) : num_scope.
Infix "=?" := Num.eqb (at level 70, no associativity) : num_scope.
Local Open Scope num_scope.

Definition vec2 : Type := R * R.
Definition vec3 : Type := R * R * R.
Definition vec4 : Type := R * R * R * R.

Module V2.

Definition add (a b : vec2) : vec2 := (fst a + fst b, snd a + snd b).
Definition sub (a b : vec2) : vec2 := (fst a - fst b, snd a - snd b).
Definition scale (a : vec2) (k : R) : vec2 := (fst a * k, snd a * k).
Definition divs (a : vec2) (k : R) : vec2 := (fst a / k, snd a / k).
Definition adds (a : vec2) (k : R) : vec2 := (fst a + k, snd a + k).
Definition neg (a : vec2) : vec2 := (- fst a, - snd a).
Definition dot (a b : vec2) : R := fst a * fst b + snd a * snd b.
Definition length (a : vec2) : R := sqrt (fst a * fst a + snd a * snd a).
Definition normalize (a : vec2) : vec2 := divs a (length a).
Definition mix (a b : vec2) (t : R) : vec2 :=
  (Num.mix (fst a) (fst b) t, Num.mix (snd a) (snd b) t).
Definition zero : vec2 := (0, 0).

End V2.

Module V3.

Definition map (f : R -> R) (a : vec3) : vec3 :=
  let '(x, y, z) := a in (f x, f y, f z).
Definition map2 (f : R -> R -> R) (a b : vec3) : vec3 :=
  let '(x, y, z) := a in let '(x', y', z') := b in (f x x', f y y', f z z').
Definition add := map2 Rplus.
Definition sub := map2 Rminus.
Definition mul := map2 Rmult.
Definition scale (a : vec3) (k : R) : vec3 := map (fun x => x * k) a.
Definition adds (a : vec3) (k : R) : vec3 := map (fun x => x + k) a.
Definition dot (a b : vec3) : R :=
  let '(x, y, z) := a in let '(x', y', z') := b in x * x' + y * y' + z * z'.

End V3.

(** [Math.random()]: the oracle gives the draws, the cursor counts them. *)
Module Rng.

Definition Oracle : Type := nat -> R.
Definition M (A : Type) : Type := Oracle -> nat -> A * nat.

Definition ret {A} (a : A) : M A := fun _ k => (a, k).
Definition bind {A B} (m : M A) (f : A -> M B) : M B :=
  fun o k => let (a, k') := m o k in f a o k'.
Definition Math_random : M R := fun o k => (o k, S k).

Fixpoint foldM {A B} (f : A -> B -> M A) (l : list B) (a : A) : M A :=
  match l with
  | [] => ret a
  | b :: l' => bind (f a b) (foldM f l')
  end.

Fixpoint mapM {A B} (f : A -> M B) (l : list A) : M (list B) :=
  match l with
  | [] => ret []
  | a :: l' => bind (f a) (fun b => bind (mapM f l') (fun bs => ret (b :: bs)))
  end.

(** The oracle behaves like [Math.random]: every draw is in [[0, 1)]. *)
Definition unit_range (o : Oracle) : Prop := forall k, 0 <= o k < 1.

End Rng.

Notation "x <- m ;; f" := (Rng.bind m (fun x => f))
  (at level 61, m at next level, right associativity).
Notation "' pat <- m ;; f" := (Rng.bind m (fun x => let pat := x in f))
  (at level 61, pat pattern, m at next level, right associativity).

(* ================================================================== *)
(** ** The WebGL variant: class [FlowFieldsGL] and its physics shader *)
(* ================================================================== *)

Module GPU.

Import Rng.

(** *** JavaScript side: the configuration object

    [config] is a plain object indexed by property name ([setConfig] writes
    [config[key] = value] for any key), so it is an association list from
    names to values.  [undefined] read as a number is NaN in JavaScript; the
    model reads it as 0. *)

Inductive Value : Type :=
| VNum (r : R)
| VBool (b : bool)
| VUndefined.

Definition Obj : Type := list (string * Value).

Fixpoint get (o : Obj) (key : string) : Value :=
  match o with
  | [] => VUndefined
  | (k, v) :: o' => if String.eqb k key then v else get o' key
  end.

Fixpoint set (o : Obj) (key : string) (v : Value) : Obj :=
  match o with
  | [] => [(key, v)]
  | (k, w) :: o' =>
      if String.eqb k key then (k, v) :: o' else (k, w) :: set o' key v
  end.

Definition toNumber (v : Value) : R :=
  match v with
  | VNum r => r
  | VBool b => if b then 1 else 0
  | VUndefined => 0
  end.

Definition truthy (v : Value) : bool :=
  match v with
  | VNum r => negb (r =? 0)
  | VBool b => b
  | VUndefined => false
  end.

(** The integer a number becomes when passed as a GLSL [int] uniform. *)
Definition toInt (v : Value) : Z :=
  let r := toNumber v in if 0 <=? r then Zfloor r else Zceil r.

Definition num (o : Obj) (key : string) : R := toNumber (get o key).

(** The constructor's defaults, before [initialConfig] is spread over them. *)
Definition defaultConfig : Obj :=
  [ ("particleCount", VNum 250000); ("particleOpacity", VNum 0.15);
    ("noiseScale", VNum 0.003); ("speed", VNum 1); ("fadeAmount", VNum 0.03);
    ("colorScheme", VNum 0); ("noiseMode", VNum 1);
    ("backgroundStrength", VNum 1); ("forceFieldStrength", VNum 1);
    ("brownianMotion", VNum 1.5); ("respawnRate", VNum 0.002);
    ("zonesEnabled", VBool false); ("zonesStrength", VNum 1);
    ("globalGravity", VNum 0); ("particleSize", VNum 1.5);
    ("forceSpawnRate", VNum 0); ("forceLifetime", VNum 1);
    ("maxForceRadius", VNum 200); ("globalSwirl", VNum 0);
    ("chargeInteraction", VNum 0); ("chargeRatio", VNum 0.5);
    ("gravityInteraction", VNum 0); ("friction", VNum 0.005);
    ("time", VNum 0) ]%string.

(** [{ ...defaults, ...initialConfig }] *)
Definition spread (defaults initialConfig : Obj) : Obj :=
  fold_left (fun o kv => set o (fst kv) (snd kv)) initialConfig defaults.

(** *** Force fields, mouse, canvas *)

Module ForceField.
Record t : Type := mk {
  x : R; y : R;
  type : Z;
  strength : R;
  radius : R;
  rotation : R;
  life : R;
  vx : R; vy : R
}.
End ForceField.

Module Mouse.
Record t : Type := mk { x : R; y : R; radius : R; strength : R; mode : Z }.
End Mouse.

Module Canvas.
Record t : Type := mk { width : R; height : R }.
End Canvas.

(** A particle texture: [size * size] RGBA32F texels in row-major order, each
    holding (x, y, vx, vy). *)
Module Sampler.
Record t : Type := mk { size : nat; data : list vec4 }.
End Sampler.

(** [texture (sampler, coord)] with NEAREST filtering and CLAMP_TO_EDGE. *)
Definition clampTexel (size : nat) (c : R) : nat :=
  Nat.min (Z.to_nat (Zfloor (c * INR size))) (size - 1).

Definition texture (s : Sampler.t) (coord : vec2) : vec4 :=
  let ix := clampTexel (Sampler.size s) (fst coord) in
  let iy := clampTexel (Sampler.size s) (snd coord) in
  nth (iy * Sampler.size s + ix) (Sampler.data s) (0, 0, 0, 0).

(** *** The physics fragment shader *)

Definition mod289 (x : R) : R := x - Num.floor (x * (1 / 289)) * 289.
Definition permute (x : R) : R := mod289 ((x * 34 + 1) * x).

Definition snoise (v : vec2) : R :=
  let Cx := 0.211324865405187 in
  let Cy := 0.366025403784439 in
  let Cz := -0.577350269189626 in
  let Cw := 0.024390243902439 in
  let s := V2.dot v (Cy, Cy) in
  let i := (Num.floor (fst v + s), Num.floor (snd v + s)) in
  let t := V2.dot i (Cx, Cx) in
  let x0 := (fst v - fst i + t, snd v - snd i + t) in
  let i1 : vec2 := if fst x0 >? snd x0 then (1, 0) else (0, 1) in
  let x12xy := (fst x0 + Cx - fst i1, snd x0 + Cx - snd i1) in
  let x12zw := (fst x0 + Cz, snd x0 + Cz) in
  let i := (mod289 (fst i), mod289 (snd i)) in
  let p :=
    V3.map permute
      (V3.add
         (V3.adds (V3.map permute (V3.adds (0, snd i1, 1) (snd i))) (fst i))
         (0, fst i1, 1)) in
  let m :=
    V3.map (fun d => Rmax (0.5 - d) 0)
      (V2.dot x0 x0, V2.dot x12xy x12xy, V2.dot x12zw x12zw) in
  let m := V3.mul m m in
  let m := V3.mul m m in
  let x := V3.map (fun q => 2 * Num.fract (q * Cw) - 1) p in
  let h := V3.map (fun q => Rabs q - 0.5) x in
  let ox := V3.map (fun q => Num.floor (q + 0.5)) x in
  let a0 := V3.sub x ox in
  let m :=
    V3.mul m
      (V3.map2 (fun a b => 1.79284291400159 - 0.85373472095314 * (a * a + b * b))
         a0 h) in
  let '(a0x, a0y, a0z) := a0 in
  let '(hx, hy, hz) := h in
  let g :=
    (a0x * fst x0 + hx * snd x0,
     a0y * fst x12xy + hy * snd x12xy,
     a0z * fst x12zw + hz * snd x12zw) in
  130 * V3.dot m g.

(** Hash-based pseudo-random value of the shader, in [[0, 1)]. *)
Definition random (st : vec2) : R :=
  let p3 := V3.map Num.fract (V3.scale (fst st, snd st, fst st) 0.1031) in
  let '(px, py, pz) := p3 in
  let d := V3.dot p3 (V3.adds (py, pz, px) 33.33) in
  let '(qx, qy, qz) := V3.adds p3 d in
  Num.fract ((qx + qy) * qz).

Record Uniforms : Type := mkUniforms {
  u_time : R;
  u_resolution : vec2;
  u_noiseScale : R;
  u_speed : R;
  u_noiseMode : Z;
  u_backgroundStrength : R;
  u_forceFieldStrength : R;
  u_brownianMotion : R;
  u_globalGravity : R;
  u_globalSwirl : R;
  u_mouse : vec3;
  u_mouseStrength : R;
  u_mouseMode : Z;
  u_forceFields : list R;      (* 40 force fields * 8 floats each *)
  u_forceFieldCount : Z;
  u_respawnRate : R;
  u_zonesEnabled : bool;
  u_zonesStrength : R;
  u_chargeInteraction : R;
  u_chargeRatio : R;
  u_gravityInteraction : R;
  u_friction : R;
  u_textureSize : R
}.

Section Shader.

Variable u : Uniforms.
Variable u_particles : Sampler.t.

Definition getNoiseValue (pos : vec2) (time : R) : R :=
  let ns := u_noiseScale u in
  let np := V2.adds (V2.scale pos ns) (time * 0.0001) in
  if (u_noiseMode u =? 0)%Z then
    snoise np
  else if (u_noiseMode u =? 1)%Z then
    snoise np * 0.5 +
    snoise (V2.scale np 2) * 0.25 +
    snoise (V2.scale np 4) * 0.125 +
    snoise (V2.scale np 8) * 0.0625
  else if (u_noiseMode u =? 2)%Z then
    let n := 1 - Rabs (snoise np) in
    let n := n * n in
    let n := n + (1 - Rabs (snoise (V2.scale np 2))) * 0.5 in
    let n := n + (1 - Rabs (snoise (V2.scale np 4))) * 0.25 in
    n * 0.7 - 0.5
  else if (u_noiseMode u =? 3)%Z then
    Rabs (snoise np) * 0.5 +
    Rabs (snoise (V2.scale np 2)) * 0.25 +
    Rabs (snoise (V2.scale np 4)) * 0.125
  else if (u_noiseMode u =? 4)%Z then
    let warpX := snoise np * 0.5 in
    let warpY := snoise (V2.add np (5.2, 1.3)) * 0.5 in
    snoise (V2.add np (warpX, warpY)) +
    snoise (V2.scale (V2.add np (warpX, warpY)) 2) * 0.5
  else 0.

(** The per-type force of the field stored at slot [i] of the uniform array
    ([idx = i * 8]); the body of the loop of [getForceFieldEffect] after its
    [break] test.  A [continue] leaves [totalForce] as it is. *)
Definition forceFieldBody (pos : vec2) (i : nat) (totalForce : vec2) : vec2 :=
  let idx := (i * 8)%nat in
  let uf k := nth (idx + k) (u_forceFields u) 0 in
  let fx := uf 0%nat in
  let fy := uf 1%nat in
  let ftype := uf 2%nat in
  let strength := uf 3%nat in
  let radius := uf 4%nat in
  let rotation := uf 5%nat in
  let life := uf 6%nat in
  let isActive := uf 7%nat in
  if isActive <? 0.5 then totalForce
  else
    let diff := V2.sub pos (fx, fy) in
    let dist := V2.length diff in
    if (dist >? radius) || (dist <? 5) then totalForce
    else
      let falloff := 1 - dist / radius in
      let s := strength / 100 * falloff * life in
      let dir := V2.normalize diff in
      if ftype <? 0.5 then
        V2.sub totalForce (V2.scale dir s)
      else if ftype <? 1.5 then
        V2.add totalForce (V2.scale dir s)
      else if ftype <? 2.5 then
        let perp := V2.divs (- snd diff, fst diff) dist in
        V2.add totalForce (V2.scale (V2.scale perp s) rotation)
      else if ftype <? 3.5 then
        let totalForce := V2.sub totalForce (V2.scale (V2.scale dir s) 2) in
        let tangent := V2.divs (- snd diff, fst diff) dist in
        V2.add totalForce (V2.scale (V2.scale tangent s) 0.3)
      else
        let angle := snoise (V2.adds (V2.scale pos 0.1) (u_time u * 0.01)) * 6.28318 in
        V2.add totalForce (V2.scale (V2.scale (cos angle, sin angle) s) 2).

(** [for (int i = 0; i < 16; i++) { if (i >= u_forceFieldCount) break; ... }]:
    [n] iterations are left, [i] is the loop counter. *)
Fixpoint forceFieldLoop (pos : vec2) (n i : nat) (totalForce : vec2) : vec2 :=
  match n with
  | O => totalForce
  | S n' =>
      if (Z.of_nat i >=? u_forceFieldCount u)%Z then totalForce
      else forceFieldLoop pos n' (S i) (forceFieldBody pos i totalForce)
  end.

Definition getForceFieldEffect (pos : vec2) : vec2 :=
  forceFieldLoop pos 16 0 V2.zero.

Definition getCharge (texCoord : vec2) : R :=
  let id := fst texCoord * u_textureSize u
            + snd texCoord * u_textureSize u * u_textureSize u in
  if Num.fract (id * 0.7919) <? u_chargeRatio u then 1 else -1.

(** The spiral sample of iteration [i] of the two interaction loops. *)
Definition spiralCoord (texCoord : vec2) (i : nat) : vec2 :=
  let angle := INR i * 2.399 + u_time u * 0.01 in
  let r := (INR i + 1) * 0.05 in
  let offset := V2.scale (cos angle, sin angle) r in
  let sampleCoord := V2.add texCoord offset in
  (Num.fract (fst sampleCoord), Num.fract (snd sampleCoord)).

Definition getChargeInteraction (pos texCoord : vec2) : vec2 :=
  if u_chargeInteraction u <? 0.001 then V2.zero
  else
    let myCharge := getCharge texCoord in
    let interactionRadius := 100 in
    let totalForce :=
      fold_left
        (fun totalForce i =>
           let sampleCoord := spiralCoord texCoord i in
           let '(ox, oy, _, _) := texture u_particles sampleCoord in
           let otherPos := (ox, oy) in
           let otherCharge := getCharge sampleCoord in
           let diff := V2.sub pos otherPos in
           let dist := V2.length diff in
           if (dist >? 5) && (dist <? interactionRadius) then
             let forceMag := 1 / (dist * dist + 10) in
             let dir := V2.normalize diff in
             let chargeProduct := myCharge * otherCharge in
             V2.add totalForce
               (V2.scale (V2.scale (V2.scale dir forceMag) chargeProduct) 50)
           else totalForce)
        (seq 0 16) V2.zero in
    V2.scale totalForce (u_chargeInteraction u).

Definition getGravityInteraction (pos texCoord : vec2) : vec2 :=
  if Rabs (u_gravityInteraction u) <? 0.001 then V2.zero
  else
    let interactionRadius := 120 in
    let totalForce :=
      fold_left
        (fun totalForce i =>
           let sampleCoord := spiralCoord texCoord i in
           let '(ox, oy, _, _) := texture u_particles sampleCoord in
           let otherPos := (ox, oy) in
           let diff := V2.sub otherPos pos in
           let dist := V2.length diff in
           if (dist >? 5) && (dist <? interactionRadius) then
             let forceMag := 1 / (dist * dist + 10) in
             let dir := V2.normalize diff in
             V2.add totalForce (V2.scale (V2.scale dir forceMag) 50)
           else totalForce)
        (seq 0 16) V2.zero in
    V2.scale totalForce (u_gravityInteraction u).

(** *** [main] of the physics fragment shader, stage by stage *)

(** Noise-based flow direction. *)
Definition flowDirection (pos : vec2) : vec2 :=
  let noiseVal := getNoiseValue pos (u_time u) in
  if (u_noiseMode u =? 5)%Z then V2.zero
  else
    let posOffset := (fst pos + snd pos) * 0.001 in
    let angle := (noiseVal + posOffset) * 12.566370614 in
    V2.scale (V2.scale (cos angle, sin angle) (u_speed u)) (u_backgroundStrength u).

(** Force fields plus the two particle interactions. *)
Definition forceEffectOf (pos v_texCoord : vec2) : vec2 :=
  let forceEffect := V2.scale (getForceFieldEffect pos) (u_forceFieldStrength u) in
  let chargeForce := getChargeInteraction pos v_texCoord in
  let gravityForce := getGravityInteraction pos v_texCoord in
  V2.add forceEffect (V2.add chargeForce gravityForce).

Definition brownianOf (pos v_texCoord : vec2) : vec2 :=
  V2.scale
    (random (fst pos * 0.1 + snd v_texCoord * 999, u_time u + fst v_texCoord * 777) - 0.5,
     random (u_time u * 1.1 + snd v_texCoord * 555, snd pos * 0.1 + fst v_texCoord * 333) - 0.5)
    (u_brownianMotion u).

Definition mouseForceOf (pos : vec2) : vec2 :=
  let '(mx, my, mz) := u_mouse u in
  let mouseDiff := V2.sub pos (mx, my) in
  let mouseDist := V2.length mouseDiff in
  if (mouseDist <? mz) && (mouseDist >? 5) then
    let force := (mz - mouseDist) / mz * u_mouseStrength u in
    let mouseDir := V2.normalize mouseDiff in
    if (u_mouseMode u =? 0)%Z then
      let perp := V2.divs (- snd mouseDiff, fst mouseDiff) mouseDist in
      V2.scale (V2.scale (V2.scale perp (u_speed u)) 2) force
    else if (u_mouseMode u =? 1)%Z then
      V2.scale (V2.scale (V2.neg mouseDir) force) 3
    else
      V2.scale (V2.scale mouseDir force) 3
  else V2.zero.

Definition globalForcesOf (pos : vec2) : vec2 :=
  let globalForces := (0, - u_globalGravity u) in
  if Rabs (u_globalSwirl u) >? 0.001 then
    let center := V2.scale (u_resolution u) 0.5 in
    let toCenter := V2.sub pos center in
    let perpendicular := (- snd toCenter, fst toCenter) in
    let dist := V2.length toCenter in
    let swirlStrength := u_globalSwirl u * (1 - dist / V2.length center) in
    V2.add globalForces
      (V2.scale (V2.scale (V2.normalize perpendicular) swirlStrength) 2)
  else globalForces.

Definition zonesOf (pos flowDir : vec2) : vec2 :=
  if u_zonesEnabled u then
    let zoneNoise := snoise (V2.adds (V2.scale pos 0.003) (u_time u * 0.0001)) in
    let zoneNoise2 := snoise (V2.add (V2.scale pos 0.005) (100, 50)) in
    if zoneNoise <? -0.3 then
      V2.scale flowDir (1.5 * u_zonesStrength u)
    else if zoneNoise >? 0.3 then
      let center :=
        V2.add pos
          (snoise (V2.scale pos 0.01) * 100,
           snoise (V2.scale (snd pos, fst pos) 0.01) * 100) in
      let toCenter := V2.sub center pos in
      let perpendicular :=
        V2.scale (V2.scale (- snd toCenter, fst toCenter) 0.02) (u_zonesStrength u) in
      V2.add flowDir perpendicular
    else
      let turbAngle := zoneNoise2 * 6.28318 in
      V2.add flowDir
        (V2.scale (V2.scale (cos turbAngle, sin turbAngle) 0.5) (u_zonesStrength u))
  else flowDir.

(** Update velocity, then position: the state before the wrap. *)
Definition integrate (v_texCoord : vec2) : vec2 * vec2 :=
  let '(px, py, vx, vy) := texture u_particles v_texCoord in
  let pos := (px, py) in
  let vel := (vx, vy) in
  let flowDir := flowDirection pos in
  let forceEffect := forceEffectOf pos v_texCoord in
  let brownian := brownianOf pos v_texCoord in
  let mouseForce := mouseForceOf pos in
  let flowDir := V2.add flowDir mouseForce in
  let globalForces := globalForcesOf pos in
  let flowDir := V2.add flowDir globalForces in
  let flowDir := zonesOf pos flowDir in
  let vel :=
    if (u_noiseMode u =? 5)%Z then
      let acceleration :=
        V2.scale
          (V2.add (V2.add (V2.add forceEffect mouseForce) globalForces) brownian)
          0.1 in
      let vel := V2.add vel acceleration in
      V2.scale vel (1 - u_friction u)
    else
      V2.mix vel (V2.add (V2.add flowDir forceEffect) brownian) 0.3 in
  (V2.add pos vel, vel).

(** Wrap around edges: one axis, two tests in sequence. *)
Definition wrapAxis (p res : R) : R :=
  let p := if p <? 0 then p + res else p in
  if p >? res then p - res else p.

Definition wrap (pos : vec2) : vec2 :=
  (wrapAxis (fst pos) (fst (u_resolution u)),
   wrapAxis (snd pos) (snd (u_resolution u))).

(** Random respawn to prevent convergence. *)
Definition respawn (v_texCoord : vec2) (pv : vec2 * vec2) : vec2 * vec2 :=
  let respawnRand := random (V2.adds (V2.scale v_texCoord 777) (u_time u)) in
  if respawnRand <? u_respawnRate u then
    let seedX :=
      random (snd v_texCoord * 9999, u_time u * 3.7 + fst v_texCoord * 1111) in
    let seedY :=
      random (u_time u * 2.3 + fst v_texCoord * 7777, snd v_texCoord * 3333) in
    ((seedX * fst (u_resolution u), seedY * snd (u_resolution u)), V2.zero)
  else pv.

Definition main (v_texCoord : vec2) : vec4 :=
  let (pos, vel) := integrate v_texCoord in
  let pos := wrap pos in
  let '(pos, vel) := respawn v_texCoord (pos, vel) in
  (fst pos, snd pos, fst vel, snd vel).

End Shader.

(** The texel centre that the rasterizer hands to fragment [k] of a
    [size * size] render target as [v_texCoord]. *)
Definition texCoordOf (size k : nat) : vec2 :=
  ((INR (k mod size) + 0.5) / INR size, (INR (k / size) + 0.5) / INR size).

(** Drawing the full-screen quad with the physics program: every texel of the
    render target is [main] of its own coordinate, reading [readTex] only. *)
Definition physicsPass (u : Uniforms) (readTex : Sampler.t) : list vec4 :=
  let size := Sampler.size readTex in
  map (fun k => main u readTex (texCoordOf size k)) (seq 0 (size * size)).

(** *** JavaScript side: the state of a [FlowFieldsGL] instance *)

Record State : Type := mkState {
  canvas : Canvas.t;
  config : Obj;
  forceFields : list ForceField.t;
  maxForceFields : nat;
  enabledForceTypes : list bool;      (* which types can auto-spawn *)
  mouse : Mouse.t;
  paused : bool;
  touchStart : vec2;
  textureSize : nat;
  particleTextures : list vec4 * list vec4;   (* ping-pong *)
  currentTexture : nat
}.

Definition with_canvas (s : State) (c : Canvas.t) : State :=
  mkState c (config s) (forceFields s) (maxForceFields s) (enabledForceTypes s)
    (mouse s) (paused s) (touchStart s) (textureSize s) (particleTextures s)
    (currentTexture s).

Definition with_config (s : State) (c : Obj) : State :=
  mkState (canvas s) c (forceFields s) (maxForceFields s) (enabledForceTypes s)
    (mouse s) (paused s) (touchStart s) (textureSize s) (particleTextures s)
    (currentTexture s).

Definition with_forceFields (s : State) (l : list ForceField.t) : State :=
  mkState (canvas s) (config s) l (maxForceFields s) (enabledForceTypes s)
    (mouse s) (paused s) (touchStart s) (textureSize s) (particleTextures s)
    (currentTexture s).

Definition with_mouse (s : State) (m : Mouse.t) : State :=
  mkState (canvas s) (config s) (forceFields s) (maxForceFields s)
    (enabledForceTypes s) m (paused s) (touchStart s) (textureSize s)
    (particleTextures s) (currentTexture s).

Definition with_touchStart (s : State) (t : vec2) : State :=
  mkState (canvas s) (config s) (forceFields s) (maxForceFields s)
    (enabledForceTypes s) (mouse s) (paused s) t (textureSize s)
    (particleTextures s) (currentTexture s).

Definition with_particles (s : State) (ts : list vec4 * list vec4) (cur : nat)
  : State :=
  mkState (canvas s) (config s) (forceFields s) (maxForceFields s)
    (enabledForceTypes s) (mouse s) (paused s) (touchStart s) (textureSize s)
    ts cur.

(** [particleTextures[i]] and its update, for the two entries of the array. *)
Definition texAt (ts : list vec4 * list vec4) (i : nat) : list vec4 :=
  match i with O => fst ts | _ => snd ts end.

Definition setTexAt (ts : list vec4 * list vec4) (i : nat) (d : list vec4)
  : list vec4 * list vec4 :=
  match i with O => (d, snd ts) | _ => (fst ts, d) end.

(** [addForceField (x, y, type = -1)].  At capacity the oldest entry is
    shifted out first; a random type is drawn among the enabled ones, and with
    none enabled the call returns after the shift. *)
Definition addForceField (x y : R) (type : Z) (s : State) : M State :=
  let ffs :=
    if (maxForceFields s <=? List.length (forceFields s))%nat
    then tl (forceFields s) else forceFields s in
  let push (finalType : Z) : M State :=
    r_life <- Math_random ;;
    let baseLife := 500 + r_life * 500 in
    let minRadius := Rmax 40 (num (config s) "maxForceRadius" * 0.3) in
    let radiusRange := num (config s) "maxForceRadius" - minRadius in
    r_strength <- Math_random ;;
    r_radius <- Math_random ;;
    r_rotation <- Math_random ;;
    r_vx <- Math_random ;;
    r_vy <- Math_random ;;
    ret (with_forceFields s
           (ffs ++
            [ForceField.mk x y finalType
               (50 + r_strength * 100)
               (minRadius + r_radius * radiusRange)
               (if r_rotation >? 0.5 then 1 else -1)
               (baseLife * num (config s) "forceLifetime")
               ((r_vx - 0.5) * 0.5)
               ((r_vy - 0.5) * 0.5)])) in
  if (type <? 0)%Z then
    let enabledTypes :=
      filter (fun i => nth i (enabledForceTypes s) false) (seq 0 5) in
    if (List.length enabledTypes =? 0)%nat then ret (with_forceFields s ffs)
    else
      r_type <- Math_random ;;
      push (Z.of_nat
              (nth (Z.to_nat (Zfloor (r_type * INR (List.length enabledTypes))))
                 enabledTypes 0%nat))
  else push type.

(** One field's step inside [updateForceFields]: drift, age, bounce. *)
Definition stepField (c : Canvas.t) (f : ForceField.t) : ForceField.t :=
  let x := ForceField.x f + ForceField.vx f in
  let y := ForceField.y f + ForceField.vy f in
  let life := ForceField.life f - 1 in
  let vx := if (x <? 0) || (x >? Canvas.width c)
            then ForceField.vx f * -1 else ForceField.vx f in
  let vy := if (y <? 0) || (y >? Canvas.height c)
            then ForceField.vy f * -1 else ForceField.vy f in
  ForceField.mk x y (ForceField.type f) (ForceField.strength f)
    (ForceField.radius f) (ForceField.rotation f) life vx vy.

(** The loop runs from the last index down and splices dead fields out; the
    fold visits the elements in that order. *)
Definition stepFields (c : Canvas.t) (l : list ForceField.t) : list ForceField.t :=
  fold_right
    (fun f acc =>
       let f' := stepField c f in
       if ForceField.life f' <=? 0 then acc else f' :: acc)
    [] l.

Definition updateForceFields (s : State) : M State :=
  let ffs := stepFields (canvas s) (forceFields s) in
  let s := with_forceFields s ffs in
  if num (config s) "forceSpawnRate" >? 0 then
    r <- Math_random ;;
    if (r <? num (config s) "forceSpawnRate" / 60)
       && (List.length (forceFields s) <? maxForceFields s)%nat
    then
      rx <- Math_random ;;
      ry <- Math_random ;;
      addForceField (rx * Canvas.width (canvas s)) (ry * Canvas.height (canvas s))
        (-1) s
    else ret s
  else ret s.

(** Always 40 slots of 8 floats, to match the shader's uniform array. *)
Definition getForceFieldUniforms (s : State) : list R :=
  flat_map
    (fun i =>
       if (i <? Nat.min (maxForceFields s) 40)%nat then
         match nth_error (forceFields s) i with
         | Some f =>
             [ForceField.x f; ForceField.y f; IZR (ForceField.type f);
              ForceField.strength f; ForceField.radius f; ForceField.rotation f;
              ForceField.life f / 500;     (* normalized life *)
              1]                           (* active flag *)
         | None => [0; 0; 0; 0; 0; 0; 0; 0]
         end
       else [0; 0; 0; 0; 0; 0; 0; 0])
    (seq 0 40).

(** The uniforms that [update] sets on the physics program. *)
Definition physicsUniforms (s : State) : Uniforms :=
  let c := config s in
  {| u_time := num c "time";
     u_resolution := (Canvas.width (canvas s), Canvas.height (canvas s));
     u_noiseScale := num c "noiseScale";
     u_speed := num c "speed";
     u_noiseMode := toInt (get c "noiseMode");
     u_backgroundStrength := num c "backgroundStrength";
     u_forceFieldStrength := num c "forceFieldStrength";
     u_brownianMotion := num c "brownianMotion";
     u_globalGravity := num c "globalGravity";
     u_globalSwirl := num c "globalSwirl";
     u_mouse := (Mouse.x (mouse s), Mouse.y (mouse s), Mouse.radius (mouse s));
     u_mouseStrength := Mouse.strength (mouse s);
     u_mouseMode := Mouse.mode (mouse s);
     u_forceFields := getForceFieldUniforms s;
     u_forceFieldCount := Z.of_nat (List.length (forceFields s));
     u_respawnRate := num c "respawnRate";
     u_zonesEnabled := truthy (get c "zonesEnabled");
     u_zonesStrength := num c "zonesStrength";
     u_chargeInteraction := num c "chargeInteraction";
     u_chargeRatio := num c "chargeRatio";
     u_gravityInteraction := num c "gravityInteraction";
     u_friction := num c "friction";
     u_textureSize := INR (textureSize s) |}.

(** [update ()]: force fields, then the physics pass from the current texture
    into the other one, then the swap. *)
Definition update (s : State) : M State :=
  s <- updateForceFields s ;;
  let readTex := texAt (particleTextures s) (currentTexture s) in
  let written :=
    physicsPass (physicsUniforms s) (Sampler.mk (textureSize s) readTex) in
  let s :=
    with_particles s
      (setTexAt (particleTextures s) (1 - currentTexture s) written)
      (1 - currentTexture s) in
  ret (with_config s (set (config s) "time" (VNum (num (config s) "time" + 1)))).

(** The particle texture that [render ()] binds as [u_particles]. *)
Definition renderTexture (s : State) : list vec4 :=
  texAt (particleTextures s) (currentTexture s).

(** What the render pass reads: one vertex per particle, fetched through the
    particle buffer's texel-centre coordinates. *)
Definition render (s : State) : list vec4 :=
  let n := Z.to_nat (Zfloor (num (config s) "particleCount")) in
  map (fun i =>
         texture (Sampler.mk (textureSize s) (renderTexture s))
           (texCoordOf (textureSize s) i))
      (seq 0 n).

Definition animate (s : State) : M State :=
  if paused s then ret s else update s.

(** [setConfig (key, value)] of the page: the value is stored as given. *)
Definition setConfig (key : string) (value : Value) (s : State) : State :=
  with_config s (set (config s) key value).

(** Pointer, touch and page events that reach the instance. *)
Inductive Event : Type :=
| MouseMove (clientX clientY : R)
| MouseLeave
| Click (clientX clientY : R)
| TouchStart (clientX clientY : R)
| TouchMove (clientX clientY : R)
| TouchEnd (clientX clientY : R)
| AddForceField (x y : R) (type : Z)
| SetConfig (key : string) (value : Value)
| Resize (window : Canvas.t)
| Frame.

Definition moveMouse (s : State) (x y : R) : State :=
  with_mouse s
    (Mouse.mk x y (Mouse.radius (mouse s)) (Mouse.strength (mouse s))
       (Mouse.mode (mouse s))).

Definition handle (e : Event) (s : State) : M State :=
  let h := Canvas.height (canvas s) in
  match e with
  | MouseMove cx cy => ret (moveMouse s cx (h - cy))
  | MouseLeave => ret (moveMouse s (-1000) (-1000))
  | Click cx cy => addForceField cx (h - cy) (-1) s
  | TouchStart cx cy => ret (with_touchStart (moveMouse s cx (h - cy)) (cx, cy))
  | TouchMove cx cy => ret (moveMouse s cx (h - cy))
  | TouchEnd cx cy =>
      let dx := cx - fst (touchStart s) in
      let dy := cy - snd (touchStart s) in
      s' <- (if (Rabs dx <? 10) && (Rabs dy <? 10)
             then addForceField cx (h - cy) (-1) s else ret s) ;;
      ret (moveMouse s' (-1000) (-1000))
  | AddForceField x y type => addForceField x y type s
  | SetConfig key value => ret (setConfig key value s)
  | Resize window => ret (with_canvas s window)
  | Frame => animate s
  end.

Fixpoint run (es : list Event) (s : State) : M State :=
  match es with
  | [] => ret s
  | e :: es' => s' <- handle e s ;; run es' s'
  end.

(** [n] physics steps in a row: [update ()] called [n] times. *)
Fixpoint steps (n : nat) (s : State) : M State :=
  match n with
  | O => ret s
  | S n' => s' <- update s ;; steps n' s'
  end.

(** The constructor, after [init ()]: both textures hold the same initial
    particles (random positions, velocities in [-1, 1]).  The loop
    [for (i = 0; i < particleCount; i++)] of [initializeParticles] runs
    [ceil (particleCount)] times.  The source throws where there is no WebGL2
    context and where [new Float32Array] refuses the count (a negative one, or
    one too large); the definitions describe the instance that is returned
    otherwise. *)
Fixpoint initialParticles (n : nat) (c : Canvas.t) : M (list vec4) :=
  match n with
  | O => ret []
  | S n' =>
      rx <- Math_random ;;
      ry <- Math_random ;;
      rvx <- Math_random ;;
      rvy <- Math_random ;;
      rest <- initialParticles n' c ;;
      ret ((rx * Canvas.width c, ry * Canvas.height c,
            (rvx - 0.5) * 2, (rvy - 0.5) * 2) :: rest)
  end.

Definition constructor (c : Canvas.t) (initialConfig : Obj) : M State :=
  let cfg := spread defaultConfig initialConfig in
  let count := Z.to_nat (Zceil (num cfg "particleCount")) in
  let size := Z.to_nat (Zceil (sqrt (num cfg "particleCount"))) in
  ps <- initialParticles count c ;;
  let data := ps ++ repeat (0, 0, 0, 0) (size * size - count) in
  ret (mkState c cfg [] 40 [true; true; true; true; true]
         (Mouse.mk (-1000) (-1000) 150 1 0) false (0, 0) size (data, data) 0).

(** *** The rest of the class and of the page *)

(** [initializeParticles (true)]: the particles of the uniform grid
    distribution, in index order. *)
Definition uniformParticles (c : Canvas.t) (particleCount : R) : list vec4 :=
  let cols := Num.ceil (sqrt (particleCount * Canvas.width c / Canvas.height c)) in
  let rows := Num.ceil (particleCount / cols) in
  let spacingX := Canvas.width c / cols in
  let spacingY := Canvas.height c / rows in
  map (fun i =>
         let col := Num.rem (INR i) cols in
         let row := Num.floor (INR i / cols) in
         ((col + 0.5) * spacingX, (row + 0.5) * spacingY, 0, 0))
    (seq 0 (Z.to_nat (Zceil particleCount))).

(** The upload that ends [initializeParticles]: [data] has [size * size]
    texels, zero where no particle was written, and goes to both textures. *)
Definition uploadParticles (ps : list vec4) (s : State) : State :=
  let n := (textureSize s * textureSize s)%nat in
  let data := firstn n (ps ++ repeat (0, 0, 0, 0) (n - List.length ps)) in
  with_particles s (data, data) (currentTexture s).

Definition initializeParticlesUniform (s : State) : State :=
  uploadParticles (uniformParticles (canvas s) (num (config s) "particleCount")) s.

(** What the render vertex shader hands on for one particle. *)
Record Vertex : Type := mkVertex {
  gl_Position : vec4;
  gl_PointSize : R;
  v_speed : R;
  v_id : R;
  v_angle : R
}.

(** [main] of the render vertex shader. *)
Definition renderVertex (u_particles : Sampler.t) (u_resolution : vec2)
    (u_particleSize : R) (a_texCoord : vec2) : Vertex :=
  let '(px, py, vx, vy) := texture u_particles a_texCoord in
  let clipPos :=
    (px / fst u_resolution * 2 - 1, py / snd u_resolution * 2 - 1) in
  mkVertex (fst clipPos, snd clipPos, 0, 1) u_particleSize
    (V2.length (vx, vy))
    (fst a_texCoord * 1000 + snd a_texCoord)
    ((Num.atan2 vy vx + 3.14159265) / 6.28318530).

(** The vertices of the render pass: [drawArrays (POINTS, 0, particleCount)]
    over the particle buffer. *)
Definition renderVertices (s : State) : list Vertex :=
  let n := Z.to_nat (Zfloor (num (config s) "particleCount")) in
  map (fun i =>
         renderVertex (Sampler.mk (textureSize s) (renderTexture s))
           (Canvas.width (canvas s), Canvas.height (canvas s))
           (num (config s) "particleSize") (texCoordOf (textureSize s) i))
    (seq 0 n).

(** [getConfig ()] of the page, for an instance that exists. *)
Definition getConfig (s : State) : Obj := config s.

(** [reinitWithParticleCount (count)]: a new instance on the same canvas, from
    a copy of the configuration with the count replaced and the time reset;
    [flowFieldsGL.animate ()] then runs its first frame before the function
    returns. *)
Definition reinitWithParticleCount (count : R) (s : State) : M State :=
  let savedConfig := config s in
  let savedConfig := set savedConfig "particleCount" (VNum count) in
  let savedConfig := set savedConfig "time" (VNum 0) in
  flowFieldsGL <- constructor (canvas s) savedConfig ;;
  animate flowFieldsGL.

End GPU.

(* ================================================================== *)
(** ** The canvas variant: flow.js *)
(* ================================================================== *)

Module CPU.

Import Rng.

Module Config.
Record t : Type := mk {
  particleCount : nat;
  noiseScale : R;
  speed : R;
  fadeAmount : R;
  lineWidth : R;
  colorScheme : Z;
  noiseMode : Z;      (* 0=classic, 1=turbulent, 2=ridged, 3=billow, 4=warp, 5=forces only *)
  backgroundStrength : R;
  forceFieldStrength : R;
  brownianMotion : R;
  spawnRate : R;
  velocityColor : bool;
  trailLength : R;
  mouseMode : string;             (* 'vortex', 'attract', 'repel' *)
  symmetry : R;
  globalGravity : R;
  particleInteraction : string;   (* 'none', 'attract', 'repel', 'align', 'zones' *)
  interactionStrength : R;
  interactionRadius : R;
  fieldDriftSpeed : R;
  respawnRate : R
}.
End Config.

Definition initialConfig : Config.t :=
  Config.mk 5000 0.003 2 0.03 0.5 0 1 1 1 1 0.008 false 1 "vortex" 1 0
    "zones" 1 50 0.5 0.005.

Definition colorSchemes : list (list string) :=
  [ ["#00ff87"; "#60efff"; "#ff00ff"; "#ff0080"];
    ["#ff6b35"; "#f7c59f"; "#efefef"; "#2e294e"];
    ["#0077b6"; "#00b4d8"; "#90e0ef"; "#caf0f8"];
    ["#2d6a4f"; "#40916c"; "#52b788"; "#95d5b2"];
    ["#ff0000"; "#ff5500"; "#ff9900"; "#ffcc00"];
    ["#ff00ff"; "#00ffff"; "#ff00aa"; "#00ff00"];
    ["#ffffff"; "#cccccc"; "#999999"; "#666666"];
    ["#ff71ce"; "#01cdfe"; "#05ffa1"; "#b967ff"] ]%string.

Module Canvas.
Record t : Type := mk { width : R; height : R }.
End Canvas.

Module Mouse.
Record t : Type := mk {
  x : option R;       (* null until the first mousemove *)
  y : option R;
  radius : R;
  active : bool
}.
End Mouse.

(** [null] in arithmetic is 0. *)
Definition orZero (v : option R) : R :=
  match v with Some r => r | None => 0 end.

(** *** Simplex noise: a generator is its two tables *)

Module NoiseGenerator.
Record t : Type := mk { perm : list Z; gradP : list vec3 }.
End NoiseGenerator.

Definition dot (g : vec3) (x y : R) : R :=
  let '(g0, g1, _) := g in g0 * x + g1 * y.

Definition noise2D (g : NoiseGenerator.t) (x y : R) : R :=
  let perm k := nth (Z.to_nat k) (NoiseGenerator.perm g) 0%Z in
  let gradP k := nth (Z.to_nat k) (NoiseGenerator.gradP g) (0, 0, 0) in
  let F2 := 0.5 * (sqrt 3 - 1) in
  let G2 := (3 - sqrt 3) / 6 in
  let s := (x + y) * F2 in
  let i := Zfloor (x + s) in
  let j := Zfloor (y + s) in
  let t := IZR (i + j) * G2 in
  let X0 := IZR i - t in
  let Y0 := IZR j - t in
  let x0 := x - X0 in
  let y0 := y - Y0 in
  let '(i1, j1) := if x0 >? y0 then (1, 0)%Z else (0, 1)%Z in
  let x1 := x0 - IZR i1 + G2 in
  let y1 := y0 - IZR j1 + G2 in
  let x2 := x0 - 1 + 2 * G2 in
  let y2 := y0 - 1 + 2 * G2 in
  let i := Z.land i 255 in
  let j := Z.land j 255 in
  let gi0 := gradP (i + perm j)%Z in
  let gi1 := gradP (i + i1 + perm (j + j1))%Z in
  let gi2 := gradP (i + 1 + perm (j + 1))%Z in
  let corner gi cx cy :=
    let t := 0.5 - cx * cx - cy * cy in
    if t <? 0 then 0
    else let t := t * t in t * t * dot gi cx cy in
  let n0 := corner gi0 x0 y0 in
  let n1 := corner gi1 x1 y1 in
  let n2 := corner gi2 x2 y2 in
  70 * (n0 + n1 + n2).

Definition grad3 : list vec3 :=
  [ (1, 1, 0); (-1, 1, 0); (1, -1, 0); (-1, -1, 0);
    (1, 0, 1); (-1, 0, 1); (1, 0, -1); (-1, 0, -1);
    (0, 1, 1); (0, -1, 1); (0, 1, -1); (0, -1, -1) ].

Fixpoint setNth {A} (n : nat) (a : A) (l : list A) : list A :=
  match l, n with
  | [], _ => []
  | _ :: l', O => a :: l'
  | b :: l', S n' => b :: setNth n' a l'
  end.

(** One round of the seeded shuffle, [[p[i], p[j]] = [p[j], p[i]]] on a
    [Uint8Array]: a [j] that is no integer index reads [undefined], which is
    stored as 0, and the write to [p[j]] is dropped. *)
Definition shuffleStep (st : R * list Z) (i : nat) : R * list Z :=
  let (n, p) := st in
  let n := Num.rem (n * 16807) 2147483647 in
  let j := Num.rem n (INR i + 1) in
  let pi := nth i p 0%Z in
  if Num.isIndex j 256 then
    let jn := Z.to_nat (Zfloor j) in
    let pj := nth jn p 0%Z in
    (n, setNth jn pi (setNth i pj p))
  else (n, setNth i 0%Z p).

(** [new NoiseGenerator (seed)] *)
Definition NoiseGenerator_new (seed : R) : NoiseGenerator.t :=
  let p0 := map Z.of_nat (seq 0 256) in
  let p := snd (fold_left shuffleStep (rev (seq 1 255)) (seed, p0)) in
  let perm := map (fun i => nth (Z.to_nat (Z.land (Z.of_nat i) 255)) p 0%Z) (seq 0 512) in
  NoiseGenerator.mk perm
    (map (fun v => nth (Z.to_nat (v mod 12)) grad3 (0, 0, 0)) perm).

(** *** Force fields *)

Module ForceField.
Record t : Type := mk {
  x : R; y : R;
  vx : R; vy : R;
  type : string;
  strength : R;
  radius : R;
  rotation : R;
  life : R;
  maxLife : R;
  pulsePhase : R;
  shearAngle : R;
  laneAngle : R;
  turbulenceSeed : R
}.
End ForceField.

Definition allTypes : list string :=
  ["sink"; "source"; "vortex"; "vortex"; "gravity"; "shear"; "repulsor";
   "turbulence"; "lane"]%string.

(** [new ForceField (type)]; [None] is [null].  The draws are made in the
    order of the constructor's statements.  In [type || allTypes[...]] the
    empty string is as falsy as [null]: a type is drawn for it too. *)
Definition ForceField_new (width height fieldDriftSpeed : R) (type : option string)
  : M ForceField.t :=
  rx <- Math_random ;;
  ry <- Math_random ;;
  rm <- Math_random ;;
  let speedMultiplier := 0.5 + rm * 1.5 in
  rvx <- Math_random ;;
  rvy <- Math_random ;;
  let drawn :=
    r <- Math_random ;;
    ret (nth (Z.to_nat (Zfloor (r * INR (List.length allTypes))))
           allTypes ""%string) in
  ty <- match type with
        | Some t => if String.eqb t "" then drawn else ret t
        | None => drawn
        end ;;
  rs <- Math_random ;;
  rr <- Math_random ;;
  rot <- (if String.eqb ty "vortex"
          then r <- Math_random ;; ret (if r >? 0.5 then 1 else -1)
          else ret 0) ;;
  rl <- Math_random ;;
  let life := 500 + rl * 1000 in
  rp <- Math_random ;;
  rsh <- Math_random ;;
  rla <- Math_random ;;
  rt <- Math_random ;;
  ret (ForceField.mk (rx * width) (ry * height)
         ((rvx - 0.5) * fieldDriftSpeed * speedMultiplier)
         ((rvy - 0.5) * fieldDriftSpeed * speedMultiplier)
         ty (50 + rs * 100) (80 + rr * 120) rot life life
         (rp * PI * 2) (rsh * PI * 2) (rla * PI * 2) (rt * 1000)).

Definition ForceField_update (c : Canvas.t) (f : ForceField.t) : ForceField.t :=
  let x := ForceField.x f + ForceField.vx f in
  let y := ForceField.y f + ForceField.vy f in
  let vx := if (x <? 0) || (x >? Canvas.width c)
            then ForceField.vx f * -1 else ForceField.vx f in
  let vy := if (y <? 0) || (y >? Canvas.height c)
            then ForceField.vy f * -1 else ForceField.vy f in
  let x := Rmax 0 (Rmin (Canvas.width c) x) in
  let y := Rmax 0 (Rmin (Canvas.height c) y) in
  ForceField.mk x y vx vy (ForceField.type f) (ForceField.strength f)
    (ForceField.radius f) (ForceField.rotation f) (ForceField.life f - 1)
    (ForceField.maxLife f) (ForceField.pulsePhase f + 0.05)
    (ForceField.shearAngle f) (ForceField.laneAngle f)
    (ForceField.turbulenceSeed f).

Definition ForceField_isDead (f : ForceField.t) : bool :=
  ForceField.life f <=? 0.

(** Fade in/out: the two tests are made in sequence, the second overrides. *)
Definition lifeFactorOf (f : ForceField.t) : R :=
  let lifeFactor := 1 in
  let lifeFactor :=
    if ForceField.life f <? 100 then ForceField.life f / 100 else lifeFactor in
  if ForceField.life f >? ForceField.maxLife f - 100
  then (ForceField.maxLife f - ForceField.life f) / 100 else lifeFactor.

(** [getForce (px, py)]; [noise] and [time] are the globals it reads. *)
Definition ForceField_getForce (noise : NoiseGenerator.t) (time : R)
    (f : ForceField.t) (px py : R) : vec2 :=
  let dx := px - ForceField.x f in
  let dy := py - ForceField.y f in
  let dist := sqrt (dx * dx + dy * dy) in
  if (dist >? ForceField.radius f) || (dist <? 5) then (0, 0)
  else
    let pulse := 1 + sin (ForceField.pulsePhase f) * 0.3 in
    let falloff := 1 - dist / ForceField.radius f in
    let strength := ForceField.strength f / 100 * falloff * pulse in
    let lifeFactor := lifeFactorOf f in
    let finalStrength := strength * lifeFactor in
    let type := ForceField.type f in
    if String.eqb type "sink" then
      (- (dx / dist) * finalStrength, - (dy / dist) * finalStrength)
    else if String.eqb type "source" then
      (dx / dist * finalStrength, dy / dist * finalStrength)
    else if String.eqb type "vortex" then
      let perpX := - dy / dist in
      let perpY := dx / dist in
      (perpX * finalStrength * ForceField.rotation f,
       perpY * finalStrength * ForceField.rotation f)
    else if String.eqb type "gravity" then
      let gravityStrength := finalStrength * 2 in
      let inwardX := - (dx / dist) * gravityStrength in
      let inwardY := - (dy / dist) * gravityStrength in
      let tangentX := - dy / dist * gravityStrength * 0.3 in
      let tangentY := dx / dist * gravityStrength * 0.3 in
      (inwardX + tangentX, inwardY + tangentY)
    else if String.eqb type "shear" then
      let shearDir := if Num.sign dy =? 0 then 1 else Num.sign dy in
      (cos (ForceField.shearAngle f) * finalStrength * shearDir * 1.5,
       sin (ForceField.shearAngle f) * finalStrength * shearDir * 1.5)
    else if String.eqb type "repulsor" then
      let repelStrength := finalStrength * 3 * (ForceField.radius f / (dist + 10)) in
      (dx / dist * repelStrength, dy / dist * repelStrength)
    else if String.eqb type "turbulence" then
      let turbAngle :=
        noise2D noise (px * 0.1 + ForceField.turbulenceSeed f) (py * 0.1 + time * 0.01)
        * PI * 2 in
      let turbStrength := finalStrength * 2 in
      (cos turbAngle * turbStrength, sin turbAngle * turbStrength)
    else if String.eqb type "lane" then
      (cos (ForceField.laneAngle f) * finalStrength * 2,
       sin (ForceField.laneAngle f) * finalStrength * 2)
    else (0, 0).

(** [draw ()] changes no state of the simulation, but the squiggles of a
    visible turbulence field take five draws from [Math.random]. *)
Definition ForceField_draw (showForceFields : bool) (f : ForceField.t) : M unit :=
  if showForceFields && String.eqb (ForceField.type f) "turbulence" then
    _ <- Math_random ;; _ <- Math_random ;; _ <- Math_random ;;
    _ <- Math_random ;; _ <- Math_random ;; ret tt
  else ret tt.

(** *** Particles and the global state *)

Module Particle.
Record t : Type := mk {
  x : R; y : R;
  prevX : R; prevY : R;
  speed : R;
  colorIndex : Z;
  life : R;
  maxLife : R;
  velocity : R;     (* current speed, tracked for colour *)
  hue : R
}.
End Particle.

(** The spatial grid maps a cell to the particles put in it; a particle is
    referred to by its index in [particles], so that a neighbour is read as it
    is now, not as it was when the grid was built. *)
Definition Grid : Type := list ((Z * Z) * list nat).

Record State : Type := mkState {
  canvas : Canvas.t;
  config : Config.t;
  particles : list Particle.t;
  time : R;
  paused : bool;
  spatialGrid : Grid;
  mouse : Mouse.t;
  forceFields : list ForceField.t;
  showForceFields : bool;
  noise : NoiseGenerator.t;
  spawnTypeOnClick : string
}.

Definition with_config (s : State) (c : Config.t) : State :=
  mkState (canvas s) c (particles s) (time s) (paused s) (spatialGrid s)
    (mouse s) (forceFields s) (showForceFields s) (noise s) (spawnTypeOnClick s).

Definition with_particles (s : State) (ps : list Particle.t) : State :=
  mkState (canvas s) (config s) ps (time s) (paused s) (spatialGrid s)
    (mouse s) (forceFields s) (showForceFields s) (noise s) (spawnTypeOnClick s).

Definition with_time (s : State) (t : R) : State :=
  mkState (canvas s) (config s) (particles s) t (paused s) (spatialGrid s)
    (mouse s) (forceFields s) (showForceFields s) (noise s) (spawnTypeOnClick s).

Definition with_spatialGrid (s : State) (g : Grid) : State :=
  mkState (canvas s) (config s) (particles s) (time s) (paused s) g
    (mouse s) (forceFields s) (showForceFields s) (noise s) (spawnTypeOnClick s).

Definition with_mouse (s : State) (m : Mouse.t) : State :=
  mkState (canvas s) (config s) (particles s) (time s) (paused s) (spatialGrid s)
    m (forceFields s) (showForceFields s) (noise s) (spawnTypeOnClick s).

Definition with_forceFields (s : State) (l : list ForceField.t) : State :=
  mkState (canvas s) (config s) (particles s) (time s) (paused s) (spatialGrid s)
    (mouse s) l (showForceFields s) (noise s) (spawnTypeOnClick s).

Definition GRID_CELL_SIZE : R := 40.

Definition getSpatialKey (x y : R) : Z * Z :=
  (Zfloor (x / GRID_CELL_SIZE), Zfloor (y / GRID_CELL_SIZE)).

Definition keyEqb (a b : Z * Z) : bool :=
  (fst a =? fst b)%Z && (snd a =? snd b)%Z.

Fixpoint gridGet (g : Grid) (key : Z * Z) : option (list nat) :=
  match g with
  | [] => None
  | (k, l) :: g' => if keyEqb k key then Some l else gridGet g' key
  end.

(** [if (!grid[key]) grid[key] = []; grid[key].push (particle)] *)
Fixpoint gridPush (g : Grid) (key : Z * Z) (i : nat) : Grid :=
  match g with
  | [] => [(key, [i])]
  | (k, l) :: g' =>
      if keyEqb k key then (k, l ++ [i]) :: g' else (k, l) :: gridPush g' key i
  end.

Definition buildSpatialGrid (s : State) : State :=
  with_spatialGrid s
    (fold_left
       (fun g ip =>
          gridPush g (getSpatialKey (Particle.x (snd ip)) (Particle.y (snd ip)))
            (fst ip))
       (combine (seq 0 (List.length (particles s))) (particles s)) []).

(** The integers from [lo] to [hi], both included. *)
Definition zrange (lo hi : Z) : list Z :=
  map (fun k => (lo + Z.of_nat k)%Z) (seq 0 (Z.to_nat (hi - lo + 1))).

Definition getNearbyParticles (g : Grid) (x y radius : R) : list nat :=
  let cellRadius := Zceil (radius / GRID_CELL_SIZE) in
  let gx := Zfloor (x / GRID_CELL_SIZE) in
  let gy := Zfloor (y / GRID_CELL_SIZE) in
  flat_map
    (fun dx =>
       flat_map
         (fun dy =>
            match gridGet g (gx + dx, gy + dy)%Z with
            | Some l => l
            | None => []
            end)
         (zrange (- cellRadius) cellRadius))
    (zrange (- cellRadius) cellRadius).

(** [reset ()]: a fresh particle at a random place; draws in statement order. *)
Definition Particle_reset (c : Canvas.t) (cfg : Config.t) : M Particle.t :=
  rx <- Math_random ;;
  ry <- Math_random ;;
  let x := rx * Canvas.width c in
  let y := ry * Canvas.height c in
  rs <- Math_random ;;
  rc <- Math_random ;;
  rm <- Math_random ;;
  rh <- Math_random ;;
  let scheme := nth (Z.to_nat (Config.colorScheme cfg)) colorSchemes [] in
  ret (Particle.mk x y x y
         (Config.speed cfg * (0.5 + rs * 0.5))
         (Zfloor (rc * INR (List.length scheme)))
         0 (100 + rm * 200) 0 rh).

(** The noise value of the mode, at noise-space point [(nx, ny)]. *)
Definition noiseValOf (noise : NoiseGenerator.t) (noiseMode : Z) (nx ny : R) : R :=
  if (noiseMode =? 0)%Z then
    noise2D noise nx ny
  else if (noiseMode =? 1)%Z then
    noise2D noise nx ny * 0.5 +
    noise2D noise (nx * 2) (ny * 2) * 0.25 +
    noise2D noise (nx * 4) (ny * 4) * 0.125 +
    noise2D noise (nx * 8) (ny * 8) * 0.0625
  else if (noiseMode =? 2)%Z then
    let noiseVal := 1 - Rabs (noise2D noise nx ny) in
    let noiseVal := noiseVal * noiseVal in
    let noiseVal := noiseVal + (1 - Rabs (noise2D noise (nx * 2) (ny * 2))) * 0.5 in
    let noiseVal := noiseVal + (1 - Rabs (noise2D noise (nx * 4) (ny * 4))) * 0.25 in
    noiseVal * 0.7 - 0.5
  else if (noiseMode =? 3)%Z then
    let noiseVal :=
      Rabs (noise2D noise nx ny) * 0.5 +
      Rabs (noise2D noise (nx * 2) (ny * 2)) * 0.25 +
      Rabs (noise2D noise (nx * 4) (ny * 4)) * 0.125 in
    noiseVal * 2 - 0.5
  else if (noiseMode =? 4)%Z then
    let warpX := noise2D noise nx ny * 0.5 in
    let warpY := noise2D noise (nx + 5.2) (ny + 1.3) * 0.5 in
    let noiseVal := noise2D noise (nx + warpX) (ny + warpY) in
    noiseVal + noise2D noise ((nx + warpX) * 2) ((ny + warpY) * 2) * 0.5
  else 0.

Section ParticleUpdate.

Variable s : State.
Variable i : nat.                (* [this] is [particles[i]] *)
Variable this : Particle.t.

(** Flow direction from the noise field, by mode. *)
Definition flowMove : vec2 :=
  let cfg := config s in
  if negb (Config.noiseMode cfg =? 5)%Z then
    let nx := Particle.x this * Config.noiseScale cfg + time s * 0.0001 in
    let ny := Particle.y this * Config.noiseScale cfg + time s * 0.0001 in
    let noiseVal := noiseValOf (noise s) (Config.noiseMode cfg) nx ny in
    let angle := noiseVal * PI * 4 in
    (cos angle * Particle.speed this * Config.backgroundStrength cfg,
     sin angle * Particle.speed this * Config.backgroundStrength cfg)
  else (0, 0).

(** Brownian motion (random jitter). *)
Definition brownianMove (move : vec2) : M vec2 :=
  let bm := Config.brownianMotion (config s) in
  if bm >? 0 then
    r1 <- Math_random ;;
    r2 <- Math_random ;;
    ret (fst move + (r1 - 0.5) * bm, snd move + (r2 - 0.5) * bm)
  else ret move.

(** Force fields, each scaled by the configured strength. *)
Definition forceFieldMove (move : vec2) : vec2 :=
  fold_left
    (fun m field =>
       let force :=
         ForceField_getForce (noise s) (time s) field
           (Particle.x this) (Particle.y this) in
       (fst m + fst force * Config.forceFieldStrength (config s),
        snd m + snd force * Config.forceFieldStrength (config s)))
    (forceFields s) move.

Definition gravityMove (move : vec2) : vec2 :=
  if negb (Config.globalGravity (config s) =? 0)
  then (fst move, snd move + Config.globalGravity (config s))
  else move.

(** The accumulators of the neighbour loop. *)
Record Acc : Type := mkAcc {
  interactX : R; interactY : R;
  alignX : R; alignY : R;
  neighborCount : nat
}.

Definition neighbourStep (activeMode : string) (a : Acc) (j : nat) : Acc :=
  if (j =? i)%nat then a        (* other === this *)
  else
    match nth_error (particles s) j with
    | None => a
    | Some other =>
        let r := Config.interactionRadius (config s) in
        let dx := Particle.x other - Particle.x this in
        let dy := Particle.y other - Particle.y this in
        let distSq := dx * dx + dy * dy in
        let dist := sqrt distSq in
        if (dist >? 0) && (dist <? r) then
          let force := (r - dist) / r in
          let n := S (neighborCount a) in
          if String.eqb activeMode "attract" then
            mkAcc (interactX a + dx / dist * force) (interactY a + dy / dist * force)
              (alignX a) (alignY a) n
          else if String.eqb activeMode "repel" then
            mkAcc (interactX a - dx / dist * force * 2)
              (interactY a - dy / dist * force * 2) (alignX a) (alignY a) n
          else if String.eqb activeMode "align" then
            let otherVX := Particle.x other - Particle.prevX other in
            let otherVY := Particle.y other - Particle.prevY other in
            mkAcc (interactX a) (interactY a) (alignX a + otherVX)
              (alignY a + otherVY) n
          else mkAcc (interactX a) (interactY a) (alignX a) (alignY a) n
        else a
    end.

(** Particle interactions through the spatial grid. *)
Definition interactionMove (move : vec2) : vec2 :=
  let cfg := config s in
  if negb (String.eqb (Config.particleInteraction cfg) "none") then
    let nearby :=
      getNearbyParticles (spatialGrid s) (Particle.x this) (Particle.y this)
        (Config.interactionRadius cfg) in
    let activeMode :=
      if String.eqb (Config.particleInteraction cfg) "zones" then
        let zoneNoise :=
          noise2D (noise s) (Particle.x this * 0.005 + time s * 0.0002)
            (Particle.y this * 0.005) in
        if zoneNoise <? -0.3 then "attract"%string
        else if zoneNoise >? 0.3 then "repel"%string
        else "align"%string
      else Config.particleInteraction cfg in
    let a := fold_left (neighbourStep activeMode) nearby (mkAcc 0 0 0 0 0) in
    if (0 <? neighborCount a)%nat then
      if String.eqb activeMode "align" then
        let ax := alignX a / INR (neighborCount a) in
        let ay := alignY a / INR (neighborCount a) in
        let alignMag := sqrt (ax * ax + ay * ay) in
        if alignMag >? 0 then
          (fst move * 0.7
           + ax / alignMag * Particle.speed this * 0.3 * Config.interactionStrength cfg,
           snd move * 0.7
           + ay / alignMag * Particle.speed this * 0.3 * Config.interactionStrength cfg)
        else move
      else
        (fst move + interactX a * Config.interactionStrength cfg * 0.5,
         snd move + interactY a * Config.interactionStrength cfg * 0.5)
    else move
  else move.

(** Mouse interaction - different modes. *)
Definition mouseMove (move : vec2) : vec2 :=
  let m := mouse s in
  match Mouse.active m, Mouse.x m with
  | true, Some mx =>
      let dx := Particle.x this - mx in
      let dy := Particle.y this - orZero (Mouse.y m) in
      let dist := sqrt (dx * dx + dy * dy) in
      if (dist <? Mouse.radius m) && (dist >? 5) then
        let force := (Mouse.radius m - dist) / Mouse.radius m in
        let mouseAngle := Num.atan2 dy dx in
        let mode := Config.mouseMode (config s) in
        if String.eqb mode "vortex" then
          let swirlAngle := mouseAngle + PI / 2 in
          let newAngle := Num.atan2 (snd move) (fst move) in
          let blendedAngle :=
            newAngle * (1 - force * 0.8) + swirlAngle * force * 0.8 in
          let speed := sqrt (fst move * fst move + snd move * snd move) in
          (cos blendedAngle * speed * (1 + force),
           sin blendedAngle * speed * (1 + force))
        else if String.eqb mode "attract" then
          (fst move - dx / dist * force * 3, snd move - dy / dist * force * 3)
        else if String.eqb mode "repel" then
          (fst move + dx / dist * force * 3, snd move + dy / dist * force * 3)
        else move
      else move
  | _, _ => move
  end.

(** The displacement of this frame, after all contributions. *)
Definition totalMove : M vec2 :=
  move <- brownianMove flowMove ;;
  ret (mouseMove (interactionMove (gravityMove (forceFieldMove move)))).

(** [update ()] of the particle: the new [this]. *)
Definition Particle_update : M Particle.t :=
  move <- totalMove ;;
  let velocity := sqrt (fst move * fst move + snd move * snd move) in
  let x := Particle.x this + fst move in
  let y := Particle.y this + snd move in
  let life := Particle.life this + 1 in
  if (x <? 0) || (x >? Canvas.width (canvas s))
     || (y <? 0) || (y >? Canvas.height (canvas s))
     || (life >? Particle.maxLife this)
  then Particle_reset (canvas s) (config s)
  else
    ret (Particle.mk x y (Particle.x this) (Particle.y this)
           (Particle.speed this) (Particle.colorIndex this) life
           (Particle.maxLife this) velocity (Particle.hue this)).

End ParticleUpdate.

(** *** The frame loop and the page's handlers *)

Definition spawnForceField (type : option string) (s : State) : M State :=
  if (List.length (forceFields s) <? 15)%nat then      (* Max 15 force fields *)
    f <- ForceField_new (Canvas.width (canvas s)) (Canvas.height (canvas s))
           (Config.fieldDriftSpeed (config s)) type ;;
    ret (with_forceFields s (forceFields s ++ [f]))
  else ret s.

Definition clearForceFields (s : State) : State := with_forceFields s [].

(** [for (const particle of particles) { particle.update (); particle.draw (); }] *)
Definition updateParticles (s : State) : M State :=
  foldM
    (fun s i =>
       match nth_error (particles s) i with
       | Some this =>
           p <- Particle_update s i this ;;
           ret (with_particles s (setNth i p (particles s)))
       | None => ret s
       end)
    (seq 0 (List.length (particles s))) s.

(** [count] times: pick a random particle and reset it if [cond] holds. *)
Definition respawnLoop (count : nat) (cond : Particle.t -> bool) (s : State)
  : M State :=
  foldM
    (fun s _ =>
       r <- Math_random ;;
       let idx := Z.to_nat (Zfloor (r * INR (List.length (particles s)))) in
       match nth_error (particles s) idx with
       | Some p =>
           if cond p then
             q <- Particle_reset (canvas s) (config s) ;;
             ret (with_particles s (setNth idx q (particles s)))
           else ret s
       | None => ret s
       end)
    (seq 0 count) s.

Definition animate (s : State) : M State :=
  if paused s then ret s
  else
    let cfg := config s in
    let effectiveSpawnRate :=
      if (Config.noiseMode cfg =? 5)%Z
      then Config.spawnRate cfg * 3 else Config.spawnRate cfg in
    r <- Math_random ;;
    s <- (if (r <? effectiveSpawnRate) && (List.length (forceFields s) <? 15)%nat
          then spawnForceField None s else ret s) ;;
    (* Update force fields *)
    let live := filter (fun f => negb (ForceField_isDead f)) (forceFields s) in
    ffs <- mapM (fun f =>
                   let f := ForceField_update (canvas s) f in
                   _ <- ForceField_draw (showForceFields s) f ;; ret f)
             live ;;
    let s := with_forceFields s ffs in
    let s :=
      if negb (String.eqb (Config.particleInteraction cfg) "none")
      then buildSpatialGrid s else s in
    s <- updateParticles s ;;
    s <- (if (Config.noiseMode cfg =? 5)%Z then
            respawnLoop
              (Z.to_nat (Zfloor (INR (Config.particleCount cfg) * 0.002)))
              (fun p => Particle.life p >? 50) s
          else ret s) ;;
    s <- (if Config.respawnRate cfg >? 0 then
            respawnLoop
              (Z.to_nat (Zfloor (INR (Config.particleCount cfg)
                                 * Config.respawnRate cfg)))
              (fun _ => true) s
          else ret s) ;;
    ret (with_time s (time s + 1)).

(** [init ()] for a window of the given size. *)
Definition init (window : Canvas.t) (s : State) : M State :=
  ps <- mapM (fun _ => Particle_reset window (config s))
          (seq 0 (Config.particleCount (config s))) ;;
  ret (mkState window (config s) ps (time s) (paused s) (spatialGrid s)
         (mouse s) (forceFields s) (showForceFields s) (noise s)
         (spawnTypeOnClick s)).

Definition reset (window : Canvas.t) (s : State) : M State :=
  r <- Math_random ;;
  let g := NoiseGenerator_new (r * 10000) in
  init window
    (mkState (canvas s) (config s) (particles s) (time s) (paused s)
       (spatialGrid s) (mouse s) (forceFields s) (showForceFields s) g
       (spawnTypeOnClick s)).

Definition cycleColorScheme (s : State) : M State :=
  let cs :=
    (Z.rem (Config.colorScheme (config s) + 1) (Z.of_nat (List.length colorSchemes)))%Z in
  let cfg := config s in
  let cfg :=
    Config.mk (Config.particleCount cfg) (Config.noiseScale cfg) (Config.speed cfg)
      (Config.fadeAmount cfg) (Config.lineWidth cfg) cs (Config.noiseMode cfg)
      (Config.backgroundStrength cfg) (Config.forceFieldStrength cfg)
      (Config.brownianMotion cfg) (Config.spawnRate cfg) (Config.velocityColor cfg)
      (Config.trailLength cfg) (Config.mouseMode cfg) (Config.symmetry cfg)
      (Config.globalGravity cfg) (Config.particleInteraction cfg)
      (Config.interactionStrength cfg) (Config.interactionRadius cfg)
      (Config.fieldDriftSpeed cfg) (Config.respawnRate cfg) in
  let len := List.length (nth (Z.to_nat cs) colorSchemes []) in
  ps <- mapM (fun p =>
                r <- Math_random ;;
                ret (Particle.mk (Particle.x p) (Particle.y p) (Particle.prevX p)
                       (Particle.prevY p) (Particle.speed p)
                       (Zfloor (r * INR len)) (Particle.life p)
                       (Particle.maxLife p) (Particle.velocity p) (Particle.hue p)))
          (particles s) ;;
  ret (with_particles (with_config s cfg) ps).

(** Setters for the five properties that the keyboard adjusts. *)
Definition set_noiseMode (c : Config.t) (v : Z) : Config.t :=
  Config.mk (Config.particleCount c) (Config.noiseScale c) (Config.speed c)
    (Config.fadeAmount c) (Config.lineWidth c) (Config.colorScheme c) v
    (Config.backgroundStrength c) (Config.forceFieldStrength c)
    (Config.brownianMotion c) (Config.spawnRate c) (Config.velocityColor c)
    (Config.trailLength c) (Config.mouseMode c) (Config.symmetry c)
    (Config.globalGravity c) (Config.particleInteraction c)
    (Config.interactionStrength c) (Config.interactionRadius c)
    (Config.fieldDriftSpeed c) (Config.respawnRate c).

Definition set_backgroundStrength (c : Config.t) (v : R) : Config.t :=
  Config.mk (Config.particleCount c) (Config.noiseScale c) (Config.speed c)
    (Config.fadeAmount c) (Config.lineWidth c) (Config.colorScheme c)
    (Config.noiseMode c) v (Config.forceFieldStrength c)
    (Config.brownianMotion c) (Config.spawnRate c) (Config.velocityColor c)
    (Config.trailLength c) (Config.mouseMode c) (Config.symmetry c)
    (Config.globalGravity c) (Config.particleInteraction c)
    (Config.interactionStrength c) (Config.interactionRadius c)
    (Config.fieldDriftSpeed c) (Config.respawnRate c).

Definition set_forceFieldStrength (c : Config.t) (v : R) : Config.t :=
  Config.mk (Config.particleCount c) (Config.noiseScale c) (Config.speed c)
    (Config.fadeAmount c) (Config.lineWidth c) (Config.colorScheme c)
    (Config.noiseMode c) (Config.backgroundStrength c) v
    (Config.brownianMotion c) (Config.spawnRate c) (Config.velocityColor c)
    (Config.trailLength c) (Config.mouseMode c) (Config.symmetry c)
    (Config.globalGravity c) (Config.particleInteraction c)
    (Config.interactionStrength c) (Config.interactionRadius c)
    (Config.fieldDriftSpeed c) (Config.respawnRate c).

Definition set_brownianMotion (c : Config.t) (v : R) : Config.t :=
  Config.mk (Config.particleCount c) (Config.noiseScale c) (Config.speed c)
    (Config.fadeAmount c) (Config.lineWidth c) (Config.colorScheme c)
    (Config.noiseMode c) (Config.backgroundStrength c)
    (Config.forceFieldStrength c) v (Config.spawnRate c) (Config.velocityColor c)
    (Config.trailLength c) (Config.mouseMode c) (Config.symmetry c)
    (Config.globalGravity c) (Config.particleInteraction c)
    (Config.interactionStrength c) (Config.interactionRadius c)
    (Config.fieldDriftSpeed c) (Config.respawnRate c).

Definition set_spawnRate (c : Config.t) (v : R) : Config.t :=
  Config.mk (Config.particleCount c) (Config.noiseScale c) (Config.speed c)
    (Config.fadeAmount c) (Config.lineWidth c) (Config.colorScheme c)
    (Config.noiseMode c) (Config.backgroundStrength c)
    (Config.forceFieldStrength c) (Config.brownianMotion c) v
    (Config.velocityColor c) (Config.trailLength c) (Config.mouseMode c)
    (Config.symmetry c) (Config.globalGravity c) (Config.particleInteraction c)
    (Config.interactionStrength c) (Config.interactionRadius c)
    (Config.fieldDriftSpeed c) (Config.respawnRate c).

Definition set_particleInteraction (c : Config.t) (v : string) : Config.t :=
  Config.mk (Config.particleCount c) (Config.noiseScale c) (Config.speed c)
    (Config.fadeAmount c) (Config.lineWidth c) (Config.colorScheme c)
    (Config.noiseMode c) (Config.backgroundStrength c)
    (Config.forceFieldStrength c) (Config.brownianMotion c) (Config.spawnRate c)
    (Config.velocityColor c) (Config.trailLength c) (Config.mouseMode c)
    (Config.symmetry c) (Config.globalGravity c) v
    (Config.interactionStrength c) (Config.interactionRadius c)
    (Config.fieldDriftSpeed c) (Config.respawnRate c).

(** [modes[(modes.indexOf (m) + 1) % modes.length]]; [indexOf] gives -1 for a
    string that is not in the list, so that the next mode is the first. *)
Fixpoint indexOf (l : list string) (m : string) (k : Z) : Z :=
  match l with
  | [] => (-1)%Z
  | a :: l' => if String.eqb a m then k else indexOf l' m (k + 1)%Z
  end.

Definition nextOf (l : list string) (m : string) : string :=
  nth (Z.to_nat (Z.rem (indexOf l m 0 + 1) (Z.of_nat (List.length l)))) l ""%string.

(** The configuration after a key press: the cases of the [keydown] switch
    that write [config].  Every other key leaves it as it is ('c' only moves
    [colorScheme], see [cycleColorScheme]). *)
Definition keydownConfig (key : string) (c : Config.t) : Config.t :=
  if String.eqb key "i" then
    set_particleInteraction c
      (nextOf ["none"; "attract"; "repel"; "align"; "zones"]%string
         (Config.particleInteraction c))
  else if String.eqb key "n" then
    set_noiseMode c (Z.rem (Config.noiseMode c + 1) 6)
  else if String.eqb key "b" then
    set_brownianMotion c (if Config.brownianMotion c >? 0 then 0 else 1)
  else if String.eqb key "[" then
    set_backgroundStrength c (Rmax 0 (Config.backgroundStrength c - 0.2))
  else if String.eqb key "]" then
    set_backgroundStrength c (Rmin 2 (Config.backgroundStrength c + 0.2))
  else if String.eqb key "-" then
    set_forceFieldStrength c (Rmax 0.2 (Config.forceFieldStrength c - 0.2))
  else if String.eqb key "=" then
    set_forceFieldStrength c (Rmin 3 (Config.forceFieldStrength c + 0.2))
  else if String.eqb key "+" then
    set_spawnRate c (Rmin 0.05 (Config.spawnRate c + 0.005))
  else c.

(** The [keydown] listener; [window] is the size that [reset] would read. *)
Definition keydown (window : Canvas.t) (key : string) (s : State) : M State :=
  if String.eqb key " " then
    ret (mkState (canvas s) (config s) (particles s) (time s) (negb (paused s))
           (spatialGrid s) (mouse s) (forceFields s) (showForceFields s)
           (noise s) (spawnTypeOnClick s))
  else if String.eqb key "c" then cycleColorScheme s
  else if String.eqb key "r" then reset window s
  else if String.eqb key "1" then spawnForceField (Some "sink"%string) s
  else if String.eqb key "2" then spawnForceField (Some "source"%string) s
  else if String.eqb key "3" then spawnForceField (Some "vortex"%string) s
  else if String.eqb key "4" then spawnForceField (Some "gravity"%string) s
  else if String.eqb key "5" then spawnForceField (Some "shear"%string) s
  else if String.eqb key "6" then spawnForceField (Some "repulsor"%string) s
  else if String.eqb key "7" then spawnForceField (Some "turbulence"%string) s
  else if String.eqb key "8" then spawnForceField (Some "lane"%string) s
  else if String.eqb key "f" then
    ret (mkState (canvas s) (config s) (particles s) (time s) (paused s)
           (spatialGrid s) (mouse s) (forceFields s) (negb (showForceFields s))
           (noise s) (spawnTypeOnClick s))
  else if String.eqb key "x" then ret (clearForceFields s)
  else ret (with_config s (keydownConfig key (config s))).

(** Click to spawn a force field at the mouse position: at most 10 this way. *)
Definition click (clientX clientY : R) (s : State) : M State :=
  let type :=
    if String.eqb (spawnTypeOnClick s) "random" then None
    else Some (spawnTypeOnClick s) in
  field <- ForceField_new (Canvas.width (canvas s)) (Canvas.height (canvas s))
             (Config.fieldDriftSpeed (config s)) type ;;
  let field :=
    ForceField.mk clientX clientY (ForceField.vx field) (ForceField.vy field)
      (ForceField.type field) (ForceField.strength field) (ForceField.radius field)
      (ForceField.rotation field) (ForceField.life field) (ForceField.maxLife field)
      (ForceField.pulsePhase field) (ForceField.shearAngle field)
      (ForceField.laneAngle field) (ForceField.turbulenceSeed field) in
  if (List.length (forceFields s) <? 10)%nat
  then ret (with_forceFields s (forceFields s ++ [field]))
  else ret s.

Inductive Event : Type :=
| KeyDown (window : Canvas.t) (key : string)
| MouseMove (clientX clientY : R)
| MouseLeave
| MouseEnter
| Click (clientX clientY : R)
| ContextMenu
| SpawnForceField (type : option string)
| Resize (window : Canvas.t)
| Frame.

Definition handle (e : Event) (s : State) : M State :=
  match e with
  | KeyDown window key => keydown window key s
  | MouseMove cx cy =>
      ret (with_mouse s (Mouse.mk (Some cx) (Some cy) (Mouse.radius (mouse s)) true))
  | MouseLeave =>
      ret (with_mouse s
             (Mouse.mk (Mouse.x (mouse s)) (Mouse.y (mouse s))
                (Mouse.radius (mouse s)) false))
  | MouseEnter =>
      ret (with_mouse s
             (Mouse.mk (Mouse.x (mouse s)) (Mouse.y (mouse s))
                (Mouse.radius (mouse s)) true))
  | Click cx cy => click cx cy s
  | ContextMenu =>
      ret (mkState (canvas s) (config s) (particles s) (time s) (paused s)
             (spatialGrid s) (mouse s) (forceFields s) (showForceFields s)
             (noise s)
             (nextOf ["random"; "sink"; "source"; "vortex"; "gravity"]%string
                (spawnTypeOnClick s)))
  | SpawnForceField type => spawnForceField type s
  | Resize window => init window s
  | Frame => animate s
  end.

Fixpoint run (es : list Event) (s : State) : M State :=
  match es with
  | [] => ret s
  | e :: es' => s' <- handle e s ;; run es' s'
  end.

(** The page as loaded: [init (); animate ();] start from these globals. *)
Definition start (window : Canvas.t) : M State :=
  r <- Math_random ;;
  init window
    (mkState window initialConfig [] 0 false [] (Mouse.mk None None 150 false) []
       true (NoiseGenerator_new (r * 10000)) "random").

(** *** What the page draws *)

(** [a[k]] for an integer [k]: [None] is [undefined]. *)
Definition index {A} (l : list A) (k : Z) : option A :=
  if (k <? 0)%Z then None else nth_error l (Z.to_nat k).

(** The opacity that [draw ()] of a force field sets when fields are shown. *)
Definition ForceField_drawAlpha (f : ForceField.t) : R :=
  Rmin 1 (Rmin (ForceField.life f / 100)
            ((ForceField.maxLife f - ForceField.life f) / 100)) * 0.15.

Inductive Style : Type :=
| Hsl (hue saturation lightness : R)
| Hex (colour : string).

Module Stroke.
Record t : Type := mk {
  strokeStyle : option Style;     (* [None]: the scheme has no such colour *)
  globalAlpha : R;
  lineWidth : R;
  moveTo : vec2;
  lineTo : vec2
}.
End Stroke.

(** [draw ()] of a particle: the one segment it strokes.  [None] stands for
    the TypeError of reading [colors.length] when [colorSchemes] has no entry
    for the configured scheme. *)
Definition Particle_draw (cfg : Config.t) (p : Particle.t) : option Stroke.t :=
  let color :=
    if Config.velocityColor cfg then
      let hue := Particle.velocity p / 8 * 360 in
      let saturation := 80 in
      let lightness := 50 + Rmin (Particle.velocity p * 5) 30 in
      Some (Some (Hsl hue saturation lightness))
    else
      match index colorSchemes (Config.colorScheme cfg) with
      | Some colors =>
          Some (option_map Hex
                  (index colors
                     (Z.rem (Particle.colorIndex p) (Z.of_nat (List.length colors)))))
      | None => None
      end in
  match color with
  | None => None
  | Some color =>
      let lifeRatio := Particle.life p / Particle.maxLife p in
      let alpha := 1 - lifeRatio * lifeRatio in
      let fadeInSpeed := 10 / Config.trailLength cfg in
      let alpha :=
        if Particle.life p <? fadeInSpeed
        then alpha * (Particle.life p / fadeInSpeed) else alpha in
      Some (Stroke.mk color (alpha * 0.7) (Config.lineWidth cfg)
              (Particle.prevX p, Particle.prevY p) (Particle.x p, Particle.y p))
  end.

End CPU.

(* ================================================================== *)
(** ** The pointer blocks with every division checked *)
(* ================================================================== *)

Module Checked.

(** Division that fails on a zero divisor. *)
Definition div (a b : R) : option R :=
  if b =? 0 then None else Some (a / b).

Definition bind {A B} (m : option A) (f : A -> option B) : option B :=
  match m with Some a => f a | None => None end.

(** The mouse block of the shader's [main], every division checked:
    the falloff divides by the radius, [normalize] and the tangent divide by
    the pointer distance. *)
Definition mouseForceOf (u : GPU.Uniforms) (pos : vec2) : option vec2 :=
  let '(mx, my, mz) := GPU.u_mouse u in
  let mouseDiff := V2.sub pos (mx, my) in
  let mouseDist := V2.length mouseDiff in
  if (mouseDist <? mz) && (mouseDist >? 5) then
    bind (div (mz - mouseDist) mz) (fun q =>
    let force := q * GPU.u_mouseStrength u in
    bind (div (fst mouseDiff) mouseDist) (fun nx =>
    bind (div (snd mouseDiff) mouseDist) (fun ny =>
    let mouseDir := (nx, ny) in
    if (GPU.u_mouseMode u =? 0)%Z then
      bind (div (- snd mouseDiff) mouseDist) (fun px =>
      bind (div (fst mouseDiff) mouseDist) (fun py =>
      Some (V2.scale (V2.scale (V2.scale (px, py) (GPU.u_speed u)) 2) force)))
    else if (GPU.u_mouseMode u =? 1)%Z then
      Some (V2.scale (V2.scale (V2.neg mouseDir) force) 3)
    else
      Some (V2.scale (V2.scale mouseDir force) 3))))
  else Some V2.zero.

(** The mouse block of [Particle.update], every division checked. *)
Definition mouseMove (s : CPU.State) (this : CPU.Particle.t) (move : vec2)
  : option vec2 :=
  let m := CPU.mouse s in
  match CPU.Mouse.active m, CPU.Mouse.x m with
  | true, Some mx =>
      let dx := CPU.Particle.x this - mx in
      let dy := CPU.Particle.y this - CPU.orZero (CPU.Mouse.y m) in
      let dist := sqrt (dx * dx + dy * dy) in
      if (dist <? CPU.Mouse.radius m) && (dist >? 5) then
        bind (div (CPU.Mouse.radius m - dist) (CPU.Mouse.radius m)) (fun force =>
        let mouseAngle := Num.atan2 dy dx in
        let mode := CPU.Config.mouseMode (CPU.config s) in
        if String.eqb mode "vortex" then
          let swirlAngle := mouseAngle + PI / 2 in
          let newAngle := Num.atan2 (snd move) (fst move) in
          let blendedAngle :=
            newAngle * (1 - force * 0.8) + swirlAngle * force * 0.8 in
          let speed := sqrt (fst move * fst move + snd move * snd move) in
          Some (cos blendedAngle * speed * (1 + force),
                sin blendedAngle * speed * (1 + force))
        else if String.eqb mode "attract" then
          bind (div dx dist) (fun ux =>
          bind (div dy dist) (fun uy =>
          Some (fst move - ux * force * 3, snd move - uy * force * 3)))
        else if String.eqb mode "repel" then
          bind (div dx dist) (fun ux =>
          bind (div dy dist) (fun uy =>
          Some (fst move + ux * force * 3, snd move + uy * force * 3)))
        else Some move)
      else Some move
  | _, _ => Some move
  end.

(** [noise2D] with every table read checked: [None] when a read of [perm] or
    of [gradP] falls outside the table. *)
Definition noise2D (g : CPU.NoiseGenerator.t) (x y : R) : option R :=
  let perm := CPU.index (CPU.NoiseGenerator.perm g) in
  let gradP := CPU.index (CPU.NoiseGenerator.gradP g) in
  let F2 := 0.5 * (sqrt 3 - 1) in
  let G2 := (3 - sqrt 3) / 6 in
  let s := (x + y) * F2 in
  let i := Zfloor (x + s) in
  let j := Zfloor (y + s) in
  let t := IZR (i + j) * G2 in
  let X0 := IZR i - t in
  let Y0 := IZR j - t in
  let x0 := x - X0 in
  let y0 := y - Y0 in
  let '(i1, j1) := if x0 >? y0 then (1, 0)%Z else (0, 1)%Z in
  let x1 := x0 - IZR i1 + G2 in
  let y1 := y0 - IZR j1 + G2 in
  let x2 := x0 - 1 + 2 * G2 in
  let y2 := y0 - 1 + 2 * G2 in
  let i := Z.land i 255 in
  let j := Z.land j 255 in
  bind (perm j) (fun pj =>
  bind (gradP (i + pj)%Z) (fun gi0 =>
  bind (perm (j + j1)%Z) (fun pj1 =>
  bind (gradP (i + i1 + pj1)%Z) (fun gi1 =>
  bind (perm (j + 1)%Z) (fun pj2 =>
  bind (gradP (i + 1 + pj2)%Z) (fun gi2 =>
  let corner gi cx cy :=
    let t := 0.5 - cx * cx - cy * cy in
    if t <? 0 then 0
    else let t := t * t in t * t * CPU.dot gi cx cy in
  let n0 := corner gi0 x0 y0 in
  let n1 := corner gi1 x1 y1 in
  let n2 := corner gi2 x2 y2 in
  Some (70 * (n0 + n1 + n2)))))))).

End Checked.

(* ================================================================== *)
(** ** Postconditions of code that draws from [Math.random] *)
(* ================================================================== *)

Module RngProps.

Import Rng.

(** [post m Q]: whatever [Math.random] returns, in [[0, 1)], and however many
    draws were made before, the result of [m] satisfies [Q]. *)
Definition post {A} (m : M A) (Q : A -> Prop) : Prop :=
  forall (o : Oracle) (k : nat), unit_range o -> Q (fst (m o k)).

End RngProps.

(* ================================================================== *)
(** ** Properties of the WebGL instance *)
(* ================================================================== *)

Module GpuProps.

Import Rng GPU.

(** The force of one field at [pos], from the field's record rather than
    the uniform slots: nothing outside [[5, radius]], otherwise the per-type
    law scaled by the distance falloff and the life over 500, as
    [getForceFieldUniforms] and the loop body have it. *)
Definition fieldForce (time : R) (f : ForceField.t) (pos : vec2) : vec2 :=
  let diff := V2.sub pos (ForceField.x f, ForceField.y f) in
  let dist := V2.length diff in
  if (dist >? ForceField.radius f) || (dist <? 5) then V2.zero
  else
    let s := ForceField.strength f / 100 * (1 - dist / ForceField.radius f)
             * (ForceField.life f / 500) in
    let d := V2.normalize diff in
    let perp := V2.divs (- snd diff, fst diff) dist in
    if (ForceField.type f <=? 0)%Z then V2.neg (V2.scale d s)
    else if (ForceField.type f =? 1)%Z then V2.scale d s
    else if (ForceField.type f =? 2)%Z then
      V2.scale (V2.scale perp s) (ForceField.rotation f)
    else if (ForceField.type f =? 3)%Z then
      V2.add (V2.neg (V2.scale (V2.scale d s) 2)) (V2.scale (V2.scale perp s) 0.3)
    else
      let angle := snoise (V2.adds (V2.scale pos 0.1) (time * 0.01)) * 6.28318 in
      V2.scale (V2.scale (cos angle, sin angle) s) 2.

(** The sum of the forces of a list of fields. *)
Definition sumForces (time : R) (fs : list ForceField.t) (pos : vec2) : vec2 :=
  fold_left (fun total f => V2.add total (fieldForce time f pos)) fs V2.zero.

(** The uniforms of a scene in which only the background flow, the mouse and
    the stored velocity move a particle. *)
Record quiet (u : Uniforms) : Prop := mkQuiet {
  q_fields : u_forceFieldCount u = 0%Z;
  q_charge : u_chargeInteraction u = 0;
  q_gravity : u_gravityInteraction u = 0;
  q_brownian : u_brownianMotion u = 0;
  q_globalGravity : u_globalGravity u = 0;
  q_swirl : u_globalSwirl u = 0;
  q_zones : u_zonesEnabled u = false;
  q_respawn : u_respawnRate u = 0
}.

(** Everything of the state but the list of force fields. *)
Definition frame (s s' : State) : Prop :=
  canvas s' = canvas s /\ config s' = config s
  /\ maxForceFields s' = maxForceFields s
  /\ enabledForceTypes s' = enabledForceTypes s
  /\ mouse s' = mouse s /\ paused s' = paused s
  /\ textureSize s' = textureSize s
  /\ particleTextures s' = particleTextures s
  /\ currentTexture s' = currentTexture s.

(** The list that [addForceField] pushes onto: the oldest entry is gone when
    the set was full. *)
Definition afterEviction (s : State) : list ForceField.t :=
  if (maxForceFields s <=? List.length (forceFields s))%nat
  then tl (forceFields s) else forceFields s.

(** Does a request of this type find a type to spawn? *)
Definition resolves (type : Z) (s : State) : bool :=
  negb (type <? 0)%Z
  || negb (List.length
             (filter (fun i => nth i (enabledForceTypes s) false) (seq 0 5))
           =? 0)%nat.

(** The capacity invariant of the instance. *)
Definition within_cap (s : State) : Prop :=
  maxForceFields s = 40%nat /\ (List.length (forceFields s) <= 40)%nat.

(** The state after [update], from the state after [updateForceFields]. *)
Definition afterPass (s1 : State) : State :=
  let readTex := texAt (particleTextures s1) (currentTexture s1) in
  let written :=
    physicsPass (physicsUniforms s1) (Sampler.mk (textureSize s1) readTex) in
  let s2 :=
    with_particles s1
      (setTexAt (particleTextures s1) (1 - currentTexture s1) written)
      (1 - currentTexture s1) in
  with_config s2 (set (config s2) "time" (VNum (num (config s2) "time" + 1))).

(** The states of an instance: what the constructor builds and what the
    events make of it. *)
Inductive Reachable : State -> Prop :=
| reach_new (c : Canvas.t) (initialConfig : Obj) (o : Oracle) (k : nat) :
    Reachable (fst (constructor c initialConfig o k))
| reach_event (s : State) (e : Event) (o : Oracle) (k : nat) :
    Reachable s -> Reachable (fst (handle e s o k)).

(** The index of the current buffer is 0 or 1. *)
Definition one_current (s : State) : Prop :=
  currentTexture s = 0%nat \/ currentTexture s = 1%nat.

(** The state with other data in the buffer that is not current. *)
Definition withOtherBuffer (s : State) (d : list vec4) : State :=
  with_particles s
    (setTexAt (particleTextures s) (1 - currentTexture s) d)
    (currentTexture s).

(** No method of the class writes [enabledForceTypes]: the five types stay
    enabled, and every request finds a type. *)
Definition allEnabled (s : State) : Prop :=
  enabledForceTypes s = [true; true; true; true; true].

(** Is [key] a property of the object? *)
Definition has (o : Obj) (key : string) : bool :=
  existsb (fun kv => String.eqb (fst kv) key) o.

(** What holds of every force field that [addForceField] made, at any age. *)
Record fieldShape (f : ForceField.t) : Prop := mkFieldShape {
  fs_strength : 50 <= ForceField.strength f < 150;
  fs_rotation : ForceField.rotation f = 1 \/ ForceField.rotation f = -1;
  fs_drift : Rabs (ForceField.vx f) <= 0.25 /\ Rabs (ForceField.vy f) <= 0.25
}.

(** The invariant of an instance. *)
Record GpuInv (s : State) : Prop := mkGpuInv {
  gi_max : maxForceFields s = 40%nat;
  gi_enabled : allEnabled s;
  gi_current : one_current s;
  gi_cap : (List.length (forceFields s) <= 40)%nat;
  gi_fields : Forall fieldShape (forceFields s);
  gi_textures :
    List.length (fst (particleTextures s)) = (textureSize s * textureSize s)%nat
    /\ List.length (snd (particleTextures s)) = (textureSize s * textureSize s)%nat;
  gi_mouse :
    Mouse.radius (mouse s) = 150 /\ Mouse.strength (mouse s) = 1
    /\ Mouse.mode (mouse s) = 0%Z;
  gi_paused : paused s = false;
  gi_keys : NoDup (map fst (config s));
  gi_defaults : forall key, has defaultConfig key = true -> has (config s) key = true
}.

(** The fields that survive a step: those with more than one frame left. *)
Definition survivors (l : list ForceField.t) : list ForceField.t :=
  filter (fun f => ForceField.life f >? 1) l.

(** A particle as [initializeParticles] writes it at random: on the canvas,
    each velocity component in [[-1, 1)]. *)
Definition seeded (c : Canvas.t) (p : vec4) : Prop :=
  let '(x, y, vx, vy) := p in
  0 <= x <= Canvas.width c /\ 0 <= y <= Canvas.height c
  /\ -1 <= vx < 1 /\ -1 <= vy < 1.

(** A particle of the uniform grid: strictly inside the canvas, at rest. *)
Definition gridded (c : Canvas.t) (p : vec4) : Prop :=
  let '(x, y, vx, vy) := p in
  0 < x < Canvas.width c /\ 0 < y < Canvas.height c /\ vx = 0 /\ vy = 0.



End GpuProps.

(* ================================================================== *)
(** ** Properties of the canvas page *)
(* ================================================================== *)

Module CpuProps.

Import Rng CPU.

(** Every particle that the grid knows is particle [i] itself. *)
Definition alone (s : State) (i : nat) : Prop :=
  forall (key : Z * Z) (l : list nat) (j : nat),
    gridGet (spatialGrid s) key = Some l -> In j l -> j = i.

(** No Brownian motion, no force field, no gravity, no neighbour and no
    active pointer. *)
Record calm (s : State) (i : nat) : Prop := mkCalm {
  c_brownian : Config.brownianMotion (config s) <= 0;
  c_fields : forceFields s = [];
  c_gravity : Config.globalGravity (config s) = 0;
  c_alone : Config.particleInteraction (config s) = "none"%string \/ alone s i;
  c_mouse : Mouse.active (mouse s) = false \/ Mouse.x (mouse s) = None
}.

(** What the [ForceField] constructor guarantees of a field. *)
Definition wellFormed (f : ForceField.t) : Prop :=
  In (ForceField.type f) allTypes
  /\ 0 < ForceField.strength f
  /\ 100 <= ForceField.maxLife f
  /\ (ForceField.type f = "vortex"%string ->
      ForceField.rotation f = 1 \/ ForceField.rotation f = -1).

(** What the particle loops leave alone. *)
Definition stable (s s' : State) : Prop :=
  config s' = config s /\ forceFields s' = forceFields s /\ canvas s' = canvas s.

(** The documented ranges of the two strength multipliers. *)
Definition in_range (c : Config.t) : Prop :=
  0 <= Config.backgroundStrength c <= 2
  /\ 0.2 <= Config.forceFieldStrength c <= 3.

(** The capacity invariant of the page. *)
Definition within_cap (s : State) : Prop :=
  (List.length (forceFields s) <= 15)%nat.

(** The indices, among the pairs of [l], of the particles whose cell is [key]. *)
Definition members (l : list (nat * Particle.t)) (key : Z * Z) : list nat :=
  map fst
    (filter
       (fun ip =>
          keyEqb (getSpatialKey (Particle.x (snd ip)) (Particle.y (snd ip))) key)
       l).

(** The loop of [buildSpatialGrid], from any grid. *)
Definition pushAll (g : Grid) (l : list (nat * Particle.t)) : Grid :=
  fold_left
    (fun g ip =>
       gridPush g (getSpatialKey (Particle.x (snd ip)) (Particle.y (snd ip)))
         (fst ip))
    l g.

(** A [Uint8Array] of 256 entries. *)
Definition bytes (p : list Z) : Prop :=
  List.length p = 256%nat /\ Forall (fun v => (0 <= v <= 255)%Z) p.

(** The two tables as the constructor fills them: 512 entries each, the
    permutation entries bytes, the gradients taken from [grad3]. *)
Definition tables (g : NoiseGenerator.t) : Prop :=
  List.length (NoiseGenerator.perm g) = 512%nat
  /\ List.length (NoiseGenerator.gradP g) = 512%nat
  /\ Forall (fun v => (0 <= v <= 255)%Z) (NoiseGenerator.perm g)
  /\ Forall (fun v => In v grad3) (NoiseGenerator.gradP g).

(** What holds of a force field from its construction to its removal. *)
Record fieldOk (f : ForceField.t) : Prop := mkFieldOk {
  fo_type : In (ForceField.type f) allTypes;
  fo_strength : 50 <= ForceField.strength f < 150;
  fo_radius : 80 <= ForceField.radius f < 200;
  fo_maxLife : 500 <= ForceField.maxLife f < 1500;
  fo_life : -1 < ForceField.life f <= ForceField.maxLife f;
  fo_rotation :
    if String.eqb (ForceField.type f) "vortex"
    then ForceField.rotation f = 1 \/ ForceField.rotation f = -1
    else ForceField.rotation f = 0;
  fo_drift : Rabs (ForceField.vx f) <= 0.5 /\ Rabs (ForceField.vy f) <= 0.5;
  fo_phase : 0 <= ForceField.pulsePhase f;
  fo_angles :
    0 <= ForceField.shearAngle f < 2 * PI
    /\ 0 <= ForceField.laneAngle f < 2 * PI
    /\ 0 <= ForceField.turbulenceSeed f < 1000
}.

(** What holds of a particle of the page on a canvas [c]. *)
Record particleOk (c : Canvas.t) (p : Particle.t) : Prop := mkParticleOk {
  po_x : 0 <= Particle.x p <= Canvas.width c;
  po_y : 0 <= Particle.y p <= Canvas.height c;
  po_prevX : 0 <= Particle.prevX p <= Canvas.width c;
  po_prevY : 0 <= Particle.prevY p <= Canvas.height c;
  po_speed : 1 <= Particle.speed p < 2;
  po_colorIndex : (0 <= Particle.colorIndex p < 4)%Z;
  po_life : 0 <= Particle.life p <= Particle.maxLife p;
  po_maxLife : 100 <= Particle.maxLife p < 300;
  po_velocity : 0 <= Particle.velocity p;
  po_hue : 0 <= Particle.hue p < 1
}.

(** The configuration as the page's own controls can make it: the keyboard
    moves seven settings within their ranges, the others keep their initial
    values. *)
Record configOk (c : Config.t) : Prop := mkConfigOk {
  co_particleCount : Config.particleCount c = 5000%nat;
  co_noiseScale : Config.noiseScale c = 0.003;
  co_speed : Config.speed c = 2;
  co_fadeAmount : Config.fadeAmount c = 0.03;
  co_lineWidth : Config.lineWidth c = 0.5;
  co_colorScheme : (0 <= Config.colorScheme c < 8)%Z;
  co_noiseMode : (0 <= Config.noiseMode c < 6)%Z;
  co_strengths : in_range c;
  co_brownianMotion : Config.brownianMotion c = 0 \/ Config.brownianMotion c = 1;
  co_spawnRate : 0.008 <= Config.spawnRate c <= 0.05;
  co_velocityColor : Config.velocityColor c = false;
  co_trailLength : Config.trailLength c = 1;
  co_mouseMode : Config.mouseMode c = "vortex"%string;
  co_symmetry : Config.symmetry c = 1;
  co_globalGravity : Config.globalGravity c = 0;
  co_particleInteraction :
    In (Config.particleInteraction c)
      ["none"; "attract"; "repel"; "align"; "zones"]%string;
  co_interactionStrength : Config.interactionStrength c = 1;
  co_interactionRadius : Config.interactionRadius c = 50;
  co_fieldDriftSpeed : Config.fieldDriftSpeed c = 0.5;
  co_respawnRate : Config.respawnRate c = 0.005
}.

(** Events as the page can receive them: the window has a size, and a typed
    spawn names one of the types. *)
Definition okEvent (e : Event) : Prop :=
  match e with
  | KeyDown window _ | Resize window =>
      0 <= Canvas.width window /\ 0 <= Canvas.height window
  | SpawnForceField (Some t) => In t allTypes
  | _ => True
  end.

(** The invariant of the page. *)
Record PageInv (s : State) : Prop := mkPageInv {
  pi_config : configOk (config s);
  pi_canvas : 0 <= Canvas.width (canvas s) /\ 0 <= Canvas.height (canvas s);
  pi_count : List.length (particles s) = 5000%nat;
  pi_particles : Forall (particleOk (canvas s)) (particles s);
  pi_fields : Forall fieldOk (forceFields s);
  pi_cap : (List.length (forceFields s) <= 15)%nat;
  pi_spawnType :
    In (spawnTypeOnClick s) ["random"; "sink"; "source"; "vortex"; "gravity"]%string;
  pi_mouse : Mouse.radius (mouse s) = 150;
  pi_noise : tables (noise s);
  pi_time : 0 <= time s
}.

(** What a frame leaves alone; [d] is what it adds to the time. *)
Definition frameOf (d : R) (s s' : State) : Prop :=
  config s' = config s /\ canvas s' = canvas s /\ mouse s' = mouse s
  /\ noise s' = noise s /\ paused s' = paused s
  /\ showForceFields s' = showForceFields s
  /\ spawnTypeOnClick s' = spawnTypeOnClick s
  /\ List.length (particles s') = List.length (particles s)
  /\ time s' = time s + d.

(** Every field of the list lies on the canvas. *)
Definition fieldsInside (c : Canvas.t) (l : list ForceField.t) : Prop :=
  Forall
    (fun f =>
       0 <= ForceField.x f <= Canvas.width c
       /\ 0 <= ForceField.y f <= Canvas.height c)
    l.


End CpuProps.

(* ================================================================== *)
(** ** Example scenes *)
(* ================================================================== *)

Module Examples.

(** A WebGL scene of 800 x 600 with no force field, no interaction, no
    Brownian motion, no respawn and the pointer parked. *)
Definition uniforms (noiseMode : Z) (friction : R) : GPU.Uniforms :=
  GPU.mkUniforms 0 (800, 600) 0.003 1 noiseMode 1 1 0 0 0 (-1000, -1000, 150)
    1 0 (repeat 0 320) 0 0 false 1 0 0.5 0 friction 1.

(** A texture of one texel, and the coordinate of its centre. *)
Definition one (p : vec4) : GPU.Sampler.t := GPU.Sampler.mk 1 [p].
Definition centre : vec2 := GPU.texCoordOf 1 0.

(** A [FlowFieldsGL] instance with one particle at (100, 100). *)
Definition instance : GPU.State :=
  GPU.mkState (GPU.Canvas.mk 800 600) GPU.defaultConfig [] 40
    [true; true; true; true; true] (GPU.Mouse.mk (-1000) (-1000) 150 1 0)
    false (0, 0) 1 ([(100, 100, 0, 0)], [(100, 100, 0, 0)]) 0.

(** Draws that are all 1/4, all 1/2 or all 3/4. *)
Definition quarter : Rng.Oracle := fun _ => 0.25.
Definition half : Rng.Oracle := fun _ => 0.5.
Definition threeQuarters : Rng.Oracle := fun _ => 0.75.

(** The canvas page with one particle, of the given age, at (100, 100). *)
Definition particle (life maxLife : R) : CPU.Particle.t :=
  CPU.Particle.mk 100 100 100 100 2 0 life maxLife 0 0.

Definition page (cfg : CPU.Config.t) (p : CPU.Particle.t) : CPU.State :=
  CPU.mkState (CPU.Canvas.mk 800 600) cfg [p] 0 false []
    (CPU.Mouse.mk None None 150 false) [] true (CPU.NoiseGenerator_new 42)
    "random".

(** The page's configuration with the noise mode, the Brownian amplitude, the
    respawn rate and the interaction mode chosen. *)
Definition configOf (noiseMode : Z) (interaction : string) : CPU.Config.t :=
  CPU.Config.mk 1 0.003 2 0.03 0.5 0 noiseMode 1 1 0 0.008 false 1 "vortex" 1 0
    interaction 1 50 0.5 0.

(** A state with [n] weak fields far from the probe point (550, 500), then one
    sink of radius 200 at (500, 500), which has the probe in range. *)
Definition farField : GPU.ForceField.t :=
  GPU.ForceField.mk 0 0 0 100 50 1 500 0 0.
Definition nearSink : GPU.ForceField.t :=
  GPU.ForceField.mk 500 500 0 100 200 1 500 0 0.
Definition crowded (n : nat) : GPU.State :=
  GPU.mkState (GPU.Canvas.mk 800 600) GPU.defaultConfig
    (repeat farField n ++ [nearSink]) 40
    [true; true; true; true; true] (GPU.Mouse.mk (-1000) (-1000) 150 1 0) false
    (0, 0) 1 ([(100, 100, 0, 0)], [(100, 100, 0, 0)]) 0.

End Examples.

(* ================================================================== *)
(** ** Facts about numbers and vectors *)
(* ================================================================== *)

Module NumFacts.

Lemma ltb_spec (x y : R) : reflect (x < y) (x <? y).
Proof. unfold Num.ltb. destruct (Rlt_dec x y); constructor; assumption. Qed.

Lemma leb_spec (x y : R) : reflect (x <= y) (x <=? y).
Proof. unfold Num.leb. destruct (Rle_dec x y); constructor; assumption. Qed.

Lemma eqb_spec (x y : R) : reflect (x = y) (x =? y).
Proof. unfold Num.eqb. destruct (Req_dec_T x y); constructor; assumption. Qed.

Lemma ltb_true (x y : R) : x < y -> (x <? y) = true.
Proof. intro H. destruct (ltb_spec x y); [reflexivity | contradiction]. Qed.

Lemma ltb_false (x y : R) : y <= x -> (x <? y) = false.
Proof. intro H. destruct (ltb_spec x y); [lra | reflexivity]. Qed.

Lemma leb_true (x y : R) : x <= y -> (x <=? y) = true.
Proof. intro H. destruct (leb_spec x y); [reflexivity | contradiction]. Qed.

Lemma leb_false (x y : R) : y < x -> (x <=? y) = false.
Proof. intro H. destruct (leb_spec x y); [lra | reflexivity]. Qed.

Lemma eqb_refl (x : R) : (x =? x) = true.
Proof. destruct (eqb_spec x x); [reflexivity | contradiction]. Qed.

Lemma floor_bound (x : R) : Num.floor x <= x < Num.floor x + 1.
Proof. unfold Num.floor. apply Zfloor_bound. Qed.

Lemma fract_range (x : R) : 0 <= Num.fract x < 1.
Proof. unfold Num.fract. pose proof (floor_bound x). lra. Qed.

(** A square root from below and from above, without computing it. *)
Lemma sqrt_lower (a b : R) : 0 <= a -> a * a <= b -> a <= sqrt b.
Proof.
  intros Ha Hab. rewrite <- (sqrt_square a Ha).
  apply sqrt_le_1; nra.
Qed.

Lemma sqrt_lower_strict (a b : R) : 0 <= a -> a * a < b -> a < sqrt b.
Proof.
  intros Ha Hab. rewrite <- (sqrt_square a Ha).
  apply sqrt_lt_1; nra.
Qed.

Lemma sqrt_upper (a b : R) : 0 <= a -> 0 <= b -> b <= a * a -> sqrt b <= a.
Proof.
  intros Ha Hb Hab. rewrite <- (sqrt_square a Ha).
  apply sqrt_le_1; nra.
Qed.

Lemma sqrt_sq (b : R) : 0 <= b -> sqrt b * sqrt b = b.
Proof. intro Hb. apply sqrt_sqrt. assumption. Qed.

Lemma length_nonneg (v : vec2) : 0 <= V2.length v.
Proof. unfold V2.length. apply sqrt_pos. Qed.

Lemma length_sq (v : vec2) :
  V2.length v * V2.length v = fst v * fst v + snd v * snd v.
Proof. unfold V2.length. apply sqrt_sqrt. nra. Qed.

(** A horizontal offset: the length is the absolute offset. *)
Lemma length_horizontal (a : R) : 0 <= a -> V2.length (a, 0) = a.
Proof.
  intro Ha. unfold V2.length. simpl.
  replace (a * a + 0 * 0) with (a * a) by ring. apply sqrt_square. assumption.
Qed.

Lemma cos_sin_sq (t : R) : cos t * cos t + sin t * sin t = 1.
Proof. pose proof (sin2_cos2 t) as H. unfold Rsqr in H. lra. Qed.

End NumFacts.

(** Decide the comparisons of a goal whose operands are known numbers. *)
Ltac num_decide :=
  repeat match goal with
    | |- context [Num.ltb ?a ?b] =>
        first [ rewrite (NumFacts.ltb_true a b) by lra
              | rewrite (NumFacts.ltb_false a b) by lra ]
    | |- context [Num.leb ?a ?b] =>
        first [ rewrite (NumFacts.leb_true a b) by lra
              | rewrite (NumFacts.leb_false a b) by lra ]
    end.

(* ================================================================== *)
(** ** The force-field sum of the WebGL variant *)
(* ================================================================== *)

Module ForceSum.

Import GPU GpuProps.

Lemma nth_chunk {A B} (f : A -> list B) (n : nat) (d : B) :
  (forall x, List.length (f x) = n) ->
  forall (l : list A) (i k : nat) (a : A),
    nth_error l i = Some a -> (k < n)%nat ->
    nth (i * n + k) (flat_map f l) d = nth k (f a) d.
Proof.
  intros Hlen l. induction l as [| b l IH]; intros i k a Hi Hk.
  - destruct i; discriminate.
  - destruct i as [| i]; simpl in *.
    + injection Hi as ->. apply app_nth1. rewrite Hlen. assumption.
    + rewrite <- Nat.add_assoc. rewrite <- (Hlen b) at 1.
      rewrite app_nth2_plus. apply IH; assumption.
Qed.

(** Slot [i] of the uniform array holds field [i]. *)
Lemma uniform_slot (s : State) (i k : nat) (f : ForceField.t) :
  maxForceFields s = 40%nat -> (i < 40)%nat -> (k < 8)%nat ->
  nth_error (forceFields s) i = Some f ->
  nth (i * 8 + k) (getForceFieldUniforms s) 0 =
  nth k [ForceField.x f; ForceField.y f; IZR (ForceField.type f);
         ForceField.strength f; ForceField.radius f; ForceField.rotation f;
         ForceField.life f / 500; 1] 0.
Proof.
  intros Hmax Hi Hk Hf. unfold getForceFieldUniforms.
  rewrite (nth_chunk _ 8 0) with (a := i).
  - rewrite Hmax. replace (i <? Nat.min 40 40)%nat with true.
    + rewrite Hf. reflexivity.
    + symmetry. apply Nat.ltb_lt. simpl. assumption.
  - intro x. destruct (x <? Nat.min (maxForceFields s) 40)%nat;
      [destruct (nth_error (forceFields s) x) |]; reflexivity.
  - rewrite nth_error_nth' with (d := 0%nat).
    + rewrite seq_nth by assumption. reflexivity.
    + rewrite length_seq. assumption.
  - assumption.
Qed.

Lemma type_sink (t : Z) : (IZR t <? 0.5) = (t <=? 0)%Z.
Proof.
  destruct (Z.leb_spec t 0) as [H | H].
  - apply NumFacts.ltb_true. apply IZR_le in H. lra.
  - apply NumFacts.ltb_false. apply Z.lt_le_incl in H as H'.
    assert (1 <= t)%Z as H1 by lia. apply IZR_le in H1. lra.
Qed.

Lemma type_below (t k : Z) :
  (k < t)%Z -> (IZR t <? IZR k + 0.5) = false.
Proof.
  intro H. apply NumFacts.ltb_false.
  assert (k + 1 <= t)%Z as H1 by lia. apply IZR_le in H1.
  rewrite plus_IZR in H1. lra.
Qed.

Lemma type_at (t k : Z) : (t <= k)%Z -> (IZR t <? IZR k + 0.5) = true.
Proof. intro H. apply NumFacts.ltb_true. apply IZR_le in H. lra. Qed.

Lemma pair_eq {A B} (a c : A) (b d : B) : a = c -> b = d -> (a, b) = (c, d).
Proof. intros -> ->. reflexivity. Qed.

(** One turn of the loop adds the field's force to the total. *)
Lemma body_adds (s : State) (pos total : vec2) (i : nat) (f : ForceField.t) :
  maxForceFields s = 40%nat -> (i < 40)%nat ->
  nth_error (forceFields s) i = Some f ->
  forceFieldBody (physicsUniforms s) pos i total =
  V2.add total (fieldForce (num (config s) "time") f pos).
Proof.
  intros Hmax Hi Hf. unfold forceFieldBody, fieldForce.
  cbn [u_forceFields u_time physicsUniforms].
  rewrite !(uniform_slot s i _ f Hmax Hi) by (assumption || lia).
  cbn [nth].
  rewrite (NumFacts.ltb_false 1 0.5) by lra.
  destruct ((V2.length (V2.sub pos (ForceField.x f, ForceField.y f))
             >? ForceField.radius f)
            || (V2.length (V2.sub pos (ForceField.x f, ForceField.y f)) <? 5)).
  - destruct total; unfold V2.add, V2.zero; simpl; apply pair_eq; ring.
  - rewrite type_sink.
    destruct (Z.leb_spec (ForceField.type f) 0) as [H0 | H0].
    { destruct total; unfold V2.add, V2.sub, V2.neg, V2.scale; simpl;
        apply pair_eq; ring. }
    replace 1.5 with (IZR 1 + 0.5) by lra.
    replace 2.5 with (IZR 2 + 0.5) by lra.
    replace 3.5 with (IZR 3 + 0.5) by lra.
    destruct (Z.eqb_spec (ForceField.type f) 1) as [H1 | H1].
    { rewrite type_at by lia. reflexivity. }
    rewrite type_below by lia.
    destruct (Z.eqb_spec (ForceField.type f) 2) as [H2 | H2].
    { rewrite type_at by lia. reflexivity. }
    rewrite type_below by lia.
    destruct (Z.eqb_spec (ForceField.type f) 3) as [H3 | H3].
    { rewrite type_at by lia.
      destruct total; unfold V2.add, V2.sub, V2.neg, V2.scale; simpl;
        apply pair_eq; ring. }
    rewrite type_below by lia. reflexivity.
Qed.

Lemma skipn_nth_error {A} (l : list A) :
  forall (i : nat) (a : A),
    nth_error l i = Some a -> skipn i l = a :: skipn (S i) l.
Proof.
  induction l as [| b l IH]; intros i a H.
  - destruct i; discriminate.
  - destruct i as [| i]; simpl in *.
    + injection H as ->. reflexivity.
    + apply IH. assumption.
Qed.

(** The loop over slots [i .. i + n - 1] sums the fields it finds there and
    stops at the end of the list. *)
Lemma loop_sums (s : State) (pos : vec2) :
  maxForceFields s = 40%nat ->
  forall (n i : nat) (total : vec2),
    (i + n <= 40)%nat ->
    forceFieldLoop (physicsUniforms s) pos n i total =
    fold_left (fun t f => V2.add t (fieldForce (num (config s) "time") f pos))
      (firstn n (skipn i (forceFields s))) total.
Proof.
  intros Hmax n. induction n as [| n IH]; intros i total Hin.
  - reflexivity.
  - cbn [forceFieldLoop]. cbn [u_forceFieldCount physicsUniforms].
    destruct (nth_error (forceFields s) i) as [f |] eqn:Hf.
    + assert (i < List.length (forceFields s))%nat as Hlt
        by (apply nth_error_Some; congruence).
      assert ((Z.of_nat i >=? Z.of_nat (List.length (forceFields s)))%Z = false)
        as -> by (rewrite Z.geb_leb; apply Z.leb_gt; lia).
      rewrite (body_adds s pos total i f Hmax) by (assumption || lia).
      rewrite IH by lia.
      rewrite (skipn_nth_error _ _ _ Hf). reflexivity.
    + apply nth_error_None in Hf.
      assert ((Z.of_nat i >=? Z.of_nat (List.length (forceFields s)))%Z = true)
        as -> by (rewrite Z.geb_leb; apply Z.leb_le; lia).
      rewrite skipn_all2 by assumption. rewrite firstn_nil. reflexivity.
Qed.

(** What the shader returns: the forces of the first 16 fields, whatever the
    length of the list. *)
Lemma effect_first_16 (s : State) (pos : vec2) :
  maxForceFields s = 40%nat ->
  getForceFieldEffect (physicsUniforms s) pos =
  sumForces (num (config s) "time") (firstn 16 (forceFields s)) pos.
Proof.
  intro Hmax. unfold getForceFieldEffect, sumForces.
  rewrite (loop_sums s pos Hmax 16 0) by lia. reflexivity.
Qed.


Lemma add_zero (v : vec2) : V2.add v V2.zero = v.
Proof. destruct v. unfold V2.add, V2.zero. simpl. apply pair_eq; ring. Qed.

Lemma farField_force (time : R) : fieldForce time Examples.farField (550, 500) = V2.zero.
Proof.
  unfold fieldForce, Examples.farField. cbn [ForceField.x ForceField.y ForceField.radius].
  assert (50 < V2.length (V2.sub (550, 500) (0, 0))) as H.
  { unfold V2.length, V2.sub. simpl. apply NumFacts.sqrt_lower_strict; lra. }
  rewrite (NumFacts.ltb_true _ _ H). reflexivity.
Qed.

Lemma nearSink_force (time : R) :
  fieldForce time Examples.nearSink (550, 500) = (-0.75, 0).
Proof.
  unfold fieldForce, Examples.nearSink.
  cbn [ForceField.x ForceField.y ForceField.radius ForceField.type
       ForceField.strength ForceField.life].
  assert (V2.sub (550, 500) (500, 500) = (50, 0)) as ->
    by (unfold V2.sub; simpl; apply pair_eq; ring).
  rewrite NumFacts.length_horizontal by lra.
  rewrite (NumFacts.ltb_false 200 50) by lra.
  rewrite (NumFacts.ltb_false 50 5) by lra.
  cbn [orb Z.leb Z.compare]. unfold V2.normalize, V2.neg, V2.scale, V2.divs.
  rewrite NumFacts.length_horizontal by lra. simpl.
  apply pair_eq; lra.
Qed.

Lemma far_fields_sum (time : R) (n : nat) (total : vec2) :
  fold_left (fun t f => V2.add t (fieldForce time f (550, 500)))
    (repeat Examples.farField n) total = total.
Proof.
  induction n as [| n IH]; simpl.
  - reflexivity.
  - rewrite farField_force, add_zero. apply IH.
Qed.

End ForceSum.

(* ================================================================== *)
(** ** Facts about the physics shader *)
(* ================================================================== *)

Module ShaderFacts.

Import GPU GpuProps.

Lemma vec_eq (a b : vec2) : fst a = fst b -> snd a = snd b -> a = b.
Proof. destruct a, b. simpl. intros -> ->. reflexivity. Qed.

Lemma random_range (st : vec2) : 0 <= random st < 1.
Proof.
  unfold random, V3.map, V3.scale, V3.adds, V3.dot.
  cbv beta iota zeta. apply NumFacts.fract_range.
Qed.

Lemma effect_empty (u : Uniforms) (pos : vec2) :
  u_forceFieldCount u = 0%Z -> getForceFieldEffect u pos = V2.zero.
Proof.
  intro H. unfold getForceFieldEffect. cbn [forceFieldLoop]. rewrite H.
  reflexivity.
Qed.

Lemma charge_off (u : Uniforms) (tex : Sampler.t) (pos tc : vec2) :
  u_chargeInteraction u = 0 -> getChargeInteraction u tex pos tc = V2.zero.
Proof.
  intro H. unfold getChargeInteraction. rewrite H.
  rewrite NumFacts.ltb_true by lra. reflexivity.
Qed.

Lemma gravity_off (u : Uniforms) (tex : Sampler.t) (pos tc : vec2) :
  u_gravityInteraction u = 0 -> getGravityInteraction u tex pos tc = V2.zero.
Proof.
  intro H. unfold getGravityInteraction. rewrite H, Rabs_R0.
  rewrite NumFacts.ltb_true by lra. reflexivity.
Qed.

Lemma forceEffect_quiet (u : Uniforms) (tex : Sampler.t) (pos tc : vec2) :
  quiet u -> forceEffectOf u tex pos tc = V2.zero.
Proof.
  intros [Hf Hc Hg _ _ _ _ _]. unfold forceEffectOf.
  rewrite effect_empty, charge_off, gravity_off by assumption.
  unfold V2.add, V2.scale, V2.zero. simpl. apply ForceSum.pair_eq; ring.
Qed.

Lemma brownian_off (u : Uniforms) (pos tc : vec2) :
  u_brownianMotion u = 0 -> brownianOf u pos tc = V2.zero.
Proof.
  intro H. unfold brownianOf. rewrite H. unfold V2.scale, V2.zero. simpl.
  apply ForceSum.pair_eq; ring.
Qed.

Lemma global_off (u : Uniforms) (pos : vec2) :
  u_globalGravity u = 0 -> u_globalSwirl u = 0 -> globalForcesOf u pos = V2.zero.
Proof.
  intros Hg Hs. unfold globalForcesOf. rewrite Hg, Hs, Rabs_R0.
  rewrite NumFacts.ltb_false by lra. unfold V2.zero.
  apply ForceSum.pair_eq; ring.
Qed.

Lemma zones_off (u : Uniforms) (pos flowDir : vec2) :
  u_zonesEnabled u = false -> zonesOf u pos flowDir = flowDir.
Proof. intro H. unfold zonesOf. rewrite H. reflexivity. Qed.

Lemma respawn_off (u : Uniforms) (tc : vec2) (pv : vec2 * vec2) :
  u_respawnRate u <= 0 -> respawn u tc pv = pv.
Proof.
  intro H. unfold respawn.
  pose proof (random_range (V2.adds (V2.scale tc 777) (u_time u))) as Hr.
  rewrite NumFacts.ltb_false by lra. reflexivity.
Qed.

(** The mouse pushes only strictly between 5 and its radius. *)
Lemma mouse_guard (u : Uniforms) (pos : vec2) (mx my mz : R) :
  u_mouse u = (mx, my, mz) ->
  V2.length (V2.sub pos (mx, my)) <= 5 \/ mz <= V2.length (V2.sub pos (mx, my)) ->
  mouseForceOf u pos = V2.zero.
Proof.
  intros Hm H. unfold mouseForceOf. rewrite Hm.
  destruct H as [H | H].
  - rewrite (NumFacts.ltb_false 5) by assumption.
    rewrite andb_false_r. reflexivity.
  - rewrite (NumFacts.ltb_false _ mz) by assumption. reflexivity.
Qed.

(** A pointer parked at (-1000, -1000) is out of reach of every particle of
    the first quadrant, for a radius up to 1000. *)
Lemma mouse_parked (u : Uniforms) (pos : vec2) (mz : R) :
  u_mouse u = (-1000, -1000, mz) -> mz <= 1000 ->
  0 <= fst pos -> 0 <= snd pos ->
  mouseForceOf u pos = V2.zero.
Proof.
  intros Hm Hz Hx Hy. apply (mouse_guard u pos _ _ _ Hm). right.
  apply Rle_trans with 1000; [assumption |].
  apply NumFacts.sqrt_lower; [lra |].
  unfold V2.sub. simpl. nra.
Qed.

(** One wrap brings back a position that left by at most one extent. *)
Lemma wrapAxis_range (p res : R) :
  - res <= p <= 2 * res -> 0 <= wrapAxis p res <= res.
Proof.
  intros [Hlo Hhi]. unfold wrapAxis.
  destruct (NumFacts.ltb_spec p 0) as [Hneg | Hpos].
  - rewrite NumFacts.ltb_false by lra. lra.
  - destruct (NumFacts.ltb_spec res p); lra.
Qed.

(** In the forces-only mode a quiet scene keeps the velocity, up to friction. *)
Lemma integrate_quiet_forces_only
    (u : Uniforms) (tex : Sampler.t) (tc : vec2) (px py vx vy : R) :
  quiet u -> u_noiseMode u = 5%Z ->
  texture tex tc = (px, py, vx, vy) ->
  mouseForceOf u (px, py) = V2.zero ->
  integrate u tex tc =
  ((px + vx * (1 - u_friction u), py + vy * (1 - u_friction u)),
   (vx * (1 - u_friction u), vy * (1 - u_friction u))).
Proof.
  intros Hq Hmode Htex Hmouse. unfold integrate. rewrite Htex.
  rewrite (forceEffect_quiet u tex _ _ Hq), Hmouse.
  rewrite (brownian_off u _ _ (q_brownian u Hq)).
  rewrite (global_off u _ (q_globalGravity u Hq) (q_swirl u Hq)).
  rewrite Hmode. cbn [Z.eqb Pos.eqb].
  unfold V2.add, V2.scale, V2.zero. simpl.
  apply ForceSum.pair_eq; apply ForceSum.pair_eq; ring.
Qed.

(** In the other modes a quiet scene blends the velocity toward the flow. *)
Lemma integrate_quiet_flow
    (u : Uniforms) (tex : Sampler.t) (tc : vec2) (px py vx vy : R) :
  quiet u -> u_noiseMode u <> 5%Z ->
  texture tex tc = (px, py, vx, vy) ->
  mouseForceOf u (px, py) = V2.zero ->
  let flowDir := flowDirection u (px, py) in
  integrate u tex tc =
  ((px + (vx * 0.7 + fst flowDir * 0.3), py + (vy * 0.7 + snd flowDir * 0.3)),
   (vx * 0.7 + fst flowDir * 0.3, vy * 0.7 + snd flowDir * 0.3)).
Proof.
  intros Hq Hmode Htex Hmouse flowDir. unfold integrate. rewrite Htex.
  rewrite (forceEffect_quiet u tex _ _ Hq), Hmouse.
  rewrite (brownian_off u _ _ (q_brownian u Hq)).
  rewrite (global_off u _ (q_globalGravity u Hq) (q_swirl u Hq)).
  rewrite (zones_off u _ _ (q_zones u Hq)).
  apply Z.eqb_neq in Hmode. rewrite Hmode. fold flowDir.
  unfold V2.add, V2.mix, Num.mix, V2.zero. simpl.
  apply ForceSum.pair_eq; apply ForceSum.pair_eq; lra.
Qed.

End ShaderFacts.

(* ================================================================== *)
(** ** Facts about the [FlowFieldsGL] instance *)
(* ================================================================== *)

Module GpuFacts.

Import Rng GPU GpuProps.

Lemma get_set_same (o : Obj) (key : string) (v : Value) :
  get (set o key v) key = v.
Proof.
  induction o as [| [k w] o IH]; simpl.
  - rewrite String.eqb_refl. reflexivity.
  - destruct (String.eqb k key) eqn:E; simpl; rewrite E; [reflexivity | exact IH].
Qed.

Lemma get_set_other (o : Obj) (key key' : string) (v : Value) :
  key <> key' -> get (set o key v) key' = get o key'.
Proof.
  intro Hne. induction o as [| [k w] o IH]; simpl.
  - destruct (String.eqb_spec key key'); [contradiction | reflexivity].
  - destruct (String.eqb_spec k key) as [-> | Hk]; simpl.
    + destruct (String.eqb_spec key key'); [contradiction | reflexivity].
    + destruct (String.eqb k key'); [reflexivity | exact IH].
Qed.

Lemma frame_refl (s : State) : frame s s.
Proof. repeat split. Qed.

Lemma frame_fields (s : State) (l : list ForceField.t) :
  frame s (with_forceFields s l).
Proof. repeat split. Qed.

Lemma frame_trans (s1 s2 s3 : State) : frame s1 s2 -> frame s2 s3 -> frame s1 s3.
Proof.
  unfold frame. intros H1 H2.
  repeat match goal with H : _ /\ _ |- _ => destruct H end.
  repeat split; congruence.
Qed.

Lemma addForceField_spec (x y : R) (type : Z) (s : State) (o : Oracle) (k : nat) :
  let s' := fst (addForceField x y type s o k) in
  frame s s'
  /\ (if resolves type s
      then exists f, forceFields s' = afterEviction s ++ [f]
                     /\ ForceField.x f = x /\ ForceField.y f = y
      else forceFields s' = afterEviction s).
Proof.
  unfold addForceField, resolves, afterEviction.
  destruct (type <? 0)%Z; cbn [negb orb].
  - destruct (List.length
                (filter (fun i => nth i (enabledForceTypes s) false) (seq 0 5))
              =? 0)%nat; cbn [negb].
    + split; [apply frame_fields | reflexivity].
    + split; [apply frame_fields |]. eexists. split; [reflexivity |].
      split; reflexivity.
  - split; [apply frame_fields |]. eexists. split; [reflexivity |].
    split; reflexivity.
Qed.

Lemma afterEviction_length (s : State) :
  (0 < maxForceFields s)%nat ->
  (List.length (forceFields s) <= maxForceFields s)%nat ->
  (List.length (afterEviction s) < maxForceFields s)%nat.
Proof.
  intros Hpos Hle. unfold afterEviction.
  destruct (Nat.leb_spec (maxForceFields s) (List.length (forceFields s))) as [H | H].
  - destruct (forceFields s); simpl in *; lia.
  - assumption.
Qed.

Lemma addForceField_cap (x y : R) (type : Z) (s : State) (o : Oracle) (k : nat) :
  within_cap s -> within_cap (fst (addForceField x y type s o k)).
Proof.
  intros [Hmax Hlen].
  pose proof (addForceField_spec x y type s o k) as Hadd.
  cbv zeta in Hadd. destruct Hadd as [Hfr Hff].
  assert (List.length (afterEviction s) < 40)%nat as Hev
    by (rewrite <- Hmax; apply afterEviction_length; lia).
  destruct Hfr as (_ & _ & Hm & _). split; [congruence |].
  destruct (resolves type s).
  - destruct Hff as (f & -> & _). rewrite length_app. simpl. lia.
  - rewrite Hff. lia.
Qed.

(** Stepping the fields never makes the list longer. *)
Lemma stepped_length (c : Canvas.t) (l : list ForceField.t) :
  (List.length (stepFields c l) <= List.length l)%nat.
Proof.
  unfold stepFields. induction l as [| f l IH]; cbn [fold_right].
  - simpl. lia.
  - cbv zeta. destruct (ForceField.life (stepField c f) <=? 0);
      cbn [List.length]; lia.
Qed.

Lemma updateForceFields_spec (s : State) (o : Oracle) (k : nat) :
  let s' := fst (updateForceFields s o k) in
  frame s s' /\ (within_cap s -> within_cap s').
Proof.
  unfold updateForceFields. cbv zeta.
  set (ffs := stepFields _ _).
  set (s1 := with_forceFields s ffs).
  assert (frame s s1) as Hfr1 by apply frame_fields.
  assert (within_cap s -> within_cap s1) as Hcap1.
  { intros [Hmax Hlen]. split; [exact Hmax |]. unfold s1, ffs. simpl.
    pose proof (stepped_length (canvas s) (forceFields s)). lia. }
  destruct (num (config s1) "forceSpawnRate" >? 0);
    [| split; assumption].
  cbn [bind Math_random].
  destruct ((o k <? num (config s1) "forceSpawnRate" / 60)
            && (List.length (forceFields s1) <? maxForceFields s1)%nat).
  - cbn [bind Math_random].
    pose proof (addForceField_spec (o (S k) * Canvas.width (canvas s1))
                  (o (S (S k)) * Canvas.height (canvas s1)) (-1) s1 o (S (S (S k))))
      as Hadd.
    cbv zeta in Hadd. destruct Hadd as [Hfr2 _].
    split.
    + exact (frame_trans _ _ _ Hfr1 Hfr2).
    + intro H. apply addForceField_cap. auto.
  - split; assumption.
Qed.

(** With auto-spawn off, [updateForceFields] makes no draw. *)
Lemma updateForceFields_no_spawn (s : State) (o : Oracle) (k : nat) :
  num (config s) "forceSpawnRate" <= 0 ->
  updateForceFields s o k =
  (with_forceFields s (stepFields (canvas s) (forceFields s)), k).
Proof.
  intro H. unfold updateForceFields. cbn [config with_forceFields].
  rewrite NumFacts.ltb_false by assumption. reflexivity.
Qed.

Lemma update_unfold (s : State) (o : Oracle) (k : nat) :
  update s o k =
  (afterPass (fst (updateForceFields s o k)), snd (updateForceFields s o k)).
Proof.
  unfold update, bind. destruct (updateForceFields s o k) as [s1 k1].
  reflexivity.
Qed.

Lemma update_deterministic (s : State) (o1 o2 : Oracle) (k1 k2 : nat) :
  num (config s) "forceSpawnRate" <= 0 ->
  fst (update s o1 k1) = fst (update s o2 k2).
Proof.
  intro H. rewrite !update_unfold.
  rewrite !updateForceFields_no_spawn by assumption. reflexivity.
Qed.

Lemma update_keeps_spawn_rate (s : State) (o : Oracle) (k : nat) :
  num (config (fst (update s o k))) "forceSpawnRate"
  = num (config s) "forceSpawnRate".
Proof.
  rewrite update_unfold.
  destruct (updateForceFields_spec s o k) as [(_ & Hc & _) _].
  cbn [fst]. unfold afterPass. cbn [config with_config with_particles].
  unfold num. rewrite get_set_other by discriminate. rewrite Hc. reflexivity.
Qed.

Lemma steps_deterministic (n : nat) :
  forall (s : State) (o1 o2 : Oracle) (k1 k2 : nat),
    num (config s) "forceSpawnRate" <= 0 ->
    fst (steps n s o1 k1) = fst (steps n s o2 k2).
Proof.
  induction n as [| n IH]; intros s o1 o2 k1 k2 H.
  - reflexivity.
  - cbn [steps]. unfold bind.
    pose proof (update_deterministic s o1 o2 k1 k2 H) as Hu.
    pose proof (update_keeps_spawn_rate s o1 k1) as Hr.
    destruct (update s o1 k1) as [s1 k1'].
    destruct (update s o2 k2) as [s2 k2'].
    cbn [fst] in Hu, Hr. subst s2. apply IH. lra.
Qed.

End GpuFacts.

(* ================================================================== *)
(** ** Facts about the oracle monad *)
(* ================================================================== *)

Module RngFacts.

Import Rng.

Lemma bind_fst {A B} (m : M A) (f : A -> M B) (o : Oracle) (k : nat) :
  bind m f o k = f (fst (m o k)) o (snd (m o k)).
Proof. unfold bind. destruct (m o k). reflexivity. Qed.

(** An invariant of every step is an invariant of the loop. *)
Lemma foldM_inv {A B} (P : A -> Prop) (f : A -> B -> M A) :
  (forall a b o k, P a -> P (fst (f a b o k))) ->
  forall (l : list B) (a : A) (o : Oracle) (k : nat),
    P a -> P (fst (foldM f l a o k)).
Proof.
  intros Hstep l. induction l as [| b l IH]; intros a o k Ha.
  - exact Ha.
  - cbn [foldM]. rewrite bind_fst. apply IH. apply Hstep. exact Ha.
Qed.

Lemma mapM_length {A B} (f : A -> M B) :
  forall (l : list A) (o : Oracle) (k : nat),
    List.length (fst (mapM f l o k)) = List.length l.
Proof.
  induction l as [| a l IH]; intros o k.
  - reflexivity.
  - cbn [mapM]. rewrite bind_fst, bind_fst. cbn [ret fst List.length].
    rewrite IH. reflexivity.
Qed.

End RngFacts.

(* ================================================================== *)
(** ** Facts about the canvas variant *)
(* ================================================================== *)

Module CpuFacts.

Import Rng CPU.

(** *** Where a particle is after its update *)

Lemma reset_in_bounds (c : Canvas.t) (cfg : Config.t) (o : Oracle) (k : nat) :
  unit_range o -> 0 <= Canvas.width c -> 0 <= Canvas.height c ->
  let p := fst (Particle_reset c cfg o k) in
  0 <= Particle.x p <= Canvas.width c /\ 0 <= Particle.y p <= Canvas.height c.
Proof.
  intros Ho Hw Hh. unfold Particle_reset. cbn.
  pose proof (Ho k) as H1. pose proof (Ho (S k)) as H2. nra.
Qed.

Lemma update_in_bounds (s : State) (i : nat) (this : Particle.t)
    (o : Oracle) (k : nat) :
  unit_range o ->
  0 <= Canvas.width (canvas s) -> 0 <= Canvas.height (canvas s) ->
  let p := fst (Particle_update s i this o k) in
  0 <= Particle.x p <= Canvas.width (canvas s)
  /\ 0 <= Particle.y p <= Canvas.height (canvas s).
Proof.
  intros Ho Hw Hh. unfold Particle_update. rewrite RngFacts.bind_fst.
  set (move := fst (totalMove s i this o k)).
  set (k' := snd (totalMove s i this o k)).
  cbv zeta.
  destruct (NumFacts.ltb_spec (Particle.x this + fst move) 0) as [H1 | H1];
    [apply reset_in_bounds; assumption |].
  destruct (NumFacts.ltb_spec (Canvas.width (canvas s)) (Particle.x this + fst move))
    as [H2 | H2]; [apply reset_in_bounds; assumption |].
  destruct (NumFacts.ltb_spec (Particle.y this + snd move) 0) as [H3 | H3];
    [apply reset_in_bounds; assumption |].
  destruct (NumFacts.ltb_spec (Canvas.height (canvas s)) (Particle.y this + snd move))
    as [H4 | H4]; [apply reset_in_bounds; assumption |].
  cbn [orb].
  destruct (Particle.life this + 1 >? Particle.maxLife this);
    [apply reset_in_bounds; assumption |].
  cbn. lra.
Qed.

End CpuFacts.

(* ================================================================== *)
(** ** Facts about the example scenes *)
(* ================================================================== *)

Module ExampleFacts.

Import Examples.

Lemma quiet_uniforms (noiseMode : Z) (friction : R) :
  GpuProps.quiet (uniforms noiseMode friction).
Proof. constructor; reflexivity. Qed.

Lemma texture_one (p : vec4) (tc : vec2) : GPU.texture (one p) tc = p.
Proof.
  unfold GPU.texture, one, GPU.clampTexel. cbn [GPU.Sampler.size GPU.Sampler.data].
  rewrite !Nat.min_0_r. reflexivity.
Qed.

Lemma unit_range_quarter : Rng.unit_range quarter.
Proof. intro k. unfold quarter. lra. Qed.

Lemma unit_range_half : Rng.unit_range half.
Proof. intro k. unfold half. lra. Qed.

Lemma unit_range_threeQuarters : Rng.unit_range threeQuarters.
Proof. intro k. unfold threeQuarters. lra. Qed.

(** The shader on a one-particle texture of the quiet forces-only scene. *)
Lemma main_forces_only (px py vx vy : R) :
  0 <= px -> 0 <= py ->
  GPU.main (uniforms 5 0) (one (px, py, vx, vy)) centre =
  (GPU.wrapAxis (px + vx) 800, GPU.wrapAxis (py + vy) 600, vx, vy).
Proof.
  intros Hx Hy. unfold GPU.main.
  rewrite (ShaderFacts.integrate_quiet_forces_only _ _ _ px py vx vy
             (quiet_uniforms 5 0) eq_refl (texture_one _ _)).
  - rewrite ShaderFacts.respawn_off by (simpl; lra).
    unfold GPU.wrap. cbn [fst snd GPU.u_resolution GPU.u_friction uniforms].
    replace (px + vx * (1 - 0)) with (px + vx) by ring.
    replace (py + vy * (1 - 0)) with (py + vy) by ring.
    replace (vx * (1 - 0)) with vx by ring.
    replace (vy * (1 - 0)) with vy by ring.
    reflexivity.
  - apply (ShaderFacts.mouse_parked _ _ 150); [reflexivity | lra | exact Hx | exact Hy].
Qed.

End ExampleFacts.

(* ================================================================== *)
(** ** The wrap of the shader *)
(* ================================================================== *)

Module WrapFacts.

Import GPU.

Lemma respawn_range (u : Uniforms) (tc pos vel : vec2) :
  0 <= fst (u_resolution u) -> 0 <= snd (u_resolution u) ->
  0 <= fst pos <= fst (u_resolution u) ->
  0 <= snd pos <= snd (u_resolution u) ->
  let p := fst (respawn u tc (pos, vel)) in
  0 <= fst p <= fst (u_resolution u) /\ 0 <= snd p <= snd (u_resolution u).
Proof.
  intros Hw Hh Hx Hy. unfold respawn.
  destruct (random (V2.adds (V2.scale tc 777) (u_time u)) <? u_respawnRate u).
  - cbn [fst snd].
    pose proof (ShaderFacts.random_range
                  (snd tc * 9999, u_time u * 3.7 + fst tc * 1111)) as H1.
    pose proof (ShaderFacts.random_range
                  (u_time u * 2.3 + fst tc * 7777, snd tc * 3333)) as H2.
    nra.
  - cbn [fst]. split; assumption.
Qed.

(** The position that [main] writes, from the position before the wrap. *)
Lemma main_position (u : Uniforms) (tex : Sampler.t) (tc : vec2) :
  let '(x, y, _, _) := main u tex tc in
  (x, y) = fst (respawn u tc (wrap u (fst (integrate u tex tc)),
                              snd (integrate u tex tc))).
Proof.
  unfold main. destruct (integrate u tex tc) as [pos vel]. cbn [fst snd].
  destruct (respawn u tc (wrap u pos, vel)) as [[x y] vel']. reflexivity.
Qed.

Lemma main_in_bounds (u : Uniforms) (tex : Sampler.t) (tc : vec2) :
  let w := fst (u_resolution u) in
  let h := snd (u_resolution u) in
  let pos := fst (integrate u tex tc) in
  0 <= w -> 0 <= h ->
  - w <= fst pos <= 2 * w -> - h <= snd pos <= 2 * h ->
  let '(x, y, _, _) := main u tex tc in 0 <= x <= w /\ 0 <= y <= h.
Proof.
  intros w h pos Hw Hh Hx Hy.
  pose proof (main_position u tex tc) as Hm.
  destruct (main u tex tc) as [[[x y] vx] vy].
  pose proof (respawn_range u tc (wrap u pos) (snd (integrate u tex tc)) Hw Hh)
    as Hr.
  cbv zeta in Hr. fold pos in Hm. rewrite <- Hm in Hr. cbn [fst snd] in Hr.
  apply Hr; unfold wrap; cbn [fst snd]; apply ShaderFacts.wrapAxis_range;
    assumption.
Qed.

End WrapFacts.

(* ================================================================== *)
(** ** The two particle buffers *)
(* ================================================================== *)

Module BufferFacts.

Import Rng GPU GpuProps.

Lemma frame_current (s s' : State) :
  GpuProps.frame s s' -> one_current s -> one_current s'.
Proof.
  intros (_ & _ & _ & _ & _ & _ & _ & _ & Hc) H. unfold one_current.
  rewrite Hc. exact H.
Qed.

Lemma addForceField_frame (x y : R) (type : Z) (s : State) (o : Oracle) (k : nat) :
  GpuProps.frame s (fst (addForceField x y type s o k)).
Proof. apply (GpuFacts.addForceField_spec x y type s o k). Qed.

Lemma update_current (s : State) (o : Oracle) (k : nat) :
  currentTexture (fst (update s o k)) = (1 - currentTexture s)%nat.
Proof.
  rewrite GpuFacts.update_unfold. cbn [fst].
  pose proof (GpuFacts.updateForceFields_spec s o k) as H. cbv zeta in H.
  destruct H as [(_ & _ & _ & _ & _ & _ & _ & _ & Hc) _].
  unfold GpuProps.afterPass. cbn [currentTexture with_config with_particles].
  rewrite Hc. reflexivity.
Qed.

Lemma handle_current (e : Event) (s : State) (o : Oracle) (k : nat) :
  one_current s -> one_current (fst (handle e s o k)).
Proof.
  intro H. destruct e; cbn [handle]; try exact H.
  - apply (frame_current s); [apply addForceField_frame | exact H].
  - rewrite RngFacts.bind_fst. cbn [ret fst].
    destruct ((Rabs (clientX - fst (touchStart s)) <? 10)
              && (Rabs (clientY - snd (touchStart s)) <? 10)).
    + unfold one_current, moveMouse. cbn [currentTexture with_mouse].
      apply (frame_current s); [apply addForceField_frame | exact H].
    + exact H.
  - apply (frame_current s); [apply addForceField_frame | exact H].
  - unfold animate. destruct (paused s); [exact H |].
    unfold one_current. rewrite update_current.
    destruct H as [-> | ->]; [right | left]; reflexivity.
Qed.

(** Exactly one of the two buffers is current, in every state. *)
Lemma reachable_current (s : State) : Reachable s -> one_current s.
Proof.
  induction 1 as [c cfg o k | s e o k _ IH].
  - unfold constructor. rewrite RngFacts.bind_fst. left. reflexivity.
  - apply handle_current. exact IH.
Qed.

Lemma texAt_other (ts : list vec4 * list vec4) (cur : nat) (d : list vec4) :
  cur = 0%nat \/ cur = 1%nat ->
  texAt (setTexAt ts (1 - cur) d) cur = texAt ts cur
  /\ texAt (setTexAt ts (1 - cur) d) (1 - cur) = d.
Proof. intros [-> | ->]; split; reflexivity. Qed.

(** [updateForceFields] neither reads nor writes the particle buffers. *)
Lemma updateForceFields_buffers (s : State) (ts : list vec4 * list vec4)
    (cur : nat) (o : Oracle) (k : nat) :
  updateForceFields (with_particles s ts cur) o k =
  (with_particles (fst (updateForceFields s o k)) ts cur,
   snd (updateForceFields s o k)).
Proof.
  unfold updateForceFields, addForceField.
  cbn [canvas config forceFields maxForceFields enabledForceTypes
       with_particles with_forceFields].
  destruct (num (config s) "forceSpawnRate" >? 0); [| reflexivity].
  cbn [bind Math_random].
  destruct ((o k <? num (config s) "forceSpawnRate" / 60)
            && (List.length (stepFields (canvas s) (forceFields s))
                <? maxForceFields s)%nat); [| reflexivity].
  cbn [bind Math_random Z.ltb Z.compare].
  destruct (List.length
              (filter (fun i => nth i (enabledForceTypes s) false) (seq 0 5))
            =? 0)%nat; reflexivity.
Qed.

End BufferFacts.

(* ================================================================== *)
(** ** A particle that only the background flow moves (canvas variant) *)
(* ================================================================== *)

Module CalmFacts.

Import Rng CPU CpuProps.

Lemma neighbours_self (s : State) (i : nat) (this : Particle.t)
    (mode : string) (l : list nat) (a : Acc) :
  (forall j, In j l -> j = i) ->
  fold_left (neighbourStep s i this mode) l a = a.
Proof.
  revert a. induction l as [| j l IH]; intros a H.
  - reflexivity.
  - cbn [fold_left]. unfold neighbourStep at 2.
    rewrite (H j (or_introl eq_refl)), Nat.eqb_refl.
    apply IH. intros j' Hj'. apply H. right. exact Hj'.
Qed.

Lemma nearby_alone (s : State) (i : nat) (x y radius : R) :
  alone s i ->
  forall j, In j (getNearbyParticles (spatialGrid s) x y radius) -> j = i.
Proof.
  intros Ha j. unfold getNearbyParticles. intro Hin.
  apply in_flat_map in Hin. destruct Hin as (dx & _ & Hin).
  apply in_flat_map in Hin. destruct Hin as (dy & _ & Hin).
  destruct (gridGet (spatialGrid s) _) as [l |] eqn:Hg.
  - exact (Ha _ l j Hg Hin).
  - destruct Hin.
Qed.

Lemma interaction_alone (s : State) (i : nat) (this : Particle.t) (move : vec2) :
  Config.particleInteraction (config s) = "none"%string \/ alone s i ->
  interactionMove s i this move = move.
Proof.
  intros [Hnone | Ha]; unfold interactionMove.
  - rewrite Hnone. reflexivity.
  - destruct (negb (String.eqb (Config.particleInteraction (config s)) "none"));
      [| reflexivity].
    cbv zeta.
    rewrite neighbours_self by (apply nearby_alone; exact Ha).
    reflexivity.
Qed.

Lemma mouse_inactive (s : State) (this : Particle.t) (move : vec2) :
  Mouse.active (mouse s) = false \/ Mouse.x (mouse s) = None ->
  mouseMove s this move = move.
Proof.
  intros [H | H]; unfold mouseMove; rewrite H.
  - reflexivity.
  - destruct (Mouse.active (mouse s)); reflexivity.
Qed.

(** A calm particle moves by the flow of the noise field and makes no draw. *)
Lemma totalMove_calm (s : State) (i : nat) (this : Particle.t)
    (o : Oracle) (k : nat) :
  calm s i -> totalMove s i this o k = (flowMove s this, k).
Proof.
  intros [Hb Hf Hg Ha Hm]. unfold totalMove, brownianMove.
  rewrite NumFacts.ltb_false by exact Hb. cbn [bind ret].
  rewrite (mouse_inactive s this _ Hm), (interaction_alone s i this _ Ha).
  unfold gravityMove, forceFieldMove. rewrite Hg, Hf, NumFacts.eqb_refl.
  reflexivity.
Qed.

(** The grid that [buildSpatialGrid] makes of a single particle. *)
Lemma alone_built (s : State) (p : Particle.t) :
  particles s = [p] -> alone (buildSpatialGrid s) 0.
Proof.
  intros Hp key l j. unfold buildSpatialGrid. rewrite Hp.
  cbn [spatialGrid with_spatialGrid List.length seq combine fold_left gridPush
       gridGet fst snd].
  destruct (keyEqb _ key); [| discriminate].
  intros [= <-] [<- | []]. reflexivity.
Qed.

Lemma alone_empty (s : State) (i : nat) : spatialGrid s = [] -> alone s i.
Proof. intros H key l j. rewrite H. discriminate. Qed.

End CalmFacts.

(* ================================================================== *)
(** ** One step of a particle at rest in the classic noise mode *)
(* ================================================================== *)

Module ClassicStep.

Lemma scaled_bound (c m : R) : -1 <= c <= 1 -> -100 <= m <= 100 -> -100 <= c * m <= 100.
Proof. intros Hc Hm. nra. Qed.

(** WebGL variant: the velocity is blended toward the flow by 0.3 and the
    angle carries the position offset 0.2. *)
Lemma main_classic (u : GPU.Uniforms) (tex : GPU.Sampler.t) (tc : vec2) (mz : R) :
  GpuProps.quiet u -> GPU.u_noiseMode u = 0%Z -> GPU.u_time u = 0 ->
  GPU.texture tex tc = (100, 100, 0, 0) ->
  GPU.u_mouse u = (-1000, -1000, mz) -> mz <= 1000 ->
  -100 <= GPU.u_speed u * GPU.u_backgroundStrength u <= 100 ->
  200 <= fst (GPU.u_resolution u) -> 200 <= snd (GPU.u_resolution u) ->
  let theta :=
    (GPU.snoise (100 * GPU.u_noiseScale u, 100 * GPU.u_noiseScale u) + 0.2)
    * 12.566370614 in
  let m := GPU.u_speed u * GPU.u_backgroundStrength u in
  GPU.main u tex tc =
  (100 + 0.3 * m * cos theta, 100 + 0.3 * m * sin theta,
   0.3 * m * cos theta, 0.3 * m * sin theta).
Proof.
  intros Hq Hmode Htime Htex Hmouse Hmz Hm Hw Hh theta m.
  assert (GPU.flowDirection u (100, 100) = (m * cos theta, m * sin theta)) as Hflow.
  { unfold GPU.flowDirection, GPU.getNoiseValue. rewrite Hmode, Htime.
    cbn [Z.eqb]. unfold V2.scale, V2.adds. cbn [fst snd].
    replace (100 * GPU.u_noiseScale u + 0 * 0.0001)
      with (100 * GPU.u_noiseScale u) by ring.
    replace ((100 + 100) * 0.001) with 0.2 by lra. fold theta.
    apply ForceSum.pair_eq; unfold m; ring. }
  unfold GPU.main.
  rewrite (ShaderFacts.integrate_quiet_flow u tex tc 100 100 0 0 Hq).
  - rewrite Hflow. cbn [fst snd].
    rewrite ShaderFacts.respawn_off
      by (rewrite (GpuProps.q_respawn u Hq); lra).
    pose proof (scaled_bound (cos theta) m (COS_bound theta) Hm) as Hc.
    pose proof (scaled_bound (sin theta) m (SIN_bound theta) Hm) as Hs.
    unfold GPU.wrap, GPU.wrapAxis. cbn [fst snd].
    num_decide. repeat apply ForceSum.pair_eq; lra.
  - rewrite Hmode. discriminate.
  - exact Htex.
  - apply (ShaderFacts.mouse_parked u _ mz Hmouse Hmz); simpl; lra.
Qed.

(** Canvas variant: the particle moves by its own speed along the flow. *)
Lemma update_classic (s : CPU.State) (this : CPU.Particle.t)
    (o : Rng.Oracle) (k : nat) :
  CpuProps.calm s 0 ->
  CPU.Config.noiseMode (CPU.config s) = 0%Z -> CPU.time s = 0 ->
  CPU.Particle.x this = 100 -> CPU.Particle.y this = 100 ->
  CPU.Particle.life this + 1 <= CPU.Particle.maxLife this ->
  -100 <= CPU.Particle.speed this * CPU.Config.backgroundStrength (CPU.config s)
       <= 100 ->
  200 <= CPU.Canvas.width (CPU.canvas s) ->
  200 <= CPU.Canvas.height (CPU.canvas s) ->
  let ns := CPU.Config.noiseScale (CPU.config s) in
  let theta := CPU.noise2D (CPU.noise s) (100 * ns) (100 * ns) * (4 * PI) in
  let m := CPU.Particle.speed this * CPU.Config.backgroundStrength (CPU.config s) in
  let p := fst (CPU.Particle_update s 0 this o k) in
  CPU.Particle.x p = 100 + m * cos theta
  /\ CPU.Particle.y p = 100 + m * sin theta.
Proof.
  intros Hcalm Hmode Htime Hx Hy Hlife Hm Hw Hh ns theta m.
  assert (CPU.flowMove s this = (m * cos theta, m * sin theta)) as Hflow.
  { unfold CPU.flowMove, CPU.noiseValOf. rewrite Hmode, Htime, Hx, Hy.
    cbn [Z.eqb negb]. fold ns.
    replace (100 * ns + 0 * 0.0001) with (100 * ns) by ring.
    replace (CPU.noise2D (CPU.noise s) (100 * ns) (100 * ns) * PI * 4)
      with theta by (unfold theta; ring).
    apply ForceSum.pair_eq; unfold m; ring. }
  unfold CPU.Particle_update.
  rewrite RngFacts.bind_fst, (CalmFacts.totalMove_calm s 0 this o k Hcalm).
  cbn [fst snd]. rewrite Hflow, Hx, Hy. cbn [fst snd].
  pose proof (scaled_bound (cos theta) m (COS_bound theta) Hm) as Hc.
  pose proof (scaled_bound (sin theta) m (SIN_bound theta) Hm) as Hs.
  num_decide. cbn [orb CPU.Particle.x CPU.Particle.y fst Rng.ret]. split; reflexivity.
Qed.

End ClassicStep.

(* ================================================================== *)
(** ** A frame of the canvas page in forces-only mode *)
(* ================================================================== *)

Module CanvasRuns.

Import Rng CPU.

(** A calm particle that has outlived [maxLife] is reset. *)
Lemma update_expired (s : State) (i : nat) (this : Particle.t)
    (o : Oracle) (k : nat) :
  CpuProps.calm s i ->
  Particle.maxLife this < Particle.life this + 1 ->
  Particle_update s i this o k = Particle_reset (canvas s) (config s) o k.
Proof.
  intros Hcalm Hold. unfold Particle_update.
  rewrite RngFacts.bind_fst, (CalmFacts.totalMove_calm s i this o k Hcalm).
  cbn [fst snd].
  rewrite (NumFacts.ltb_true _ _ Hold), orb_true_r. reflexivity.
Qed.

Lemma one_in_five_hundred : Zfloor (INR 1 * 0.002) = 0%Z.
Proof. apply Zfloor_eq. simpl. lra. Qed.

Lemma reset_x (c : Canvas.t) (cfg : Config.t) (o : Oracle) (k : nat) :
  Particle.x (fst (Particle_reset c cfg o k)) = o k * Canvas.width c.
Proof. reflexivity. Qed.

Ltac run_page :=
  cbv beta iota zeta delta
    [animate updateParticles respawnLoop bind ret Math_random foldM mapM
     Examples.page Examples.configOf
     paused config forceFields particles canvas time showForceFields
     Config.noiseMode Config.spawnRate Config.particleInteraction
     Config.respawnRate Config.particleCount
     with_forceFields with_particles with_time setNth
     Z.eqb Pos.eqb String.eqb Ascii.eqb Bool.eqb negb andb
     filter List.length seq nth_error Z.to_nat fst snd].

(** The forces-only page with one particle at the end of its life: when the
    first draw of the frame spawns no field, the frame resets the particle
    with the draws that follow. *)
Lemma frame_resets (o : Oracle) :
  0.024 <= o 0%nat ->
  particles
    (fst (animate (Examples.page (Examples.configOf 5 "none")
                     (Examples.particle 100 100)) o 0%nat))
  = [fst (Particle_reset (Canvas.mk 800 600) (Examples.configOf 5 "none")
            o 1%nat)].
Proof.
  intros Ho. run_page.
  rewrite (NumFacts.ltb_false (o 0%nat)) by lra. run_page.
  rewrite update_expired;
    [| constructor; first [reflexivity | simpl; lra | left; reflexivity]
     | simpl; lra ].
  rewrite one_in_five_hundred.
  rewrite (NumFacts.ltb_false 0 0) by lra.
  run_page.
  destruct (Particle_reset _ _ o 1%nat) as [p k'] eqn:E.
  reflexivity.
Qed.

End CanvasRuns.

(* ================================================================== *)
(** ** The fade envelope of a force field *)
(* ================================================================== *)

Module FadeFacts.

Import CPU CpuProps.













End FadeFacts.

(* ================================================================== *)
(** ** The handlers of the canvas page: capacity and parameter ranges *)
(* ================================================================== *)

Module PageFacts.

Import Rng CPU CpuProps.

Lemma stable_refl (s : State) : stable s s.
Proof. repeat split. Qed.

Lemma stable_trans (s1 s2 s3 : State) : stable s1 s2 -> stable s2 s3 -> stable s1 s3.
Proof. intros (A & B & C) (A' & B' & C'). repeat split; congruence. Qed.

Lemma updateParticles_stable (s : State) (o : Oracle) (k : nat) :
  stable s (fst (updateParticles s o k)).
Proof.
  unfold updateParticles.
  apply (RngFacts.foldM_inv (fun s' => stable s s')); [| apply stable_refl].
  intros a i o' k' Ha. destruct (nth_error (particles a) i).
  - rewrite RngFacts.bind_fst. cbn [ret fst]. exact Ha.
  - exact Ha.
Qed.

Lemma respawnLoop_stable (n : nat) (cond : Particle.t -> bool) (s : State)
    (o : Oracle) (k : nat) :
  stable s (fst (respawnLoop n cond s o k)).
Proof.
  unfold respawnLoop.
  apply (RngFacts.foldM_inv (fun s' => stable s s')); [| apply stable_refl].
  intros a i o' k' Ha. rewrite RngFacts.bind_fst. cbn [Math_random fst snd].
  destruct (nth_error (particles a) _) as [p |]; [| exact Ha].
  destruct (cond p); [| exact Ha].
  rewrite RngFacts.bind_fst. cbn [ret fst]. exact Ha.
Qed.

(** [spawnForceField]: one field more below 15, nothing at 15. *)
Lemma spawnForceField_spec (type : option string) (s : State) (o : Oracle) (k : nat) :
  let s' := fst (spawnForceField type s o k) in
  config s' = config s /\ canvas s' = canvas s
  /\ (List.length (forceFields s) <= 15 -> List.length (forceFields s') <= 15)%nat.
Proof.
  unfold spawnForceField.
  destruct (Nat.ltb_spec (List.length (forceFields s)) 15) as [Hlt | Hge].
  - rewrite RngFacts.bind_fst. cbn [ret fst config canvas forceFields with_forceFields].
    repeat split. intros _. rewrite length_app. simpl. lia.
  - repeat split. intro H. exact H.
Qed.

Lemma spawnForceField_full (type : option string) (s : State) (o : Oracle) (k : nat) :
  (15 <= List.length (forceFields s))%nat -> spawnForceField type s o k = (s, k).
Proof.
  intro H. unfold spawnForceField.
  destruct (Nat.ltb_spec (List.length (forceFields s)) 15); [lia | reflexivity].
Qed.

Lemma init_spec (window : Canvas.t) (s : State) (o : Oracle) (k : nat) :
  config (fst (init window s o k)) = config s
  /\ forceFields (fst (init window s o k)) = forceFields s.
Proof.
  unfold init. rewrite RngFacts.bind_fst. cbn [ret fst config forceFields].
  split; reflexivity.
Qed.

Lemma click_spec (cx cy : R) (s : State) (o : Oracle) (k : nat) :
  let s' := fst (click cx cy s o k) in
  config s' = config s
  /\ (List.length (forceFields s) <= 15 -> List.length (forceFields s') <= 15)%nat.
Proof.
  unfold click. rewrite RngFacts.bind_fst.
  destruct (Nat.ltb_spec (List.length (forceFields s)) 10) as [Hlt | Hge];
    cbn [ret fst config forceFields with_forceFields].
  - split; [reflexivity |]. intros _. rewrite length_app. simpl. lia.
  - split; [reflexivity |]. intro H. exact H.
Qed.

Lemma filter_length_le {A} (p : A -> bool) (l : list A) :
  (List.length (filter p l) <= List.length l)%nat.
Proof.
  induction l as [| a l IH]; simpl; [lia |]. destruct (p a); simpl; lia.
Qed.

Lemma animate_spec (s : State) (o : Oracle) (k : nat) :
  let s' := fst (animate s o k) in
  config s' = config s
  /\ (List.length (forceFields s) <= 15 -> List.length (forceFields s') <= 15)%nat.
Proof.
  unfold animate. destruct (paused s); [split; [reflexivity | auto] |].
  rewrite RngFacts.bind_fst. cbn [Math_random fst snd].
  rewrite RngFacts.bind_fst.
  match goal with
  | |- context [(if ?c then spawnForceField None s else ret s) o (S k)] =>
      set (m1 := (if c then spawnForceField None s else ret s) o (S k))
  end.
  assert (config (fst m1) = config s
          /\ canvas (fst m1) = canvas s
          /\ (List.length (forceFields s) <= 15
              -> List.length (forceFields (fst m1)) <= 15)%nat) as (Hc1 & Hv1 & Hl1).
  { unfold m1. destruct (_ && _).
    - apply spawnForceField_spec.
    - repeat split. auto. }
  set (s1 := fst m1) in *. set (k1 := snd m1).
  rewrite RngFacts.bind_fst.
  set (m2 := mapM _ _ o k1).
  assert (List.length (fst m2) <= List.length (forceFields s1))%nat as Hl2.
  { unfold m2. rewrite RngFacts.mapM_length. apply filter_length_le. }
  set (s2 := if negb (Config.particleInteraction (config s) =? "none")%string
             then buildSpatialGrid (with_forceFields s1 (fst m2))
             else with_forceFields s1 (fst m2)).
  assert (stable (with_forceFields s1 (fst m2)) s2) as Hs2
    by (unfold s2; destruct (negb _); repeat split).
  rewrite RngFacts.bind_fst.
  pose proof (updateParticles_stable s2 o (snd m2)) as Hs3.
  set (m3 := updateParticles s2 o (snd m2)) in *.
  rewrite RngFacts.bind_fst.
  match goal with
  | |- context [(if (Config.noiseMode (config s) =? 5)%Z then ?a else ret (fst m3))
                  o (snd m3)] =>
      set (m4 := (if (Config.noiseMode (config s) =? 5)%Z then a else ret (fst m3))
                   o (snd m3))
  end.
  assert (stable (fst m3) (fst m4)) as Hs4.
  { unfold m4. destruct (Config.noiseMode (config s) =? 5)%Z.
    - apply respawnLoop_stable.
    - apply stable_refl. }
  rewrite RngFacts.bind_fst.
  match goal with
  | |- context [(if Config.respawnRate (config s) >? 0 then ?a else ret (fst m4))
                  o (snd m4)] =>
      set (m5 := (if Config.respawnRate (config s) >? 0 then a else ret (fst m4))
                   o (snd m4))
  end.
  assert (stable (fst m4) (fst m5)) as Hs5.
  { unfold m5. destruct (Config.respawnRate (config s) >? 0).
    - apply respawnLoop_stable.
    - apply stable_refl. }
  cbn [ret fst config forceFields with_time].
  pose proof (stable_trans _ _ _ (stable_trans _ _ _ (stable_trans _ _ _ Hs2 Hs3) Hs4) Hs5)
    as (Hc & Hf & _).
  cbn [config forceFields with_forceFields] in Hc, Hf.
  split; [congruence |]. intro H. rewrite Hf. specialize (Hl1 H). lia.
Qed.

Lemma keydownConfig_range (key : string) (c : Config.t) :
  in_range c -> in_range (keydownConfig key c).
Proof.
  intros [Hb Hf]. unfold keydownConfig, in_range.
  repeat match goal with
    | |- context [if String.eqb key ?k then _ else _] =>
        destruct (String.eqb key k)
    end;
    cbn [Config.backgroundStrength Config.forceFieldStrength
         set_particleInteraction set_noiseMode set_brownianMotion
         set_backgroundStrength set_forceFieldStrength set_spawnRate];
    try (split; assumption).
  - split; [| assumption]. unfold Rmax. destruct (Rle_dec _ _); lra.
  - split; [| assumption]. unfold Rmin. destruct (Rle_dec _ _); lra.
  - split; [assumption |]. unfold Rmax. destruct (Rle_dec _ _); lra.
  - split; [assumption |]. unfold Rmin. destruct (Rle_dec _ _); lra.
Qed.

Lemma keydown_spec (window : Canvas.t) (key : string) (s : State)
    (o : Oracle) (k : nat) :
  let s' := fst (keydown window key s o k) in
  (in_range (config s) -> in_range (config s'))
  /\ (within_cap s -> within_cap s').
Proof.
  unfold keydown, within_cap.
  repeat match goal with
    | |- context [if String.eqb key ?c then _ else _] =>
        destruct (String.eqb key c)
    end;
    try match goal with
      | |- context [spawnForceField ?t s o k] =>
          pose proof (spawnForceField_spec t s o k) as Hsp; cbv zeta in Hsp;
          destruct Hsp as (Hc & _ & Hl); rewrite Hc; split; [auto | exact Hl]
      end.
  - split; auto.
  - unfold cycleColorScheme. rewrite RngFacts.bind_fst.
    cbn [ret fst config forceFields with_particles with_config]. split; auto.
  - unfold reset. rewrite RngFacts.bind_fst. cbn [Math_random fst snd].
    match goal with
    | |- context [init window ?s0 o (S k)] =>
        destruct (init_spec window s0 o (S k)) as [Hc Hf]; rewrite Hc, Hf
    end.
    split; auto.
  - split; auto.
  - cbn [ret fst]. unfold clearForceFields. split; [auto |].
    intros _. simpl. lia.
  - cbn [ret fst config forceFields with_config]. split; [| auto].
    apply keydownConfig_range.
Qed.

Lemma handle_spec (e : Event) (s : State) (o : Oracle) (k : nat) :
  let s' := fst (handle e s o k) in
  (in_range (config s) -> in_range (config s'))
  /\ (within_cap s -> within_cap s').
Proof.
  destruct e; cbn [handle]; try (split; auto; fail).
  - apply keydown_spec.
  - destruct (click_spec clientX clientY s o k) as [Hc Hl].
    cbv zeta. rewrite Hc. split; [auto | exact Hl].
  - destruct (spawnForceField_spec type s o k) as (Hc & _ & Hl).
    cbv zeta. rewrite Hc. split; [auto | exact Hl].
  - destruct (init_spec window s o k) as [Hc Hf].
    cbv zeta. unfold within_cap. rewrite Hc, Hf. split; auto.
  - destruct (animate_spec s o k) as [Hc Hl].
    cbv zeta. rewrite Hc. split; [auto | exact Hl].
Qed.

Lemma run_spec (es : list Event) :
  forall (s : State) (o : Oracle) (k : nat),
    let s' := fst (run es s o k) in
    (in_range (config s) -> in_range (config s'))
    /\ (within_cap s -> within_cap s').
Proof.
  induction es as [| e es IH]; intros s o k.
  - split; auto.
  - cbn [run]. cbv zeta. rewrite RngFacts.bind_fst.
    destruct (handle_spec e s o k) as [H1 H2].
    destruct (IH (fst (handle e s o k)) o (snd (handle e s o k))) as [H3 H4].
    split; auto.
Qed.

End PageFacts.

(* ================================================================== *)
(** ** The events of the WebGL instance: capacity *)
(* ================================================================== *)

Module SpawnFacts.

Import Rng GPU GpuProps.

Lemma update_cap (s : State) (o : Oracle) (k : nat) :
  GpuProps.within_cap s -> GpuProps.within_cap (fst (update s o k)).
Proof.
  intro H. rewrite GpuFacts.update_unfold. cbn [fst].
  pose proof (GpuFacts.updateForceFields_spec s o k) as Hspec. cbv zeta in Hspec.
  destruct Hspec as [_ Hcap]. exact (Hcap H).
Qed.

Lemma handle_cap (e : Event) (s : State) (o : Oracle) (k : nat) :
  GpuProps.within_cap s -> GpuProps.within_cap (fst (handle e s o k)).
Proof.
  intro H. destruct e; cbn [handle]; try exact H.
  - apply GpuFacts.addForceField_cap. exact H.
  - rewrite RngFacts.bind_fst. cbn [ret fst].
    destruct ((Rabs (clientX - fst (touchStart s)) <? 10)
              && (Rabs (clientY - snd (touchStart s)) <? 10)).
    + unfold GpuProps.within_cap, moveMouse.
      cbn [maxForceFields forceFields with_mouse].
      apply (GpuFacts.addForceField_cap clientX
               (Canvas.height (canvas s) - clientY) (-1) s o k H).
    + exact H.
  - apply GpuFacts.addForceField_cap. exact H.
  - unfold animate. destruct (paused s); [exact H |]. apply update_cap. exact H.
Qed.

Lemma run_cap (es : list Event) :
  forall (s : State) (o : Oracle) (k : nat),
    GpuProps.within_cap s -> GpuProps.within_cap (fst (run es s o k)).
Proof.
  induction es as [| e es IH]; intros s o k H.
  - exact H.
  - cbn [run]. rewrite RngFacts.bind_fst. apply IH, handle_cap, H.
Qed.

(** At capacity, a request that finds a type evicts the oldest field and
    appends the new one. *)
Lemma addForceField_full (x y : R) (type : Z) (s : State) (o : Oracle) (k : nat) :
  maxForceFields s = 40%nat -> List.length (forceFields s) = 40%nat ->
  GpuProps.resolves type s = true ->
  exists f : ForceField.t,
    forceFields (fst (addForceField x y type s o k)) = tl (forceFields s) ++ [f]
    /\ ForceField.x f = x /\ ForceField.y f = y.
Proof.
  intros Hmax Hlen Hres.
  pose proof (GpuFacts.addForceField_spec x y type s o k) as Hspec.
  cbv zeta in Hspec. destruct Hspec as [_ Hff]. rewrite Hres in Hff.
  unfold GpuProps.afterEviction in Hff. rewrite Hmax, Hlen in Hff.
  exact Hff.
Qed.

Lemma frame_enabled (s s' : State) :
  GpuProps.frame s s' -> allEnabled s -> allEnabled s'.
Proof.
  intros (_ & _ & _ & He & _) H. unfold allEnabled. rewrite He. exact H.
Qed.

Lemma update_enabled (s : State) (o : Oracle) (k : nat) :
  allEnabled s -> allEnabled (fst (update s o k)).
Proof.
  intro H. rewrite GpuFacts.update_unfold. cbn [fst].
  pose proof (GpuFacts.updateForceFields_spec s o k) as Hspec. cbv zeta in Hspec.
  destruct Hspec as [Hfr _].
  unfold allEnabled, GpuProps.afterPass.
  cbn [enabledForceTypes with_config with_particles].
  exact (frame_enabled _ _ Hfr H).
Qed.

Lemma handle_enabled (e : Event) (s : State) (o : Oracle) (k : nat) :
  allEnabled s -> allEnabled (fst (handle e s o k)).
Proof.
  intro H. destruct e; cbn [handle]; try exact H.
  - apply (frame_enabled s); [apply BufferFacts.addForceField_frame | exact H].
  - rewrite RngFacts.bind_fst. cbn [ret fst].
    destruct ((Rabs (clientX - fst (touchStart s)) <? 10)
              && (Rabs (clientY - snd (touchStart s)) <? 10)).
    + unfold allEnabled, moveMouse. cbn [enabledForceTypes with_mouse].
      apply (frame_enabled s); [apply BufferFacts.addForceField_frame | exact H].
    + exact H.
  - apply (frame_enabled s); [apply BufferFacts.addForceField_frame | exact H].
  - unfold animate. destruct (paused s); [exact H |]. apply update_enabled, H.
Qed.

Lemma constructor_fresh (c : Canvas.t) (initialConfig : Obj) (o : Oracle) (k : nat) :
  let s := fst (constructor c initialConfig o k) in
  forceFields s = [] /\ maxForceFields s = 40%nat /\ allEnabled s.
Proof.
  unfold constructor. rewrite RngFacts.bind_fst. repeat split.
Qed.

Lemma reachable_ready (s : State) :
  GpuProps.Reachable s -> GpuProps.within_cap s /\ allEnabled s.
Proof.
  induction 1 as [c cfg o k | s e o k _ [IHc IHe]].
  - pose proof (constructor_fresh c cfg o k) as H. cbv zeta in H.
    destruct H as (Hff & Hmax & Hen). split; [split |].
    + exact Hmax.
    + rewrite Hff. simpl. lia.
    + exact Hen.
  - split; [apply handle_cap, IHc | apply handle_enabled, IHe].
Qed.

Lemma allEnabled_resolves (type : Z) (s : State) :
  allEnabled s -> GpuProps.resolves type s = true.
Proof.
  unfold allEnabled, GpuProps.resolves. intros ->.
  destruct (type <? 0)%Z; reflexivity.
Qed.

Lemma reachable_run (es : list Event) :
  forall (s : State) (o : Oracle) (k : nat),
    GpuProps.Reachable s -> GpuProps.Reachable (fst (run es s o k)).
Proof.
  induction es as [| e es IH]; intros s o k H.
  - exact H.
  - cbn [run]. rewrite RngFacts.bind_fst. apply IH.
    apply GpuProps.reach_event. exact H.
Qed.

(** Below capacity a click adds one field. *)
Lemma click_length (x y : R) (s : State) (o : Oracle) (k : nat) :
  GpuProps.within_cap s -> allEnabled s ->
  (List.length (forceFields s) < 40)%nat ->
  List.length (forceFields (fst (handle (Click x y) s o k)))
  = S (List.length (forceFields s)).
Proof.
  intros [Hmax _] Hen Hlt. cbn [handle].
  pose proof (GpuFacts.addForceField_spec x (Canvas.height (canvas s) - y) (-1) s o k)
    as Hspec.
  cbv zeta in Hspec. destruct Hspec as [_ Hff].
  rewrite (allEnabled_resolves _ _ Hen) in Hff.
  destruct Hff as (f & -> & _).
  unfold GpuProps.afterEviction. rewrite Hmax.
  destruct (Nat.leb_spec 40 (List.length (forceFields s))) as [Hge | _]; [lia |].
  rewrite length_app. simpl. lia.
Qed.

Lemma clicks_length (x y : R) (n : nat) :
  forall (s : State) (o : Oracle) (k : nat),
    GpuProps.Reachable s ->
    (List.length (forceFields s) + n <= 40)%nat ->
    List.length (forceFields (fst (run (repeat (Click x y) n) s o k)))
    = (List.length (forceFields s) + n)%nat.
Proof.
  induction n as [| n IH]; intros s o k Hr Hle.
  - simpl. lia.
  - cbn [repeat run]. rewrite RngFacts.bind_fst.
    destruct (reachable_ready s Hr) as [Hcap Hen].
    pose proof (click_length x y s o k Hcap Hen ltac:(lia)) as Hone.
    rewrite IH.
    + rewrite Hone. lia.
    + apply GpuProps.reach_event. exact Hr.
    + rewrite Hone. lia.
Qed.

(** At capacity, in any state of the instance, a request evicts the oldest
    field and appends the new one. *)
Lemma addForceField_evicts (x y : R) (type : Z) (s : State) (o : Oracle) (k : nat) :
  GpuProps.Reachable s -> List.length (forceFields s) = 40%nat ->
  exists f : ForceField.t,
    forceFields (fst (addForceField x y type s o k)) = tl (forceFields s) ++ [f]
    /\ ForceField.x f = x /\ ForceField.y f = y.
Proof.
  intros Hr Hlen. destruct (reachable_ready s Hr) as [[Hmax _] Hen].
  apply addForceField_full; [exact Hmax | exact Hlen |].
  apply allEnabled_resolves, Hen.
Qed.

End SpawnFacts.


(* ================================================================== *)
(** ** The pointer: guarded divisions *)
(* ================================================================== *)

Module PointerFacts.

Import Checked.

Lemma div_nonzero (a b : R) : b <> 0 -> div a b = Some (a / b).
Proof.
  intro H. unfold div. destruct (NumFacts.eqb_spec b 0); [contradiction | reflexivity].
Qed.

Lemma andb_bounds (d r : R) : (d <? r) && (d >? 5) = true -> 5 < d < r.
Proof.
  intro H. apply andb_prop in H. destruct H as [H1 H2].
  destruct (NumFacts.ltb_spec d r); [| discriminate].
  destruct (NumFacts.ltb_spec 5 d); [| discriminate]. lra.
Qed.

Lemma mouseForce_total (u : GPU.Uniforms) (pos : vec2) :
  mouseForceOf u pos = Some (GPU.mouseForceOf u pos).
Proof.
  unfold mouseForceOf, GPU.mouseForceOf.
  destruct (GPU.u_mouse u) as [[mx my] mz].
  destruct ((V2.length (V2.sub pos (mx, my)) <? mz)
            && (V2.length (V2.sub pos (mx, my)) >? 5)) eqn:Hg; [| reflexivity].
  apply andb_bounds in Hg.
  rewrite !div_nonzero by lra. cbn [bind].
  destruct (GPU.u_mouseMode u =? 0)%Z; [reflexivity |].
  destruct (GPU.u_mouseMode u =? 1)%Z; reflexivity.
Qed.

Lemma mouseMove_total (s : CPU.State) (this : CPU.Particle.t) (move : vec2) :
  mouseMove s this move = Some (CPU.mouseMove s this move).
Proof.
  unfold mouseMove, CPU.mouseMove.
  destruct (CPU.Mouse.active (CPU.mouse s)); [| reflexivity].
  destruct (CPU.Mouse.x (CPU.mouse s)) as [mx |]; [| reflexivity].
  match goal with
  | |- context [(?d <? ?r) && (?d >? 5)] =>
      destruct ((d <? r) && (d >? 5)) eqn:Hg; [| reflexivity];
      apply andb_bounds in Hg
  end.
  rewrite !div_nonzero by lra. cbn [bind].
  repeat match goal with
    | |- context [if String.eqb ?a ?b then _ else _] => destruct (String.eqb a b)
    end; try reflexivity.
Qed.

Lemma mouseMove_guard (s : CPU.State) (this : CPU.Particle.t) (move : vec2) :
  let m := CPU.mouse s in
  let dx := CPU.Particle.x this - CPU.orZero (CPU.Mouse.x m) in
  let dy := CPU.Particle.y this - CPU.orZero (CPU.Mouse.y m) in
  let dist := sqrt (dx * dx + dy * dy) in
  CPU.Mouse.active m = false \/ CPU.Mouse.x m = None
  \/ dist <= 5 \/ CPU.Mouse.radius m <= dist ->
  CPU.mouseMove s this move = move.
Proof.
  intros m dx dy dist H. unfold CPU.mouseMove. fold m.
  destruct (CPU.Mouse.active m); [| reflexivity].
  destruct (CPU.Mouse.x m) as [mx |] eqn:Hx; [| reflexivity].
  destruct H as [H | [H | H]]; try discriminate.
  cbn [CPU.orZero] in dx. fold dx dy dist.
  destruct H as [H | H].
  - rewrite (NumFacts.ltb_false 5 dist) by assumption.
    rewrite andb_false_r. reflexivity.
  - rewrite (NumFacts.ltb_false dist) by assumption. reflexivity.
Qed.

End PointerFacts.

(* ================================================================== *)
(** ** Rules for postconditions *)
(* ================================================================== *)

Module PostFacts.
Import Rng RngProps.

Lemma post_ret {A} (a : A) (Q : A -> Prop) : Q a -> post (ret a) Q.
Proof. intros H o k _. exact H. Qed.

Lemma post_bind {A B} (m : M A) (f : A -> M B) (P : A -> Prop) (Q : B -> Prop) :
  post m P -> (forall a, P a -> post (f a) Q) -> post (bind m f) Q.
Proof.
  intros Hm Hf o k Ho. rewrite RngFacts.bind_fst. apply Hf; [| exact Ho].
  apply Hm. exact Ho.
Qed.

Lemma post_random : post Math_random (fun r => 0 <= r < 1).
Proof. intros o k Ho. exact (Ho k). Qed.

Lemma post_and {A} (m : M A) (P Q : A -> Prop) :
  post m P -> post m Q -> post m (fun a => P a /\ Q a).
Proof. intros HP HQ o k Ho. split; [apply HP | apply HQ]; exact Ho. Qed.

Lemma post_any {A} (m : M A) : post m (fun _ => True).
Proof. intros o k _. exact I. Qed.

Lemma post_weaken {A} (m : M A) (P Q : A -> Prop) :
  post m P -> (forall a, P a -> Q a) -> post m Q.
Proof. intros Hm H o k Ho. apply H, Hm, Ho. Qed.

Lemma post_mapM {A B} (f : A -> M B) (Q : B -> Prop) (l : list A) :
  (forall a, In a l -> post (f a) Q) -> post (mapM f l) (Forall Q).
Proof.
  induction l as [| a l IH]; intro H; cbn [mapM].
  - apply post_ret. constructor.
  - eapply post_bind; [apply H; left; reflexivity |]. intros b Hb.
    eapply post_bind; [apply IH; intros a' Ha'; apply H; right; exact Ha' |].
    intros bs Hbs. apply post_ret. constructor; assumption.
Qed.

Lemma post_foldM {A B} (f : A -> B -> M A) (P : A -> Prop) (l : list B) :
  (forall a b, P a -> post (f a b) P) -> forall a, P a -> post (foldM f l a) P.
Proof.
  intro H. induction l as [| b l IH]; intros a Ha; cbn [foldM].
  - apply post_ret. exact Ha.
  - eapply post_bind; [apply H; exact Ha |]. intros a' Ha'. apply IH. exact Ha'.
Qed.

End PostFacts.

(** One draw of [Math.random] in a [post] goal. *)
Ltac draw r H :=
  eapply PostFacts.post_bind; [apply PostFacts.post_random | intros r H].

(* ================================================================== *)
(** ** The spatial grid of the canvas variant *)
(* ================================================================== *)

Module GridFacts.

Import Rng CPU CpuProps.

Lemma keyEqb_spec (a b : Z * Z) : reflect (a = b) (keyEqb a b).
Proof.
  destruct a as [a1 a2], b as [b1 b2]. unfold keyEqb. cbn [fst snd].
  destruct (Z.eqb_spec a1 b1) as [-> | H1]; cbn [andb].
  - destruct (Z.eqb_spec a2 b2) as [-> | H2]; constructor; congruence.
  - constructor. congruence.
Qed.

(** The cell of [key] after pushing [i] into the cell of [key']. *)
Lemma gridGet_push (g : Grid) (key key' : Z * Z) (i : nat) :
  gridGet (gridPush g key i) key' =
  if keyEqb key key'
  then Some (match gridGet g key with Some l => l ++ [i] | None => [i] end)
  else gridGet g key'.
Proof.
  induction g as [| [k l] g IH]; cbn [gridPush gridGet].
  - destruct (keyEqb_spec key key'); reflexivity.
  - destruct (keyEqb_spec k key) as [-> | Hk]; cbn [gridGet].
    + destruct (keyEqb_spec key key'); reflexivity.
    + destruct (keyEqb_spec k key') as [-> | Hk'].
      * destruct (keyEqb_spec key key'); [congruence | reflexivity].
      * exact IH.
Qed.

Lemma gridGet_pushAll (l : list (nat * Particle.t)) :
  forall (g : Grid) (key : Z * Z),
    gridGet (pushAll g l) key =
    match gridGet g key, members l key with
    | None, [] => None
    | None, m => Some m
    | Some l0, m => Some (l0 ++ m)
    end.
Proof.
  induction l as [| [i p] l IH]; intros g key.
  - cbn. destruct (gridGet g key); [rewrite app_nil_r |]; reflexivity.
  - change (pushAll g ((i, p) :: l))
      with (pushAll (gridPush g (getSpatialKey (Particle.x p) (Particle.y p)) i) l).
    rewrite IH, gridGet_push. unfold members. cbn [filter snd fst].
    destruct (keyEqb_spec (getSpatialKey (Particle.x p) (Particle.y p)) key) as [-> | Hk].
    + cbn [map fst]. fold (members l key).
      destruct (gridGet g key) as [l0 |].
      * rewrite <- app_assoc. reflexivity.
      * destruct (members l key); reflexivity.
    + reflexivity.
Qed.

Lemma in_members (l : list (nat * Particle.t)) (key : Z * Z) (j : nat) :
  In j (members l key) <->
  exists p, In (j, p) l /\ getSpatialKey (Particle.x p) (Particle.y p) = key.
Proof.
  unfold members. rewrite in_map_iff. split.
  - intros ([i p] & Hi & Hin). cbn in Hi. subst i.
    apply filter_In in Hin. destruct Hin as [Hin Hk]. cbn [snd] in Hk.
    exists p. split; [exact Hin |].
    destruct (keyEqb_spec (getSpatialKey (Particle.x p) (Particle.y p)) key);
      [assumption | discriminate].
  - intros (p & Hin & Hk). exists (j, p). split; [reflexivity |].
    apply filter_In. split; [exact Hin |]. cbn [snd]. rewrite Hk.
    destruct (keyEqb_spec key key); [reflexivity | congruence].
Qed.

Lemma in_indexed {A} (l : list A) (j : nat) (a : A) :
  In (j, a) (combine (seq 0 (List.length l)) l) <-> nth_error l j = Some a.
Proof.
  assert (forall (l : list A) (b : nat),
             In (j, a) (combine (seq b (List.length l)) l)
             <-> (b <= j)%nat /\ nth_error l (j - b) = Some a) as H.
  { clear l. induction l as [| x l IH]; intro b; cbn [List.length seq combine].
    - split; [intros [] | intros [_ H]; destruct (j - b)%nat; discriminate].
    - cbn [In]. rewrite IH. split.
      + intros [E | [Hle Hn]].
        * injection E as -> ->. split; [lia |]. rewrite Nat.sub_diag. reflexivity.
        * split; [lia |]. replace (j - b)%nat with (S (j - S b)) by lia. exact Hn.
      + intros [Hle Hn]. destruct (Nat.eq_dec b j) as [-> | Hne].
        * left. rewrite Nat.sub_diag in Hn. injection Hn as ->. reflexivity.
        * right. split; [lia |].
          replace (j - b)%nat with (S (j - S b)) in Hn by lia. exact Hn. }
  rewrite H, Nat.sub_0_r. split; [intros [_ Hn]; exact Hn | intro Hn; split; [lia | exact Hn]].
Qed.

(** Lookup after [buildSpatialGrid]: a cell holds exactly the particles that
    lie in it. *)
Lemma grid_lookup (s : State) (key : Z * Z) (j : nat) :
  (exists l, gridGet (spatialGrid (buildSpatialGrid s)) key = Some l /\ In j l)
  <-> exists p, nth_error (particles s) j = Some p
                /\ getSpatialKey (Particle.x p) (Particle.y p) = key.
Proof.
  unfold buildSpatialGrid. cbn [spatialGrid with_spatialGrid].
  fold (pushAll [] (combine (seq 0 (List.length (particles s))) (particles s))).
  rewrite gridGet_pushAll. cbn [gridGet].
  set (l := combine _ _).
  assert (In j (members l key) <->
          exists p, nth_error (particles s) j = Some p
                    /\ getSpatialKey (Particle.x p) (Particle.y p) = key) as Hm.
  { rewrite in_members. unfold l. split; intros (p & H1 & H2); exists p;
      (split; [apply in_indexed; exact H1 | exact H2]). }
  rewrite <- Hm. destruct (members l key) as [| a m].
  - split; [intros (l0 & H & _); discriminate | intros []].
  - split.
    + intros (l0 & H & Hin). injection H as <-. exact Hin.
    + intro Hin. eexists. split; [reflexivity | exact Hin].
Qed.

Lemma in_zrange (lo hi d : Z) : (lo <= d <= hi)%Z -> In d (zrange lo hi).
Proof.
  intro H. unfold zrange. apply in_map_iff. exists (Z.to_nat (d - lo)).
  split; [lia |]. apply in_seq. lia.
Qed.

(** Two numbers at most [c] apart fall into cells at most [ceil c] apart. *)
Lemma cells_apart (a b c : R) :
  Rabs (a - b) <= c ->
  (- Zceil c <= Zfloor a - Zfloor b <= Zceil c)%Z.
Proof.
  intro H.
  assert (- c <= a - b <= c) as H'
    by (unfold Rabs in H; destruct (Rcase_abs (a - b)); lra).
  clear H. rename H' into H.
  pose proof (NumFacts.floor_bound a) as Ha.
  pose proof (NumFacts.floor_bound b) as Hb.
  unfold Num.floor in Ha, Hb.
  assert (c <= IZR (Zceil c)) as Hc.
  { unfold Zceil. rewrite opp_IZR.
    pose proof (NumFacts.floor_bound (- c)) as Hn. unfold Num.floor in Hn. lra. }
  split.
  - apply Z.lt_succ_r, lt_IZR. rewrite succ_IZR, minus_IZR. rewrite opp_IZR. lra.
  - apply Z.lt_succ_r, lt_IZR. rewrite succ_IZR, minus_IZR. lra.
Qed.

(** No particle of the neighbourhood box is missed. *)
Lemma nearby_complete (s : State) (x y radius : R) (j : nat) (p : Particle.t) :
  nth_error (particles s) j = Some p ->
  Rabs (Particle.x p / GRID_CELL_SIZE - x / GRID_CELL_SIZE) <= radius / GRID_CELL_SIZE ->
  Rabs (Particle.y p / GRID_CELL_SIZE - y / GRID_CELL_SIZE) <= radius / GRID_CELL_SIZE ->
  In j (getNearbyParticles (spatialGrid (buildSpatialGrid s)) x y radius).
Proof.
  intros Hp Hx Hy. unfold getNearbyParticles.
  apply cells_apart in Hx. apply cells_apart in Hy.
  set (C := Zceil (radius / GRID_CELL_SIZE)) in *.
  set (gx := Zfloor (x / GRID_CELL_SIZE)) in *.
  set (gy := Zfloor (y / GRID_CELL_SIZE)) in *.
  destruct (proj2 (grid_lookup s (getSpatialKey (Particle.x p) (Particle.y p)) j))
    as (l & Hl & Hin); [exists p; split; [exact Hp | reflexivity] |].
  unfold getSpatialKey in Hl.
  apply in_flat_map. exists (Zfloor (Particle.x p / GRID_CELL_SIZE) - gx)%Z.
  split; [apply in_zrange; lia |].
  apply in_flat_map. exists (Zfloor (Particle.y p / GRID_CELL_SIZE) - gy)%Z.
  split; [apply in_zrange; lia |].
  replace (gx + (Zfloor (Particle.x p / GRID_CELL_SIZE) - gx))%Z
    with (Zfloor (Particle.x p / GRID_CELL_SIZE)) by lia.
  replace (gy + (Zfloor (Particle.y p / GRID_CELL_SIZE) - gy))%Z
    with (Zfloor (Particle.y p / GRID_CELL_SIZE)) by lia.
  rewrite Hl. exact Hin.
Qed.

End GridFacts.

(* ================================================================== *)
(** ** The tables of the noise generator *)
(* ================================================================== *)

Module NoiseFacts.

Import CPU CpuProps.

Lemma setNth_length {A} (n : nat) (a : A) (l : list A) :
  List.length (setNth n a l) = List.length l.
Proof.
  revert n. induction l as [| b l IH]; intros [| n]; cbn [setNth List.length];
    try reflexivity. rewrite IH. reflexivity.
Qed.

Lemma setNth_Forall {A} (P : A -> Prop) (n : nat) (a : A) (l : list A) :
  P a -> Forall P l -> Forall P (setNth n a l).
Proof.
  intros Ha Hl. revert n. induction Hl as [| b l Hb Hl IH]; intros [| n];
    cbn [setNth]; constructor; auto.
Qed.

Lemma nth_Forall {A} (P : A -> Prop) (n : nat) (l : list A) (d : A) :
  P d -> Forall P l -> P (nth n l d).
Proof.
  intros Hd Hl. revert n. induction Hl as [| b l Hb Hl IH]; intros [| n];
    cbn [nth]; auto.
Qed.

Lemma shuffleStep_bytes (st : R * list Z) (i : nat) :
  bytes (snd st) -> bytes (snd (shuffleStep st i)).
Proof.
  destruct st as [n p]. intros [Hlen Hall]. unfold shuffleStep. cbn [snd].
  assert ((0 <= 0 <= 255)%Z) as H0 by lia.
  destruct (Num.isIndex _ 256); cbn [snd]; split;
    rewrite ?setNth_length; try exact Hlen;
    repeat apply setNth_Forall; try exact Hall; try exact H0;
    apply nth_Forall; assumption.
Qed.

Lemma shuffle_bytes (l : list nat) (st : R * list Z) :
  bytes (snd st) -> bytes (snd (fold_left shuffleStep l st)).
Proof.
  revert st. induction l as [| i l IH]; intros st H; cbn [fold_left].
  - exact H.
  - apply IH, shuffleStep_bytes, H.
Qed.

Lemma identity_bytes : bytes (map Z.of_nat (seq 0 256)).
Proof.
  split.
  - rewrite length_map, length_seq. reflexivity.
  - apply Forall_forall. intros v Hv. apply in_map_iff in Hv.
    destruct Hv as (k & <- & Hk). apply in_seq in Hk. lia.
Qed.

(** Whatever the seed, the constructor fills both tables completely. *)
Lemma new_tables (seed : R) : tables (NoiseGenerator_new seed).
Proof.
  unfold NoiseGenerator_new, tables. cbn [NoiseGenerator.perm NoiseGenerator.gradP].
  set (p := snd (fold_left shuffleStep _ _)).
  assert (bytes p) as [Hlen Hall] by apply shuffle_bytes, identity_bytes.
  assert ((0 <= 0 <= 255)%Z) as H0 by lia.
  assert (Forall (fun v => (0 <= v <= 255)%Z)
            (map (fun i => nth (Z.to_nat (Z.land (Z.of_nat i) 255)) p 0%Z) (seq 0 512)))
    as Hperm.
  { apply Forall_forall. intros v Hv. apply in_map_iff in Hv.
    destruct Hv as (k & <- & _). apply nth_Forall; assumption. }
  split; [| split; [| split]].
  - rewrite length_map, length_seq. reflexivity.
  - rewrite !length_map, length_seq. reflexivity.
  - exact Hperm.
  - apply Forall_forall. intros v Hv. apply in_map_iff in Hv.
    destruct Hv as (w & <- & Hw).
    rewrite Forall_forall in Hperm. specialize (Hperm w Hw).
    apply nth_In. change (List.length grad3) with 12%nat.
    pose proof (Z.mod_pos_bound w 12 ltac:(lia)). lia.
Qed.

Lemma land_byte (a : Z) : (0 <= Z.land a 255 <= 255)%Z.
Proof.
  change 255%Z with (Z.ones 8). rewrite Z.land_ones by lia.
  pose proof (Z.mod_pos_bound a (2 ^ 8) ltac:(lia)) as H.
  change (2 ^ 8)%Z with 256%Z in *. change (Z.ones 8) with 255%Z. lia.
Qed.

Lemma index_nth {A} (l : list A) (k : Z) (d : A) :
  (0 <= k < Z.of_nat (List.length l))%Z ->
  index l k = Some (nth (Z.to_nat k) l d).
Proof.
  intro H. unfold index.
  destruct (Z.ltb_spec k 0); [lia |].
  apply nth_error_nth'. lia.
Qed.

Lemma perm_byte (g : NoiseGenerator.t) (k : Z) :
  tables g -> (0 <= nth (Z.to_nat k) (NoiseGenerator.perm g) 0 <= 255)%Z.
Proof.
  intros (_ & _ & H & _). apply (nth_Forall (fun v => (0 <= v <= 255)%Z)); [lia | exact H].
Qed.

(** With full tables no read of [noise2D] leaves them. *)
Lemma noise2D_in_range (g : NoiseGenerator.t) (x y : R) :
  tables g -> Checked.noise2D g x y = Some (noise2D g x y).
Proof.
  intro Ht. pose proof Ht as (Hp & Hg & _ & _).
  unfold Checked.noise2D, noise2D. cbv zeta.
  set (i := Z.land (Zfloor (x + (x + y) * (0.5 * (sqrt 3 - 1)))) 255).
  set (j := Z.land (Zfloor (y + (x + y) * (0.5 * (sqrt 3 - 1)))) 255).
  pose proof (land_byte (Zfloor (x + (x + y) * (0.5 * (sqrt 3 - 1))))) as Hi.
  pose proof (land_byte (Zfloor (y + (x + y) * (0.5 * (sqrt 3 - 1))))) as Hj.
  fold i in Hi. fold j in Hj.
  match goal with
  | |- context [if ?c then (1, 0)%Z else (0, 1)%Z] => destruct c
  end;
    repeat (first
      [ rewrite (index_nth (NoiseGenerator.perm g) _ 0%Z) by (rewrite Hp; lia)
      | match goal with
        | |- context [index (NoiseGenerator.gradP g) (?a + nth (Z.to_nat ?k) _ _)%Z] =>
            pose proof (perm_byte g k Ht);
            rewrite (index_nth (NoiseGenerator.gradP g) _ (0, 0, 0)) by (rewrite Hg; lia)
        end ];
      cbn [Checked.bind]);
    reflexivity.
Qed.

End NoiseFacts.

(* ================================================================== *)
(** ** The force fields of the canvas variant *)
(* ================================================================== *)

Module FieldFacts.

Import Rng CPU CpuProps RngProps.

(** [Math.floor (Math.random () * n)] is an index below [n]. *)
Lemma floor_index (r : R) (n : nat) :
  0 <= r < 1 -> (0 < n)%nat ->
  (0 <= Zfloor (r * INR n) < Z.of_nat n)%Z.
Proof.
  intros Hr Hn.
  pose proof (NumFacts.floor_bound (r * INR n)) as Hf. unfold Num.floor in Hf.
  assert (0 < INR n) as Hpos by (apply lt_0_INR; exact Hn).
  assert (r * INR n < INR n) as Hlt by nra.
  assert (0 <= r * INR n) as Hge by nra.
  assert (IZR (Zfloor (r * INR n)) < IZR (Z.of_nat n)) as H1
    by (rewrite <- INR_IZR_INZ; lra).
  apply lt_IZR in H1.
  assert (-1 < IZR (Zfloor (r * INR n))) as H2 by lra.
  apply lt_IZR in H2. lia.
Qed.

Lemma drift_bound (r m d : R) :
  0 <= r < 1 -> 0 <= m < 1 -> 0 <= d ->
  Rabs ((r - 0.5) * d * (0.5 + m * 1.5)) <= d.
Proof.
  intros Hr Hm Hd.
  assert (-1 <= (r - 0.5) * (0.5 + m * 1.5) <= 1) as H by nra.
  replace ((r - 0.5) * d * (0.5 + m * 1.5))
    with (d * ((r - 0.5) * (0.5 + m * 1.5))) by ring.
  apply Rabs_le. nra.
Qed.

(** What [new ForceField (type)] returns. *)
Lemma new_spec (w h drift : R) (type : option string) :
  post (ForceField_new w h drift type)
    (fun f =>
       match type with
       | Some t =>
           if String.eqb t "" then In (ForceField.type f) allTypes
           else ForceField.type f = t
       | None => In (ForceField.type f) allTypes
       end
       /\ 50 <= ForceField.strength f < 150
       /\ 80 <= ForceField.radius f < 200
       /\ 500 <= ForceField.maxLife f < 1500
       /\ ForceField.life f = ForceField.maxLife f
       /\ (if String.eqb (ForceField.type f) "vortex"
           then ForceField.rotation f = 1 \/ ForceField.rotation f = -1
           else ForceField.rotation f = 0)
       /\ (0 <= w -> 0 <= ForceField.x f <= w)
       /\ (0 <= h -> 0 <= ForceField.y f <= h)
       /\ (0 <= drift ->
           Rabs (ForceField.vx f) <= drift /\ Rabs (ForceField.vy f) <= drift)
       /\ 0 <= ForceField.pulsePhase f < 2 * PI
       /\ 0 <= ForceField.shearAngle f < 2 * PI
       /\ 0 <= ForceField.laneAngle f < 2 * PI
       /\ 0 <= ForceField.turbulenceSeed f < 1000).
Proof.
  pose proof PI_RGT_0 as Hpi.
  unfold ForceField_new.
  draw rx Hrx. draw ry Hry. draw rm Hrm. draw rvx Hrvx. draw rvy Hrvy.
  cbv zeta.
  eapply PostFacts.post_bind with
    (P := fun ty => match type with
                    | Some t => if String.eqb t "" then In ty allTypes else ty = t
                    | None => In ty allTypes
                    end).
  { assert (post
              (r <- Math_random ;;
               ret (nth (Z.to_nat (Zfloor (r * INR (List.length allTypes))))
                      allTypes ""%string))
              (fun ty => In ty allTypes)) as Hdrawn.
    { draw r Hr. apply PostFacts.post_ret. apply nth_In.
      pose proof (floor_index r (List.length allTypes) Hr ltac:(simpl; lia)). lia. }
    destruct type as [t |]; [destruct (String.eqb t "") |].
    - exact Hdrawn.
    - apply PostFacts.post_ret. reflexivity.
    - exact Hdrawn. }
  intros ty Hty. draw rs Hrs. draw rr Hrr.
  eapply PostFacts.post_bind with
    (P := fun rot => if String.eqb ty "vortex" then rot = 1 \/ rot = -1 else rot = 0).
  { destruct (String.eqb ty "vortex").
    - draw r Hr. apply PostFacts.post_ret.
      destruct (_ <? _); [left | right]; reflexivity.
    - apply PostFacts.post_ret. reflexivity. }
  intros rot Hrot. draw rl Hrl. draw rp Hrp. draw rsh Hrsh. draw rla Hrla.
  draw rt Hrt. apply PostFacts.post_ret. cbn.
  split; [exact Hty |]. split; [lra |]. split; [lra |]. split; [lra |].
  split; [reflexivity |]. split; [exact Hrot |].
  split; [intro; nra |]. split; [intro; nra |].
  split; [intro Hd; split; apply drift_bound; assumption |].
  repeat split; nra.
Qed.

(** A field made with the page's drift speed, of a known type, is in order. *)
Lemma new_ok (w h : R) (type : option string) :
  match type with Some t => In t allTypes | None => True end ->
  post (ForceField_new w h 0.5 type) fieldOk.
Proof.
  intro Ht. eapply PostFacts.post_weaken; [apply new_spec |].
  intros f (Hty & Hs & Hr & Hm & Hl & Hrot & _ & _ & Hd & Hp & Hsh & Hla & Hts).
  constructor; try assumption.
  - destruct type as [t |]; [| exact Hty].
    destruct (String.eqb t ""); [exact Hty | rewrite Hty; exact Ht].
  - rewrite Hl. lra.
  - apply Hd. lra.
  - lra.
  - repeat split; lra.
Qed.

(** [update ()] of a field: aged by one, clamped into the canvas, the drift
    reversed or kept. *)
Lemma update_spec (c : Canvas.t) (f : ForceField.t) :
  let f' := ForceField_update c f in
  ForceField.life f' = ForceField.life f - 1
  /\ ForceField.pulsePhase f' = ForceField.pulsePhase f + 0.05
  /\ Rabs (ForceField.vx f') = Rabs (ForceField.vx f)
  /\ Rabs (ForceField.vy f') = Rabs (ForceField.vy f)
  /\ (0 <= Canvas.width c -> 0 <= ForceField.x f' <= Canvas.width c)
  /\ (0 <= Canvas.height c -> 0 <= ForceField.y f' <= Canvas.height c)
  /\ ForceField.type f' = ForceField.type f
  /\ ForceField.strength f' = ForceField.strength f
  /\ ForceField.radius f' = ForceField.radius f
  /\ ForceField.rotation f' = ForceField.rotation f
  /\ ForceField.maxLife f' = ForceField.maxLife f
  /\ ForceField.shearAngle f' = ForceField.shearAngle f
  /\ ForceField.laneAngle f' = ForceField.laneAngle f
  /\ ForceField.turbulenceSeed f' = ForceField.turbulenceSeed f.
Proof.
  cbv zeta. unfold ForceField_update. cbn.
  assert (forall (b : bool) (v : R), Rabs (if b then v * -1 else v) = Rabs v) as Hflip.
  { intros [|] v; [| reflexivity].
    replace (v * -1) with (- v) by ring. apply Rabs_Ropp. }
  assert (forall w x : R, 0 <= w -> 0 <= Rmax 0 (Rmin w x) <= w) as Hclamp.
  { intros w x Hw. split; [apply Rmax_l |].
    apply Rmax_lub; [exact Hw | apply Rmin_l]. }
  repeat split; try reflexivity; try apply Hflip; apply Hclamp; assumption.
Qed.

Lemma aged_ok (c : Canvas.t) (f : ForceField.t) :
  fieldOk f -> 0 < ForceField.life f -> fieldOk (ForceField_update c f).
Proof.
  intros [Hty Hs Hr Hm Hl Hrot Hd Hp Ha] Hlive.
  pose proof (update_spec c f) as H. cbv zeta in H.
  destruct H as (El & Ep & Evx & Evy & _ & _ & Et & Es & Er & Erot & Em & Esh & Ela & Ets).
  constructor; rewrite ?El, ?Ep, ?Evx, ?Evy, ?Et, ?Es, ?Er, ?Erot, ?Em, ?Esh, ?Ela, ?Ets;
    try assumption; lra.
Qed.

Lemma ok_wellFormed (f : ForceField.t) : fieldOk f -> wellFormed f.
Proof.
  intros [Hty Hs Hr Hm Hl Hrot Hd Hp Ha]. repeat split; try assumption; try lra.
  intro E. rewrite E in Hrot. exact Hrot.
Qed.

(** The opacity of a drawn field follows the fade of its force, for fields
    that live at least 200 frames. *)
Lemma drawAlpha_fade (f : ForceField.t) :
  200 <= ForceField.maxLife f ->
  ForceField_drawAlpha f = lifeFactorOf f * 0.15.
Proof.
  intros Hm. unfold ForceField_drawAlpha, lifeFactorOf. f_equal.
  destruct (NumFacts.ltb_spec (ForceField.life f) 100) as [H1 | H1];
    destruct (NumFacts.ltb_spec (ForceField.maxLife f - 100) (ForceField.life f))
      as [H2 | H2]; try lra.
  - rewrite (Rmin_left (ForceField.life f / 100)) by lra. apply Rmin_right. lra.
  - rewrite (Rmin_right (ForceField.life f / 100)) by lra. apply Rmin_right. lra.
  - apply Rmin_left. apply Rmin_glb; lra.
Qed.

End FieldFacts.

(* ================================================================== *)
(** ** The particles of the canvas variant *)
(* ================================================================== *)

Module ParticleFacts.

Import Rng CPU CpuProps RngProps.

(** Every scheme has four colours. *)
Lemma scheme_length (cs : Z) :
  (0 <= cs < 8)%Z ->
  List.length (nth (Z.to_nat cs) colorSchemes []) = 4%nat.
Proof.
  intro H. assert (Z.to_nat cs < 8)%nat as Hn by lia.
  destruct (Z.to_nat cs) as [| [| [| [| [| [| [| [| n]]]]]]]]; try reflexivity. lia.
Qed.

Lemma in_canvas (r w : R) : 0 <= r < 1 -> 0 <= w -> 0 <= r * w <= w.
Proof. intros Hr Hw. nra. Qed.

(** [reset ()] gives a particle that is in order. *)
Lemma reset_ok (c : Canvas.t) (cfg : Config.t) :
  configOk cfg -> 0 <= Canvas.width c -> 0 <= Canvas.height c ->
  post (Particle_reset c cfg) (particleOk c).
Proof.
  intros Hcfg Hw Hh. unfold Particle_reset.
  draw rx Hrx. draw ry Hry. draw rs Hrs. draw rc Hrc. draw rm Hrm. draw rh Hrh.
  apply PostFacts.post_ret.
  pose proof (in_canvas rx _ Hrx Hw). pose proof (in_canvas ry _ Hry Hh).
  constructor;
    cbn [Particle.x Particle.y Particle.prevX Particle.prevY Particle.speed
         Particle.colorIndex Particle.life Particle.maxLife Particle.velocity
         Particle.hue]; try assumption; try lra.
  - rewrite (co_speed _ Hcfg). lra.
  - rewrite (scheme_length _ (co_colorScheme _ Hcfg)).
    pose proof (FieldFacts.floor_index rc 4 Hrc ltac:(lia)). lia.
Qed.

(** The tests that keep a moved particle: all five have failed. *)
Lemma kept (x y life w h maxLife : R) :
  (x <? 0) || (x >? w) || (y <? 0) || (y >? h) || (life >? maxLife) = false ->
  0 <= x <= w /\ 0 <= y <= h /\ life <= maxLife.
Proof.
  intro H. repeat (apply orb_false_elim in H; destruct H as [H ?]).
  repeat match goal with
    | E : Num.ltb ?a ?b = false |- _ =>
        destruct (NumFacts.ltb_spec a b); [discriminate |]; clear E
    end.
  lra.
Qed.

(** [update ()] keeps a particle in order. *)
Lemma update_ok (s : State) (i : nat) (this : Particle.t) :
  configOk (config s) ->
  0 <= Canvas.width (canvas s) -> 0 <= Canvas.height (canvas s) ->
  particleOk (canvas s) this ->
  post (Particle_update s i this) (particleOk (canvas s)).
Proof.
  intros Hcfg Hw Hh Hp. unfold Particle_update.
  eapply PostFacts.post_bind; [apply PostFacts.post_any |]. intros move _.
  match goal with
  | |- post (if ?c then _ else _) _ => destruct c eqn:Hc
  end.
  - apply reset_ok; assumption.
  - apply PostFacts.post_ret. apply kept in Hc. destruct Hc as (Hx & Hy & Hl).
    destruct Hp. constructor; cbn; try assumption; try lra.
    apply sqrt_pos.
Qed.

(** The stroke of a particle that is in order: a colour of the scheme, an
    opacity in [[0, 0.7]], from the previous position to the current one. *)
Lemma draw_alpha (cfg : Config.t) (p : Particle.t) (st : Stroke.t) :
  0 <= Particle.life p <= Particle.maxLife p -> 0 < Particle.maxLife p ->
  0 < Config.trailLength cfg ->
  Particle_draw cfg p = Some st ->
  0 <= Stroke.globalAlpha st <= 0.7.
Proof.
  intros Hl Hm Ht. unfold Particle_draw.
  match goal with
  | |- match ?c with _ => _ end = _ -> _ => destruct c as [color |]; [| discriminate]
  end.
  intro E. injection E as <-. cbn [Stroke.globalAlpha].
  set (ratio := Particle.life p / Particle.maxLife p).
  assert (0 <= ratio <= 1) as Hr.
  { unfold ratio. split.
    - apply Rmult_le_pos; [lra | left; apply Rinv_0_lt_compat; exact Hm].
    - apply Rmult_le_reg_r with (Particle.maxLife p); [exact Hm |].
      unfold Rdiv. rewrite Rmult_assoc, Rinv_l by lra. lra. }
  assert (0 <= 1 - ratio * ratio <= 1) as Ha by nra.
  set (fadeIn := 10 / Config.trailLength cfg).
  assert (0 < fadeIn) as Hf
    by (unfold fadeIn; apply Rmult_lt_0_compat; [lra | apply Rinv_0_lt_compat; exact Ht]).
  destruct (NumFacts.ltb_spec (Particle.life p) fadeIn) as [Hlt | Hge]; [| lra].
  assert (0 <= Particle.life p / fadeIn <= 1) as Hq.
  { split.
    - apply Rmult_le_pos; [lra | left; apply Rinv_0_lt_compat; exact Hf].
    - apply Rmult_le_reg_r with fadeIn; [exact Hf |].
      unfold Rdiv. rewrite Rmult_assoc, Rinv_l by lra. lra. }
  nra.
Qed.

Lemma draw_ok (c : Canvas.t) (cfg : Config.t) (p : Particle.t) :
  configOk cfg -> particleOk c p ->
  exists (colour : string) (alpha : R),
    Particle_draw cfg p =
    Some (Stroke.mk (Some (Hex colour)) alpha 0.5
            (Particle.prevX p, Particle.prevY p) (Particle.x p, Particle.y p))
    /\ In colour (nth (Z.to_nat (Config.colorScheme cfg)) colorSchemes [])
    /\ 0 <= alpha <= 0.7.
Proof.
  intros Hcfg Hp.
  pose proof (co_colorScheme _ Hcfg) as Hcs.
  pose proof (scheme_length _ Hcs) as Hlen.
  pose proof (po_colorIndex _ _ Hp) as Hci.
  assert (exists st, Particle_draw cfg p = Some st
                     /\ (exists colour, Stroke.strokeStyle st = Some (Hex colour)
                           /\ In colour (nth (Z.to_nat (Config.colorScheme cfg)) colorSchemes []))
                     /\ Stroke.lineWidth st = 0.5
                     /\ Stroke.moveTo st = (Particle.prevX p, Particle.prevY p)
                     /\ Stroke.lineTo st = (Particle.x p, Particle.y p)) as (st & Hst & Hrest).
  { unfold Particle_draw. rewrite (co_velocityColor _ Hcfg), (co_lineWidth _ Hcfg).
    unfold index at 1. destruct (Z.ltb_spec (Config.colorScheme cfg) 0); [lia |].
    rewrite (nth_error_nth' colorSchemes [])
      by (change (List.length colorSchemes) with 8%nat; lia).
    cbv beta iota.
    rewrite Hlen. rewrite (Z.rem_small (Particle.colorIndex p) (Z.of_nat 4)) by lia.
    unfold index. destruct (Z.ltb_spec (Particle.colorIndex p) 0); [lia |].
    rewrite (nth_error_nth'
               (nth (Z.to_nat (Config.colorScheme cfg)) colorSchemes []) ""%string)
      by (rewrite Hlen; lia).
    cbn [option_map]. eexists. split; [reflexivity |].
    cbn [Stroke.strokeStyle Stroke.lineWidth Stroke.moveTo Stroke.lineTo].
    split; [| repeat split].
    eexists. split; [reflexivity |]. apply nth_In. rewrite Hlen. lia. }
  destruct Hrest as ((colour & Hc & Hin) & Hlw & Hfrom & Hto).
  assert (0 <= Stroke.globalAlpha st <= 0.7) as Ha.
  { apply (draw_alpha cfg p st); [| | | exact Hst].
    - exact (po_life _ _ Hp).
    - pose proof (po_maxLife _ _ Hp). lra.
    - rewrite (co_trailLength _ Hcfg). lra. }
  destruct st as [style alpha lw from to].
  cbn [Stroke.strokeStyle Stroke.lineWidth Stroke.moveTo Stroke.lineTo
       Stroke.globalAlpha] in Hc, Hlw, Hfrom, Hto, Ha.
  subst style lw from to.
  exists colour, alpha. split; [exact Hst |]. split; [exact Hin | exact Ha].
Qed.

End ParticleFacts.

(* ================================================================== *)
(** ** The invariant of the canvas page *)
(* ================================================================== *)

Module InvFacts.

Import Rng CPU CpuProps RngProps.

(** The invariant of a state that differs from one in order by fields that
    are themselves in order. *)
Ltac inv_of H :=
  constructor;
  cbn [config canvas particles time paused spatialGrid mouse forceFields
       showForceFields noise spawnTypeOnClick
       with_config with_particles with_time with_spatialGrid with_mouse
       with_forceFields Mouse.radius];
  try solve [destruct H; assumption].

Lemma inv_with_particles (s : State) (ps : list Particle.t) :
  PageInv s -> List.length ps = 5000%nat -> Forall (particleOk (canvas s)) ps ->
  PageInv (with_particles s ps).
Proof. intros H Hn Hps. inv_of H; assumption. Qed.

Lemma inv_with_forceFields (s : State) (l : list ForceField.t) :
  PageInv s -> Forall fieldOk l -> (List.length l <= 15)%nat ->
  PageInv (with_forceFields s l).
Proof. intros H Hl Hn. inv_of H; assumption. Qed.

Lemma inv_with_config (s : State) (c : Config.t) :
  PageInv s -> configOk c -> PageInv (with_config s c).
Proof. intros H Hc. inv_of H; assumption. Qed.

Lemma inv_buildSpatialGrid (s : State) : PageInv s -> PageInv (buildSpatialGrid s).
Proof. intros H. unfold buildSpatialGrid. inv_of H. Qed.

Lemma inv_with_time (s : State) : PageInv s -> PageInv (with_time s (time s + 1)).
Proof. intros H. inv_of H. pose proof (pi_time _ H). lra. Qed.

Lemma replace_ok (s : State) (i : nat) (p : Particle.t) :
  PageInv s -> particleOk (canvas s) p ->
  PageInv (with_particles s (setNth i p (particles s))).
Proof.
  intros H Hp. apply inv_with_particles; [exact H | |].
  - rewrite NoiseFacts.setNth_length. exact (pi_count _ H).
  - apply NoiseFacts.setNth_Forall; [exact Hp | exact (pi_particles _ H)].
Qed.

Lemma reset_inv (s : State) :
  PageInv s -> post (Particle_reset (canvas s) (config s)) (particleOk (canvas s)).
Proof.
  intro H. destruct (pi_canvas _ H).
  apply ParticleFacts.reset_ok; [exact (pi_config _ H) | assumption | assumption].
Qed.

Lemma updateParticles_inv (s : State) : PageInv s -> post (updateParticles s) PageInv.
Proof.
  intro H. unfold updateParticles. apply PostFacts.post_foldM; [| exact H].
  clear s H. intros s i H.
  destruct (nth_error (particles s) i) as [this |] eqn:Hi.
  - eapply PostFacts.post_bind.
    + destruct (pi_canvas _ H).
      apply ParticleFacts.update_ok; [exact (pi_config _ H) | assumption | assumption |].
      pose proof (pi_particles _ H) as Hps. rewrite Forall_forall in Hps.
      apply Hps. eapply nth_error_In. exact Hi.
    + intros p Hp. apply PostFacts.post_ret. apply replace_ok; assumption.
  - apply PostFacts.post_ret. exact H.
Qed.

Lemma respawnLoop_inv (n : nat) (cond : Particle.t -> bool) (s : State) :
  PageInv s -> post (respawnLoop n cond s) PageInv.
Proof.
  intro H. unfold respawnLoop. apply PostFacts.post_foldM; [| exact H].
  clear s H. intros s _ H. draw r Hr.
  destruct (nth_error (particles s) _) as [p |]; [| apply PostFacts.post_ret; exact H].
  destruct (cond p); [| apply PostFacts.post_ret; exact H].
  eapply PostFacts.post_bind; [apply reset_inv; exact H |].
  intros q Hq. apply PostFacts.post_ret. apply replace_ok; assumption.
Qed.

Lemma spawnForceField_inv (type : option string) (s : State) :
  match type with Some t => In t allTypes | None => True end ->
  PageInv s -> post (spawnForceField type s) PageInv.
Proof.
  intros Ht H. unfold spawnForceField.
  destruct (Nat.ltb_spec (List.length (forceFields s)) 15) as [Hlt | Hge].
  - rewrite (co_fieldDriftSpeed _ (pi_config _ H)).
    eapply PostFacts.post_bind; [apply FieldFacts.new_ok; exact Ht |].
    intros f Hf. apply PostFacts.post_ret. apply inv_with_forceFields; [exact H | |].
    + apply Forall_app. split; [exact (pi_fields _ H) | constructor; [exact Hf | constructor]].
    + rewrite length_app. simpl. lia.
  - apply PostFacts.post_ret. exact H.
Qed.

(** The force-field stage of a frame: the dead are dropped, the others are
    updated and drawn. *)
Lemma fieldStage_ok (c : Canvas.t) (show : bool) (l : list ForceField.t) :
  Forall fieldOk l ->
  post (mapM (fun f =>
                let f := ForceField_update c f in
                _ <- ForceField_draw show f ;; ret f)
          (filter (fun f => negb (ForceField_isDead f)) l))
    (fun ffs => Forall fieldOk ffs /\ (List.length ffs <= List.length l)%nat).
Proof.
  intro Hl. apply PostFacts.post_and.
  - apply PostFacts.post_mapM. intros f Hf. apply filter_In in Hf.
    destruct Hf as [Hin Hlive]. cbv zeta.
    eapply PostFacts.post_bind; [apply PostFacts.post_any |]. intros _ _.
    apply PostFacts.post_ret. apply FieldFacts.aged_ok.
    + rewrite Forall_forall in Hl. apply Hl. exact Hin.
    + unfold ForceField_isDead in Hlive.
      destruct (NumFacts.leb_spec (ForceField.life f) 0); [discriminate | lra].
  - intros o k _. rewrite RngFacts.mapM_length. apply PageFacts.filter_length_le.
Qed.

Lemma animate_inv (s : State) : PageInv s -> post (animate s) PageInv.
Proof.
  intro H. unfold animate. destruct (paused s); [apply PostFacts.post_ret; exact H |].
  cbv zeta. draw r Hr.
  eapply PostFacts.post_bind with (P := PageInv).
  { destruct (_ && _); [| apply PostFacts.post_ret; exact H].
    apply spawnForceField_inv; [exact I | exact H]. }
  intros s1 H1.
  eapply PostFacts.post_bind;
    [apply (fieldStage_ok (canvas s1) (showForceFields s1) (forceFields s1));
     exact (pi_fields _ H1) |].
  intros ffs [Hffs Hlen].
  assert (PageInv (with_forceFields s1 ffs)) as H2.
  { apply inv_with_forceFields; [exact H1 | exact Hffs |].
    pose proof (pi_cap _ H1). lia. }
  match goal with
  | |- post (bind (updateParticles ?s2) _) _ =>
      assert (PageInv s2) as H3
        by (destruct (negb _); [apply inv_buildSpatialGrid |]; exact H2);
      eapply PostFacts.post_bind; [apply (updateParticles_inv s2 H3) |]
  end.
  intros s4 H4.
  eapply PostFacts.post_bind with (P := PageInv).
  { destruct (_ =? _)%Z; [apply respawnLoop_inv | apply PostFacts.post_ret]; exact H4. }
  intros s5 H5.
  eapply PostFacts.post_bind with (P := PageInv).
  { destruct (_ <? _); [apply respawnLoop_inv | apply PostFacts.post_ret]; exact H5. }
  intros s6 H6. apply PostFacts.post_ret. apply inv_with_time. exact H6.
Qed.

(** [init ()] needs nothing of the particles it replaces. *)
Lemma init_fresh (window : Canvas.t) (s : State) :
  0 <= Canvas.width window -> 0 <= Canvas.height window ->
  configOk (config s) -> Forall fieldOk (forceFields s) ->
  (List.length (forceFields s) <= 15)%nat ->
  In (spawnTypeOnClick s) ["random"; "sink"; "source"; "vortex"; "gravity"]%string ->
  Mouse.radius (mouse s) = 150 -> tables (noise s) -> 0 <= time s ->
  post (init window s) PageInv.
Proof.
  intros Hw Hh Hc Hf Hcap Hst Hm Hn Ht. unfold init.
  eapply PostFacts.post_bind with
    (P := fun ps => Forall (particleOk window) ps /\ List.length ps = 5000%nat).
  { apply PostFacts.post_and.
    - apply PostFacts.post_mapM. intros _ _.
      apply ParticleFacts.reset_ok; [exact Hc | exact Hw | exact Hh].
    - intros o k _. rewrite RngFacts.mapM_length, length_seq.
      exact (co_particleCount _ Hc). }
  intros ps [Hps Hlen]. apply PostFacts.post_ret.
  constructor; cbn [config canvas particles time paused spatialGrid mouse
                    forceFields showForceFields noise spawnTypeOnClick];
    try assumption.
  split; assumption.
Qed.

Lemma init_inv (window : Canvas.t) (s : State) :
  0 <= Canvas.width window -> 0 <= Canvas.height window ->
  PageInv s -> post (init window s) PageInv.
Proof.
  intros Hw Hh H. destruct H. apply init_fresh; assumption.
Qed.

Lemma reset_page_inv (window : Canvas.t) (s : State) :
  0 <= Canvas.width window -> 0 <= Canvas.height window ->
  PageInv s -> post (reset window s) PageInv.
Proof.
  intros Hw Hh H. unfold reset. draw r Hr. cbv zeta. destruct H.
  apply init_fresh;
    cbn [config canvas particles time paused spatialGrid mouse forceFields
         showForceFields noise spawnTypeOnClick];
    try assumption.
  apply NoiseFacts.new_tables.
Qed.

Lemma next_scheme (cs : Z) : (0 <= cs < 8)%Z -> (0 <= Z.rem (cs + 1) 8 < 8)%Z.
Proof. intro H. pose proof (Z.rem_bound_pos (cs + 1) 8 ltac:(lia) ltac:(lia)). lia. Qed.

Lemma cycleColorScheme_inv (s : State) : PageInv s -> post (cycleColorScheme s) PageInv.
Proof.
  intro H. unfold cycleColorScheme. cbv zeta.
  change (Z.of_nat (List.length colorSchemes)) with 8%Z.
  pose proof (pi_config _ H) as Hc.
  pose proof (next_scheme _ (co_colorScheme _ Hc)) as Hcs.
  eapply PostFacts.post_bind with
    (P := fun ps => Forall (particleOk (canvas s)) ps
                    /\ List.length ps = 5000%nat).
  { apply PostFacts.post_and.
    - apply PostFacts.post_mapM. intros p Hp. draw r Hr. apply PostFacts.post_ret.
      pose proof (pi_particles _ H) as Hps. rewrite Forall_forall in Hps.
      destruct (Hps p Hp). constructor;
        cbn [Particle.x Particle.y Particle.prevX Particle.prevY Particle.speed
             Particle.colorIndex Particle.life Particle.maxLife Particle.velocity
             Particle.hue]; try assumption.
      rewrite (ParticleFacts.scheme_length _ Hcs).
      pose proof (FieldFacts.floor_index r 4 Hr ltac:(lia)). lia.
    - intros o k _. rewrite RngFacts.mapM_length. exact (pi_count _ H). }
  intros ps [Hps Hn]. apply PostFacts.post_ret.
  inv_of H; try assumption.
  destruct Hc. constructor; cbn; assumption.
Qed.

Lemma next_mode (l : list string) (m : string) :
  l <> [] -> In (nextOf l m) l.
Proof.
  intro Hl. unfold nextOf. apply nth_In.
  assert (-1 <= indexOf l m 0 < Z.of_nat (List.length l))%Z as Hi.
  { assert (forall k, (0 <= k)%Z ->
                      indexOf l m k = (-1)%Z
                      \/ (k <= indexOf l m k < k + Z.of_nat (List.length l))%Z) as Hk.
    { clear Hl. induction l as [| a l IH]; intros k Hk; cbn [indexOf List.length].
      - left. reflexivity.
      - destruct (String.eqb a m); [right; lia |].
        destruct (IH (k + 1)%Z ltac:(lia)) as [-> | H]; [left; reflexivity | right; lia]. }
    destruct (Hk 0%Z ltac:(lia)) as [-> | H]; lia. }
  assert (0 < Z.of_nat (List.length l))%Z as Hpos
    by (destruct l; [congruence | cbn [List.length]; lia]).
  pose proof (Z.rem_bound_pos (indexOf l m 0 + 1) (Z.of_nat (List.length l))
                ltac:(lia) Hpos). lia.
Qed.

Lemma keydownConfig_ok (key : string) (c : Config.t) :
  configOk c -> configOk (keydownConfig key c).
Proof.
  intro H. pose proof (PageFacts.keydownConfig_range key c (co_strengths _ H)) as Hr.
  unfold keydownConfig in *.
  repeat match goal with
    | |- context [if String.eqb key ?k then _ else _] => destruct (String.eqb key k)
    end;
    try exact H;
    destruct H as [H1 H2 H3 H4 H5 H6 H7 H8 H9 H10 H11 H12 H13 H14 H15 H16 H17 H18 H19 H20];
    constructor;
    cbn [set_particleInteraction set_noiseMode set_brownianMotion
         set_backgroundStrength set_forceFieldStrength set_spawnRate
         Config.particleCount Config.noiseScale Config.speed Config.fadeAmount
         Config.lineWidth Config.colorScheme Config.noiseMode
         Config.backgroundStrength Config.forceFieldStrength Config.brownianMotion
         Config.spawnRate Config.velocityColor Config.trailLength Config.mouseMode
         Config.symmetry Config.globalGravity Config.particleInteraction
         Config.interactionStrength Config.interactionRadius Config.fieldDriftSpeed
         Config.respawnRate];
    try assumption.
  - apply next_mode. discriminate.
  - pose proof (Z.rem_bound_pos (Config.noiseMode c + 1) 6 ltac:(lia) ltac:(lia)). lia.
  - destruct (_ <? _); [left | right]; reflexivity.
  - split.
    + apply Rmin_glb; lra.
    + apply Rmin_l.
Qed.

Lemma keydown_inv (window : Canvas.t) (key : string) (s : State) :
  0 <= Canvas.width window -> 0 <= Canvas.height window ->
  PageInv s -> post (keydown window key s) PageInv.
Proof.
  intros Hw Hh H. unfold keydown.
  repeat match goal with
    | |- context [if String.eqb key ?k then _ else _] =>
        destruct (String.eqb key k);
        [ first
            [ apply cycleColorScheme_inv; exact H
            | apply reset_page_inv; assumption
            | apply spawnForceField_inv;
              [cbn [allTypes In]; repeat first [left; reflexivity | right] | exact H]
            | apply PostFacts.post_ret; unfold clearForceFields; inv_of H;
              try solve [constructor]; try (simpl; lia) ]
        | ]
    end.
  apply PostFacts.post_ret. apply inv_with_config; [exact H |].
  apply keydownConfig_ok. exact (pi_config _ H).
Qed.

Lemma click_inv (cx cy : R) (s : State) : PageInv s -> post (click cx cy s) PageInv.
Proof.
  intro H. unfold click. cbv zeta.
  rewrite (co_fieldDriftSpeed _ (pi_config _ H)).
  eapply PostFacts.post_bind.
  { apply FieldFacts.new_ok.
    destruct (String.eqb (spawnTypeOnClick s) "random") eqn:E; [exact I |].
    pose proof (pi_spawnType _ H) as Hin. cbn [In] in Hin.
    destruct Hin as [Hin | [Hin | [Hin | [Hin | [Hin | []]]]]]; rewrite <- Hin in *;
      [discriminate | | | |]; cbn [allTypes In];
      repeat first [left; reflexivity | right]. }
  intros f Hf.
  destruct (Nat.ltb_spec (List.length (forceFields s)) 10) as [Hlt | Hge];
    apply PostFacts.post_ret; [| exact H].
  apply inv_with_forceFields; [exact H | | rewrite length_app; simpl; lia].
  apply Forall_app. split; [exact (pi_fields _ H) |].
  constructor; [| constructor]. destruct Hf. constructor; cbn; assumption.
Qed.

Lemma handle_inv (e : Event) (s : State) :
  okEvent e -> PageInv s -> post (handle e s) PageInv.
Proof.
  intros He H. destruct e; cbn [handle okEvent] in *.
  - destruct He. apply keydown_inv; assumption.
  - apply PostFacts.post_ret. inv_of H.
  - apply PostFacts.post_ret. inv_of H.
  - apply PostFacts.post_ret. inv_of H.
  - apply click_inv. exact H.
  - apply PostFacts.post_ret. inv_of H. apply next_mode. discriminate.
  - apply spawnForceField_inv; [| exact H]. destruct type; exact He.
  - destruct He. apply init_inv; assumption.
  - apply animate_inv. exact H.
Qed.

Lemma run_inv (es : list Event) :
  forall s : State, Forall okEvent es -> PageInv s -> post (run es s) PageInv.
Proof.
  induction es as [| e es IH]; intros s Hes H; cbn [run].
  - apply PostFacts.post_ret. exact H.
  - inversion Hes as [| ? ? He Hes']. subst.
    eapply PostFacts.post_bind; [apply handle_inv; [exact He | exact H] |].
    intros s' H'. apply IH; assumption.
Qed.

Lemma initialConfig_ok : configOk initialConfig.
Proof.
  constructor; unfold in_range; cbn;
    first [ reflexivity | lia | lra | right; reflexivity
          | repeat first [left; reflexivity | right] ].
Qed.

Lemma start_inv (window : Canvas.t) :
  0 <= Canvas.width window -> 0 <= Canvas.height window ->
  post (start window) PageInv.
Proof.
  intros Hw Hh. unfold start. draw r Hr.
  apply init_fresh;
    cbn [config canvas particles time paused spatialGrid mouse forceFields
         showForceFields noise spawnTypeOnClick Mouse.radius];
    try assumption.
  - exact initialConfig_ok.
  - constructor.
  - simpl. lia.
  - left. reflexivity.
  - reflexivity.
  - apply NoiseFacts.new_tables.
  - lra.
Qed.

End InvFacts.

(* ================================================================== *)
(** ** What a frame of the canvas page changes *)
(* ================================================================== *)

Module FrameFacts.

Import Rng CPU CpuProps RngProps.

Lemma frameOf_refl (s : State) : frameOf 0 s s.
Proof. unfold frameOf. repeat split; try reflexivity. lra. Qed.

Lemma frameOf_trans (d1 d2 : R) (s1 s2 s3 : State) :
  frameOf d1 s1 s2 -> frameOf d2 s2 s3 -> frameOf (d1 + d2) s1 s3.
Proof.
  unfold frameOf. intros H1 H2.
  repeat match goal with H : _ /\ _ |- _ => destruct H end.
  repeat split; try congruence. lra.
Qed.

Lemma frameOf_step (s0 s : State) (i : nat) (p : Particle.t) :
  frameOf 0 s0 s /\ forceFields s = forceFields s0 ->
  frameOf 0 s0 (with_particles s (setNth i p (particles s)))
  /\ forceFields (with_particles s (setNth i p (particles s))) = forceFields s0.
Proof.
  intros [(Hc & Hv & Hm & Hn & Hp & Hsh & Hst & Hl & Ht) Hf].
  unfold frameOf.
  cbn [config canvas mouse noise paused showForceFields spawnTypeOnClick particles
       time forceFields with_particles].
  rewrite NoiseFacts.setNth_length. repeat split; assumption.
Qed.

Lemma updateParticles_frame (s : State) :
  post (updateParticles s)
    (fun s' => frameOf 0 s s' /\ forceFields s' = forceFields s).
Proof.
  unfold updateParticles.
  apply PostFacts.post_foldM; [| split; [apply frameOf_refl | reflexivity]].
  intros a i Ha. destruct (nth_error (particles a) i).
  - eapply PostFacts.post_bind; [apply PostFacts.post_any |]. intros p _.
    apply PostFacts.post_ret. apply frameOf_step. exact Ha.
  - apply PostFacts.post_ret. exact Ha.
Qed.

Lemma respawnLoop_frame (n : nat) (cond : Particle.t -> bool) (s : State) :
  post (respawnLoop n cond s)
    (fun s' => frameOf 0 s s' /\ forceFields s' = forceFields s).
Proof.
  unfold respawnLoop.
  apply PostFacts.post_foldM; [| split; [apply frameOf_refl | reflexivity]].
  intros a _ Ha. draw r Hr.
  destruct (nth_error (particles a) _) as [p |]; [| apply PostFacts.post_ret; exact Ha].
  destruct (cond p); [| apply PostFacts.post_ret; exact Ha].
  eapply PostFacts.post_bind; [apply PostFacts.post_any |]. intros q _.
  apply PostFacts.post_ret. apply frameOf_step. exact Ha.
Qed.

Lemma spawnForceField_frame (type : option string) (s : State) :
  post (spawnForceField type s) (frameOf 0 s).
Proof.
  unfold spawnForceField. destruct (_ <? _)%nat.
  - eapply PostFacts.post_bind; [apply PostFacts.post_any |]. intros f _.
    apply PostFacts.post_ret. unfold frameOf. repeat split; cbn; lra.
  - apply PostFacts.post_ret. apply frameOf_refl.
Qed.

(** The fields that leave the force-field stage are on the canvas. *)
Lemma fieldStage_inside (c : Canvas.t) (show : bool) (l : list ForceField.t) :
  0 <= Canvas.width c -> 0 <= Canvas.height c ->
  post (mapM (fun f =>
                let f := ForceField_update c f in
                _ <- ForceField_draw show f ;; ret f)
          l)
    (fieldsInside c).
Proof.
  intros Hw Hh. apply PostFacts.post_mapM. intros f _. cbv zeta.
  eapply PostFacts.post_bind; [apply PostFacts.post_any |]. intros _ _.
  apply PostFacts.post_ret.
  pose proof (FieldFacts.update_spec c f) as H. cbv zeta in H.
  destruct H as (_ & _ & _ & _ & Hx & Hy & _). split; auto.
Qed.

Lemma animate_frame (s : State) :
  paused s = false ->
  0 <= Canvas.width (canvas s) -> 0 <= Canvas.height (canvas s) ->
  post (animate s)
    (fun s' => frameOf 1 s s' /\ fieldsInside (canvas s) (forceFields s')).
Proof.
  intros Hp Hw Hh. unfold animate. rewrite Hp. cbv zeta. draw r Hr.
  eapply PostFacts.post_bind with (P := frameOf 0 s).
  { destruct (_ && _); [apply spawnForceField_frame |].
    apply PostFacts.post_ret. apply frameOf_refl. }
  intros s1 H1. pose proof H1 as (_ & Hv1 & _).
  eapply PostFacts.post_bind.
  { apply (fieldStage_inside (canvas s1)); rewrite Hv1; assumption. }
  intros ffs Hffs.
  match goal with
  | |- post (bind (updateParticles ?s2) _) _ =>
      assert (frameOf 0 s s2 /\ forceFields s2 = ffs) as [H2 Hf2];
      [| eapply PostFacts.post_bind; [apply (updateParticles_frame s2) |] ]
  end.
  { destruct (negb _); (split; [| reflexivity]);
      unfold frameOf in *; cbn; exact H1. }
  intros s3 [H3 Hf3].
  eapply PostFacts.post_bind with
    (P := fun s4 => frameOf 0 s3 s4 /\ forceFields s4 = forceFields s3).
  { destruct (_ =? _)%Z; [apply respawnLoop_frame |].
    apply PostFacts.post_ret. split; [apply frameOf_refl | reflexivity]. }
  intros s4 [H4 Hf4].
  eapply PostFacts.post_bind with
    (P := fun s5 => frameOf 0 s4 s5 /\ forceFields s5 = forceFields s4).
  { destruct (_ <? _); [apply respawnLoop_frame |].
    apply PostFacts.post_ret. split; [apply frameOf_refl | reflexivity]. }
  intros s5 [H5 Hf5]. apply PostFacts.post_ret.
  pose proof (frameOf_trans _ _ _ _ _ (frameOf_trans _ _ _ _ _
                (frameOf_trans _ _ _ _ _ H2 H3) H4) H5) as H.
  split.
  - unfold frameOf in *. cbn [config canvas mouse noise paused showForceFields
                              spawnTypeOnClick particles time with_time].
    repeat match goal with H : _ /\ _ |- _ => destruct H end.
    repeat split; try assumption. lra.
  - cbn [forceFields with_time]. rewrite Hf5, Hf4, Hf3, Hf2.
    rewrite <- Hv1. exact Hffs.
Qed.

End FrameFacts.

(* ================================================================== *)
(** ** The particle textures of the WebGL instance *)
(* ================================================================== *)

Module TextureFacts.

Import Rng GPU GpuProps RngProps.

Lemma floor_half (m : nat) : Zfloor (INR m + 0.5) = Z.of_nat m.
Proof.
  rewrite INR_IZR_INZ.
  pose proof (NumFacts.floor_bound (IZR (Z.of_nat m) + 0.5)) as H.
  unfold Num.floor in H.
  assert (IZR (Z.of_nat m) - 1 < IZR (Zfloor (IZR (Z.of_nat m) + 0.5))) as H1 by lra.
  assert (IZR (Zfloor (IZR (Z.of_nat m) + 0.5)) < IZR (Z.of_nat m) + 1) as H2 by lra.
  rewrite <- minus_IZR in H1. rewrite <- plus_IZR in H2.
  apply lt_IZR in H1. apply lt_IZR in H2. lia.
Qed.

(** The centre of texel [m] of a row of [size] is sampled as texel [m]. *)
Lemma clampTexel_centre (size m : nat) :
  (m < size)%nat -> clampTexel size ((INR m + 0.5) / INR size) = m.
Proof.
  intro H. unfold clampTexel.
  assert (0 < INR size) as Hs by (apply lt_0_INR; lia).
  replace ((INR m + 0.5) / INR size * INR size) with (INR m + 0.5)
    by (field; lra).
  rewrite floor_half, Nat2Z.id. lia.
Qed.

(** The texture coordinate of particle [k] addresses texel [k]. *)
Lemma texture_at (size k : nat) (data : list vec4) :
  (k < size * size)%nat ->
  texture (Sampler.mk size data) (texCoordOf size k) = nth k data (0, 0, 0, 0).
Proof.
  intro H. assert (0 < size)%nat as Hs by (destruct size; simpl in *; lia).
  unfold texture, texCoordOf. cbn [Sampler.size Sampler.data fst snd].
  rewrite (clampTexel_centre size (k mod size)) by (apply Nat.mod_upper_bound; lia).
  rewrite (clampTexel_centre size (k / size))
    by (apply Nat.Div0.div_lt_upper_bound; lia).
  f_equal. rewrite Nat.mul_comm. symmetry. apply Nat.div_mod_eq.
Qed.

Lemma physicsPass_length (u : Uniforms) (tex : Sampler.t) :
  List.length (physicsPass u tex) = (Sampler.size tex * Sampler.size tex)%nat.
Proof. unfold physicsPass. rewrite length_map, length_seq. reflexivity. Qed.

Lemma physicsPass_nth (u : Uniforms) (tex : Sampler.t) (k : nat) (d : vec4) :
  (k < Sampler.size tex * Sampler.size tex)%nat ->
  nth k (physicsPass u tex) d = main u tex (texCoordOf (Sampler.size tex) k).
Proof.
  intro H. unfold physicsPass.
  rewrite (nth_indep _ d (main u tex (texCoordOf (Sampler.size tex) 0)))
    by (rewrite length_map, length_seq; exact H).
  rewrite (map_nth (fun k => main u tex (texCoordOf (Sampler.size tex) k))).
  rewrite seq_nth by exact H. reflexivity.
Qed.

(** The texture that [createParticleTexture] sizes has room for the count. *)
Lemma capacity (pc : R) :
  let size := Z.to_nat (Zceil (sqrt pc)) in
  (Z.to_nat (Zfloor pc) <= size * size)%nat /\ (Z.to_nat (Zceil pc) <= size * size)%nat.
Proof.
  cbv zeta.
  destruct (Rle_lt_dec pc 0) as [Hneg | Hpos].
  - assert (Zceil pc <= 0)%Z as Hc.
    { unfold Zceil. pose proof (NumFacts.floor_bound (- pc)) as H. unfold Num.floor in H.
      assert (-1 < IZR (Zfloor (- pc))) as H1 by lra. apply lt_IZR in H1. lia. }
    assert (Zfloor pc <= 0)%Z as Hf.
    { pose proof (NumFacts.floor_bound pc) as H. unfold Num.floor in H.
      assert (IZR (Zfloor pc) < 1) as H1 by lra. apply lt_IZR in H1. lia. }
    split; lia.
  - set (c := Zceil (sqrt pc)).
    assert (sqrt pc <= IZR c) as Hc.
    { unfold c, Zceil. rewrite opp_IZR.
      pose proof (NumFacts.floor_bound (- sqrt pc)) as H. unfold Num.floor in H. lra. }
    assert (0 < sqrt pc) as Hs by (apply sqrt_lt_R0; exact Hpos).
    assert (0 < c)%Z as Hcpos by (apply lt_IZR; lra).
    assert (pc <= IZR (c * c)) as Hcc.
    { rewrite mult_IZR. rewrite <- (sqrt_sqrt pc) by lra. nra. }
    assert (Zceil pc <= c * c)%Z as Hceil.
    { unfold Zceil. pose proof (NumFacts.floor_bound (- pc)) as H. unfold Num.floor in H.
      assert (IZR (- (c * c)) < IZR (Zfloor (- pc)) + 1) as H1
        by (rewrite opp_IZR; lra).
      rewrite <- plus_IZR in H1. apply lt_IZR in H1. lia. }
    assert (Zfloor pc <= Zceil pc)%Z as Hfc.
    { unfold Zceil. pose proof (NumFacts.floor_bound pc) as H1.
      pose proof (NumFacts.floor_bound (- pc)) as H2. unfold Num.floor in *.
      assert (IZR (Zfloor pc) < IZR (- Zfloor (- pc)) + 1) as H
        by (rewrite opp_IZR; lra).
      rewrite <- plus_IZR in H. apply lt_IZR in H. lia. }
    split; nia.
Qed.

End TextureFacts.

(* ================================================================== *)
(** ** The fields that [addForceField] makes *)
(* ================================================================== *)

Module AddFacts.

Import Rng GPU GpuProps RngProps.

Lemma quarter_drift (r : R) : 0 <= r < 1 -> Rabs ((r - 0.5) * 0.5) <= 0.25.
Proof. intro H. apply Rabs_le. lra. Qed.

(** A type drawn among the enabled ones is enabled. *)
Lemma drawn_enabled (enabled : list bool) (r : R) :
  let enabledTypes := filter (fun i => nth i enabled false) (seq 0 5) in
  0 <= r < 1 -> enabledTypes <> [] ->
  let t := nth (Z.to_nat (Zfloor (r * INR (List.length enabledTypes)))) enabledTypes 0%nat in
  (t < 5)%nat /\ nth t enabled false = true.
Proof.
  intros enabledTypes Hr Hne t.
  assert (In t enabledTypes) as Hin.
  { apply nth_In.
    assert (0 < List.length enabledTypes)%nat
      by (destruct enabledTypes; [congruence | simpl; lia]).
    pose proof (FieldFacts.floor_index r _ Hr H). lia. }
  apply filter_In in Hin. destruct Hin as [Hseq Hen]. apply in_seq in Hseq.
  split; [lia | exact Hen].
Qed.

(** What [addForceField] does to the state. *)
Lemma addForceField_post (x y : R) (type : Z) (s : State) :
  post (addForceField x y type s)
    (fun s' =>
       if resolves type s then
         exists f : ForceField.t,
           s' = with_forceFields s (afterEviction s ++ [f])
           /\ ForceField.x f = x /\ ForceField.y f = y
           /\ fieldShape f
           /\ (if (type <? 0)%Z
               then (0 <= ForceField.type f < 5)%Z
                    /\ nth (Z.to_nat (ForceField.type f)) (enabledForceTypes s) false = true
               else ForceField.type f = type)
           /\ (exists r, 0 <= r < 1
                 /\ ForceField.life f
                    = (500 + r * 500) * num (config s) "forceLifetime")
           /\ (exists r, 0 <= r < 1
                 /\ ForceField.radius f
                    = Rmax 40 (num (config s) "maxForceRadius" * 0.3)
                      + r * (num (config s) "maxForceRadius"
                             - Rmax 40 (num (config s) "maxForceRadius" * 0.3)))
       else s' = with_forceFields s (afterEviction s)).
Proof.
  unfold addForceField, resolves. cbv zeta. fold (afterEviction s).
  assert (forall finalType : Z,
             (if (type <? 0)%Z
              then (0 <= finalType < 5)%Z
                   /\ nth (Z.to_nat finalType) (enabledForceTypes s) false = true
              else finalType = type) ->
             post
               (r_life <- Math_random;;
                r_strength <- Math_random;;
                r_radius <- Math_random;;
                r_rotation <- Math_random;;
                r_vx <- Math_random;;
                r_vy <- Math_random;;
                ret (with_forceFields s
                       (afterEviction s ++
                        [ForceField.mk x y finalType (50 + r_strength * 100)
                           (Rmax 40 (num (config s) "maxForceRadius" * 0.3)
                            + r_radius * (num (config s) "maxForceRadius"
                                          - Rmax 40 (num (config s) "maxForceRadius" * 0.3)))
                           (if r_rotation >? 0.5 then 1 else -1)
                           ((500 + r_life * 500) * num (config s) "forceLifetime")
                           ((r_vx - 0.5) * 0.5) ((r_vy - 0.5) * 0.5)])))
               (fun s' =>
                  exists f : ForceField.t,
                    s' = with_forceFields s (afterEviction s ++ [f])
                    /\ ForceField.x f = x /\ ForceField.y f = y
                    /\ fieldShape f
                    /\ (if (type <? 0)%Z
                        then (0 <= ForceField.type f < 5)%Z
                             /\ nth (Z.to_nat (ForceField.type f)) (enabledForceTypes s) false
                                = true
                        else ForceField.type f = type)
                    /\ (exists r, 0 <= r < 1
                          /\ ForceField.life f
                             = (500 + r * 500) * num (config s) "forceLifetime")
                    /\ (exists r, 0 <= r < 1
                          /\ ForceField.radius f
                             = Rmax 40 (num (config s) "maxForceRadius" * 0.3)
                               + r * (num (config s) "maxForceRadius"
                                      - Rmax 40 (num (config s) "maxForceRadius" * 0.3))))) as Hpush.
  { intros finalType Hty.
    draw rl Hrl. draw rs Hrs. draw rr Hrr. draw rrot Hrrot. draw rvx Hrvx. draw rvy Hrvy.
    apply PostFacts.post_ret. eexists. split; [reflexivity |].
    cbn [ForceField.x ForceField.y ForceField.type ForceField.life ForceField.radius].
    split; [reflexivity |]. split; [reflexivity |].
    split.
    { constructor; cbn.
      - lra.
      - destruct (_ <? _); [left | right]; reflexivity.
      - split; apply quarter_drift; assumption. }
    split; [exact Hty |].
    split; [exists rl; split; [exact Hrl | reflexivity] |].
    exists rr. split; [exact Hrr | reflexivity]. }
  destruct (type <? 0)%Z eqn:Et; cbn [negb orb].
  - destruct (Nat.eqb_spec
                (List.length
                   (filter (fun i => nth i (enabledForceTypes s) false) (seq 0 5))) 0)
      as [E0 | Hne]; cbn [negb].
    + apply PostFacts.post_ret. reflexivity.
    + draw r Hr. apply Hpush.
      destruct (drawn_enabled (enabledForceTypes s) r Hr) as [Hlt Hen].
      { intro E. apply Hne. rewrite E. reflexivity. }
      rewrite Nat2Z.id. split; [lia | exact Hen].
  - apply Hpush. reflexivity.
Qed.

End AddFacts.

(* ================================================================== *)
(** ** The configuration object of the WebGL instance *)
(* ================================================================== *)

Module ConfigFacts.

Import Rng GPU GpuProps RngProps.

Lemma has_set (o : Obj) (key key' : string) (v : Value) :
  has (set o key v) key' = has o key' || String.eqb key key'.
Proof.
  unfold has. induction o as [| [k w] o IH]; cbn [set existsb fst].
  - rewrite orb_false_r. reflexivity.
  - destruct (String.eqb_spec k key) as [-> | Hne]; cbn [existsb fst].
    + destruct (String.eqb key key'), (existsb _ o); reflexivity.
    + rewrite IH. destruct (String.eqb k key'), (existsb _ o), (String.eqb key key');
        reflexivity.
Qed.

Lemma has_get (o : Obj) (key : string) : has o key = false -> get o key = VUndefined.
Proof.
  unfold has. induction o as [| [k w] o IH]; cbn [existsb get fst]; [reflexivity |].
  destruct (String.eqb k key); [discriminate | exact IH].
Qed.

Lemma has_keys (o : Obj) (key : string) : has o key = true <-> In key (map fst o).
Proof.
  unfold has. rewrite existsb_exists, in_map_iff. split.
  - intros ([k v] & Hin & E). cbn [fst] in E. apply String.eqb_eq in E. subst.
    exists (key, v). split; [reflexivity | exact Hin].
  - intros ([k v] & E & Hin). cbn [fst] in E. subst.
    exists (key, v). split; [exact Hin | apply String.eqb_refl].
Qed.

(** [config[key] = value] replaces in place or appends: the keys stay distinct. *)
Lemma keys_set (o : Obj) (key : string) (v : Value) :
  map fst (set o key v) = if has o key then map fst o else map fst o ++ [key].
Proof.
  unfold has. induction o as [| [k w] o IH]; cbn [set existsb map fst app]; [reflexivity |].
  destruct (String.eqb_spec k key) as [-> | Hne]; cbn [orb map fst]; [reflexivity |].
  rewrite IH. destruct (existsb _ o); reflexivity.
Qed.

Lemma set_NoDup (o : Obj) (key : string) (v : Value) :
  NoDup (map fst o) -> NoDup (map fst (set o key v)).
Proof.
  intro H. rewrite keys_set. destruct (has o key) eqn:E; [exact H |].
  apply NoDup_app; [exact H | constructor; [intros [] | constructor] |].
  intros k Hin [<- | []].
  apply has_keys in Hin. congruence.
Qed.

Lemma spread_NoDup (initialConfig d : Obj) :
  NoDup (map fst d) -> NoDup (map fst (spread d initialConfig)).
Proof.
  unfold spread. revert d. induction initialConfig as [| [k v] i IH]; intros d H;
    cbn [fold_left fst snd]; [exact H |].
  apply IH, set_NoDup, H.
Qed.

Lemma spread_has (initialConfig d : Obj) (key : string) :
  has (spread d initialConfig) key = has d key || has initialConfig key.
Proof.
  unfold spread. revert d. induction initialConfig as [| [k v] i IH]; intro d;
    cbn [fold_left fst snd].
  - unfold has at 3. cbn [existsb]. rewrite orb_false_r. reflexivity.
  - rewrite IH, has_set. unfold has at 4. cbn [existsb fst].
    rewrite <- orb_assoc. reflexivity.
Qed.

(** [{ ...defaults, ...initialConfig }]: a property of [initialConfig] wins,
    a missing one keeps its default. *)
Lemma get_spread (initialConfig d : Obj) (key : string) :
  NoDup (map fst initialConfig) ->
  get (spread d initialConfig) key =
  if has initialConfig key then get initialConfig key else get d key.
Proof.
  unfold spread. revert d. induction initialConfig as [| [k v] i IH]; intros d H;
    cbn [fold_left fst snd]; [reflexivity |].
  cbn [map fst] in H. inversion H as [| ? ? Hk Hi]. subst.
  rewrite (IH _ Hi). unfold has at 2. cbn [existsb get fst].
  destruct (String.eqb_spec k key) as [-> | Hne]; cbn [orb].
  - destruct (has i key) eqn:E.
    + apply has_keys in E. contradiction.
    + apply GpuFacts.get_set_same.
  - fold (has i key). destruct (has i key); [reflexivity |].
    apply GpuFacts.get_set_other. exact Hne.
Qed.

Lemma defaults_NoDup : NoDup (map fst defaultConfig).
Proof.
  cbn [defaultConfig map fst].
  repeat (constructor;
          [ cbn [In]; intro H;
            repeat (destruct H as [H | H]; [discriminate |]); exact H | ]).
  constructor.
Qed.

End ConfigFacts.

(* ================================================================== *)
(** ** The step of the force fields of the WebGL instance *)
(* ================================================================== *)

Module StepFacts.

Import Rng GPU GpuProps RngProps.

(** The backward loop with its splices keeps the survivors, in order, each
    stepped once. *)
Lemma stepFields_map (c : Canvas.t) (l : list ForceField.t) :
  stepFields c l = map (stepField c) (survivors l).
Proof.
  unfold stepFields, survivors. induction l as [| f l IH]; cbn [fold_right filter map].
  - reflexivity.
  - cbv zeta. rewrite IH. cbn [stepField ForceField.life].
    destruct (NumFacts.leb_spec (ForceField.life f - 1) 0) as [H | H];
      destruct (NumFacts.ltb_spec 1 (ForceField.life f)) as [H' | H'];
      try lra; reflexivity.
Qed.

Lemma stepField_shape (c : Canvas.t) (f : ForceField.t) :
  fieldShape f -> fieldShape (stepField c f).
Proof.
  intros [Hs Hr [Hvx Hvy]].
  assert (forall (b : bool) (v : R), Rabs (if b then v * -1 else v) = Rabs v) as Hflip.
  { intros [|] v; [| reflexivity].
    replace (v * -1) with (- v) by ring. apply Rabs_Ropp. }
  constructor; cbn [stepField ForceField.strength ForceField.rotation ForceField.vx
                    ForceField.vy]; try assumption.
  rewrite !Hflip. split; assumption.
Qed.

Lemma stepFields_shape (c : Canvas.t) (l : list ForceField.t) :
  Forall fieldShape l -> Forall fieldShape (stepFields c l).
Proof.
  intro H. rewrite stepFields_map. apply Forall_forall. intros f Hf.
  apply in_map_iff in Hf. destruct Hf as (g & <- & Hg).
  apply stepField_shape. unfold survivors in Hg. apply filter_In in Hg.
  rewrite Forall_forall in H. apply H. apply Hg.
Qed.

Lemma stepFields_live (c : Canvas.t) (l : list ForceField.t) :
  Forall (fun f => 0 < ForceField.life f) (stepFields c l).
Proof.
  rewrite stepFields_map. apply Forall_forall. intros f Hf.
  apply in_map_iff in Hf. destruct Hf as (g & <- & Hg).
  unfold survivors in Hg. apply filter_In in Hg. destruct Hg as [_ Hg].
  cbn [stepField ForceField.life].
  destruct (NumFacts.ltb_spec 1 (ForceField.life g)); [lra | discriminate].
Qed.

(** [updateForceFields]: the survivors stepped, and at most one new field. *)
Lemma updateForceFields_fields (s : GPU.State) (o : Rng.Oracle) (k : nat) :
  Rng.unit_range o ->
  let stepped :=
    map (GPU.stepField (GPU.canvas s)) (GpuProps.survivors (GPU.forceFields s)) in
  exists extra : list GPU.ForceField.t,
    fst (GPU.updateForceFields s o k) = GPU.with_forceFields s (stepped ++ extra)
    /\ (List.length extra <= 1)%nat
    /\ Forall (fun f => 0 < GPU.ForceField.life f) stepped
    /\ (GPU.num (GPU.config s) "forceSpawnRate" <= 0 ->
        extra = [] /\ snd (GPU.updateForceFields s o k) = k).
Proof.
  intros Ho. cbv zeta.
  pose proof (stepFields_live (GPU.canvas s) (GPU.forceFields s)) as Hlive.
  rewrite stepFields_map in Hlive.
  destruct (Rle_or_lt (GPU.num (GPU.config s) "forceSpawnRate") 0) as [Hoff | Hon].
  - exists []. rewrite GpuFacts.updateForceFields_no_spawn by exact Hoff.
    rewrite stepFields_map, app_nil_r. cbn [fst snd].
    repeat split; [simpl; lia | exact Hlive].
  - assert (RngProps.post (GPU.updateForceFields s)
              (fun s' => exists extra,
                   s' = GPU.with_forceFields s
                          (map (GPU.stepField (GPU.canvas s))
                             (GpuProps.survivors (GPU.forceFields s)) ++ extra)
                   /\ (List.length extra <= 1)%nat)) as Hpost.
    { unfold GPU.updateForceFields. cbv zeta.
      rewrite stepFields_map.
      set (l := map _ _).
      assert (exists extra, GPU.with_forceFields s l
                            = GPU.with_forceFields s (l ++ extra)
                            /\ (List.length extra <= 1)%nat) as Hsame.
      { exists []. rewrite app_nil_r. split; [reflexivity | simpl; lia]. }
      destruct (_ >? _); [| apply PostFacts.post_ret; exact Hsame].
      draw r Hr.
      destruct (r <? _); cbn [andb]; [| apply PostFacts.post_ret; exact Hsame].
      destruct (Nat.ltb _ _) eqn:Hlt; [| apply PostFacts.post_ret; exact Hsame].
      draw rx Hrx. draw ry Hry.
      eapply PostFacts.post_weaken; [apply AddFacts.addForceField_post |].
      intros s' H. cbv beta in H.
      assert (GpuProps.afterEviction (GPU.with_forceFields s l) = l) as Hev.
      { unfold GpuProps.afterEviction.
        cbn [GPU.forceFields GPU.maxForceFields GPU.with_forceFields] in *.
        apply Nat.ltb_lt in Hlt.
        destruct (Nat.leb_spec (GPU.maxForceFields s) (List.length l));
          [lia | reflexivity]. }
      rewrite Hev in H.
      destruct (GpuProps.resolves _ _).
      - destruct H as (f & -> & _). exists [f]. split; [reflexivity | simpl; lia].
      - subst s'. exists []. rewrite app_nil_r. split; [reflexivity | simpl; lia]. }
    destruct (Hpost o k Ho) as (extra & Hs & Hlen).
    exists extra. repeat split; [exact Hs | exact Hlen | exact Hlive | lra | lra].
Qed.

End StepFacts.

(* ================================================================== *)
(** ** The invariant of the WebGL instance *)
(* ================================================================== *)

Module InstanceFacts.

Import Rng GPU GpuProps RngProps.

Ltac ginv_of H :=
  constructor;
  cbn [canvas config forceFields maxForceFields enabledForceTypes mouse paused
       touchStart textureSize particleTextures currentTexture
       with_canvas with_config with_forceFields with_mouse with_touchStart
       with_particles moveMouse setConfig
       Mouse.radius Mouse.strength Mouse.mode allEnabled one_current];
  try solve [destruct H; assumption].

Lemma tl_Forall {A} (P : A -> Prop) (l : list A) : Forall P l -> Forall P (tl l).
Proof. intros [| a l' Ha Hl]; [constructor | exact Hl]. Qed.

Lemma afterEviction_shape (s : State) :
  Forall fieldShape (forceFields s) -> Forall fieldShape (afterEviction s).
Proof.
  intro H. unfold afterEviction. destruct (_ <=? _)%nat; [apply tl_Forall |]; exact H.
Qed.

Lemma ginv_with_fields (s : State) (l : list ForceField.t) :
  GpuInv s -> Forall fieldShape l -> (List.length l <= 40)%nat ->
  GpuInv (with_forceFields s l).
Proof. intros H Hl Hn. ginv_of H; assumption. Qed.

Lemma addForceField_ginv (x y : R) (type : Z) (s : State) :
  GpuInv s -> post (addForceField x y type s) GpuInv.
Proof.
  intro H.
  eapply PostFacts.post_weaken.
  { apply PostFacts.post_and.
    - apply (AddFacts.addForceField_post x y type s).
    - intros o k _.
      exact (GpuFacts.addForceField_cap x y type s o k
               (conj (gi_max _ H) (gi_cap _ H))). }
  intros s' [Hpost [_ Hcap]]. cbv beta in Hpost.
  pose proof (afterEviction_shape s (gi_fields _ H)) as Hev.
  destruct (resolves type s).
  - destruct Hpost as (f & -> & _ & _ & Hf & _).
    apply ginv_with_fields; [exact H | | exact Hcap].
    apply Forall_app. split; [exact Hev | constructor; [exact Hf | constructor]].
  - subst s'. apply ginv_with_fields; [exact H | exact Hev | exact Hcap].
Qed.

Lemma updateForceFields_ginv (s : State) : GpuInv s -> post (updateForceFields s) GpuInv.
Proof.
  intro H. unfold updateForceFields. cbv zeta.
  assert (GpuInv (with_forceFields s (stepFields (canvas s) (forceFields s)))) as H1.
  { apply ginv_with_fields; [exact H | |].
    - apply StepFacts.stepFields_shape. exact (gi_fields _ H).
    - pose proof (GpuFacts.stepped_length (canvas s) (forceFields s)).
      pose proof (gi_cap _ H). lia. }
  destruct (_ <? _); [| apply PostFacts.post_ret; exact H1].
  draw r Hr. destruct (_ && _); [| apply PostFacts.post_ret; exact H1].
  draw rx Hrx. draw ry Hry. apply addForceField_ginv. exact H1.
Qed.

Lemma flip_current (cur : nat) : cur = 0%nat \/ cur = 1%nat ->
  (1 - cur = 0 \/ 1 - cur = 1)%nat.
Proof. intros [-> | ->]; [right | left]; reflexivity. Qed.

Lemma setTexAt_lengths (ts : list vec4 * list vec4) (i n : nat) (d : list vec4) :
  List.length (fst ts) = n /\ List.length (snd ts) = n -> List.length d = n ->
  List.length (fst (setTexAt ts i d)) = n /\ List.length (snd (setTexAt ts i d)) = n.
Proof. intros [H1 H2] Hd. destruct i; cbn [setTexAt fst snd]; split; assumption. Qed.

Lemma update_ginv (s : State) : GpuInv s -> post (update s) GpuInv.
Proof.
  intro H. unfold update.
  eapply PostFacts.post_bind; [apply updateForceFields_ginv; exact H |].
  intros s1 H1. cbv zeta. apply PostFacts.post_ret.
  ginv_of H1.
  - apply flip_current. exact (gi_current _ H1).
  - apply setTexAt_lengths; [exact (gi_textures _ H1) |].
    rewrite TextureFacts.physicsPass_length. reflexivity.
  - apply ConfigFacts.set_NoDup. exact (gi_keys _ H1).
  - intros key Hk. rewrite ConfigFacts.has_set.
    rewrite (gi_defaults _ H1 key Hk). reflexivity.
Qed.

Lemma handle_ginv (e : Event) (s : State) : GpuInv s -> post (handle e s) GpuInv.
Proof.
  intro H. destruct e; cbn [handle]; cbv zeta.
  - apply PostFacts.post_ret. ginv_of H.
  - apply PostFacts.post_ret. ginv_of H.
  - apply addForceField_ginv. exact H.
  - apply PostFacts.post_ret. ginv_of H.
  - apply PostFacts.post_ret. ginv_of H.
  - eapply PostFacts.post_bind with (P := GpuInv).
    + destruct (_ && _); [apply addForceField_ginv | apply PostFacts.post_ret]; exact H.
    + intros s' H'. apply PostFacts.post_ret. ginv_of H'.
  - apply addForceField_ginv. exact H.
  - apply PostFacts.post_ret. ginv_of H.
    + apply ConfigFacts.set_NoDup. exact (gi_keys _ H).
    + intros k Hk. rewrite ConfigFacts.has_set, (gi_defaults _ H k Hk). reflexivity.
  - apply PostFacts.post_ret. ginv_of H.
  - unfold animate. rewrite (gi_paused _ H). apply update_ginv. exact H.
Qed.

Lemma run_ginv (es : list Event) :
  forall s : State, GpuInv s -> post (run es s) GpuInv.
Proof.
  induction es as [| e es IH]; intros s H; cbn [run].
  - apply PostFacts.post_ret. exact H.
  - eapply PostFacts.post_bind; [apply handle_ginv; exact H |].
    intros s' H'. apply IH. exact H'.
Qed.

Lemma initialParticles_length (n : nat) (c : Canvas.t) (o : Oracle) (k : nat) :
  List.length (fst (initialParticles n c o k)) = n.
Proof.
  revert o k. induction n as [| n IH]; intros o k; cbn [initialParticles].
  - reflexivity.
  - repeat (rewrite RngFacts.bind_fst; cbn [Math_random fst snd]).
    cbn [ret fst List.length]. rewrite IH. reflexivity.
Qed.

Lemma constructor_ginv (c : Canvas.t) (initialConfig : Obj) :
  post (constructor c initialConfig) GpuInv.
Proof.
  unfold constructor. cbv zeta.
  set (cfg := spread defaultConfig initialConfig).
  pose proof (TextureFacts.capacity (num cfg "particleCount")) as [_ Hcap].
  cbv zeta in Hcap.
  eapply PostFacts.post_bind with
    (P := fun ps => List.length ps = Z.to_nat (Zceil (num cfg "particleCount"))).
  { intros o k _. apply initialParticles_length. }
  intros ps Hps. apply PostFacts.post_ret.
  constructor;
    cbn [canvas config forceFields maxForceFields enabledForceTypes mouse paused
         touchStart textureSize particleTextures currentTexture fst snd
         Mouse.radius Mouse.strength Mouse.mode allEnabled one_current].
  - reflexivity.
  - reflexivity.
  - left. reflexivity.
  - simpl. lia.
  - constructor.
  - rewrite length_app, repeat_length, Hps. split; lia.
  - repeat split.
  - reflexivity.
  - apply ConfigFacts.spread_NoDup, ConfigFacts.defaults_NoDup.
  - intros key Hk. unfold cfg. rewrite ConfigFacts.spread_has, Hk. reflexivity.
Qed.

End InstanceFacts.

(* ================================================================== *)
(** ** The uniform array of the force fields *)
(* ================================================================== *)

Module UniformFacts.

Import Rng GPU GpuProps RngProps.

Lemma flat_map_chunks {A B} (f : A -> list B) (n : nat) (l : list A) :
  (forall a, List.length (f a) = n) ->
  List.length (flat_map f l) = (List.length l * n)%nat.
Proof.
  intro H. induction l as [| a l IH]; cbn [flat_map List.length]; [reflexivity |].
  rewrite length_app, H, IH. lia.
Qed.

Lemma slot_length (s : State) (i : nat) :
  List.length
    (if (i <? Nat.min (maxForceFields s) 40)%nat
     then match nth_error (forceFields s) i with
          | Some f =>
              [ForceField.x f; ForceField.y f; IZR (ForceField.type f);
               ForceField.strength f; ForceField.radius f; ForceField.rotation f;
               ForceField.life f / 500; 1]
          | None => [0; 0; 0; 0; 0; 0; 0; 0]
          end
     else [0; 0; 0; 0; 0; 0; 0; 0]) = 8%nat.
Proof.
  destruct (_ <? _)%nat; [| reflexivity].
  destruct (nth_error (forceFields s) i); reflexivity.
Qed.

(** The array is always 40 slots of 8 floats. *)
Lemma uniforms_length (s : State) :
  List.length (getForceFieldUniforms s) = 320%nat.
Proof.
  unfold getForceFieldUniforms.
  rewrite (flat_map_chunks _ 8) by (intro i; apply slot_length).
  rewrite length_seq. reflexivity.
Qed.

(** A slot past the last field is all zero: the active flag is off. *)
Lemma uniform_inactive (s : State) (i k : nat) :
  (List.length (forceFields s) <= i)%nat -> (i < 40)%nat -> (k < 8)%nat ->
  nth (i * 8 + k) (getForceFieldUniforms s) 0 = 0.
Proof.
  intros Hlen Hi Hk. unfold getForceFieldUniforms.
  rewrite (ForceSum.nth_chunk _ 8 0 (fun i => slot_length s i) (seq 0 40) i k i).
  - assert (nth_error (forceFields s) i = None) as -> by (apply nth_error_None; exact Hlen).
    destruct (_ <? _)%nat;
      do 8 (destruct k as [| k]; [reflexivity |]); lia.
  - rewrite nth_error_seq. destruct (Nat.ltb_spec i 40); [reflexivity | lia].
  - exact Hk.
Qed.

End UniformFacts.

(* ================================================================== *)
(** ** The initial particles of the WebGL instance *)
(* ================================================================== *)

Module InitFacts.

Import Rng GPU GpuProps RngProps.

Lemma initialParticles_seeded (n : nat) (c : Canvas.t) :
  0 <= Canvas.width c -> 0 <= Canvas.height c ->
  post (initialParticles n c) (Forall (seeded c)).
Proof.
  intros Hw Hh. induction n as [| n IH]; cbn [initialParticles].
  - apply PostFacts.post_ret. constructor.
  - draw rx Hrx. draw ry Hry. draw rvx Hrvx. draw rvy Hrvy.
    eapply PostFacts.post_bind; [exact IH |]. intros rest Hrest.
    apply PostFacts.post_ret. constructor; [| exact Hrest].
    unfold seeded. repeat split; nra.
Qed.

(** The instance that the constructor returns. *)
Lemma constructor_post (c : Canvas.t) (initialConfig : Obj) :
  0 <= Canvas.width c -> 0 <= Canvas.height c ->
  post (constructor c initialConfig)
    (fun s =>
       let cfg := spread defaultConfig initialConfig in
       let count := Z.to_nat (Zceil (num cfg "particleCount")) in
       let size := Z.to_nat (Zceil (sqrt (num cfg "particleCount"))) in
       canvas s = c /\ config s = cfg /\ forceFields s = []
       /\ mouse s = Mouse.mk (-1000) (-1000) 150 1 0
       /\ textureSize s = size /\ currentTexture s = 0%nat
       /\ (count <= size * size)%nat
       /\ snd (particleTextures s) = fst (particleTextures s)
       /\ List.length (fst (particleTextures s)) = (size * size)%nat
       /\ Forall (seeded c) (firstn count (fst (particleTextures s)))
       /\ skipn count (fst (particleTextures s))
          = repeat (0, 0, 0, 0) (size * size - count)).
Proof.
  intros Hw Hh. unfold constructor. cbv zeta.
  set (cfg := spread defaultConfig initialConfig).
  pose proof (TextureFacts.capacity (num cfg "particleCount")) as [_ Hcap].
  cbv zeta in Hcap.
  eapply PostFacts.post_bind with
    (P := fun ps => List.length ps = Z.to_nat (Zceil (num cfg "particleCount"))
                    /\ Forall (seeded c) ps).
  { apply PostFacts.post_and.
    - intros o k _. apply InstanceFacts.initialParticles_length.
    - apply initialParticles_seeded; assumption. }
  intros ps [Hlen Hps]. apply PostFacts.post_ret.
  cbn [canvas config forceFields mouse textureSize currentTexture particleTextures
       fst snd].
  repeat (split; [first [reflexivity | exact Hcap] |]).
  split; [rewrite length_app, repeat_length, Hlen; lia |].
  rewrite <- Hlen. split.
  - rewrite firstn_app, Nat.sub_diag, firstn_all. cbn [firstn]. rewrite app_nil_r.
    exact Hps.
  - rewrite skipn_app, Nat.sub_diag, skipn_all. reflexivity.
Qed.

Lemma ceil_bound (x : R) : x <= Num.ceil x < x + 1.
Proof.
  unfold Num.ceil, Zceil. rewrite opp_IZR.
  pose proof (NumFacts.floor_bound (- x)) as H. unfold Num.floor in H. lra.
Qed.

(** A positive number has a ceiling of at least 1. *)
Lemma ceil_INR (n : nat) : Z.to_nat (Zceil (INR n)) = n.
Proof.
  pose proof (ceil_bound (INR n)) as H. unfold Num.ceil in H.
  rewrite INR_IZR_INZ in *.
  assert (IZR (Z.of_nat n) - 1 < IZR (Zceil (IZR (Z.of_nat n)))) as H1 by lra.
  assert (IZR (Zceil (IZR (Z.of_nat n))) < IZR (Z.of_nat n) + 1) as H2 by lra.
  rewrite <- minus_IZR in H1. rewrite <- plus_IZR in H2.
  apply lt_IZR in H1. apply lt_IZR in H2. lia.
Qed.

Lemma ceil_pos (x : R) : 0 < x -> (1 <= Zceil x)%Z.
Proof.
  intro H. pose proof (ceil_bound x) as Hc. unfold Num.ceil in Hc.
  assert (0 < IZR (Zceil x)) as H1 by lra. apply lt_IZR in H1. lia.
Qed.

(** Cell [q] of [n] cells of total extent [w]: its centre is strictly inside. *)
Lemma cell_centre (q n : Z) (w : R) :
  (0 <= q < n)%Z -> 0 < w -> 0 < (IZR q + 0.5) * (w / IZR n) < w.
Proof.
  intros Hq Hw.
  assert (0 <= IZR q) as H0 by (apply IZR_le; lia).
  assert (IZR q + 1 <= IZR n) as H1 by (rewrite <- plus_IZR; apply IZR_le; lia).
  assert (0 < IZR n) as Hn by lra.
  assert (0 < / IZR n) as Hi by (apply Rinv_0_lt_compat; exact Hn).
  replace ((IZR q + 0.5) * (w / IZR n)) with (w * ((IZR q + 0.5) * / IZR n))
    by (unfold Rdiv; ring).
  assert (0 < (IZR q + 0.5) * / IZR n < 1) as Hr.
  { split; [apply Rmult_lt_0_compat; lra |].
    apply Rmult_lt_reg_r with (IZR n); [exact Hn |].
    rewrite Rmult_assoc, Rinv_l by lra. lra. }
  nra.
Qed.

(** [initializeParticles (true)]: the grid has a place for every particle,
    strictly inside the canvas. *)
Lemma uniform_gridded (c : Canvas.t) (n : nat) :
  (0 < n)%nat -> 0 < Canvas.width c -> 0 < Canvas.height c ->
  List.length (uniformParticles c (INR n)) = n
  /\ Forall (gridded c) (uniformParticles c (INR n)).
Proof.
  intros Hn Hw Hh. unfold uniformParticles. cbv zeta.
  assert (0 < INR n) as Hpc by (apply lt_0_INR; exact Hn).
  assert (Zceil (INR n) = Z.of_nat n) as Hceil.
  { rewrite INR_IZR_INZ. unfold Zceil. rewrite <- opp_IZR.
    pose proof (NumFacts.floor_bound (IZR (- Z.of_nat n))) as H. unfold Num.floor in H.
    assert (IZR (- Z.of_nat n) - 1 < IZR (Zfloor (IZR (- Z.of_nat n)))) as H1 by lra.
    assert (IZR (Zfloor (IZR (- Z.of_nat n))) < IZR (- Z.of_nat n) + 1) as H2 by lra.
    rewrite <- minus_IZR in H1. rewrite <- plus_IZR in H2.
    apply lt_IZR in H1. apply lt_IZR in H2. lia. }
  rewrite Hceil, Nat2Z.id.
  split; [rewrite length_map, length_seq; reflexivity |].
  set (C := Zceil (sqrt (INR n * Canvas.width c / Canvas.height c))).
  assert (1 <= C)%Z as HC.
  { apply ceil_pos. apply sqrt_lt_R0.
    apply Rmult_lt_0_compat; [apply Rmult_lt_0_compat; assumption |].
    apply Rinv_0_lt_compat. exact Hh. }
  assert (0 < IZR C) as HCr by (apply IZR_lt; lia).
  unfold Num.ceil. fold C.
  set (Rw := Zceil (INR n / IZR C)).
  assert (INR n / IZR C <= IZR Rw) as HRw by (apply (ceil_bound (INR n / IZR C))).
  apply Forall_forall. intros p Hp. apply in_map_iff in Hp.
  destruct Hp as (i & <- & Hi). apply in_seq in Hi.
  assert (0 <= INR i) as Hi0 by apply pos_INR.
  assert (INR i < INR n) as Hin by (apply lt_INR; lia).
  assert (0 <= INR i / IZR C) as Hq0.
  { apply Rmult_le_pos; [exact Hi0 | left; apply Rinv_0_lt_compat; exact HCr]. }
  assert (INR i / IZR C < INR n / IZR C) as Hqn.
  { apply Rmult_lt_compat_r; [apply Rinv_0_lt_compat; exact HCr | exact Hin]. }
  pose proof (NumFacts.floor_bound (INR i / IZR C)) as Hfl. unfold Num.floor in Hfl.
  set (q := Zfloor (INR i / IZR C)) in *.
  assert (0 <= q)%Z as Hq.
  { assert (-1 < IZR q) as H by lra. apply lt_IZR in H. lia. }
  assert (q < Rw)%Z as HqR by (apply lt_IZR; lra).
  (* the column *)
  assert (Num.rem (INR i) (IZR C) = IZR (Z.of_nat i - C * q)) as Hcol.
  { unfold Num.rem, Num.trunc.
    destruct (NumFacts.leb_spec 0 (INR i / IZR C)); [| lra].
    unfold Num.floor. fold q. rewrite minus_IZR, mult_IZR, <- INR_IZR_INZ. reflexivity. }
  assert (0 <= Z.of_nat i - C * q < C)%Z as Hcolr.
  { assert (IZR q * IZR C <= INR i) as H1.
    { apply Rmult_le_reg_r with (/ IZR C); [apply Rinv_0_lt_compat; exact HCr |].
      rewrite Rmult_assoc, Rinv_r by lra. unfold Rdiv in Hfl. lra. }
    assert (INR i < (IZR q + 1) * IZR C) as H2.
    { apply Rmult_lt_reg_r with (/ IZR C); [apply Rinv_0_lt_compat; exact HCr |].
      rewrite Rmult_assoc, Rinv_r by lra. unfold Rdiv in Hfl. lra. }
    rewrite INR_IZR_INZ in H1, H2.
    rewrite <- mult_IZR in H1. rewrite <- plus_IZR, <- mult_IZR in H2.
    apply le_IZR in H1. apply lt_IZR in H2. nia. }
  unfold gridded. rewrite Hcol. unfold Num.floor. fold q.
  split; [apply cell_centre; assumption |].
  split; [apply cell_centre; [lia | exact Hh] |].
  split; reflexivity.
Qed.

End InitFacts.

(* ================================================================== *)
(** ** The respawn block and a coasting particle *)
(* ================================================================== *)

Module CoastFacts.

Import Rng GPU GpuProps RngProps.

(** The respawn block either leaves the particle or puts it at rest at a
    hashed place of the world. *)
Lemma respawn_cases (u : Uniforms) (tc : vec2) (pv : vec2 * vec2) :
  0 <= fst (u_resolution u) -> 0 <= snd (u_resolution u) ->
  respawn u tc pv = pv
  \/ (snd (respawn u tc pv) = V2.zero
      /\ 0 <= fst (fst (respawn u tc pv)) <= fst (u_resolution u)
      /\ 0 <= snd (fst (respawn u tc pv)) <= snd (u_resolution u)).
Proof.
  intros Hw Hh. unfold respawn.
  destruct (_ <? _); [right | left; reflexivity].
  cbn [fst snd]. split; [reflexivity |].
  pose proof (ShaderFacts.random_range
                (snd tc * 9999, u_time u * 3.7 + fst tc * 1111)) as H1.
  pose proof (ShaderFacts.random_range
                (u_time u * 2.3 + fst tc * 7777, snd tc * 3333)) as H2.
  nra.
Qed.

(** With a respawn rate of 1 or more every particle is respawned. *)
Lemma respawn_always (u : Uniforms) (tc : vec2) (pv : vec2 * vec2) :
  1 <= u_respawnRate u -> snd (respawn u tc pv) = V2.zero.
Proof.
  intro H. unfold respawn.
  pose proof (ShaderFacts.random_range (V2.adds (V2.scale tc 777) (u_time u))) as Hr.
  rewrite NumFacts.ltb_true by lra. reflexivity.
Qed.

(** Forces-only mode with nothing acting: the particle coasts. *)
Lemma main_coast (u : Uniforms) (tex : Sampler.t) (tc : vec2) (px py vx vy : R) :
  quiet u -> u_noiseMode u = 5%Z ->
  texture tex tc = (px, py, vx, vy) ->
  mouseForceOf u (px, py) = V2.zero ->
  main u tex tc =
  (wrapAxis (px + vx * (1 - u_friction u)) (fst (u_resolution u)),
   wrapAxis (py + vy * (1 - u_friction u)) (snd (u_resolution u)),
   vx * (1 - u_friction u), vy * (1 - u_friction u)).
Proof.
  intros Hq Hm Ht Hmouse. unfold main.
  rewrite (ShaderFacts.integrate_quiet_forces_only u tex tc px py vx vy Hq Hm Ht Hmouse).
  rewrite ShaderFacts.respawn_off by (rewrite (q_respawn _ Hq); lra).
  reflexivity.
Qed.

Lemma scaled_length (vx vy k : R) :
  0 <= k -> V2.length (vx * k, vy * k) = k * V2.length (vx, vy).
Proof.
  intro Hk. unfold V2.length. cbn [fst snd].
  replace (vx * k * (vx * k) + vy * k * (vy * k)) with (k * k * (vx * vx + vy * vy))
    by ring.
  rewrite sqrt_mult by nra. rewrite sqrt_square by exact Hk. reflexivity.
Qed.

End CoastFacts.

(* ================================================================== *)
(** ** The render vertex shader *)
(* ================================================================== *)

Module RenderFacts.

Import Rng GPU GpuProps RngProps.

Lemma clip_range (p w : R) : 0 < w -> 0 <= p <= w -> -1 <= p / w * 2 - 1 <= 1.
Proof.
  intros Hw Hp.
  assert (0 < / w) as Hi by (apply Rinv_0_lt_compat; exact Hw).
  assert (0 <= p / w <= 1) as H.
  { unfold Rdiv. split; [apply Rmult_le_pos; lra |].
    apply Rmult_le_reg_r with w; [exact Hw |].
    rewrite Rmult_assoc, Rinv_l by lra. lra. }
  lra.
Qed.

(** The vertex of a particle that is in the world is in clip space. *)
Lemma vertex_clip (tex : Sampler.t) (res : vec2) (size : R) (tc : vec2)
    (px py vx vy : R) :
  texture tex tc = (px, py, vx, vy) ->
  0 < fst res -> 0 < snd res ->
  0 <= px <= fst res -> 0 <= py <= snd res ->
  let v := renderVertex tex res size tc in
  gl_Position v = (px / fst res * 2 - 1, py / snd res * 2 - 1, 0, 1)
  /\ -1 <= px / fst res * 2 - 1 <= 1
  /\ -1 <= py / snd res * 2 - 1 <= 1
  /\ gl_PointSize v = size
  /\ v_speed v = V2.length (vx, vy).
Proof.
  intros Ht Hw Hh Hx Hy. cbv zeta. unfold renderVertex. rewrite Ht.
  cbn [gl_Position gl_PointSize v_speed fst snd].
  split; [reflexivity |].
  split; [apply clip_range; assumption |].
  split; [apply clip_range; assumption |].
  split; reflexivity.
Qed.

(** Vertex [i] of the render pass is made from texel [i] of the current
    texture. *)
Lemma vertices_read_own_texel (s : State) (i : nat) (d : Vertex) :
  (i < Z.to_nat (Zfloor (num (config s) "particleCount")))%nat ->
  (i < textureSize s * textureSize s)%nat ->
  nth i (renderVertices s) d
  = renderVertex (Sampler.mk (textureSize s) (renderTexture s))
      (Canvas.width (canvas s), Canvas.height (canvas s))
      (num (config s) "particleSize") (texCoordOf (textureSize s) i)
  /\ texture (Sampler.mk (textureSize s) (renderTexture s))
       (texCoordOf (textureSize s) i)
     = nth i (renderTexture s) (0, 0, 0, 0).
Proof.
  intros Hn Hs. split; [| apply TextureFacts.texture_at; exact Hs].
  unfold renderVertices. cbv zeta.
  set (f := fun i => renderVertex _ _ _ (texCoordOf (textureSize s) i)).
  rewrite (nth_indep _ d (f 0%nat)) by (rewrite length_map, length_seq; exact Hn).
  rewrite (map_nth f). rewrite seq_nth by exact Hn. reflexivity.
Qed.

End RenderFacts.

(* ================================================================== *)
(** ** Re-initialisation with another particle count *)
(* ================================================================== *)

Module ReinitFacts.

Import Rng GPU GpuProps RngProps.

(** The configuration that [reinitWithParticleCount] hands to the
    constructor, once the defaults are spread under it. *)
Lemma saved_config (count : R) (cfg : Obj) (key : string) :
  NoDup (map fst cfg) ->
  get (spread defaultConfig
         (set (set cfg "particleCount" (VNum count)) "time" (VNum 0))) key =
  if String.eqb key "particleCount" then VNum count
  else if String.eqb key "time" then VNum 0
  else if has cfg key then get cfg key
  else get defaultConfig key.
Proof.
  intro Hnd.
  rewrite ConfigFacts.get_spread
    by (apply ConfigFacts.set_NoDup, ConfigFacts.set_NoDup, Hnd).
  rewrite !ConfigFacts.has_set.
  rewrite (String.eqb_sym key "particleCount"), (String.eqb_sym key "time").
  destruct (String.eqb_spec "time" key) as [<- | Ht].
  - rewrite orb_true_r. cbn [String.eqb Ascii.eqb Bool.eqb andb].
    apply GpuFacts.get_set_same.
  - rewrite orb_false_r. rewrite GpuFacts.get_set_other by exact Ht.
    destruct (String.eqb_spec "particleCount" key) as [<- | Hp].
    + rewrite orb_true_r. apply GpuFacts.get_set_same.
    + rewrite orb_false_r. rewrite GpuFacts.get_set_other by exact Hp. reflexivity.
Qed.

(** The first frame of an instance that the constructor has just built. *)
Lemma first_frame (s0 : State) (o : Oracle) (k : nat) :
  unit_range o ->
  paused s0 = false -> forceFields s0 = [] -> currentTexture s0 = 0%nat ->
  let s' := fst (animate s0 o k) in
  canvas s' = canvas s0
  /\ (List.length (forceFields s') <= 1)%nat
  /\ (num (config s0) "forceSpawnRate" <= 0 -> forceFields s' = [])
  /\ mouse s' = mouse s0 /\ paused s' = false
  /\ currentTexture s' = 1%nat
  /\ textureSize s' = textureSize s0
  /\ fst (particleTextures s') = fst (particleTextures s0)
  /\ List.length (snd (particleTextures s'))
     = (textureSize s0 * textureSize s0)%nat
  /\ config s' = set (config s0) "time" (VNum (num (config s0) "time" + 1)).
Proof.
  intros Ho Hp Hff Hcur. cbv zeta. unfold animate. rewrite Hp.
  rewrite GpuFacts.update_unfold. cbn [fst].
  destruct (StepFacts.updateForceFields_fields s0 o k Ho)
    as (extra & Hs1 & Hlen & _ & Hoff).
  rewrite Hff in Hs1. cbn [survivors filter map app] in Hs1.
  rewrite Hs1. unfold afterPass. cbv zeta.
  cbn [canvas forceFields mouse paused currentTexture textureSize particleTextures
       config with_forceFields with_particles with_config].
  rewrite Hcur. cbn [Nat.sub setTexAt texAt fst snd].
  repeat split; try reflexivity.
  - exact Hlen.
  - intro H. apply Hoff. exact H.
  - exact Hp.
  - apply TextureFacts.physicsPass_length.
Qed.

Lemma reinit_post (count : R) (s : State) :
  NoDup (map fst (config s)) ->
  0 <= Canvas.width (canvas s) -> 0 <= Canvas.height (canvas s) ->
  post (reinitWithParticleCount count s)
    (fun s' =>
       let n := Z.to_nat (Zceil count) in
       let size := Z.to_nat (Zceil (sqrt count)) in
       canvas s' = canvas s
       /\ (List.length (forceFields s') <= 1)%nat
       /\ (num (config s') "forceSpawnRate" <= 0 -> forceFields s' = [])
       /\ mouse s' = Mouse.mk (-1000) (-1000) 150 1 0
       /\ paused s' = false
       /\ currentTexture s' = 1%nat
       /\ textureSize s' = size
       /\ List.length (fst (particleTextures s')) = (size * size)%nat
       /\ List.length (snd (particleTextures s')) = (size * size)%nat
       /\ Forall (seeded (canvas s)) (firstn n (fst (particleTextures s')))
       /\ skipn n (fst (particleTextures s')) = repeat (0, 0, 0, 0) (size * size - n)
       /\ forall key : string,
            get (config s') key =
            if String.eqb key "particleCount" then VNum count
            else if String.eqb key "time" then VNum 1
            else if has (config s) key then get (config s) key
            else get defaultConfig key).
Proof.
  intros Hnd Hw Hh. unfold reinitWithParticleCount. cbv zeta.
  set (saved := set (set (config s) "particleCount" (VNum count)) "time" (VNum 0)).
  assert (forall key, get (spread defaultConfig saved) key =
                      if String.eqb key "particleCount" then VNum count
                      else if String.eqb key "time" then VNum 0
                      else if has (config s) key then get (config s) key
                      else get defaultConfig key) as Hget
    by (intro key; apply saved_config; exact Hnd).
  assert (num (spread defaultConfig saved) "particleCount" = count) as Hcount
    by (unfold num; rewrite Hget; reflexivity).
  assert (num (spread defaultConfig saved) "time" = 0) as Htime
    by (unfold num; rewrite Hget; reflexivity).
  eapply PostFacts.post_bind.
  { apply PostFacts.post_and.
    - apply (InitFacts.constructor_post (canvas s) saved Hw Hh).
    - apply (InstanceFacts.constructor_ginv (canvas s) saved). }
  cbv beta zeta. rewrite Hcount.
  intros s0 [(Hc & Hcfg & Hff & Hm & Hsz & Hcur & _ & _ & Hlen & Hseed & Hrest) Hinv].
  intros o k Ho.
  pose proof (first_frame s0 o k Ho (gi_paused _ Hinv) Hff Hcur) as H.
  cbv zeta in H.
  destruct H as (Hc' & Hlen' & Hoff' & Hm' & Hp' & Hcur' & Hsz' & Hfst' & Hsnd' & Hcfg').
  assert (forall key, key <> "time"%string ->
                      get (config (fst (animate s0 o k))) key
                      = get (spread defaultConfig saved) key) as Hkeep.
  { intros key Hk. rewrite Hcfg', Hcfg. apply GpuFacts.get_set_other.
    intro E. apply Hk. symmetry. exact E. }
  rewrite Hc', Hc, Hm', Hm, Hsz', Hsz, Hfst', Hsnd', Hsz, Hlen.
  repeat (split; [first [reflexivity | assumption] |]).
  split.
  { intro H. apply Hoff'. rewrite Hcfg. unfold num in *.
    rewrite <- (Hkeep "forceSpawnRate"%string) by discriminate. exact H. }
  repeat (split; [first [reflexivity | assumption] |]).
  intro key. destruct (String.eqb_spec key "time") as [-> | Hk].
  - cbn [String.eqb Ascii.eqb Bool.eqb andb].
    rewrite Hcfg', GpuFacts.get_set_same, Hcfg, Htime. f_equal. lra.
  - rewrite (Hkeep key Hk), Hget.
    destruct (String.eqb_spec key "time") as [E | _]; [contradiction | reflexivity].
Qed.

End ReinitFacts.


(* ================================================================== *)
(** ** The cycling controls of the canvas page *)
(* ================================================================== *)

Module CycleFacts.

Import Rng CPU.

Lemma interaction_cycle (window : Canvas.t) (s : State) (o : Oracle) (k : nat) :
  In (Config.particleInteraction (config s))
    ["none"; "attract"; "repel"; "align"; "zones"]%string ->
  run (repeat (KeyDown window "i") 5) s o k = (s, k).
Proof.
  intro H. destruct s as [cv cfg ps t pa g m ff sh nz st]. destruct cfg.
  cbn [config Config.particleInteraction In] in H.
  destruct H as [H | [H | [H | [H | [H | []]]]]]; subst; reflexivity.
Qed.

Lemma noiseMode_cycle (window : Canvas.t) (s : State) (o : Oracle) (k : nat) :
  (0 <= Config.noiseMode (config s) < 6)%Z ->
  run (repeat (KeyDown window "n") 6) s o k = (s, k).
Proof.
  intro H. destruct s as [cv cfg ps t pa g m ff sh nz st]. destruct cfg.
  cbn [config Config.noiseMode] in H.
  assert (noiseMode = 0 \/ noiseMode = 1 \/ noiseMode = 2 \/ noiseMode = 3
          \/ noiseMode = 4 \/ noiseMode = 5)%Z as Hc by lia.
  destruct Hc as [Hc | [Hc | [Hc | [Hc | [Hc | Hc]]]]]; subst; reflexivity.
Qed.

Lemma spawnType_cycle (s : State) (o : Oracle) (k : nat) :
  In (spawnTypeOnClick s) ["random"; "sink"; "source"; "vortex"; "gravity"]%string ->
  run (repeat ContextMenu 5) s o k = (s, k).
Proof.
  intro H. destruct s as [cv cfg ps t pa g m ff sh nz st].
  cbn [spawnTypeOnClick In] in H.
  destruct H as [H | [H | [H | [H | [H | []]]]]]; subst; reflexivity.
Qed.

(** A name that is not in the list is followed by the first name. *)
Lemma indexOf_missing (l : list string) (m : string) :
  ~ In m l -> forall k, indexOf l m k = (-1)%Z.
Proof.
  induction l as [| a l IH]; intros H k; cbn [indexOf]; [reflexivity |].
  destruct (String.eqb_spec a m) as [-> | Hne].
  - exfalso. apply H. left. reflexivity.
  - apply IH. intro Hin. apply H. right. exact Hin.
Qed.

Lemma pause_twice (window : Canvas.t) (s : State) (o : Oracle) (k : nat) :
  run [KeyDown window " "; KeyDown window " "] s o k = (s, k).
Proof.
  destruct s as [cv cfg ps t pa g m ff sh nz st]. cbn. rewrite negb_involutive.
  reflexivity.
Qed.

End CycleFacts.

(* ================================================================== *)
(** ** Clicks on the canvas page *)
(* ================================================================== *)

Module ClickFacts.

Import Rng CPU CpuProps RngProps.

Lemma click_full (cx cy : R) (s : State) (o : Oracle) (k : nat) :
  (10 <= List.length (forceFields s))%nat -> fst (click cx cy s o k) = s.
Proof.
  intro H. unfold click. cbv zeta. rewrite RngFacts.bind_fst.
  destruct (Nat.ltb_spec (List.length (forceFields s)) 10); [lia | reflexivity].
Qed.

Lemma click_adds (cx cy : R) (s : State) :
  (List.length (forceFields s) < 10)%nat ->
  post (click cx cy s)
    (fun s' =>
       exists f : ForceField.t,
         s' = with_forceFields s (forceFields s ++ [f])
         /\ ForceField.x f = cx /\ ForceField.y f = cy
         /\ (if String.eqb (spawnTypeOnClick s) "random"
                || String.eqb (spawnTypeOnClick s) ""
             then In (ForceField.type f) allTypes
             else ForceField.type f = spawnTypeOnClick s)
         /\ ForceField.life f = ForceField.maxLife f).
Proof.
  intro H. unfold click. cbv zeta.
  eapply PostFacts.post_bind; [apply FieldFacts.new_spec |].
  intros f (Hty & _ & _ & _ & Hl & _).
  destruct (Nat.ltb_spec (List.length (forceFields s)) 10); [| lia].
  apply PostFacts.post_ret. eexists. split; [reflexivity |].
  cbn [ForceField.x ForceField.y ForceField.type ForceField.life ForceField.maxLife].
  repeat split; try assumption.
  destruct (String.eqb (spawnTypeOnClick s) "random"); [exact Hty |].
  cbn [orb]. exact Hty.
Qed.

End ClickFacts.


(* ================================================================== *)
(** ** The ramps of the fade on the canvas page *)
(* ================================================================== *)

Module RampFacts.

Import CPU CpuProps.







End RampFacts.


(* ================================================================== *)
(** ** One field in the sum of the shader *)
(* ================================================================== *)

Module SlotFacts.

Import GPU GpuProps.










End SlotFacts.


(* ================================================================== *)
(** ** The claims *)
(* ================================================================== *)

(** C1.  The shader's force-field loop runs over 16 slots although the set
    holds up to 40 fields: with 17 live fields, the last of which is a sink
    that has the probe in range, the evaluation returns the sum over the first
    16 (here nothing) and leaves out the force of the seventeenth,
    (-0.75, 0). *)
Theorem C1_seventeenth_field_left_out :
  let s := Examples.crowded 16 in
  let time := GPU.num (GPU.config s) "time" in
  List.length (GPU.forceFields s) = 17%nat
  /\ GPU.getForceFieldEffect (GPU.physicsUniforms s) (550, 500) = (0, 0)
  /\ GpuProps.sumForces time (GPU.forceFields s) (550, 500) = (-0.75, 0).
Proof.
  cbv zeta. split; [reflexivity |]. split.
  - rewrite ForceSum.effect_first_16 by reflexivity.
    unfold GpuProps.sumForces.
    change (firstn 16 (GPU.forceFields (Examples.crowded 16)))
      with (repeat Examples.farField 16).
    apply ForceSum.far_fields_sum.
  - unfold GpuProps.sumForces.
    change (GPU.forceFields (Examples.crowded 16))
      with (repeat Examples.farField 16 ++ [Examples.nearSink]).
    rewrite fold_left_app, ForceSum.far_fields_sum. cbn [fold_left].
    rewrite ForceSum.nearSink_force.
    unfold V2.add, V2.zero. simpl. apply ForceSum.pair_eq; lra.
Qed.

(** C9.  The turbulent fBm mode is four octaves of the base sample at doubling
    frequency and halving amplitude, in the shader's [getNoiseValue] at the
    noise-space point of [pos] and in the canvas variant's mode switch. *)
Theorem C9_fbm_four_octaves :
  (forall (u : GPU.Uniforms) (pos : vec2) (time : R),
      GPU.u_noiseMode u = 1%Z ->
      let x := fst pos * GPU.u_noiseScale u + time * 0.0001 in
      let y := snd pos * GPU.u_noiseScale u + time * 0.0001 in
      GPU.getNoiseValue u pos time =
      0.5 * GPU.snoise (x, y) + 0.25 * GPU.snoise (2 * x, 2 * y)
      + 0.125 * GPU.snoise (4 * x, 4 * y) + 0.0625 * GPU.snoise (8 * x, 8 * y))
  /\ (forall (g : CPU.NoiseGenerator.t) (x y : R),
         CPU.noiseValOf g 1 x y =
         0.5 * CPU.noise2D g x y + 0.25 * CPU.noise2D g (2 * x) (2 * y)
         + 0.125 * CPU.noise2D g (4 * x) (4 * y)
         + 0.0625 * CPU.noise2D g (8 * x) (8 * y))
  /\ (forall (s : CPU.State) (this : CPU.Particle.t),
         CPU.Config.noiseMode (CPU.config s) = 1%Z ->
         let g := CPU.noise s in
         let x := CPU.Particle.x this * CPU.Config.noiseScale (CPU.config s)
                  + CPU.time s * 0.0001 in
         let y := CPU.Particle.y this * CPU.Config.noiseScale (CPU.config s)
                  + CPU.time s * 0.0001 in
         let noiseVal :=
           0.5 * CPU.noise2D g x y + 0.25 * CPU.noise2D g (2 * x) (2 * y)
           + 0.125 * CPU.noise2D g (4 * x) (4 * y)
           + 0.0625 * CPU.noise2D g (8 * x) (8 * y) in
         CPU.flowMove s this =
         (cos (noiseVal * PI * 4) * CPU.Particle.speed this
          * CPU.Config.backgroundStrength (CPU.config s),
          sin (noiseVal * PI * 4) * CPU.Particle.speed this
          * CPU.Config.backgroundStrength (CPU.config s))).
Proof.
  assert (forall (g : CPU.NoiseGenerator.t) (x y : R),
             CPU.noiseValOf g 1 x y =
             0.5 * CPU.noise2D g x y + 0.25 * CPU.noise2D g (2 * x) (2 * y)
             + 0.125 * CPU.noise2D g (4 * x) (4 * y)
             + 0.0625 * CPU.noise2D g (8 * x) (8 * y)) as Hcpu.
  { intros g x y. unfold CPU.noiseValOf. cbn [Z.eqb Pos.eqb].
    rewrite !(Rmult_comm x), !(Rmult_comm y). ring. }
  split; [| split].
  - intros u pos time Hmode x y. unfold GPU.getNoiseValue. rewrite Hmode.
    cbn [Z.eqb Pos.eqb]. unfold V2.adds, V2.scale. cbn [fst snd]. fold x y.
    rewrite !(Rmult_comm x), !(Rmult_comm y). ring.
  - exact Hcpu.
  - intros s this Hmode g x y noiseVal. unfold CPU.flowMove.
    rewrite Hmode. cbn [Z.eqb Pos.eqb negb]. fold g x y.
    rewrite Hcpu. reflexivity.
Qed.

(** C9 witness: the shader's fBm value at the particle (100, 100) of the
    example scene, and the canvas page in turbulent mode. *)
Lemma C9_witness :
  GPU.getNoiseValue (Examples.uniforms 1 0) (100, 100) 0 =
  0.5 * GPU.snoise (100 * 0.003 + 0 * 0.0001, 100 * 0.003 + 0 * 0.0001)
  + 0.25 * GPU.snoise (2 * (100 * 0.003 + 0 * 0.0001), 2 * (100 * 0.003 + 0 * 0.0001))
  + 0.125 * GPU.snoise (4 * (100 * 0.003 + 0 * 0.0001), 4 * (100 * 0.003 + 0 * 0.0001))
  + 0.0625 * GPU.snoise (8 * (100 * 0.003 + 0 * 0.0001), 8 * (100 * 0.003 + 0 * 0.0001)).
Proof.
  exact (proj1 C9_fbm_four_octaves (Examples.uniforms 1 0) (100, 100) 0 eq_refl).
Defined.


(** C2, as amended.  After the per-particle step the position lies in the
    closed world rectangle: in the canvas variant always (a particle that left
    the canvas is reset to a random place inside), in the WebGL variant when
    the position before the wrap is at most one world extent outside. *)
Theorem C2_position_in_closed_bounds :
  (forall (s : CPU.State) (i : nat) (this : CPU.Particle.t)
          (o : Rng.Oracle) (k : nat),
      Rng.unit_range o ->
      0 <= CPU.Canvas.width (CPU.canvas s) ->
      0 <= CPU.Canvas.height (CPU.canvas s) ->
      let p := fst (CPU.Particle_update s i this o k) in
      0 <= CPU.Particle.x p <= CPU.Canvas.width (CPU.canvas s)
      /\ 0 <= CPU.Particle.y p <= CPU.Canvas.height (CPU.canvas s))
  /\ (forall (u : GPU.Uniforms) (tex : GPU.Sampler.t) (tc : vec2),
         let w := fst (GPU.u_resolution u) in
         let h := snd (GPU.u_resolution u) in
         let pos := fst (GPU.integrate u tex tc) in
         0 <= w -> 0 <= h ->
         - w <= fst pos <= 2 * w -> - h <= snd pos <= 2 * h ->
         let '(x, y, _, _) := GPU.main u tex tc in
         0 <= x <= w /\ 0 <= y <= h).
Proof.
  split.
  - intros s i this o k Ho Hw Hh. apply CpuFacts.update_in_bounds; assumption.
  - intros u tex tc. apply WrapFacts.main_in_bounds.
Qed.

(** C2 fails as stated: in the WebGL scene of 800 x 600, a particle that
    arrives exactly on the right edge stays at x = width, and a particle with
    velocity 2000 ends at x = 1300, outside the world. *)
Lemma C2_position_leaves_open_bounds :
  let u := Examples.uniforms 5 0 in
  fst (GPU.u_resolution u) = 800
  /\ GPU.main u (Examples.one (700, 100, 100, 0)) Examples.centre
     = (800, 100, 100, 0)
  /\ GPU.main u (Examples.one (100, 100, 2000, 0)) Examples.centre
     = (1300, 100, 2000, 0).
Proof.
  cbv zeta. split; [reflexivity |]. split.
  - rewrite ExampleFacts.main_forces_only by lra. unfold GPU.wrapAxis.
    num_decide. repeat apply ForceSum.pair_eq; lra.
  - rewrite ExampleFacts.main_forces_only by lra. unfold GPU.wrapAxis.
    num_decide. repeat apply ForceSum.pair_eq; lra.
Qed.

(** C2 witness: the canvas page after one update of its particle, and the
    WebGL scene for a particle that moves by one pixel. *)
Lemma C2_witness :
  (let s := Examples.page (Examples.configOf 5 "none") (Examples.particle 0 100) in
   let p :=
     fst (CPU.Particle_update s 0%nat (Examples.particle 0 100) Examples.half 0%nat) in
   0 <= CPU.Particle.x p <= CPU.Canvas.width (CPU.canvas s)
   /\ 0 <= CPU.Particle.y p <= CPU.Canvas.height (CPU.canvas s))
  /\ (let '(x, y, _, _) :=
        GPU.main (Examples.uniforms 5 0) (Examples.one (100, 100, 1, 0))
          Examples.centre in
      0 <= x <= 800 /\ 0 <= y <= 600).
Proof.
  split.
  - apply (proj1 C2_position_in_closed_bounds).
    + exact ExampleFacts.unit_range_half.
    + simpl. lra.
    + simpl. lra.
  - apply (proj2 C2_position_in_closed_bounds (Examples.uniforms 5 0)
             (Examples.one (100, 100, 1, 0)) Examples.centre).
    + simpl. lra.
    + simpl. lra.
    + rewrite (ShaderFacts.integrate_quiet_forces_only _ _ _ 100 100 1 0
                 (ExampleFacts.quiet_uniforms 5 0) eq_refl (ExampleFacts.texture_one _ _)).
      * simpl. lra.
      * apply (ShaderFacts.mouse_parked _ _ 150); [reflexivity | lra | simpl; lra | simpl; lra].
    + rewrite (ShaderFacts.integrate_quiet_forces_only _ _ _ 100 100 1 0
                 (ExampleFacts.quiet_uniforms 5 0) eq_refl (ExampleFacts.texture_one _ _)).
      * simpl. lra.
      * apply (ShaderFacts.mouse_parked _ _ 150); [reflexivity | lra | simpl; lra | simpl; lra].
Defined.


(** C3.  The double-buffering discipline of the particle store.  In every
    state of an instance exactly one of the two buffers is current; [update]
    writes the other buffer with the physics pass of the current one, leaves
    the current one as it is, and swaps; the render pass then reads the buffer
    just written; and what the other buffer held before the step has no
    influence on the result. *)
Theorem C3_double_buffering (s : GPU.State) (o : Rng.Oracle) (k : nat) :
  GpuProps.Reachable s ->
  let cur := GPU.currentTexture s in
  let readTex := GPU.texAt (GPU.particleTextures s) cur in
  let s1 := fst (GPU.updateForceFields s o k) in
  let s' := fst (GPU.update s o k) in
  (cur = 0 \/ cur = 1)%nat
  /\ GPU.currentTexture s' = (1 - cur)%nat
  /\ GPU.currentTexture s' <> cur
  /\ GPU.texAt (GPU.particleTextures s') (1 - cur) =
     GPU.physicsPass (GPU.physicsUniforms s1)
       (GPU.Sampler.mk (GPU.textureSize s) readTex)
  /\ GPU.texAt (GPU.particleTextures s') cur = readTex
  /\ GPU.renderTexture s' = GPU.texAt (GPU.particleTextures s') (1 - cur)
  /\ (forall d : list vec4,
         GPU.renderTexture (fst (GPU.update (GpuProps.withOtherBuffer s d) o k))
         = GPU.renderTexture s').
Proof.
  intros Hreach. cbv zeta.
  pose proof (BufferFacts.reachable_current s Hreach) as Hcur.
  pose proof (GpuFacts.updateForceFields_spec s o k) as Hspec. cbv zeta in Hspec.
  destruct Hspec as [(_ & _ & _ & _ & _ & _ & Hsize & Htex & Hc) _].
  assert (forall d : list vec4,
             fst (GPU.update (GpuProps.withOtherBuffer s d) o k) =
             GpuProps.afterPass
               (GPU.with_particles (fst (GPU.updateForceFields s o k))
                  (GPU.setTexAt (GPU.particleTextures s)
                     (1 - GPU.currentTexture s) d)
                  (GPU.currentTexture s))) as Halt.
  { intro d. unfold GpuProps.withOtherBuffer.
    rewrite GpuFacts.update_unfold, BufferFacts.updateForceFields_buffers.
    reflexivity. }
  rewrite GpuFacts.update_unfold. cbn [fst].
  set (s1 := fst (GPU.updateForceFields s o k)) in *.
  unfold GpuProps.afterPass, GPU.renderTexture.
  cbn [GPU.particleTextures GPU.currentTexture GPU.textureSize
       GPU.with_config GPU.with_particles].
  rewrite Htex, Hc, Hsize.
  destruct Hcur as [E | E]; rewrite E; cbn [GPU.texAt GPU.setTexAt Nat.sub fst snd].
  - repeat split; try reflexivity; try discriminate; [left; reflexivity |].
    intro d. rewrite Halt. unfold GpuProps.afterPass.
    cbn [GPU.particleTextures GPU.currentTexture GPU.textureSize
         GPU.with_config GPU.with_particles].
    rewrite E, Hsize. cbn [GPU.texAt GPU.setTexAt Nat.sub fst snd]. reflexivity.
  - repeat split; try reflexivity; try discriminate; [right; reflexivity |].
    intro d. rewrite Halt. unfold GpuProps.afterPass.
    cbn [GPU.particleTextures GPU.currentTexture GPU.textureSize
         GPU.with_config GPU.with_particles].
    rewrite E, Hsize. cbn [GPU.texAt GPU.setTexAt Nat.sub fst snd]. reflexivity.
Qed.

(** C3 witness: a freshly constructed instance with one particle. *)
Lemma C3_witness :
  let s :=
    fst (GPU.constructor (GPU.Canvas.mk 800 600)
           [("particleCount"%string, GPU.VNum 1)] Examples.half 0%nat) in
  let o := Examples.half in
  let k := 4%nat in
  let cur := GPU.currentTexture s in
  let readTex := GPU.texAt (GPU.particleTextures s) cur in
  let s1 := fst (GPU.updateForceFields s o k) in
  let s' := fst (GPU.update s o k) in
  (cur = 0 \/ cur = 1)%nat
  /\ GPU.currentTexture s' = (1 - cur)%nat
  /\ GPU.currentTexture s' <> cur
  /\ GPU.texAt (GPU.particleTextures s') (1 - cur) =
     GPU.physicsPass (GPU.physicsUniforms s1)
       (GPU.Sampler.mk (GPU.textureSize s) readTex)
  /\ GPU.texAt (GPU.particleTextures s') cur = readTex
  /\ GPU.renderTexture s' = GPU.texAt (GPU.particleTextures s') (1 - cur)
  /\ (forall d : list vec4,
         GPU.renderTexture (fst (GPU.update (GpuProps.withOtherBuffer s d) o k))
         = GPU.renderTexture s').
Proof.
  exact (C3_double_buffering _ Examples.half 4%nat
           (GpuProps.reach_new (GPU.Canvas.mk 800 600)
              [("particleCount"%string, GPU.VNum 1)] Examples.half 0%nat)).
Defined.


(** C6, as amended.  One step of a particle at rest at (100, 100) in classic
    mode, at time 0, with no force field, no active pointer, no Brownian
    motion and no respawn.  Canvas variant: the new position is
    (100, 100) + speed * backgroundStrength * (cos t, sin t), where speed is
    the particle's own speed and t = noise2D (100 * noiseScale,
    100 * noiseScale) * 4 pi.  WebGL variant: the zero velocity is blended
    toward the flow by 0.3 and the angle carries the position offset, so the
    new position is (100, 100) + 0.3 * speed * backgroundStrength *
    (cos t', sin t') with t' = (snoise (...) + 0.2) * 12.566370614. *)
Theorem C6_classic_step :
  (forall (s : CPU.State) (this : CPU.Particle.t) (o : Rng.Oracle) (k : nat),
      CpuProps.calm s 0 ->
      CPU.Config.noiseMode (CPU.config s) = 0%Z -> CPU.time s = 0 ->
      CPU.Particle.x this = 100 -> CPU.Particle.y this = 100 ->
      CPU.Particle.life this + 1 <= CPU.Particle.maxLife this ->
      -100 <= CPU.Particle.speed this
              * CPU.Config.backgroundStrength (CPU.config s) <= 100 ->
      200 <= CPU.Canvas.width (CPU.canvas s) ->
      200 <= CPU.Canvas.height (CPU.canvas s) ->
      let ns := CPU.Config.noiseScale (CPU.config s) in
      let theta := CPU.noise2D (CPU.noise s) (100 * ns) (100 * ns) * (4 * PI) in
      let m := CPU.Particle.speed this
               * CPU.Config.backgroundStrength (CPU.config s) in
      let p := fst (CPU.Particle_update s 0 this o k) in
      CPU.Particle.x p = 100 + m * cos theta
      /\ CPU.Particle.y p = 100 + m * sin theta)
  /\ (forall (u : GPU.Uniforms) (tex : GPU.Sampler.t) (tc : vec2) (mz : R),
         GpuProps.quiet u -> GPU.u_noiseMode u = 0%Z -> GPU.u_time u = 0 ->
         GPU.texture tex tc = (100, 100, 0, 0) ->
         GPU.u_mouse u = (-1000, -1000, mz) -> mz <= 1000 ->
         -100 <= GPU.u_speed u * GPU.u_backgroundStrength u <= 100 ->
         200 <= fst (GPU.u_resolution u) -> 200 <= snd (GPU.u_resolution u) ->
         let theta :=
           (GPU.snoise (100 * GPU.u_noiseScale u, 100 * GPU.u_noiseScale u) + 0.2)
           * 12.566370614 in
         let m := GPU.u_speed u * GPU.u_backgroundStrength u in
         GPU.main u tex tc =
         (100 + 0.3 * m * cos theta, 100 + 0.3 * m * sin theta,
          0.3 * m * cos theta, 0.3 * m * sin theta)).
Proof.
  split.
  - intros s this o k. apply ClassicStep.update_classic.
  - intros u tex tc mz. apply ClassicStep.main_classic.
Qed.

(** C6 fails as stated in the WebGL variant: with speed 1 and background
    strength 1 the particle moves by 0.3, not by 1, so its new position is not
    (100, 100) + (cos t, sin t). *)
Lemma C6_webgl_step_is_shorter :
  let u := Examples.uniforms 0 0 in
  let theta := GPU.snoise (100 * 0.003, 100 * 0.003) * (4 * PI) in
  let '(x, y, _, _) :=
    GPU.main u (Examples.one (100, 100, 0, 0)) Examples.centre in
  (x, y) <> (100 + 1 * 1 * cos theta, 100 + 1 * 1 * sin theta).
Proof.
  cbv zeta.
  rewrite (ClassicStep.main_classic (Examples.uniforms 0 0) _ _ 150
             (ExampleFacts.quiet_uniforms 0 0) eq_refl eq_refl
             (ExampleFacts.texture_one _ _) eq_refl);
    [| lra | simpl; lra | simpl; lra | simpl; lra].
  cbn [GPU.u_speed GPU.u_backgroundStrength GPU.u_noiseScale Examples.uniforms].
  set (t' := (GPU.snoise (100 * 0.003, 100 * 0.003) + 0.2) * 12.566370614).
  set (t := GPU.snoise (100 * 0.003, 100 * 0.003) * (4 * PI)).
  intro H. injection H as Hx Hy.
  pose proof (NumFacts.cos_sin_sq t') as H1.
  pose proof (NumFacts.cos_sin_sq t) as H2.
  assert (0.3 * cos t' = cos t) as Ec by lra.
  assert (0.3 * sin t' = sin t) as Es by lra.
  rewrite <- Ec, <- Es in H2. nra.
Qed.

(** C6 witness: the canvas page with its single particle, grid built, and the
    quiet WebGL scene. *)
Lemma C6_witness :
  (let this := Examples.particle 0 100 in
   let s := CPU.buildSpatialGrid (Examples.page (Examples.configOf 0 "zones") this) in
   let theta := CPU.noise2D (CPU.noise s) (100 * 0.003) (100 * 0.003) * (4 * PI) in
   let p := fst (CPU.Particle_update s 0 this Examples.half 0%nat) in
   CPU.Particle.x p = 100 + 2 * 1 * cos theta
   /\ CPU.Particle.y p = 100 + 2 * 1 * sin theta)
  /\ (let theta := (GPU.snoise (100 * 0.003, 100 * 0.003) + 0.2) * 12.566370614 in
      GPU.main (Examples.uniforms 0 0) (Examples.one (100, 100, 0, 0))
        Examples.centre =
      (100 + 0.3 * (1 * 1) * cos theta, 100 + 0.3 * (1 * 1) * sin theta,
       0.3 * (1 * 1) * cos theta, 0.3 * (1 * 1) * sin theta)).
Proof.
  split.
  - apply (proj1 C6_classic_step
             (CPU.buildSpatialGrid
                (Examples.page (Examples.configOf 0 "zones") (Examples.particle 0 100)))
             (Examples.particle 0 100) Examples.half 0%nat).
    + constructor.
      * simpl. lra.
      * reflexivity.
      * reflexivity.
      * right. apply (CalmFacts.alone_built _ (Examples.particle 0 100)).
        reflexivity.
      * left. reflexivity.
    + reflexivity.
    + reflexivity.
    + reflexivity.
    + reflexivity.
    + simpl. lra.
    + simpl. lra.
    + simpl. lra.
    + simpl. lra.
  - apply (proj2 C6_classic_step (Examples.uniforms 0 0)
             (Examples.one (100, 100, 0, 0)) Examples.centre 150).
    + apply ExampleFacts.quiet_uniforms.
    + reflexivity.
    + reflexivity.
    + apply ExampleFacts.texture_one.
    + reflexivity.
    + lra.
    + simpl. lra.
    + simpl. lra.
    + simpl. lra.
Defined.


(** C5, as amended.  WebGL variant with auto-spawn off (forceSpawnRate = 0,
    the default): for every N, two runs of N physics steps from the same
    state end in the same state, particle positions and velocities included,
    whatever [Math.random] returns in either run.  This holds in every noise
    mode, 'forces only' with zero Brownian motion and zero respawn among
    them: the shader's jitter and respawn are hashes of the state. *)
Theorem C5_webgl_runs_agree (n : nat) (s : GPU.State)
    (o1 o2 : Rng.Oracle) (k1 k2 : nat) :
  GPU.num (GPU.config s) "forceSpawnRate" <= 0 ->
  fst (GPU.steps n s o1 k1) = fst (GPU.steps n s o2 k2).
Proof. apply GpuFacts.steps_deterministic. Qed.

(** C5 fails as stated in the canvas variant: in forces-only mode with zero
    Brownian motion and zero respawn rate, two frames from the same state
    with different draws of [Math.random] put the particle at x = 200 and at
    x = 600 (a particle past its life is reset to a random place). *)
Lemma C5_canvas_runs_differ :
  let cfg := Examples.configOf 5 "none" in
  let s := Examples.page cfg (Examples.particle 100 100) in
  CPU.Config.noiseMode cfg = 5%Z
  /\ CPU.Config.brownianMotion cfg = 0
  /\ CPU.Config.respawnRate cfg = 0
  /\ map CPU.Particle.x (CPU.particles (fst (CPU.animate s Examples.quarter 0%nat)))
     = [200]
  /\ map CPU.Particle.x
       (CPU.particles (fst (CPU.animate s Examples.threeQuarters 0%nat)))
     = [600].
Proof.
  cbv zeta. repeat (split; [reflexivity |]). split.
  - rewrite CanvasRuns.frame_resets by (unfold Examples.quarter; lra).
    cbn [map]. rewrite CanvasRuns.reset_x. f_equal.
    unfold Examples.quarter. simpl. lra.
  - rewrite CanvasRuns.frame_resets by (unfold Examples.threeQuarters; lra).
    cbn [map]. rewrite CanvasRuns.reset_x. f_equal.
    unfold Examples.threeQuarters. simpl. lra.
Qed.

(** C5 witness: three steps of the example instance under two oracles. *)
Lemma C5_witness :
  fst (GPU.steps 3 Examples.instance Examples.quarter 0%nat)
  = fst (GPU.steps 3 Examples.instance Examples.threeQuarters 7%nat).
Proof.
  apply (C5_webgl_runs_agree 3 Examples.instance).
  unfold GPU.num. simpl. lra.
Defined.






(** C7.  After any sequence of events (clicks and taps, typed and random
    spawns, frames with their automatic spawns among them) the WebGL
    instance holds at most 40 force fields and the canvas page at most 15.
    At capacity, [addForceField] drops the oldest field and appends the new
    one, in every state that the constructor and the events produce (and in
    any other state with that capacity, whenever the request finds a type to
    spawn), and [spawnForceField] does nothing at all. *)
Theorem C7_capacity :
  (forall (es : list GPU.Event) (s : GPU.State) (o : Rng.Oracle) (k : nat),
      GPU.maxForceFields s = 40%nat ->
      (List.length (GPU.forceFields s) <= 40)%nat ->
      (List.length (GPU.forceFields (fst (GPU.run es s o k))) <= 40)%nat)
  /\ (forall (es : list CPU.Event) (s : CPU.State) (o : Rng.Oracle) (k : nat),
         (List.length (CPU.forceFields s) <= 15)%nat ->
         (List.length (CPU.forceFields (fst (CPU.run es s o k))) <= 15)%nat)
  /\ (forall (x y : R) (type : Z) (s : GPU.State) (o : Rng.Oracle) (k : nat),
         GpuProps.Reachable s ->
         (List.length (GPU.forceFields s) <= 40)%nat
         /\ (List.length (GPU.forceFields s) = 40%nat ->
             exists f : GPU.ForceField.t,
               GPU.forceFields (fst (GPU.addForceField x y type s o k))
               = tl (GPU.forceFields s) ++ [f]
               /\ GPU.ForceField.x f = x /\ GPU.ForceField.y f = y))
  /\ (forall (x y : R) (type : Z) (s : GPU.State) (o : Rng.Oracle) (k : nat),
         GPU.maxForceFields s = 40%nat ->
         List.length (GPU.forceFields s) = 40%nat ->
         GpuProps.resolves type s = true ->
         exists f : GPU.ForceField.t,
           GPU.forceFields (fst (GPU.addForceField x y type s o k))
           = tl (GPU.forceFields s) ++ [f]
           /\ GPU.ForceField.x f = x /\ GPU.ForceField.y f = y)
  /\ (forall (type : option string) (s : CPU.State) (o : Rng.Oracle) (k : nat),
         (15 <= List.length (CPU.forceFields s))%nat ->
         CPU.spawnForceField type s o k = (s, k)).
Proof.
  split; [| split; [| split; [| split]]].
  - intros es s o k Hmax Hlen.
    apply (SpawnFacts.run_cap es s o k). split; assumption.
  - intros es s o k Hlen. apply (PageFacts.run_spec es s o k). exact Hlen.
  - intros x y type s o k Hr. split.
    + apply (SpawnFacts.reachable_ready s Hr).
    + intro Hlen. apply SpawnFacts.addForceField_evicts; assumption.
  - apply SpawnFacts.addForceField_full.
  - apply PageFacts.spawnForceField_full.
Qed.

(** C7 witness: a click and a frame on the example instance; key '1' and a
    click on the example page; a click on a new instance that forty clicks
    have filled; a click on the crowded instance; and key '1' on a full
    canvas set. *)
Lemma C7_witness :
  (List.length
     (GPU.forceFields
        (fst (GPU.run [GPU.Click 10 10; GPU.Frame] Examples.instance
                Examples.half 0%nat))) <= 40)%nat
  /\ (List.length
        (CPU.forceFields
           (fst (CPU.run [CPU.KeyDown (CPU.Canvas.mk 800 600) "1"; CPU.Click 10 10]
                   (Examples.page (Examples.configOf 1 "none")
                      (Examples.particle 0 100))
                   Examples.half 0%nat))) <= 15)%nat
  /\ (let s :=
        fst (GPU.run (repeat (GPU.Click 1 1) 40)
               (fst (GPU.constructor (GPU.Canvas.mk 800 600) [] Examples.half 0%nat))
               Examples.half 0%nat) in
      (List.length (GPU.forceFields s) <= 40)%nat
      /\ exists f : GPU.ForceField.t,
           GPU.forceFields (fst (GPU.addForceField 10 20 (-1) s Examples.half 0%nat))
           = tl (GPU.forceFields s) ++ [f]
           /\ GPU.ForceField.x f = 10 /\ GPU.ForceField.y f = 20)
  /\ (exists f : GPU.ForceField.t,
         GPU.forceFields
           (fst (GPU.addForceField 10 20 (-1) (Examples.crowded 39)
                   Examples.half 0%nat))
         = tl (GPU.forceFields (Examples.crowded 39)) ++ [f]
         /\ GPU.ForceField.x f = 10 /\ GPU.ForceField.y f = 20)
  /\ (let s :=
        CPU.with_forceFields
          (Examples.page (Examples.configOf 1 "none") (Examples.particle 0 100))
          (repeat (CPU.ForceField.mk 500 500 0 0 "sink" 100 200 0 50 1000 0 0 0 0)
             15) in
      CPU.spawnForceField (Some "sink"%string) s Examples.half 0%nat = (s, 0%nat)).
Proof.
  split; [| split; [| split; [| split]]].
  - apply (proj1 C7_capacity); [reflexivity | simpl; lia].
  - apply (proj1 (proj2 C7_capacity)). simpl. lia.
  - cbv zeta.
    assert (GpuProps.Reachable
              (fst (GPU.run (repeat (GPU.Click 1 1) 40)
                      (fst (GPU.constructor (GPU.Canvas.mk 800 600) []
                              Examples.half 0%nat))
                      Examples.half 0%nat))) as Hr
      by apply SpawnFacts.reachable_run, GpuProps.reach_new.
    destruct (proj1 (proj2 (proj2 C7_capacity)) 10 20 (-1)%Z _ Examples.half 0%nat Hr)
      as [Hle Hfull].
    split; [exact Hle |]. apply Hfull.
    rewrite SpawnFacts.clicks_length.
    + rewrite (proj1 (SpawnFacts.constructor_fresh _ _ _ _)). reflexivity.
    + apply GpuProps.reach_new.
    + rewrite (proj1 (SpawnFacts.constructor_fresh _ _ _ _)). simpl. lia.
  - apply (proj1 (proj2 (proj2 (proj2 C7_capacity)))); reflexivity.
  - apply (proj2 (proj2 (proj2 (proj2 C7_capacity)))). simpl. lia.
Defined.





(** C10, as amended.  In both variants the pointer adds nothing to a
    particle at a distance of 5 or less, or at the radius or beyond.  On the
    canvas page it adds nothing either while it is inactive (the flag, the
    null position).  The WebGL variant has no such flag: an inactive pointer
    is parked at (-1000, -1000), and adds nothing to a particle with
    non-negative coordinates, so to none on the canvas, for a radius up to
    1000.  The divisions of the mouse block, by the pointer distance and by
    the radius, are never by zero: the computation with checked divisions
    always succeeds, with the same result. *)
Theorem C10_pointer_guard :
  (forall (u : GPU.Uniforms) (pos : vec2) (mx my mz : R),
      GPU.u_mouse u = (mx, my, mz) ->
      V2.length (V2.sub pos (mx, my)) <= 5
      \/ mz <= V2.length (V2.sub pos (mx, my)) ->
      GPU.mouseForceOf u pos = V2.zero)
  /\ (forall (u : GPU.Uniforms) (pos : vec2) (mz : R),
         GPU.u_mouse u = (-1000, -1000, mz) -> mz <= 1000 ->
         0 <= fst pos -> 0 <= snd pos ->
         GPU.mouseForceOf u pos = V2.zero)
  /\ (forall (s : CPU.State) (this : CPU.Particle.t) (move : vec2),
         let m := CPU.mouse s in
         let dx := CPU.Particle.x this - CPU.orZero (CPU.Mouse.x m) in
         let dy := CPU.Particle.y this - CPU.orZero (CPU.Mouse.y m) in
         let dist := sqrt (dx * dx + dy * dy) in
         CPU.Mouse.active m = false \/ CPU.Mouse.x m = None
         \/ dist <= 5 \/ CPU.Mouse.radius m <= dist ->
         CPU.mouseMove s this move = move)
  /\ (forall (u : GPU.Uniforms) (pos : vec2),
         Checked.mouseForceOf u pos = Some (GPU.mouseForceOf u pos))
  /\ (forall (s : CPU.State) (this : CPU.Particle.t) (move : vec2),
         Checked.mouseMove s this move = Some (CPU.mouseMove s this move)).
Proof.
  split; [| split; [| split; [| split]]].
  - exact ShaderFacts.mouse_guard.
  - exact ShaderFacts.mouse_parked.
  - exact PointerFacts.mouseMove_guard.
  - exact PointerFacts.mouseForce_total.
  - exact PointerFacts.mouseMove_total.
Qed.

(** C10 fails as stated in the WebGL variant, which has no flag for an
    inactive pointer: [mouseleave] parks it at (-1000, -1000) with its radius
    of 150, and there it still acts.  A forces-only step with a large velocity
    writes the position (-990, -1000), the wrap being one addition per axis;
    on a particle at that position the parked pointer puts the vortex force
    (0, 28/15). *)
Lemma C10_parked_pointer_pushes :
  let s := fst (GPU.handle GPU.MouseLeave Examples.instance Examples.half 0%nat) in
  let u := GPU.physicsUniforms s in
  GPU.u_mouse u = (-1000, -1000, 150)
  /\ GPU.mouseForceOf u (-990, -1000) = (0, 28 / 15)
  /\ GPU.main (Examples.uniforms 5 0) (Examples.one (10, 0, -1800, -1600))
       Examples.centre
     = (-990, -1000, -1800, -1600).
Proof.
  cbv zeta. split; [reflexivity |]. split.
  - unfold GPU.mouseForceOf.
    assert (GPU.u_mouse
              (GPU.physicsUniforms
                 (fst (GPU.handle GPU.MouseLeave Examples.instance Examples.half 0%nat)))
            = (-1000, -1000, 150)) as -> by reflexivity.
    assert (V2.sub (-990, -1000) (-1000, -1000) = (10, 0)) as ->
      by (unfold V2.sub; cbn [fst snd]; apply ForceSum.pair_eq; ring).
    rewrite NumFacts.length_horizontal by lra.
    rewrite (NumFacts.ltb_true 10 150) by lra.
    rewrite (NumFacts.ltb_true 5 10) by lra. cbn [andb].
    assert (GPU.u_mouseMode
              (GPU.physicsUniforms
                 (fst (GPU.handle GPU.MouseLeave Examples.instance Examples.half 0%nat)))
            = 0%Z) as -> by reflexivity.
    assert (GPU.u_mouseStrength
              (GPU.physicsUniforms
                 (fst (GPU.handle GPU.MouseLeave Examples.instance Examples.half 0%nat)))
            = 1) as -> by reflexivity.
    assert (GPU.u_speed
              (GPU.physicsUniforms
                 (fst (GPU.handle GPU.MouseLeave Examples.instance Examples.half 0%nat)))
            = 1) as -> by reflexivity.
    cbn [Z.eqb]. unfold V2.scale, V2.divs, V2.normalize. cbn [fst snd].
    apply ForceSum.pair_eq; lra.
  - rewrite (CoastFacts.main_coast (Examples.uniforms 5 0)
               (Examples.one (10, 0, -1800, -1600)) Examples.centre 10 0 (-1800) (-1600)).
    + cbn [Examples.uniforms GPU.u_friction GPU.u_resolution fst snd].
      unfold GPU.wrapAxis.
      replace (10 + -1800 * (1 - 0)) with (-1790) by lra.
      replace (0 + -1600 * (1 - 0)) with (-1600) by lra.
      rewrite (NumFacts.ltb_true (-1790) 0) by lra.
      rewrite (NumFacts.ltb_true (-1600) 0) by lra.
      rewrite (NumFacts.ltb_false 800 (-1790 + 800)) by lra.
      rewrite (NumFacts.ltb_false 600 (-1600 + 600)) by lra.
      repeat apply ForceSum.pair_eq; lra.
    + apply ExampleFacts.quiet_uniforms.
    + reflexivity.
    + apply ExampleFacts.texture_one.
    + unfold GPU.mouseForceOf, Examples.uniforms, GPU.u_mouse.
      assert (150 <= V2.length (V2.sub (10, 0) (-1000, -1000))) as H.
      { apply NumFacts.sqrt_lower; [lra |]. unfold V2.sub, V2.dot. simpl. lra. }
      rewrite NumFacts.ltb_false by exact H. reflexivity.
Qed.

(** C10 witness: a WebGL particle under the pointer itself, a particle of the
    scene with the pointer parked, and the canvas page before any mouse
    event. *)
Lemma C10_witness :
  GPU.mouseForceOf
    (GPU.mkUniforms 0 (800, 600) 0.003 1 0 1 1 0 0 0 (100, 100, 150) 1 0
       (repeat 0 320) 0 0 false 1 0 0.5 0 0 1) (100, 100) = V2.zero
  /\ GPU.mouseForceOf (Examples.uniforms 0 0) (100, 100) = V2.zero
  /\ CPU.mouseMove
       (Examples.page (Examples.configOf 0 "none") (Examples.particle 0 100))
       (Examples.particle 0 100) (1, 2) = (1, 2).
Proof.
  split; [| split].
  - apply (proj1 C10_pointer_guard _ (100, 100) 100 100 150); [reflexivity |].
    left. unfold V2.length, V2.sub. simpl.
    apply NumFacts.sqrt_upper; lra.
  - apply (proj1 (proj2 C10_pointer_guard) _ (100, 100) 150);
      [reflexivity | lra | simpl; lra | simpl; lra].
  - apply (proj1 (proj2 (proj2 C10_pointer_guard))). left. reflexivity.
Defined.

(* ================================================================== *)
(** ** Further properties of the two variants *)
(* ================================================================== *)

(** *** The canvas variant *)

(** X1.  After [buildSpatialGrid], the cell stored under a key holds exactly
    the particles that lie in that cell: index [j] is in the list found under
    [key] if and only if particle [j] exists and [getSpatialKey] of its
    position is [key]. *)
Theorem X1_grid_cell_holds_its_particles (s : CPU.State) (key : Z * Z) (j : nat) :
  (exists l : list nat,
      CPU.gridGet (CPU.spatialGrid (CPU.buildSpatialGrid s)) key = Some l /\ In j l)
  <-> (exists p : CPU.Particle.t,
          nth_error (CPU.particles s) j = Some p
          /\ CPU.getSpatialKey (CPU.Particle.x p) (CPU.Particle.y p) = key).
Proof. apply GridFacts.grid_lookup. Qed.

(** X2.  [getNearbyParticles] misses no neighbour: on a freshly built grid,
    every particle whose x and y offsets from the query point are at most
    [radius] (so every particle within distance [radius]) is in the list
    returned. *)
Theorem X2_no_neighbour_missed (s : CPU.State) (x y radius : R) (j : nat)
    (p : CPU.Particle.t) :
  nth_error (CPU.particles s) j = Some p ->
  Rabs (CPU.Particle.x p - x) <= radius ->
  Rabs (CPU.Particle.y p - y) <= radius ->
  In j (CPU.getNearbyParticles (CPU.spatialGrid (CPU.buildSpatialGrid s)) x y radius).
Proof.
  intros Hp Hx Hy.
  assert (forall a b : R,
             Rabs (a - b) <= radius ->
             Rabs (a / CPU.GRID_CELL_SIZE - b / CPU.GRID_CELL_SIZE)
             <= radius / CPU.GRID_CELL_SIZE) as Hdiv.
  { intros a b H. unfold CPU.GRID_CELL_SIZE.
    replace (a / 40 - b / 40) with ((a - b) / 40) by lra.
    unfold Rabs in *. destruct (Rcase_abs (a - b)), (Rcase_abs ((a - b) / 40)); lra. }
  apply (GridFacts.nearby_complete s x y radius j p Hp); apply Hdiv; assumption.
Qed.

(** X2 witness: the example page, queried 20 to the right and 10 above its
    particle with the interaction radius 50. *)
Lemma X2_witness :
  In 0%nat
    (CPU.getNearbyParticles
       (CPU.spatialGrid
          (CPU.buildSpatialGrid
             (Examples.page (Examples.configOf 1 "zones") (Examples.particle 0 100))))
       120 90 50).
Proof.
  apply (X2_no_neighbour_missed _ 120 90 50 0%nat (Examples.particle 0 100)).
  - reflexivity.
  - simpl. apply Rabs_le. lra.
  - simpl. apply Rabs_le. lra.
Defined.

(** X3.  Whatever the seed, [new NoiseGenerator (seed)] fills both tables
    completely (512 entries, the permutation entries in 0..255, the gradients
    from [grad3]), and [noise2D] then never reads outside them: with every
    read of [perm] and [gradP] checked, the checked function returns the value
    of [noise2D] at every point. *)
Theorem X3_noise_tables_cover_every_read (seed x y : R) :
  CpuProps.tables (CPU.NoiseGenerator_new seed)
  /\ Checked.noise2D (CPU.NoiseGenerator_new seed) x y
     = Some (CPU.noise2D (CPU.NoiseGenerator_new seed) x y).
Proof.
  split; [apply NoiseFacts.new_tables |].
  apply NoiseFacts.noise2D_in_range, NoiseFacts.new_tables.
Qed.

(** X4.  [new ForceField (type)]: the field has the requested type, or one of
    the nine names of [allTypes] when none is requested ([null], or the empty
    string, which [type || ...] treats alike); strength in
    [[50, 150)], radius in [[80, 200)], life = maxLife in [[500, 1500)];
    rotation 1 or -1 for a vortex and 0 otherwise; a position inside the
    canvas; and a drift of at most [fieldDriftSpeed] on each axis. *)
Theorem X4_new_force_field (w h drift : R) (type : option string)
    (o : Rng.Oracle) (k : nat) :
  Rng.unit_range o -> 0 <= w -> 0 <= h -> 0 <= drift ->
  let f := fst (CPU.ForceField_new w h drift type o k) in
  match type with
  | Some t =>
      if String.eqb t "" then In (CPU.ForceField.type f) CPU.allTypes
      else CPU.ForceField.type f = t
  | None => In (CPU.ForceField.type f) CPU.allTypes
  end
  /\ 50 <= CPU.ForceField.strength f < 150
  /\ 80 <= CPU.ForceField.radius f < 200
  /\ 500 <= CPU.ForceField.maxLife f < 1500
  /\ CPU.ForceField.life f = CPU.ForceField.maxLife f
  /\ (if String.eqb (CPU.ForceField.type f) "vortex"
      then CPU.ForceField.rotation f = 1 \/ CPU.ForceField.rotation f = -1
      else CPU.ForceField.rotation f = 0)
  /\ 0 <= CPU.ForceField.x f <= w
  /\ 0 <= CPU.ForceField.y f <= h
  /\ Rabs (CPU.ForceField.vx f) <= drift
  /\ Rabs (CPU.ForceField.vy f) <= drift.
Proof.
  intros Ho Hw Hh Hd.
  pose proof (FieldFacts.new_spec w h drift type o k Ho) as H. cbv beta in H.
  destruct H as (Hty & Hs & Hr & Hm & Hl & Hrot & Hx & Hy & Hv & _).
  cbv zeta. destruct (Hv Hd).
  repeat (split; [first [assumption | apply Hx; assumption | apply Hy; assumption] |]).
  assumption.
Qed.

(** X4 witness: a vortex requested on a canvas of 800 x 600, all draws 1/2. *)
Lemma X4_witness :
  let f :=
    fst (CPU.ForceField_new 800 600 0.5 (Some "vortex"%string) Examples.half 0%nat) in
  CPU.ForceField.type f = "vortex"%string
  /\ 50 <= CPU.ForceField.strength f < 150
  /\ 80 <= CPU.ForceField.radius f < 200
  /\ 500 <= CPU.ForceField.maxLife f < 1500
  /\ CPU.ForceField.life f = CPU.ForceField.maxLife f
  /\ (if String.eqb (CPU.ForceField.type f) "vortex"
      then CPU.ForceField.rotation f = 1 \/ CPU.ForceField.rotation f = -1
      else CPU.ForceField.rotation f = 0)
  /\ 0 <= CPU.ForceField.x f <= 800
  /\ 0 <= CPU.ForceField.y f <= 600
  /\ Rabs (CPU.ForceField.vx f) <= 0.5
  /\ Rabs (CPU.ForceField.vy f) <= 0.5.
Proof.
  apply (X4_new_force_field 800 600 0.5 (Some "vortex"%string) Examples.half 0%nat).
  - exact ExampleFacts.unit_range_half.
  - lra.
  - lra.
  - lra.
Defined.

(** X5.  [update ()] of a force field ages it by one, advances its pulse
    phase by 0.05, puts it inside the canvas (the position is clamped), and
    reverses or keeps its drift without changing its speed; type, strength,
    radius, rotation and maxLife stay. *)
Theorem X5_force_field_update (c : CPU.Canvas.t) (f : CPU.ForceField.t) :
  0 <= CPU.Canvas.width c -> 0 <= CPU.Canvas.height c ->
  let f' := CPU.ForceField_update c f in
  CPU.ForceField.life f' = CPU.ForceField.life f - 1
  /\ CPU.ForceField.pulsePhase f' = CPU.ForceField.pulsePhase f + 0.05
  /\ 0 <= CPU.ForceField.x f' <= CPU.Canvas.width c
  /\ 0 <= CPU.ForceField.y f' <= CPU.Canvas.height c
  /\ Rabs (CPU.ForceField.vx f') = Rabs (CPU.ForceField.vx f)
  /\ Rabs (CPU.ForceField.vy f') = Rabs (CPU.ForceField.vy f)
  /\ CPU.ForceField.type f' = CPU.ForceField.type f
  /\ CPU.ForceField.strength f' = CPU.ForceField.strength f
  /\ CPU.ForceField.radius f' = CPU.ForceField.radius f
  /\ CPU.ForceField.rotation f' = CPU.ForceField.rotation f
  /\ CPU.ForceField.maxLife f' = CPU.ForceField.maxLife f.
Proof.
  intros Hw Hh. pose proof (FieldFacts.update_spec c f) as H. cbv zeta in *.
  destruct H as (El & Ep & Evx & Evy & Hx & Hy & Et & Es & Er & Erot & Em & _).
  repeat (split; [first [assumption | apply Hx; assumption | apply Hy; assumption] |]).
  assumption.
Qed.

(** X5 witness: a field that has drifted past the right edge of an 800 x 600
    canvas. *)
Lemma X5_witness :
  let c := CPU.Canvas.mk 800 600 in
  let f := CPU.ForceField.mk 799.9 300 0.25 0 "sink" 100 200 0 50 1000 0 0 0 0 in
  let f' := CPU.ForceField_update c f in
  CPU.ForceField.life f' = CPU.ForceField.life f - 1
  /\ CPU.ForceField.pulsePhase f' = CPU.ForceField.pulsePhase f + 0.05
  /\ 0 <= CPU.ForceField.x f' <= CPU.Canvas.width c
  /\ 0 <= CPU.ForceField.y f' <= CPU.Canvas.height c
  /\ Rabs (CPU.ForceField.vx f') = Rabs (CPU.ForceField.vx f)
  /\ Rabs (CPU.ForceField.vy f') = Rabs (CPU.ForceField.vy f)
  /\ CPU.ForceField.type f' = CPU.ForceField.type f
  /\ CPU.ForceField.strength f' = CPU.ForceField.strength f
  /\ CPU.ForceField.radius f' = CPU.ForceField.radius f
  /\ CPU.ForceField.rotation f' = CPU.ForceField.rotation f
  /\ CPU.ForceField.maxLife f' = CPU.ForceField.maxLife f.
Proof.
  apply (X5_force_field_update (CPU.Canvas.mk 800 600)
           (CPU.ForceField.mk 799.9 300 0.25 0 "sink" 100 200 0 50 1000 0 0 0 0)).
  - simpl. lra.
  - simpl. lra.
Defined.

(** X6.  For a field whose maxLife is at least 200 (as of every constructed
    field), the opacity that [draw ()] sets is 0.15 times the fade factor
    that [getForce] applies: the drawing and the force fade in and out
    together. *)
Theorem X6_drawn_opacity_follows_force_fade (f : CPU.ForceField.t) :
  200 <= CPU.ForceField.maxLife f ->
  CPU.ForceField_drawAlpha f = CPU.lifeFactorOf f * 0.15.
Proof. apply FieldFacts.drawAlpha_fade. Qed.

(** X6 witness: a field of maxLife 1000 with 50 frames left. *)
Lemma X6_witness :
  let f := CPU.ForceField.mk 500 500 0 0 "sink" 100 200 0 50 1000 0 0 0 0 in
  CPU.ForceField_drawAlpha f = CPU.lifeFactorOf f * 0.15.
Proof.
  apply (X6_drawn_opacity_follows_force_fade
           (CPU.ForceField.mk 500 500 0 0 "sink" 100 200 0 50 1000 0 0 0 0)).
  simpl. lra.
Defined.

(** X7.  [reset ()] makes, and [update ()] keeps, a particle in order: inside
    the canvas, with its previous position inside too, a life between 0 and
    its maxLife, a maxLife in [[100, 300)], a speed in [[1, 2)] (half to all of
    the configured speed 2), a colour index below 4, a non-negative recorded
    velocity and a hue in [[0, 1)]. *)
Theorem X7_particle_stays_in_order (s : CPU.State) (i : nat)
    (this : CPU.Particle.t) (o : Rng.Oracle) (k : nat) :
  Rng.unit_range o -> CpuProps.configOk (CPU.config s) ->
  0 <= CPU.Canvas.width (CPU.canvas s) -> 0 <= CPU.Canvas.height (CPU.canvas s) ->
  CpuProps.particleOk (CPU.canvas s)
    (fst (CPU.Particle_reset (CPU.canvas s) (CPU.config s) o k))
  /\ (CpuProps.particleOk (CPU.canvas s) this ->
      CpuProps.particleOk (CPU.canvas s) (fst (CPU.Particle_update s i this o k))).
Proof.
  intros Ho Hc Hw Hh. split.
  - apply ParticleFacts.reset_ok; assumption.
  - intro Hp. apply ParticleFacts.update_ok; assumption.
Qed.

(** X8.  [draw ()] of a particle in order, under a configuration of the
    page: the stroke runs from the previous position to the current one, in
    a colour of the configured scheme, with line width 0.5 and an opacity in
    [[0, 0.7]]. *)
Theorem X8_particle_stroke (c : CPU.Canvas.t) (cfg : CPU.Config.t)
    (p : CPU.Particle.t) :
  CpuProps.configOk cfg -> CpuProps.particleOk c p ->
  exists (colour : string) (alpha : R),
    CPU.Particle_draw cfg p =
    Some (CPU.Stroke.mk (Some (CPU.Hex colour)) alpha 0.5
            (CPU.Particle.prevX p, CPU.Particle.prevY p)
            (CPU.Particle.x p, CPU.Particle.y p))
    /\ In colour (nth (Z.to_nat (CPU.Config.colorScheme cfg)) CPU.colorSchemes [])
    /\ 0 <= alpha <= 0.7.
Proof. apply ParticleFacts.draw_ok. Qed.

(** X9.  The particles of the page: from the loaded page, after any events
    (frames, keys, clicks, resizes to windows of non-negative size), there
    are exactly 5000 particles and every one is in order, in particular
    inside the canvas and with a life between 0 and its maxLife. *)
Theorem X9_page_particles (window : CPU.Canvas.t) (es : list CPU.Event)
    (o : Rng.Oracle) (k0 k : nat) :
  Rng.unit_range o ->
  0 <= CPU.Canvas.width window -> 0 <= CPU.Canvas.height window ->
  Forall CpuProps.okEvent es ->
  let s := fst (CPU.run es (fst (CPU.start window o k0)) o k) in
  List.length (CPU.particles s) = 5000%nat
  /\ Forall (CpuProps.particleOk (CPU.canvas s)) (CPU.particles s).
Proof.
  intros Ho Hw Hh Hes.
  pose proof (InvFacts.run_inv es _ Hes (InvFacts.start_inv window Hw Hh o k0 Ho) o k Ho)
    as H.
  split; [exact (CpuProps.pi_count _ H) | exact (CpuProps.pi_particles _ H)].
Qed.

(** X10.  The force fields of the page: from the loaded page, after any
    events, there are at most 15 fields and every one is as its constructor
    made it but for its age: a type among the nine names, strength in
    [[50, 150)], radius in [[80, 200)], maxLife in [[500, 1500)], a life above
    -1 and at most maxLife, rotation 1 or -1 exactly for a vortex, a drift of
    at most 0.5 on each axis. *)
Theorem X10_page_force_fields (window : CPU.Canvas.t) (es : list CPU.Event)
    (o : Rng.Oracle) (k0 k : nat) :
  Rng.unit_range o ->
  0 <= CPU.Canvas.width window -> 0 <= CPU.Canvas.height window ->
  Forall CpuProps.okEvent es ->
  let s := fst (CPU.run es (fst (CPU.start window o k0)) o k) in
  (List.length (CPU.forceFields s) <= 15)%nat
  /\ Forall CpuProps.fieldOk (CPU.forceFields s)
  /\ Forall CpuProps.wellFormed (CPU.forceFields s).
Proof.
  intros Ho Hw Hh Hes.
  pose proof (InvFacts.run_inv es _ Hes (InvFacts.start_inv window Hw Hh o k0 Ho) o k Ho)
    as H.
  split; [exact (CpuProps.pi_cap _ H) |]. split; [exact (CpuProps.pi_fields _ H) |].
  eapply Forall_impl; [| exact (CpuProps.pi_fields _ H)].
  intros f Hf. apply FieldFacts.ok_wellFormed. exact Hf.
Qed.

(** X11.  The configuration of the page: from the loaded page, no sequence
    of events takes a setting out of its range or changes a setting that has
    no control.  The noise mode stays in 0..5, the colour scheme in 0..7, the
    Brownian amplitude is 0 or 1, the spawn rate stays in [[0.008, 0.05]], the
    interaction mode is one of the five; the particle count stays 5000, the
    speed 2, the mouse mode 'vortex', the global gravity 0, the line width
    0.5, and so on for every field that [configOk] lists. *)
Theorem X11_page_configuration (window : CPU.Canvas.t) (es : list CPU.Event)
    (o : Rng.Oracle) (k0 k : nat) :
  Rng.unit_range o ->
  0 <= CPU.Canvas.width window -> 0 <= CPU.Canvas.height window ->
  Forall CpuProps.okEvent es ->
  CpuProps.configOk (CPU.config (fst (CPU.run es (fst (CPU.start window o k0)) o k))).
Proof.
  intros Ho Hw Hh Hes.
  exact (CpuProps.pi_config _
           (InvFacts.run_inv es _ Hes (InvFacts.start_inv window Hw Hh o k0 Ho) o k Ho)).
Qed.

(** X7 witness: the page with its initial configuration and a particle at
    (100, 100), first update. *)
Lemma X7_witness :
  let this := CPU.Particle.mk 100 100 100 100 1.5 0 0 100 0 0 in
  let s := Examples.page CPU.initialConfig this in
  CpuProps.particleOk (CPU.canvas s)
    (fst (CPU.Particle_reset (CPU.canvas s) (CPU.config s) Examples.half 0%nat))
  /\ (CpuProps.particleOk (CPU.canvas s) this ->
      CpuProps.particleOk (CPU.canvas s)
        (fst (CPU.Particle_update s 0 this Examples.half 0%nat))).
Proof.
  apply (X7_particle_stays_in_order
           (Examples.page CPU.initialConfig
              (CPU.Particle.mk 100 100 100 100 1.5 0 0 100 0 0))
           0%nat (CPU.Particle.mk 100 100 100 100 1.5 0 0 100 0 0)
           Examples.half 0%nat).
  - exact ExampleFacts.unit_range_half.
  - exact InvFacts.initialConfig_ok.
  - simpl. lra.
  - simpl. lra.
Defined.

(** X8 witness: a particle half way through its life, initial configuration. *)
Lemma X8_witness :
  let p := CPU.Particle.mk 100 100 98 99 1.5 2 50 100 2 0 in
  exists (colour : string) (alpha : R),
    CPU.Particle_draw CPU.initialConfig p =
    Some (CPU.Stroke.mk (Some (CPU.Hex colour)) alpha 0.5
            (CPU.Particle.prevX p, CPU.Particle.prevY p)
            (CPU.Particle.x p, CPU.Particle.y p))
    /\ In colour
         (nth (Z.to_nat (CPU.Config.colorScheme CPU.initialConfig)) CPU.colorSchemes [])
    /\ 0 <= alpha <= 0.7.
Proof.
  apply (X8_particle_stroke (CPU.Canvas.mk 800 600) CPU.initialConfig
           (CPU.Particle.mk 100 100 98 99 1.5 2 50 100 2 0)).
  - exact InvFacts.initialConfig_ok.
  - constructor; simpl; first [lra | lia].
Defined.

(** X9 witness: a frame, the colour key, a click and a resize on a window of
    800 x 600, all draws 1/2. *)
Lemma X9_witness :
  let w := CPU.Canvas.mk 800 600 in
  let es := [CPU.Frame; CPU.KeyDown w "c"; CPU.Click 10 10;
             CPU.Resize (CPU.Canvas.mk 1024 768)] in
  let s := fst (CPU.run es (fst (CPU.start w Examples.half 0%nat)) Examples.half 7%nat) in
  List.length (CPU.particles s) = 5000%nat
  /\ Forall (CpuProps.particleOk (CPU.canvas s)) (CPU.particles s).
Proof.
  apply (X9_page_particles (CPU.Canvas.mk 800 600)
           [CPU.Frame; CPU.KeyDown (CPU.Canvas.mk 800 600) "c"; CPU.Click 10 10;
            CPU.Resize (CPU.Canvas.mk 1024 768)]
           Examples.half 0%nat 7%nat).
  - exact ExampleFacts.unit_range_half.
  - simpl. lra.
  - simpl. lra.
  - repeat constructor; simpl; lra.
Defined.

(** X10 witness: key '3', a click and two frames. *)
Lemma X10_witness :
  let w := CPU.Canvas.mk 800 600 in
  let es := [CPU.KeyDown w "3"; CPU.Click 10 10; CPU.Frame; CPU.Frame] in
  let s := fst (CPU.run es (fst (CPU.start w Examples.half 0%nat)) Examples.half 7%nat) in
  (List.length (CPU.forceFields s) <= 15)%nat
  /\ Forall CpuProps.fieldOk (CPU.forceFields s)
  /\ Forall CpuProps.wellFormed (CPU.forceFields s).
Proof.
  apply (X10_page_force_fields (CPU.Canvas.mk 800 600)
           [CPU.KeyDown (CPU.Canvas.mk 800 600) "3"; CPU.Click 10 10; CPU.Frame;
            CPU.Frame]
           Examples.half 0%nat 7%nat).
  - exact ExampleFacts.unit_range_half.
  - simpl. lra.
  - simpl. lra.
  - repeat constructor; simpl; lra.
Defined.

(** X11 witness: keys n, b, ] and + and a typed spawn. *)
Lemma X11_witness :
  let w := CPU.Canvas.mk 800 600 in
  let es := [CPU.KeyDown w "n"; CPU.KeyDown w "b"; CPU.KeyDown w "]";
             CPU.KeyDown w "+"; CPU.SpawnForceField (Some "lane"%string)] in
  CpuProps.configOk
    (CPU.config
       (fst (CPU.run es (fst (CPU.start w Examples.half 0%nat)) Examples.half 7%nat))).
Proof.
  apply (X11_page_configuration (CPU.Canvas.mk 800 600)
           [CPU.KeyDown (CPU.Canvas.mk 800 600) "n";
            CPU.KeyDown (CPU.Canvas.mk 800 600) "b";
            CPU.KeyDown (CPU.Canvas.mk 800 600) "]";
            CPU.KeyDown (CPU.Canvas.mk 800 600) "+";
            CPU.SpawnForceField (Some "lane"%string)]
           Examples.half 0%nat 7%nat).
  - exact ExampleFacts.unit_range_half.
  - simpl. lra.
  - simpl. lra.
  - repeat (apply Forall_cons;
            [ cbn [CpuProps.okEvent CPU.Canvas.width CPU.Canvas.height CPU.allTypes In];
              first [ split; lra | repeat first [left; reflexivity | right] ] | ]).
    apply Forall_nil.
Defined.

(** X12.  The cycling controls come round: five presses of 'i' bring the
    interaction mode back, six presses of 'n' the noise mode, five right
    clicks the click-spawn type, and two presses of space the pause flag,
    each leaving the whole state as it was and drawing nothing from
    [Math.random]; an interaction mode that is none of the five names is
    followed by 'none'. *)
Theorem X12_cycling_controls_come_round (window : CPU.Canvas.t) (s : CPU.State)
    (o : Rng.Oracle) (k : nat) :
  (In (CPU.Config.particleInteraction (CPU.config s))
     ["none"; "attract"; "repel"; "align"; "zones"]%string ->
   CPU.run (repeat (CPU.KeyDown window "i") 5) s o k = (s, k))
  /\ ((0 <= CPU.Config.noiseMode (CPU.config s) < 6)%Z ->
      CPU.run (repeat (CPU.KeyDown window "n") 6) s o k = (s, k))
  /\ (In (CPU.spawnTypeOnClick s) ["random"; "sink"; "source"; "vortex"; "gravity"]%string ->
      CPU.run (repeat CPU.ContextMenu 5) s o k = (s, k))
  /\ CPU.run [CPU.KeyDown window " "; CPU.KeyDown window " "] s o k = (s, k)
  /\ (~ In (CPU.Config.particleInteraction (CPU.config s))
          ["none"; "attract"; "repel"; "align"; "zones"]%string ->
      CPU.Config.particleInteraction
        (CPU.config (fst (CPU.handle (CPU.KeyDown window "i") s o k)))
      = "none"%string).
Proof.
  split; [apply CycleFacts.interaction_cycle |].
  split; [apply CycleFacts.noiseMode_cycle |].
  split; [apply CycleFacts.spawnType_cycle |].
  split; [apply CycleFacts.pause_twice |].
  intro H.
  assert (CPU.config (fst (CPU.handle (CPU.KeyDown window "i") s o k))
          = CPU.set_particleInteraction (CPU.config s)
              (CPU.nextOf ["none"; "attract"; "repel"; "align"; "zones"]%string
                 (CPU.Config.particleInteraction (CPU.config s)))) as -> by reflexivity.
  cbn [CPU.set_particleInteraction CPU.Config.particleInteraction].
  unfold CPU.nextOf. rewrite (CycleFacts.indexOf_missing _ _ H). reflexivity.
Qed.

(** X12 witness: the example page (interaction 'zones', noise mode 1, click
    type 'random'), and the same page with an unknown interaction mode. *)
Lemma X12_witness :
  let w := CPU.Canvas.mk 800 600 in
  let s := Examples.page (Examples.configOf 1 "zones") (Examples.particle 0 100) in
  let s' := Examples.page (Examples.configOf 1 "swarm") (Examples.particle 0 100) in
  CPU.run (repeat (CPU.KeyDown w "i") 5) s Examples.half 0%nat = (s, 0%nat)
  /\ CPU.run (repeat (CPU.KeyDown w "n") 6) s Examples.half 0%nat = (s, 0%nat)
  /\ CPU.run (repeat CPU.ContextMenu 5) s Examples.half 0%nat = (s, 0%nat)
  /\ CPU.Config.particleInteraction
       (CPU.config (fst (CPU.handle (CPU.KeyDown w "i") s' Examples.half 0%nat)))
     = "none"%string.
Proof.
  pose proof (X12_cycling_controls_come_round (CPU.Canvas.mk 800 600)
                (Examples.page (Examples.configOf 1 "zones") (Examples.particle 0 100))
                Examples.half 0%nat) as (H1 & H2 & H3 & _ & _).
  pose proof (X12_cycling_controls_come_round (CPU.Canvas.mk 800 600)
                (Examples.page (Examples.configOf 1 "swarm") (Examples.particle 0 100))
                Examples.half 0%nat) as (_ & _ & _ & _ & H5).
  cbv zeta. split; [| split; [| split]].
  - apply H1. cbn. repeat first [left; reflexivity | right].
  - apply H2. cbn. lia.
  - apply H3. cbn. left. reflexivity.
  - apply H5. cbn. intros [H | [H | [H | [H | [H | H]]]]];
      first [discriminate H | exact H].
Defined.

(** X13.  A click spawns at most up to ten fields: with fewer than 10 fields
    it appends one field, placed at the click position, of the click-spawn
    type (of one of the nine types when that is 'random' or empty) and at
    full life, and changes nothing else; with 10 fields or more it leaves the
    state as it is. *)
Theorem X13_click_spawns_up_to_ten (cx cy : R) (s : CPU.State)
    (o : Rng.Oracle) (k : nat) :
  Rng.unit_range o ->
  let s' := fst (CPU.click cx cy s o k) in
  ((List.length (CPU.forceFields s) < 10)%nat ->
   exists f : CPU.ForceField.t,
     s' = CPU.with_forceFields s (CPU.forceFields s ++ [f])
     /\ CPU.ForceField.x f = cx /\ CPU.ForceField.y f = cy
     /\ (if String.eqb (CPU.spawnTypeOnClick s) "random"
            || String.eqb (CPU.spawnTypeOnClick s) ""
         then In (CPU.ForceField.type f) CPU.allTypes
         else CPU.ForceField.type f = CPU.spawnTypeOnClick s)
     /\ CPU.ForceField.life f = CPU.ForceField.maxLife f)
  /\ ((10 <= List.length (CPU.forceFields s))%nat -> s' = s).
Proof.
  intros Ho. split.
  - intro H. exact (ClickFacts.click_adds cx cy s H o k Ho).
  - apply ClickFacts.click_full.
Qed.

(** X13 witness: a click on the example page, which has no field. *)
Lemma X13_witness :
  let s := Examples.page (Examples.configOf 1 "none") (Examples.particle 0 100) in
  exists f : CPU.ForceField.t,
    fst (CPU.click 10 20 s Examples.half 0%nat)
    = CPU.with_forceFields s (CPU.forceFields s ++ [f])
    /\ CPU.ForceField.x f = 10 /\ CPU.ForceField.y f = 20
    /\ (if String.eqb (CPU.spawnTypeOnClick s) "random"
           || String.eqb (CPU.spawnTypeOnClick s) ""
        then In (CPU.ForceField.type f) CPU.allTypes
        else CPU.ForceField.type f = CPU.spawnTypeOnClick s)
    /\ CPU.ForceField.life f = CPU.ForceField.maxLife f.
Proof.
  apply (proj1 (X13_click_spawns_up_to_ten 10 20
                  (Examples.page (Examples.configOf 1 "none") (Examples.particle 0 100))
                  Examples.half 0%nat ExampleFacts.unit_range_half)).
  simpl. lia.
Defined.

(** X14.  A frame of the page.  While paused, [animate] changes nothing and
    draws nothing from [Math.random].  Otherwise it advances the time by
    exactly one, keeps the number of particles, leaves the configuration, the
    canvas, the pointer, the noise tables, the flags and the click-spawn type
    as they are, and leaves every force field on the canvas. *)
Theorem X14_frame (s : CPU.State) (o : Rng.Oracle) (k : nat) :
  Rng.unit_range o ->
  0 <= CPU.Canvas.width (CPU.canvas s) -> 0 <= CPU.Canvas.height (CPU.canvas s) ->
  (CPU.paused s = true -> CPU.animate s o k = (s, k))
  /\ (CPU.paused s = false ->
      let s' := fst (CPU.animate s o k) in
      CpuProps.frameOf 1 s s'
      /\ CpuProps.fieldsInside (CPU.canvas s) (CPU.forceFields s')).
Proof.
  intros Ho Hw Hh. split.
  - intro Hp. unfold CPU.animate. rewrite Hp. reflexivity.
  - intro Hp. exact (FrameFacts.animate_frame s Hp Hw Hh o k Ho).
Qed.

(** X14 witness: a frame of the example page with a field outside the
    canvas. *)
Lemma X14_witness :
  let s :=
    CPU.with_forceFields
      (Examples.page (Examples.configOf 1 "none") (Examples.particle 0 100))
      [CPU.ForceField.mk 900 (-5) 0.25 0 "sink" 100 200 0 50 1000 0 0 0 0] in
  let s' := fst (CPU.animate s Examples.half 0%nat) in
  CpuProps.frameOf 1 s s'
  /\ CpuProps.fieldsInside (CPU.canvas s) (CPU.forceFields s').
Proof.
  apply (proj2 (X14_frame
                  (CPU.with_forceFields
                     (Examples.page (Examples.configOf 1 "none")
                        (Examples.particle 0 100))
                     [CPU.ForceField.mk 900 (-5) 0.25 0 "sink" 100 200 0 50 1000 0 0 0 0])
                  Examples.half 0%nat ExampleFacts.unit_range_half
                  ltac:(simpl; lra) ltac:(simpl; lra))).
  reflexivity.
Defined.

(** *** The WebGL variant *)

(** X15.  A particle reads its own texel.  The coordinate that
    [createParticleBuffer] gives particle [k] (the texel centre of column
    [k mod size], row [k / size]) samples, with NEAREST filtering, exactly
    texel [k] of a [size * size] texture; and the physics pass writes all
    [size * size] texels, texel [k] being [main] at that coordinate. *)
Theorem X15_particle_reads_its_own_texel (u : GPU.Uniforms) (size k : nat)
    (data : list vec4) (d : vec4) :
  (k < size * size)%nat ->
  let tex := GPU.Sampler.mk size data in
  GPU.texture tex (GPU.texCoordOf size k) = nth k data (0, 0, 0, 0)
  /\ List.length (GPU.physicsPass u tex) = (size * size)%nat
  /\ nth k (GPU.physicsPass u tex) d = GPU.main u tex (GPU.texCoordOf size k).
Proof.
  intros H. cbv zeta. split; [apply TextureFacts.texture_at; exact H |].
  split; [apply TextureFacts.physicsPass_length |].
  apply (TextureFacts.physicsPass_nth u (GPU.Sampler.mk size data) k d). exact H.
Qed.

(** X15 witness: texel 5 of a 3 x 3 texture. *)
Lemma X15_witness :
  let data := map (fun i => (INR i, 0, 0, 0)) (seq 0 9) in
  let tex := GPU.Sampler.mk 3 data in
  GPU.texture tex (GPU.texCoordOf 3 5) = nth 5%nat data (0, 0, 0, 0)
  /\ List.length (GPU.physicsPass (Examples.uniforms 5 0) tex) = (3 * 3)%nat
  /\ nth 5%nat (GPU.physicsPass (Examples.uniforms 5 0) tex) (0, 0, 0, 0)
     = GPU.main (Examples.uniforms 5 0) tex (GPU.texCoordOf 3 5).
Proof.
  apply (X15_particle_reads_its_own_texel (Examples.uniforms 5 0) 3 5
           (map (fun i => (INR i, 0, 0, 0)) (seq 0 9)) (0, 0, 0, 0)).
  simpl. lia.
Defined.

(** X16.  The constructor, for a whole particle count [n]: the new instance
    has the given canvas, the defaults overridden by [initialConfig], no
    force field, a parked pointer, and two identical textures of
    [size * size] texels with [size = ceil (sqrt n)], which is room for all
    [n] particles; the first [n] texels hold particles on the canvas with
    velocity components in [[-1, 1)], the others are zero. *)
Theorem X16_constructor (c : GPU.Canvas.t) (initialConfig : GPU.Obj) (n : nat)
    (o : Rng.Oracle) (k : nat) :
  Rng.unit_range o ->
  0 <= GPU.Canvas.width c -> 0 <= GPU.Canvas.height c ->
  GPU.num (GPU.spread GPU.defaultConfig initialConfig) "particleCount" = INR n ->
  let s := fst (GPU.constructor c initialConfig o k) in
  let size := Z.to_nat (Zceil (sqrt (INR n))) in
  GPU.canvas s = c
  /\ GPU.config s = GPU.spread GPU.defaultConfig initialConfig
  /\ GPU.forceFields s = []
  /\ GPU.mouse s = GPU.Mouse.mk (-1000) (-1000) 150 1 0
  /\ GPU.textureSize s = size /\ GPU.currentTexture s = 0%nat
  /\ (n <= size * size)%nat
  /\ snd (GPU.particleTextures s) = fst (GPU.particleTextures s)
  /\ List.length (fst (GPU.particleTextures s)) = (size * size)%nat
  /\ Forall (GpuProps.seeded c) (firstn n (fst (GPU.particleTextures s)))
  /\ skipn n (fst (GPU.particleTextures s)) = repeat (0, 0, 0, 0) (size * size - n).
Proof.
  intros Ho Hw Hh Hn.
  pose proof (InitFacts.constructor_post c initialConfig Hw Hh o k Ho) as H.
  cbv beta zeta in H. rewrite Hn in H.
  rewrite InitFacts.ceil_INR in H. exact H.
Qed.

(** X16 witness: an instance of four particles on a canvas of 800 x 600. *)
Lemma X16_witness :
  let c := GPU.Canvas.mk 800 600 in
  let initialConfig := [("particleCount"%string, GPU.VNum 4)] in
  let s := fst (GPU.constructor c initialConfig Examples.half 0%nat) in
  let size := Z.to_nat (Zceil (sqrt (INR 4))) in
  GPU.canvas s = c
  /\ GPU.config s = GPU.spread GPU.defaultConfig initialConfig
  /\ GPU.forceFields s = []
  /\ GPU.mouse s = GPU.Mouse.mk (-1000) (-1000) 150 1 0
  /\ GPU.textureSize s = size /\ GPU.currentTexture s = 0%nat
  /\ (4 <= size * size)%nat
  /\ snd (GPU.particleTextures s) = fst (GPU.particleTextures s)
  /\ List.length (fst (GPU.particleTextures s)) = (size * size)%nat
  /\ Forall (GpuProps.seeded c) (firstn 4 (fst (GPU.particleTextures s)))
  /\ skipn 4 (fst (GPU.particleTextures s)) = repeat (0, 0, 0, 0) (size * size - 4).
Proof.
  apply (X16_constructor (GPU.Canvas.mk 800 600)
           [("particleCount"%string, GPU.VNum 4)] 4 Examples.half 0%nat).
  - exact ExampleFacts.unit_range_half.
  - simpl. lra.
  - simpl. lra.
  - unfold GPU.num. simpl. lra.
Defined.

(** X17.  The invariant of an instance: after the constructor and any
    events (pointer and touch events, clicks, typed spawns, [setConfig],
    resizes, frames), the capacity is 40 with all five types enabled, there
    are at most 40 force fields, each with strength in [[50, 150)], rotation 1
    or -1 and a drift of at most 0.25 per axis; one of the two textures is
    current and both have [textureSize * textureSize] texels; the pointer
    keeps radius 150, strength 1 and mode 0; the instance is never paused;
    and the configuration keeps distinct keys, every default among them. *)
Theorem X17_instance_invariant (c : GPU.Canvas.t) (initialConfig : GPU.Obj)
    (es : list GPU.Event) (o : Rng.Oracle) (k0 k : nat) :
  Rng.unit_range o ->
  GpuProps.GpuInv
    (fst (GPU.run es (fst (GPU.constructor c initialConfig o k0)) o k)).
Proof.
  intro Ho. apply InstanceFacts.run_ginv; [| exact Ho].
  apply InstanceFacts.constructor_ginv. exact Ho.
Qed.

(** X17 witness: a click, a frame, a setting and a tap on a new instance. *)
Lemma X17_witness :
  GpuProps.GpuInv
    (fst (GPU.run
            [GPU.Click 10 10; GPU.Frame;
             GPU.SetConfig "forceSpawnRate" (GPU.VNum 60);
             GPU.TouchStart 5 5; GPU.TouchEnd 6 6; GPU.Frame]
            (fst (GPU.constructor (GPU.Canvas.mk 800 600)
                    [("particleCount"%string, GPU.VNum 4)] Examples.half 0%nat))
            Examples.half 16%nat)).
Proof.
  apply (X17_instance_invariant (GPU.Canvas.mk 800 600)
           [("particleCount"%string, GPU.VNum 4)]
           [GPU.Click 10 10; GPU.Frame;
            GPU.SetConfig "forceSpawnRate" (GPU.VNum 60);
            GPU.TouchStart 5 5; GPU.TouchEnd 6 6; GPU.Frame]
           Examples.half 0%nat 16%nat).
  exact ExampleFacts.unit_range_half.
Defined.

(** X18.  [addForceField (x, y, type)] when the request finds a type: the
    list becomes the list after eviction followed by one new field, placed at
    [(x, y)], with strength in [[50, 150)], rotation 1 or -1, a drift of at
    most 0.25 per axis, a life of 500 to 1000 frames times [forceLifetime],
    and the requested type, or for a random request a type that is enabled;
    with [maxForceRadius] of 40 or more its radius lies between
    [max (40, 0.3 * maxForceRadius)] and [maxForceRadius].  Nothing but the
    list changes. *)
Theorem X18_addForceField (x y : R) (type : Z) (s : GPU.State)
    (o : Rng.Oracle) (k : nat) :
  Rng.unit_range o -> GpuProps.resolves type s = true ->
  let s' := fst (GPU.addForceField x y type s o k) in
  let maxR := GPU.num (GPU.config s) "maxForceRadius" in
  let lifetime := GPU.num (GPU.config s) "forceLifetime" in
  exists f : GPU.ForceField.t,
    s' = GPU.with_forceFields s (GpuProps.afterEviction s ++ [f])
    /\ GPU.ForceField.x f = x /\ GPU.ForceField.y f = y
    /\ GpuProps.fieldShape f
    /\ (if (type <? 0)%Z
        then (0 <= GPU.ForceField.type f < 5)%Z
             /\ nth (Z.to_nat (GPU.ForceField.type f)) (GPU.enabledForceTypes s) false
                = true
        else GPU.ForceField.type f = type)
    /\ (0 <= lifetime ->
        500 * lifetime <= GPU.ForceField.life f <= 1000 * lifetime)
    /\ (40 <= maxR -> Rmax 40 (maxR * 0.3) <= GPU.ForceField.radius f <= maxR).
Proof.
  intros Ho Hres.
  pose proof (AddFacts.addForceField_post x y type s o k Ho) as H. cbv beta in H.
  rewrite Hres in H.
  destruct H as (f & Hs & Hx & Hy & Hshape & Hty & (rl & Hrl & Hlife) & (rr & Hrr & Hrad)).
  cbv zeta. exists f. repeat (split; [assumption |]). split.
  - intro Hl. rewrite Hlife. nra.
  - intro Hm. rewrite Hrad.
    assert (Rmax 40 (GPU.num (GPU.config s) "maxForceRadius" * 0.3)
            <= GPU.num (GPU.config s) "maxForceRadius") as Hle
      by (apply Rmax_lub; lra).
    nra.
Qed.

(** X18 witness: a random request on the example instance. *)
Lemma X18_witness :
  let s := Examples.instance in
  let s' := fst (GPU.addForceField 10 20 (-1) s Examples.half 0%nat) in
  let maxR := GPU.num (GPU.config s) "maxForceRadius" in
  let lifetime := GPU.num (GPU.config s) "forceLifetime" in
  exists f : GPU.ForceField.t,
    s' = GPU.with_forceFields s (GpuProps.afterEviction s ++ [f])
    /\ GPU.ForceField.x f = 10 /\ GPU.ForceField.y f = 20
    /\ GpuProps.fieldShape f
    /\ ((0 <= GPU.ForceField.type f < 5)%Z
        /\ nth (Z.to_nat (GPU.ForceField.type f)) (GPU.enabledForceTypes s) false = true)
    /\ (0 <= lifetime ->
        500 * lifetime <= GPU.ForceField.life f <= 1000 * lifetime)
    /\ (40 <= maxR -> Rmax 40 (maxR * 0.3) <= GPU.ForceField.radius f <= maxR).
Proof.
  apply (X18_addForceField 10 20 (-1) Examples.instance Examples.half 0%nat).
  - exact ExampleFacts.unit_range_half.
  - reflexivity.
Defined.

(** X19.  [updateForceFields]: the fields with more than one frame of life
    left are kept, in order, each one drifted, aged by one frame and bounced;
    the others are removed; at most one new field is appended.  Every kept
    field has life left.  With [forceSpawnRate] at 0 or below nothing is
    appended and no random number is drawn.  Nothing but the list changes. *)
Theorem X19_updateForceFields (s : GPU.State) (o : Rng.Oracle) (k : nat) :
  Rng.unit_range o ->
  let stepped :=
    map (GPU.stepField (GPU.canvas s)) (GpuProps.survivors (GPU.forceFields s)) in
  exists extra : list GPU.ForceField.t,
    fst (GPU.updateForceFields s o k) = GPU.with_forceFields s (stepped ++ extra)
    /\ (List.length extra <= 1)%nat
    /\ Forall (fun f => 0 < GPU.ForceField.life f) stepped
    /\ (GPU.num (GPU.config s) "forceSpawnRate" <= 0 ->
        extra = [] /\ snd (GPU.updateForceFields s o k) = k).
Proof. intro Ho. exact (StepFacts.updateForceFields_fields s o k Ho). Qed.

(** X19 witness: two fields, one of them on its last frame. *)
Lemma X19_witness :
  let s := GPU.with_forceFields Examples.instance
             [GPU.ForceField.mk 10 10 0 60 100 1 1 0.1 0.1;
              GPU.ForceField.mk 20 20 1 60 100 1 300 0.1 0.1] in
  let stepped :=
    map (GPU.stepField (GPU.canvas s)) (GpuProps.survivors (GPU.forceFields s)) in
  exists extra : list GPU.ForceField.t,
    fst (GPU.updateForceFields s Examples.half 0%nat)
    = GPU.with_forceFields s (stepped ++ extra)
    /\ (List.length extra <= 1)%nat
    /\ Forall (fun f => 0 < GPU.ForceField.life f) stepped
    /\ (GPU.num (GPU.config s) "forceSpawnRate" <= 0 ->
        extra = [] /\ snd (GPU.updateForceFields s Examples.half 0%nat) = 0%nat).
Proof.
  apply (X19_updateForceFields
           (GPU.with_forceFields Examples.instance
              [GPU.ForceField.mk 10 10 0 60 100 1 1 0.1 0.1;
               GPU.ForceField.mk 20 20 1 60 100 1 300 0.1 0.1])
           Examples.half 0%nat).
  exact ExampleFacts.unit_range_half.
Defined.

(** X20.  [getForceFieldUniforms] on an instance of capacity 40: the array
    has 320 numbers; the eight numbers of slot [i] are field [i]'s x, y,
    type, strength, radius, rotation, life / 500 and the active flag 1; a
    slot past the end of the list is all zeros. *)
Theorem X20_force_field_uniforms (s : GPU.State) (i : nat) :
  GPU.maxForceFields s = 40%nat -> (i < 40)%nat ->
  List.length (GPU.getForceFieldUniforms s) = 320%nat
  /\ firstn 8 (skipn (i * 8) (GPU.getForceFieldUniforms s))
     = match nth_error (GPU.forceFields s) i with
       | Some f =>
           [GPU.ForceField.x f; GPU.ForceField.y f; IZR (GPU.ForceField.type f);
            GPU.ForceField.strength f; GPU.ForceField.radius f;
            GPU.ForceField.rotation f; GPU.ForceField.life f / 500; 1]
       | None => [0; 0; 0; 0; 0; 0; 0; 0]
       end.
Proof.
  intros Hmax Hi.
  pose proof (UniformFacts.uniforms_length s) as Hlen.
  split; [exact Hlen |].
  assert (forall (l : list R) (n : nat) (e : list R),
             List.length e = 8%nat ->
             (n + 8 <= List.length l)%nat ->
             (forall k, (k < 8)%nat -> nth (n + k) l 0 = nth k e 0) ->
             firstn 8 (skipn n l) = e) as Hslice.
  { intros l n e He Hl Hk.
    apply (nth_ext _ _ 0 0).
    - rewrite length_firstn, length_skipn. lia.
    - intros k Hlt. rewrite length_firstn, length_skipn in Hlt.
      rewrite nth_firstn.
      assert (k < 8)%nat as Hk8 by lia.
      apply Nat.ltb_lt in Hk8 as Hb. rewrite Hb.
      rewrite nth_skipn. apply Hk. exact Hk8. }
  apply Hslice.
  - destruct (nth_error _ _); reflexivity.
  - lia.
  - intros k Hk. destruct (nth_error (GPU.forceFields s) i) as [f |] eqn:Hf.
    + apply ForceSum.uniform_slot; assumption.
    + apply nth_error_None in Hf.
      rewrite UniformFacts.uniform_inactive by assumption.
      do 8 (destruct k as [| k]; [reflexivity |]). lia.
Qed.

(** X20 witness: slot 0 of an instance with one field. *)
Lemma X20_witness :
  let s := GPU.with_forceFields Examples.instance
             [GPU.ForceField.mk 10 20 3 60 100 1 300 0.1 0.1] in
  List.length (GPU.getForceFieldUniforms s) = 320%nat
  /\ firstn 8 (skipn (0 * 8) (GPU.getForceFieldUniforms s))
     = match nth_error (GPU.forceFields s) 0 with
       | Some f =>
           [GPU.ForceField.x f; GPU.ForceField.y f; IZR (GPU.ForceField.type f);
            GPU.ForceField.strength f; GPU.ForceField.radius f;
            GPU.ForceField.rotation f; GPU.ForceField.life f / 500; 1]
       | None => [0; 0; 0; 0; 0; 0; 0; 0]
       end.
Proof.
  apply (X20_force_field_uniforms
           (GPU.with_forceFields Examples.instance
              [GPU.ForceField.mk 10 20 3 60 100 1 300 0.1 0.1]) 0).
  - reflexivity.
  - lia.
Defined.

(** X21.  [reinitWithParticleCount (count)] for a whole count, on an instance
    whose configuration has distinct keys, when the constructor returns: the
    new instance is on the same canvas with a parked pointer, and has run its
    first frame.  So texture 1 is current, texture 0 still holds the [count]
    initial particles (zeros after them), both have [size * size] texels with
    [size = ceil (sqrt count)], and there is at most one force field, none
    with [forceSpawnRate] at 0 or below.  The configuration reads [count] at
    [particleCount], 1 at [time], and at every other key the value the old
    instance had there, or the default where it had none. *)
Theorem X21_reinitWithParticleCount (n : nat) (s : GPU.State)
    (o : Rng.Oracle) (k : nat) :
  Rng.unit_range o -> NoDup (map fst (GPU.config s)) ->
  0 <= GPU.Canvas.width (GPU.canvas s) -> 0 <= GPU.Canvas.height (GPU.canvas s) ->
  let s' := fst (GPU.reinitWithParticleCount (INR n) s o k) in
  let size := Z.to_nat (Zceil (sqrt (INR n))) in
  GPU.canvas s' = GPU.canvas s
  /\ (List.length (GPU.forceFields s') <= 1)%nat
  /\ (GPU.num (GPU.getConfig s') "forceSpawnRate" <= 0 -> GPU.forceFields s' = [])
  /\ GPU.mouse s' = GPU.Mouse.mk (-1000) (-1000) 150 1 0
  /\ GPU.paused s' = false
  /\ GPU.currentTexture s' = 1%nat
  /\ GPU.textureSize s' = size
  /\ List.length (fst (GPU.particleTextures s')) = (size * size)%nat
  /\ List.length (snd (GPU.particleTextures s')) = (size * size)%nat
  /\ Forall (GpuProps.seeded (GPU.canvas s)) (firstn n (fst (GPU.particleTextures s')))
  /\ skipn n (fst (GPU.particleTextures s')) = repeat (0, 0, 0, 0) (size * size - n)
  /\ forall key : string,
       GPU.get (GPU.getConfig s') key =
       if String.eqb key "particleCount" then GPU.VNum (INR n)
       else if String.eqb key "time" then GPU.VNum 1
       else if GpuProps.has (GPU.config s) key then GPU.get (GPU.config s) key
       else GPU.get GPU.defaultConfig key.
Proof.
  intros Ho Hnd Hw Hh.
  pose proof (ReinitFacts.reinit_post (INR n) s Hnd Hw Hh o k Ho) as H.
  cbv beta zeta in H. rewrite InitFacts.ceil_INR in H. exact H.
Qed.

(** X21 witness: the example instance restarted with 100 particles. *)
Lemma X21_witness :
  let s := Examples.instance in
  let s' := fst (GPU.reinitWithParticleCount (INR 100) s Examples.half 0%nat) in
  let size := Z.to_nat (Zceil (sqrt (INR 100))) in
  GPU.canvas s' = GPU.canvas s
  /\ (List.length (GPU.forceFields s') <= 1)%nat
  /\ (GPU.num (GPU.getConfig s') "forceSpawnRate" <= 0 -> GPU.forceFields s' = [])
  /\ GPU.mouse s' = GPU.Mouse.mk (-1000) (-1000) 150 1 0
  /\ GPU.paused s' = false
  /\ GPU.currentTexture s' = 1%nat
  /\ GPU.textureSize s' = size
  /\ List.length (fst (GPU.particleTextures s')) = (size * size)%nat
  /\ List.length (snd (GPU.particleTextures s')) = (size * size)%nat
  /\ Forall (GpuProps.seeded (GPU.canvas s))
       (firstn 100 (fst (GPU.particleTextures s')))
  /\ skipn 100 (fst (GPU.particleTextures s'))
     = repeat (0, 0, 0, 0) (size * size - 100)
  /\ forall key : string,
       GPU.get (GPU.getConfig s') key =
       if String.eqb key "particleCount" then GPU.VNum (INR 100)
       else if String.eqb key "time" then GPU.VNum 1
       else if GpuProps.has (GPU.config s) key then GPU.get (GPU.config s) key
       else GPU.get GPU.defaultConfig key.
Proof.
  apply (X21_reinitWithParticleCount 100 Examples.instance Examples.half 0%nat).
  - exact ExampleFacts.unit_range_half.
  - exact ConfigFacts.defaults_NoDup.
  - simpl. lra.
  - simpl. lra.
Defined.

(** X22.  [setConfig (key, value)] touches its key only: [getConfig] reads
    every other key as before, the key is present afterwards, and the
    textures, their size and the force fields stay as they are, also when the
    key is [particleCount]. *)
Theorem X22_setConfig_only_its_key (key key' : string) (value : GPU.Value)
    (s : GPU.State) :
  key <> key' ->
  let s' := GPU.setConfig key value s in
  GPU.get (GPU.getConfig s') key' = GPU.get (GPU.getConfig s) key'
  /\ GpuProps.has (GPU.getConfig s') key' = GpuProps.has (GPU.getConfig s) key'
  /\ GpuProps.has (GPU.getConfig s') key = true
  /\ GPU.textureSize s' = GPU.textureSize s
  /\ GPU.particleTextures s' = GPU.particleTextures s
  /\ GPU.currentTexture s' = GPU.currentTexture s
  /\ GPU.forceFields s' = GPU.forceFields s.
Proof.
  intros Hne. cbv zeta. unfold GPU.getConfig, GPU.setConfig.
  cbn [GPU.config GPU.with_config GPU.textureSize GPU.particleTextures
       GPU.currentTexture GPU.forceFields].
  split; [apply GpuFacts.get_set_other; exact Hne |].
  split.
  - rewrite ConfigFacts.has_set.
    destruct (String.eqb_spec key key') as [E | _]; [contradiction |].
    apply orb_false_r.
  - split; [| repeat split].
    rewrite ConfigFacts.has_set, String.eqb_refl. apply orb_true_r.
Qed.

(** X22 witness: a new particle count leaves the speed and the textures. *)
Lemma X22_witness :
  let s := Examples.instance in
  let s' := GPU.setConfig "particleCount" (GPU.VNum 9) s in
  GPU.get (GPU.getConfig s') "speed" = GPU.get (GPU.getConfig s) "speed"
  /\ GpuProps.has (GPU.getConfig s') "speed" = GpuProps.has (GPU.getConfig s) "speed"
  /\ GpuProps.has (GPU.getConfig s') "particleCount" = true
  /\ GPU.textureSize s' = GPU.textureSize s
  /\ GPU.particleTextures s' = GPU.particleTextures s
  /\ GPU.currentTexture s' = GPU.currentTexture s
  /\ GPU.forceFields s' = GPU.forceFields s.
Proof.
  apply (X22_setConfig_only_its_key "particleCount" "speed" (GPU.VNum 9)
           Examples.instance).
  discriminate.
Defined.

(** X23.  The respawn block of the physics shader: the particle is either
    left as it is, or put at rest at a point of the canvas; with
    [u_respawnRate] at 0 or below it is always left, with a rate of 1 or more
    it is always put at rest. *)
Theorem X23_respawn (u : GPU.Uniforms) (tc : vec2) (pv : vec2 * vec2) :
  0 <= fst (GPU.u_resolution u) -> 0 <= snd (GPU.u_resolution u) ->
  (GPU.respawn u tc pv = pv
   \/ (snd (GPU.respawn u tc pv) = V2.zero
       /\ 0 <= fst (fst (GPU.respawn u tc pv)) <= fst (GPU.u_resolution u)
       /\ 0 <= snd (fst (GPU.respawn u tc pv)) <= snd (GPU.u_resolution u)))
  /\ (GPU.u_respawnRate u <= 0 -> GPU.respawn u tc pv = pv)
  /\ (1 <= GPU.u_respawnRate u -> snd (GPU.respawn u tc pv) = V2.zero).
Proof.
  intros Hw Hh. split; [apply CoastFacts.respawn_cases; assumption |].
  split; [apply ShaderFacts.respawn_off | apply CoastFacts.respawn_always].
Qed.

(** X23 witness: the example scene, where the rate is 0. *)
Lemma X23_witness :
  let u := Examples.uniforms 5 0 in
  let pv := ((100, 100), (1, 0)) in
  (GPU.respawn u Examples.centre pv = pv
   \/ (snd (GPU.respawn u Examples.centre pv) = V2.zero
       /\ 0 <= fst (fst (GPU.respawn u Examples.centre pv)) <= fst (GPU.u_resolution u)
       /\ 0 <= snd (fst (GPU.respawn u Examples.centre pv)) <= snd (GPU.u_resolution u)))
  /\ (GPU.u_respawnRate u <= 0 -> GPU.respawn u Examples.centre pv = pv)
  /\ (1 <= GPU.u_respawnRate u -> snd (GPU.respawn u Examples.centre pv) = V2.zero).
Proof.
  apply (X23_respawn (Examples.uniforms 5 0) Examples.centre ((100, 100), (1, 0))).
  - simpl. lra.
  - simpl. lra.
Defined.

(** X24.  Coasting in forces-only mode (noise mode 5): with no force field,
    no interaction, no Brownian motion, no global force, no zones, no respawn
    and the pointer out of reach, one physics step multiplies the velocity by
    [1 - u_friction], moves the particle by the new velocity and wraps it; for
    a friction between 0 and 1 the speed is [1 - u_friction] times the old
    one, so it never grows. *)
Theorem X24_coasting (u : GPU.Uniforms) (tex : GPU.Sampler.t) (tc : vec2)
    (px py vx vy : R) :
  GpuProps.quiet u -> GPU.u_noiseMode u = 5%Z ->
  GPU.texture tex tc = (px, py, vx, vy) ->
  GPU.mouseForceOf u (px, py) = V2.zero ->
  0 <= GPU.u_friction u <= 1 ->
  let '(x, y, vx', vy') := GPU.main u tex tc in
  vx' = vx * (1 - GPU.u_friction u) /\ vy' = vy * (1 - GPU.u_friction u)
  /\ x = GPU.wrapAxis (px + vx') (fst (GPU.u_resolution u))
  /\ y = GPU.wrapAxis (py + vy') (snd (GPU.u_resolution u))
  /\ V2.length (vx', vy') = (1 - GPU.u_friction u) * V2.length (vx, vy)
  /\ V2.length (vx', vy') <= V2.length (vx, vy).
Proof.
  intros Hq Hm Htex Hmouse Hf.
  rewrite (CoastFacts.main_coast u tex tc px py vx vy Hq Hm Htex Hmouse).
  repeat (split; [reflexivity |]).
  rewrite CoastFacts.scaled_length by lra.
  split; [reflexivity |].
  pose proof (NumFacts.length_nonneg (vx, vy)). nra.
Qed.

(** X24 witness: a particle moving right at speed 2 with friction 0.1. *)
Lemma X24_witness :
  let u := Examples.uniforms 5 0.1 in
  let '(x, y, vx', vy') :=
    GPU.main u (Examples.one (100, 100, 2, 0)) Examples.centre in
  vx' = 2 * (1 - GPU.u_friction u) /\ vy' = 0 * (1 - GPU.u_friction u)
  /\ x = GPU.wrapAxis (100 + vx') (fst (GPU.u_resolution u))
  /\ y = GPU.wrapAxis (100 + vy') (snd (GPU.u_resolution u))
  /\ V2.length (vx', vy') = (1 - GPU.u_friction u) * V2.length (2, 0)
  /\ V2.length (vx', vy') <= V2.length (2, 0).
Proof.
  apply (X24_coasting (Examples.uniforms 5 0.1) (Examples.one (100, 100, 2, 0))
           Examples.centre 100 100 2 0).
  - apply ExampleFacts.quiet_uniforms.
  - reflexivity.
  - apply ExampleFacts.texture_one.
  - unfold GPU.mouseForceOf, Examples.uniforms, GPU.u_mouse.
    assert (150 <= V2.length (V2.sub (100, 100) (-1000, -1000))) as H.
    { apply NumFacts.sqrt_lower; [lra |]. unfold V2.sub, V2.dot. simpl. lra. }
    rewrite NumFacts.ltb_false by exact H. reflexivity.
  - simpl. lra.
Defined.

(** X25.  The render pass draws particle [i] from its own texel of the
    current texture: with the particle on a canvas of positive size, vertex
    [i] is at the clip-space point [(px / width * 2 - 1, py / height * 2 - 1)],
    which lies in [[-1, 1]] on both axes, has the configured point size, and
    carries the particle's speed. *)
Theorem X25_render_vertex (s : GPU.State) (i : nat) (d : GPU.Vertex)
    (px py vx vy : R) :
  (i < Z.to_nat (Zfloor (GPU.num (GPU.config s) "particleCount")))%nat ->
  (i < GPU.textureSize s * GPU.textureSize s)%nat ->
  nth i (GPU.renderTexture s) (0, 0, 0, 0) = (px, py, vx, vy) ->
  0 < GPU.Canvas.width (GPU.canvas s) -> 0 < GPU.Canvas.height (GPU.canvas s) ->
  0 <= px <= GPU.Canvas.width (GPU.canvas s) ->
  0 <= py <= GPU.Canvas.height (GPU.canvas s) ->
  let v := nth i (GPU.renderVertices s) d in
  let cx := px / GPU.Canvas.width (GPU.canvas s) * 2 - 1 in
  let cy := py / GPU.Canvas.height (GPU.canvas s) * 2 - 1 in
  GPU.gl_Position v = (cx, cy, 0, 1)
  /\ -1 <= cx <= 1 /\ -1 <= cy <= 1
  /\ GPU.gl_PointSize v = GPU.num (GPU.config s) "particleSize"
  /\ GPU.v_speed v = V2.length (vx, vy).
Proof.
  intros Hi Hsz Htex Hw Hh Hpx Hpy. cbv zeta.
  destruct (RenderFacts.vertices_read_own_texel s i d Hi Hsz) as [-> Hown].
  rewrite Htex in Hown.
  exact (RenderFacts.vertex_clip _
           (GPU.Canvas.width (GPU.canvas s), GPU.Canvas.height (GPU.canvas s))
           _ _ px py vx vy Hown Hw Hh Hpx Hpy).
Qed.

(** X25 witness: the one particle of the example instance. *)
Lemma X25_witness :
  let s := GPU.setConfig "particleCount" (GPU.VNum 1) Examples.instance in
  let v := nth 0 (GPU.renderVertices s) (GPU.mkVertex (0, 0, 0, 0) 0 0 0 0) in
  let cx := 100 / GPU.Canvas.width (GPU.canvas s) * 2 - 1 in
  let cy := 100 / GPU.Canvas.height (GPU.canvas s) * 2 - 1 in
  GPU.gl_Position v = (cx, cy, 0, 1)
  /\ -1 <= cx <= 1 /\ -1 <= cy <= 1
  /\ GPU.gl_PointSize v = GPU.num (GPU.config s) "particleSize"
  /\ GPU.v_speed v = V2.length (0, 0).
Proof.
  apply (X25_render_vertex
           (GPU.setConfig "particleCount" (GPU.VNum 1) Examples.instance) 0
           (GPU.mkVertex (0, 0, 0, 0) 0 0 0 0) 100 100 0 0).
  - assert (Zfloor 1 = 1%Z) as E by (apply Zfloor_eq; simpl; lra).
    unfold GPU.num. cbn. rewrite E. simpl. lia.
  - simpl. lia.
  - reflexivity.
  - simpl. lra.
  - simpl. lra.
  - simpl. lra.
  - simpl. lra.
Defined.

(** X26.  [initializeParticles (true)] for a whole, positive particle count
    [n] that fits the textures, on a canvas of positive size: both textures
    get the same [size * size] texels; the first [n] are particles at rest
    strictly inside the canvas, the others are zero; the configuration, the
    force fields and the current texture are left as they are. *)
Theorem X26_uniform_grid (s : GPU.State) (n : nat) :
  (0 < n)%nat ->
  GPU.num (GPU.config s) "particleCount" = INR n ->
  (n <= GPU.textureSize s * GPU.textureSize s)%nat ->
  0 < GPU.Canvas.width (GPU.canvas s) -> 0 < GPU.Canvas.height (GPU.canvas s) ->
  let s' := GPU.initializeParticlesUniform s in
  let data := fst (GPU.particleTextures s') in
  snd (GPU.particleTextures s') = data
  /\ List.length data = (GPU.textureSize s * GPU.textureSize s)%nat
  /\ Forall (GpuProps.gridded (GPU.canvas s)) (firstn n data)
  /\ skipn n data
     = repeat (0, 0, 0, 0) (GPU.textureSize s * GPU.textureSize s - n)
  /\ GPU.config s' = GPU.config s /\ GPU.forceFields s' = GPU.forceFields s
  /\ GPU.currentTexture s' = GPU.currentTexture s
  /\ GPU.textureSize s' = GPU.textureSize s.
Proof.
  intros Hn Hcount Hfit Hw Hh. cbv zeta.
  unfold GPU.initializeParticlesUniform, GPU.uploadParticles. cbv zeta.
  cbn [GPU.particleTextures GPU.with_particles GPU.config GPU.forceFields
       GPU.currentTexture GPU.textureSize fst snd].
  rewrite Hcount.
  destruct (InitFacts.uniform_gridded (GPU.canvas s) n Hn Hw Hh) as [Hlen Hgrid].
  set (ps := GPU.uniformParticles (GPU.canvas s) (INR n)) in *.
  set (m := (GPU.textureSize s * GPU.textureSize s)%nat) in *.
  rewrite Hlen.
  assert (firstn m (ps ++ repeat (0, 0, 0, 0) (m - n))
          = ps ++ repeat (0, 0, 0, 0) (m - n)) as ->.
  { apply firstn_all2. rewrite length_app, repeat_length, Hlen. lia. }
  split; [reflexivity |].
  split; [rewrite length_app, repeat_length, Hlen; lia |].
  split.
  - rewrite firstn_app, Hlen, Nat.sub_diag, firstn_O, app_nil_r.
    rewrite firstn_all2 by lia. exact Hgrid.
  - split; [| repeat split].
    rewrite skipn_app, Hlen, Nat.sub_diag, skipn_O.
    rewrite skipn_all2 by lia. reflexivity.
Qed.

(** X26 witness: four particles on the 2 x 2 textures of a canvas of
    800 x 600. *)
Lemma X26_witness :
  let s := GPU.mkState (GPU.Canvas.mk 800 600)
             (GPU.set GPU.defaultConfig "particleCount" (GPU.VNum 4)) [] 40
             [true; true; true; true; true] (GPU.Mouse.mk (-1000) (-1000) 150 1 0)
             false (0, 0) 2 (repeat (0, 0, 0, 0) 4, repeat (0, 0, 0, 0) 4) 0 in
  let s' := GPU.initializeParticlesUniform s in
  let data := fst (GPU.particleTextures s') in
  snd (GPU.particleTextures s') = data
  /\ List.length data = (GPU.textureSize s * GPU.textureSize s)%nat
  /\ Forall (GpuProps.gridded (GPU.canvas s)) (firstn 4 data)
  /\ skipn 4 data
     = repeat (0, 0, 0, 0) (GPU.textureSize s * GPU.textureSize s - 4)
  /\ GPU.config s' = GPU.config s /\ GPU.forceFields s' = GPU.forceFields s
  /\ GPU.currentTexture s' = GPU.currentTexture s
  /\ GPU.textureSize s' = GPU.textureSize s.
Proof.
  apply (X26_uniform_grid
           (GPU.mkState (GPU.Canvas.mk 800 600)
              (GPU.set GPU.defaultConfig "particleCount" (GPU.VNum 4)) [] 40
              [true; true; true; true; true] (GPU.Mouse.mk (-1000) (-1000) 150 1 0)
              false (0, 0) 2 (repeat (0, 0, 0, 0) 4, repeat (0, 0, 0, 0) 4) 0) 4).
  - lia.
  - unfold GPU.num. cbn. lra.
  - simpl. lia.
  - simpl. lra.
  - simpl. lra.
Defined.
